(** * RXtoRINEX: OSP decoding, ephemeris assembly and the RINEX data model

    A shallow embedding of the parts of RXtoRINEX V2.0 that decode SiRF OSP
    messages (classes [OSPMessage] and [GNSSdataFromOSP], file Utilities.cpp)
    and that store, filter and print RINEX data (class [RinexData]), followed
    by the properties proved about them.

    Conventions of the embedding.
    - C++ [int], [unsigned int] and [char]-sized integers are values of [Z];
      where the C++ arithmetic wraps around, the wrap is written out with
      [to_uint32] and [to_int32].
    - C++ [double] is the primitive binary64 type [float]; [==], [<], [*],
      [-] are the IEEE 754 operations of the kernel.
    - A [std::vector] is a [list]; a fixed C array indexed by [int] is a
      total function of [Z] (reads outside the declared bounds are undefined
      in C++ and not constrained here).
    - A method of a class takes the object state as an argument and returns
      the new state next to the C++ return value.
    - Text printed with [fprintf] is a list of [piece]s: literal characters,
      and [double] conversions kept symbolic with their format. *)

From Stdlib Require Import ZArith List Bool Lia String Ascii Floats.
From Stdlib Require Import DecimalString Permutation.
Import ListNotations.

#[local] Open Scope bool_scope.
#[local] Open Scope Z_scope.

(** A decimal [double] literal of the source stands for the nearest binary64
    value, as the C++ compiler reads it. *)
#[local] Set Warnings "-inexact-float".

(* ================================================================== *)
(** * Machine integers *)

Module CTypes.

(** Conversion to [unsigned int] (32 bits). *)
Definition to_uint32 (z : Z) : Z := z mod 2 ^ 32.

(** Conversion to [int] (32 bits, two's complement). *)
Definition to_int32 (z : Z) : Z := (z + 2 ^ 31) mod 2 ^ 32 - 2 ^ 31.

(** [a << n] on [unsigned int]. *)
Definition shl32 (a n : Z) : Z := to_uint32 (Z.shiftl a n).

(** [~a] on [unsigned int]. *)
Definition not32 (a : Z) : Z := to_uint32 (Z.lnot a).

(** [(double) i] for an integer [i]; exact for [|i| < 2^53]. *)
Definition double_of_Z (i : Z) : float :=
  if i <? 0 then PrimFloat.opp (PrimFloat.of_uint63 (Uint63.of_Z (- i)))
  else PrimFloat.of_uint63 (Uint63.of_Z i).

(** What a C++ function can [throw] in the code embedded here: an [int]
    ([OSPMessage]), [std::out_of_range] ([string::at]) and
    [std::invalid_argument] ([stoi]). *)
Inductive exn : Type :=
| ThrowInt (error : Z)
| OutOfRange
| InvalidArgument.

(** The outcome of a call that may throw. *)
Inductive result (A : Type) : Type :=
| Val (a : A)
| Throw (e : exn).
Arguments Val {A} a.
Arguments Throw {A} e.

(** [v.empty()] *)
Definition empty {A : Type} (v : list A) : bool :=
  match v with
  | [] => true
  | _ :: _ => false
  end.

(** [v[i] = f(v[i])] on a vector; nothing is written outside its bounds. *)
Fixpoint alter {A : Type} (f : A -> A) (i : nat) (v : list A) : list A :=
  match v, i with
  | [], _ => []
  | x :: v', O => f x :: v'
  | x :: v', S i' => x :: alter f i' v'
  end.

(** Conversion to [short] (16 bits, two's complement). *)
Definition to_int16 (z : Z) : Z := (z + 2 ^ 15) mod 2 ^ 16 - 2 ^ 15.

(** The IEEE 754 value of the bit pattern [w] in the binary format with
    [ebits] bits of exponent and [mbits] bits of fraction.  The sign and the
    payload of a NaN are not kept. *)
Definition bits_value (ebits mbits : Z) (w : Z) : float :=
  let s := Z.testbit w (ebits + mbits) in
  let e := Z.land (Z.shiftr w mbits) (2 ^ ebits - 1) in
  let m := Z.land w (2 ^ mbits - 1) in
  let bias := 2 ^ (ebits - 1) - 1 in
  if e =? 2 ^ ebits - 1 then
    (if m =? 0 then (if s then neg_infinity else infinity) else nan)
  else if e =? 0 then
    (if m =? 0 then (if s then neg_zero else PrimFloat.zero)
     else SF2Prim (S754_finite s (Z.to_pos m) (1 - bias - mbits)))
  else SF2Prim (S754_finite s (Z.to_pos (m + 2 ^ mbits)) (e - bias - mbits)).

(** The [double] whose object representation is the 64-bit pattern [w]. *)
Definition double_of_bits (w : Z) : float := bits_value 11 52 w.

(** The [float] whose object representation is the 32-bit pattern [w], as
    the [double] of the same value. *)
Definition float_of_bits (w : Z) : float := bits_value 8 23 w.

End CTypes.
Import CTypes.

(* ================================================================== *)
(** * Utilities.cpp *)

Module Utilities.

(** [int getTwosComplement(unsigned int number, unsigned int nbits)].
    [number] is an [unsigned int] value; the result is an [int].  The
    subtraction is taken modulo [2^32], as the compiled code does.  The
    source shifts by [nbits-1], which is only defined for [1 <= nbits]. *)
Definition getTwosComplement (number nbits : Z) : Z :=
  let value := to_int32 number in
  if 32 <=? nbits then value
  else if number <? shl32 1 (nbits - 1) then value
  else to_int32 (value - to_int32 (Z.shiftl 1 nbits)).

(** The word [stream[k]] of a bit stream. *)
Definition stream_word (stream : list Z) (k : Z) : Z :=
  nth (Z.to_nat k) stream 0.

(** The body of the [for] loop of [getBits], run [n] times from index [i]
    downwards. *)
Fixpoint getBits_loop (stream : list Z) (i : Z) (n : nat) (bits : Z) : Z :=
  match n with
  | O => bits
  | S n' =>
      getBits_loop stream (i - 1) n'
        (Z.lor (shl32 bits 1)
           (Z.land (Z.shiftr (stream_word stream (Z.quot i 32)) (Z.rem i 32)) 1))
  end.

(** [unsigned int getBits(unsigned int *stream, int bitpos, int len)]:
    [i] runs from [bitpos+len-1] down to [bitpos]. *)
Definition getBits (stream : list Z) (bitpos len : Z) : Z :=
  getBits_loop stream (bitpos + len - 1) (Z.to_nat len) 0.

(** [double getSecsGPSEphe(int week, double tow)]. *)
Definition getSecsGPSEphe (week : Z) (tow : float) : float :=
  (double_of_Z week * 604800.0 + tow)%float.

(** [getline(ss, strBuf, separator)] on a stream that is not at its end: the
    characters up to the first separator, which is extracted and dropped,
    and the rest of the stream. *)
Fixpoint getline_chars (ss : string) (separator : ascii) : string * string :=
  match ss with
  | EmptyString => (EmptyString, EmptyString)
  | String c ss' =>
      if Ascii.eqb c separator then (EmptyString, ss')
      else let '(strBuf, rest) := getline_chars ss' separator in (String c strBuf, rest)
  end.

(** [getline(ss, strBuf, separator)]: it fails ([None]) when no character
    can be extracted, that is at the end of the stream. *)
Definition getline (ss : string) (separator : ascii) : option (string * string) :=
  match ss with
  | EmptyString => None
  | String _ _ => Some (getline_chars ss separator)
  end.

(** The [while] loop of [getTokens].  Every round extracts one character at
    least; [fuel] bounds the number of rounds. *)
Fixpoint getTokens_loop (fuel : nat) (ss : string) (separator : ascii)
    (tokensFound : list string) : list string :=
  match fuel with
  | O => tokensFound
  | S fuel' =>
      match getline ss separator with
      | None => tokensFound
      | Some (strBuf, ss') =>
          getTokens_loop fuel' ss' separator
            (if (0 <? String.length strBuf)%nat then tokensFound ++ [strBuf]
             else tokensFound)
      end
  end.

(** [vector<string> getTokens (string source, char separator)]. *)
Definition getTokens (source : string) (separator : ascii) : list string :=
  getTokens_loop (S (String.length source)) source separator [].

(** [toupper] in the C locale. *)
Definition toupper (c : ascii) : ascii :=
  let n := nat_of_ascii c in
  if ((97 <=? n) && (n <=? 122))%nat then ascii_of_nat (n - 32) else c.

(** [string strToUpper(string strToConvert)]. *)
Fixpoint strToUpper (strToConvert : string) : string :=
  match strToConvert with
  | EmptyString => EmptyString
  | String p rest => String (toupper p) (strToUpper rest)
  end.

(** [int getSigned(unsigned int number, int nbits)].  [1 << (nbits-1)] is
    computed on [int] and stored in an [unsigned int]; the difference is
    taken on [unsigned int], the negation on [int]. *)
Definition getSigned (number nbits : Z) : Z :=
  let value := to_int32 number in
  if (nbits <=? 32) && (nbits >? 0) then
    let signMask := to_uint32 (to_int32 (Z.shiftl 1 (nbits - 1))) in
    if negb (Z.land number signMask =? 0)
    then to_int32 (- to_int32 (to_uint32 (number - signMask)))
    else value
  else value.

(** The [while] loop of [reverseWord], run [shifts] times. *)
Fixpoint reverseWord_loop (shifts : nat) (wordToReverse reversed : Z) : Z :=
  match shifts with
  | O => reversed
  | S shifts' =>
      reverseWord_loop shifts' (Z.shiftr wordToReverse 1)
        (Z.lor (shl32 reversed 1) (Z.land wordToReverse 0x00000001))
  end.

(** [unsigned int reverseWord(unsigned int wordToReverse, int nBits)]. *)
Definition reverseWord (wordToReverse nBits : Z) : Z :=
  reverseWord_loop (Z.to_nat nBits) wordToReverse 0.

End Utilities.
Import Utilities.

(* ================================================================== *)
(** * Text produced by printf-style formatting *)

Module Printf.

(** A piece of formatted text.  Integer and character conversions are
    carried out ([Chars]); the conversion of a [double] under a printf
    format, and the calendar text built by [formatGPStime] (Utilities.cpp,
    through [mktime] and [strftime]), are kept as they were requested. *)
Inductive piece : Type :=
| Chars (s : string)
| Double (fmt : string) (v : float)
| GPStime (fmtYtoM fmtSec : string) (week : Z) (tow : float).

Definition text := list piece.

(** The line feed written by ["\n"]. *)
Definition newline : string := String (ascii_of_nat 10) EmptyString.

(** [n] copies of the character [c]. *)
Fixpoint replicate (n : nat) (c : ascii) : string :=
  match n with
  | O => EmptyString
  | S n' => String c (replicate n' c)
  end.

(** Right-justify [s] in a field of [w] characters filled with [c]. *)
Definition pad_left (c : ascii) (w : nat) (s : string) : string :=
  (replicate (w - String.length s) c ++ s)%string.

(** The decimal digits of [|z|]. *)
Definition digits (z : Z) : string :=
  NilZero.string_of_uint (N.to_uint (Z.to_N (Z.abs z))).

Definition sign (z : Z) : string :=
  if z <? 0 then "-"%string else EmptyString.

(** ["%d"], also [to_string((long long) z)]. *)
Definition fmt_d (z : Z) : string := (sign z ++ digits z)%string.

(** ["%<w>d"]. *)
Definition fmt_wd (w : nat) (z : Z) : string := pad_left " " w (fmt_d z).

(** ["%0<w>d"]: zeros between the sign and the digits, up to width [w]. *)
Definition fmt_0wd (w : nat) (z : Z) : string :=
  (sign z ++ pad_left "0" (w - String.length (sign z)) (digits z))%string.

(** ["%0<w>.<p>d"] with [w <= p]: at least [p] digits; the flag [0] is
    ignored when a precision is given. *)
Definition fmt_prec_d (p : nat) (z : Z) : string :=
  (sign z ++ pad_left "0" p (digits z))%string.

(** ["%<w>c"]. *)
Definition fmt_wc (w : nat) (c : ascii) : string :=
  pad_left " " w (String c EmptyString).

End Printf.
Import Printf.

(* ================================================================== *)
(** * Logger *)

Module Logger.

(** [enum logLevel] of Logger.h. *)
Inductive logLevel : Type :=
| SEVERE | WARNING | INFO | CONFIG | FINE | FINER | FINEST.

(** One call of a logging method: its level and its message.  The trace
    holds every call, whatever level the logger is set to record. *)
Definition entry : Type := (logLevel * text)%type.

End Logger.

(* ================================================================== *)
(** * OSPMessage: reading one message of a stripped OSP file *)

Module OSPMessage.

(** [#define MAXPAYLOADSIZE 2048] *)
Definition MAXPAYLOADSIZE : Z := 2048.

(** The input [FILE*]: the bytes that remain to be read. *)
Definition FILE : Type := list Z.

(** The class members.  [payload] is the buffer [unsigned char
    payload[MAXPAYLOADSIZE]]; only its first [payloadLength] bytes belong to
    the current message. *)
Record t : Type := mk {
  payload : list Z;
  payloadLength : Z;
  cursor : Z
}.

(** [OSPMessage::OSPMessage]. *)
Definition init (buffer : list Z) : t :=
  {| payload := buffer; payloadLength := 0; cursor := 0 |}.

(** [fread(buf, 1, n, file)]: the bytes obtained (at most [n], fewer at the
    end of the file) and the rest of the file. *)
Definition fread (n : Z) (file : FILE) : list Z * FILE :=
  (firstn (Z.to_nat n) file, skipn (Z.to_nat n) file).

(** The buffer after [block] was read into its first bytes. *)
Definition store (block buffer : list Z) : list Z :=
  block ++ skipn (List.length block) buffer.

(** [bool OSPMessage::fill(FILE* file)]. *)
Definition fill (m : t) (file : FILE) : bool * t * FILE :=
  let m0 := {| payload := payload m; payloadLength := payloadLength m; cursor := 0 |} in
  let '(buffer, file1) := fread 2 file in
  if Z.of_nat (List.length buffer) <? 2 then (false, m0, file1)
  else
    let len := Z.lor (Z.shiftl (nth 0 buffer 0) 8) (nth 1 buffer 0) in
    let m1 := {| payload := payload m; payloadLength := len; cursor := 0 |} in
    if MAXPAYLOADSIZE <? len then (false, m1, file1)
    else
      let '(block, file2) := fread len file1 in
      let m2 := {| payload := store block (payload m); payloadLength := len; cursor := 0 |} in
      if Z.of_nat (List.length block) <? len then (false, m2, file2)
      else (true, m2, file2).

(** [int OSPMessage::get()]. *)
Definition get (m : t) : result Z * t :=
  if payloadLength m <=? cursor m then (Throw (ThrowInt 1), m)
  else (Val (nth (Z.to_nat (cursor m)) (payload m) 0),
        {| payload := payload m; payloadLength := payloadLength m; cursor := cursor m + 1 |}).

(** [payload[cursor + k]]. *)
Definition byte_at (m : t) (k : Z) : Z :=
  nth (Z.to_nat (cursor m + k)) (payload m) 0.

(** [unsigned int OSPMessage::getUInt()]. *)
Definition getUInt (m : t) : result Z * t :=
  if payloadLength m <=? cursor m + 3 then (Throw (ThrowInt 3), m)
  else (Val (to_uint32
               (Z.lor (Z.lor (Z.lor (Z.shiftl (byte_at m 0) 24)
                                    (Z.shiftl (byte_at m 1) 16))
                             (Z.shiftl (byte_at m 2) 8))
                      (byte_at m 3))),
        {| payload := payload m; payloadLength := payloadLength m; cursor := cursor m + 4 |}).

(** [unsigned short OSPMessage::getUShort()]. *)
Definition getUShort (m : t) : result Z * t :=
  if payloadLength m <=? cursor m + 1 then (Throw (ThrowInt 5), m)
  else (Val ((Z.lor (Z.shiftl (byte_at m 0) 8) (byte_at m 1)) mod 2 ^ 16),
        {| payload := payload m; payloadLength := payloadLength m; cursor := cursor m + 2 |}).

(** [unsigned int OSPMessage::payloadLen()]. *)
Definition payloadLen (m : t) : Z := payloadLength m.

(** [bool OSPMessage::skipBytes(int n)]: [n] is added to the [unsigned int]
    cursor. *)
Definition skipBytes (m : t) (n : Z) : bool * t :=
  let m1 := {| payload := payload m; payloadLength := payloadLength m;
               cursor := to_uint32 (cursor m + n) |} in
  if payloadLength m1 <=? cursor m1 then (false, m1) else (true, m1).

(** [int OSPMessage::getInt()]. *)
Definition getInt (m : t) : result Z * t :=
  if payloadLength m <=? cursor m + 3 then (Throw (ThrowInt 2), m)
  else (Val (to_int32
               (to_uint32
                  (Z.lor (Z.lor (Z.lor (Z.shiftl (byte_at m 0) 24)
                                       (Z.shiftl (byte_at m 1) 16))
                                (Z.shiftl (byte_at m 2) 8))
                         (byte_at m 3)))),
        {| payload := payload m; payloadLength := payloadLength m; cursor := cursor m + 4 |}).

(** [short OSPMessage::getShort()]. *)
Definition getShort (m : t) : result Z * t :=
  if payloadLength m <=? cursor m + 1 then (Throw (ThrowInt 4), m)
  else (Val (to_int16 ((Z.lor (Z.shiftl (byte_at m 0) 8) (byte_at m 1)) mod 2 ^ 16)),
        {| payload := payload m; payloadLength := payloadLength m; cursor := cursor m + 2 |}).

(** [float OSPMessage::getFloat()], on a machine that stores the least
    significant byte first: [buffer[3]], the most significant byte, is
    [payload[cursor]]. *)
Definition getFloat (m : t) : result float * t :=
  if payloadLength m <=? cursor m + 3 then (Throw (ThrowInt 6), m)
  else (Val (float_of_bits
               (Z.lor (Z.lor (Z.lor (Z.shiftl (byte_at m 0) 24)
                                    (Z.shiftl (byte_at m 1) 16))
                             (Z.shiftl (byte_at m 2) 8))
                      (byte_at m 3))),
        {| payload := payload m; payloadLength := payloadLength m; cursor := cursor m + 4 |}).

(** [double OSPMessage::getDouble()], on a machine that stores the least
    significant byte first: [buffer[0..3]] are [payload[cursor+3..cursor]]
    and [buffer[4..7]] are [payload[cursor+7..cursor+4]]. *)
Definition getDouble (m : t) : result float * t :=
  if payloadLength m <=? cursor m + 7 then (Throw (ThrowInt 7), m)
  else (Val (double_of_bits
               (Z.lor
                  (Z.shiftl
                     (Z.lor (Z.lor (Z.lor (Z.shiftl (byte_at m 4) 24)
                                          (Z.shiftl (byte_at m 5) 16))
                                   (Z.shiftl (byte_at m 6) 8))
                            (byte_at m 7)) 32)
                  (Z.lor (Z.lor (Z.lor (Z.shiftl (byte_at m 0) 24)
                                       (Z.shiftl (byte_at m 1) 16))
                                (Z.shiftl (byte_at m 2) 8))
                         (byte_at m 3)))),
        {| payload := payload m; payloadLength := payloadLength m; cursor := cursor m + 8 |}).

(** [int OSPMessage::getInt3()]. *)
Definition getInt3 (m : t) : result Z * t :=
  if payloadLength m <=? cursor m + 2 then (Throw (ThrowInt 8), m)
  else (Val (getTwosComplement
               (to_uint32
                  (Z.lor (Z.lor (Z.shiftl (byte_at m 0) 16) (Z.shiftl (byte_at m 1) 8))
                         (byte_at m 2))) 24),
        {| payload := payload m; payloadLength := payloadLength m; cursor := cursor m + 3 |}).

(** A sequence of reads from the message: a read that throws ends it. *)
Definition reader (A : Type) : Type := t -> result A * t.

Definition ret {A : Type} (a : A) : reader A := fun m => (Val a, m).

Definition bind {A B : Type} (r : reader A) (k : A -> reader B) : reader B :=
  fun m =>
    match r m with
    | (Val a, m1) => k a m1
    | (Throw e, m1) => (Throw e, m1)
    end.

End OSPMessage.

(* ================================================================== *)
(** * RinexData: the RINEX data model *)

Module RinexData.

(** [struct GNSSsystem]. *)
Record GNSSsystem : Type := mkGNSSsystem {
  system : ascii;
  selSystem : bool;
  obsType : list string;
  selObsType : list bool;
  selSat : list Z
}.

(** The constructor [GNSSsystem(char sys, const vector<string> &obsT)]. *)
Definition newGNSSsystem (sys : ascii) (obsT : list string) : GNSSsystem :=
  {| system := sys; selSystem := true; obsType := obsT;
     selObsType := repeat true (List.length obsT); selSat := [] |}.

(** [struct SatObsData]. *)
Record SatObsData : Type := mkSatObsData {
  obsTimeTag : float;
  sysIndex : Z;
  satellite : Z;
  obsTypeIndex : Z;
  obsValue : float;
  lossOfLock : Z;
  strength : Z
}.

(** The array [double [8][4]] of broadcast orbit data. *)
Definition orbit : Type := Z -> Z -> float.

(** [struct SatNavData]; its member [satellite] is [navSatellite] here. *)
Record SatNavData : Type := mkSatNavData {
  navTimeTag : float;
  systemId : ascii;
  navSatellite : Z;
  broadcastOrbit : orbit
}.

(** The members of [class RinexData] used by the methods below.  [plog] is
    the trace of the calls made on the logger. *)
Record t : Type := mk {
  systems : list GNSSsystem;
  epochWeek : Z;
  epochTOW : float;
  epochTimeTag : float;
  epochClkOffset : float;
  epochFlag : Z;
  nSatsEpoch : Z;
  epochObs : list SatObsData;
  epochNav : list SatNavData;
  applyObsFilter : bool;
  applyNavFilter : bool;
  selectedSats : list string;
  plog : list Logger.entry
}.

Definition set_systems (r : t) (v : list GNSSsystem) : t :=
  mk v (epochWeek r) (epochTOW r) (epochTimeTag r) (epochClkOffset r)
     (epochFlag r) (nSatsEpoch r) (epochObs r) (epochNav r)
     (applyObsFilter r) (applyNavFilter r) (selectedSats r) (plog r).

Definition set_epochTimeTag (r : t) (v : float) : t :=
  mk (systems r) (epochWeek r) (epochTOW r) v (epochClkOffset r)
     (epochFlag r) (nSatsEpoch r) (epochObs r) (epochNav r)
     (applyObsFilter r) (applyNavFilter r) (selectedSats r) (plog r).

Definition set_nSatsEpoch (r : t) (v : Z) : t :=
  mk (systems r) (epochWeek r) (epochTOW r) (epochTimeTag r) (epochClkOffset r)
     (epochFlag r) v (epochObs r) (epochNav r)
     (applyObsFilter r) (applyNavFilter r) (selectedSats r) (plog r).

Definition set_epochObs (r : t) (v : list SatObsData) : t :=
  mk (systems r) (epochWeek r) (epochTOW r) (epochTimeTag r) (epochClkOffset r)
     (epochFlag r) (nSatsEpoch r) v (epochNav r)
     (applyObsFilter r) (applyNavFilter r) (selectedSats r) (plog r).

Definition set_epochNav (r : t) (v : list SatNavData) : t :=
  mk (systems r) (epochWeek r) (epochTOW r) (epochTimeTag r) (epochClkOffset r)
     (epochFlag r) (nSatsEpoch r) (epochObs r) v
     (applyObsFilter r) (applyNavFilter r) (selectedSats r) (plog r).

Definition set_applyObsFilter (r : t) (v : bool) : t :=
  mk (systems r) (epochWeek r) (epochTOW r) (epochTimeTag r) (epochClkOffset r)
     (epochFlag r) (nSatsEpoch r) (epochObs r) (epochNav r)
     v (applyNavFilter r) (selectedSats r) (plog r).

Definition set_applyNavFilter (r : t) (v : bool) : t :=
  mk (systems r) (epochWeek r) (epochTOW r) (epochTimeTag r) (epochClkOffset r)
     (epochFlag r) (nSatsEpoch r) (epochObs r) (epochNav r)
     (applyObsFilter r) v (selectedSats r) (plog r).

Definition set_selectedSats (r : t) (v : list string) : t :=
  mk (systems r) (epochWeek r) (epochTOW r) (epochTimeTag r) (epochClkOffset r)
     (epochFlag r) (nSatsEpoch r) (epochObs r) (epochNav r)
     (applyObsFilter r) (applyNavFilter r) v (plog r).

(** [double RinexData::setEpochTime(int weeks, double secs, double bias,
    int eFlag)]: the object after the call. *)
Definition setEpochTime (r : t) (weeks : Z) (secs bias : float) (eFlag : Z) : t :=
  mk (systems r) weeks secs (epochTimeTag r) bias
     eFlag (nSatsEpoch r) (epochObs r) (epochNav r)
     (applyObsFilter r) (applyNavFilter r) (selectedSats r) (plog r).

(** A call [plog->level(message)]. *)
Definition log (r : t) (level : Logger.logLevel) (message : text) : t :=
  mk (systems r) (epochWeek r) (epochTOW r) (epochTimeTag r) (epochClkOffset r)
     (epochFlag r) (nSatsEpoch r) (epochObs r) (epochNav r)
     (applyObsFilter r) (applyNavFilter r) (selectedSats r)
     (plog r ++ [(level, message)]).

(** [const string msgSpace], [msgNotHd] (RinexData.h). *)
Definition msgSpace : string := " ".
Definition msgNotHd : string := " not in SYS/TOBS records".

(** [systems[i]].  An index outside the vector is undefined behaviour in
    the source; it reads an unselected system without observables here. *)
Definition system_at (v : list GNSSsystem) (i : Z) : GNSSsystem :=
  if i <? 0 then mkGNSSsystem "?" false [] [] []
  else nth (Z.to_nat i) v (mkGNSSsystem "?" false [] [] []).

(** The search loop of [sysInx], from index [i] on. *)
Fixpoint sysInx_from (v : list GNSSsystem) (sysCode : ascii) (i : Z) : Z :=
  match v with
  | [] => -1
  | s :: v' => if Ascii.eqb (system s) sysCode then i else sysInx_from v' sysCode (i + 1)
  end.

(** [int RinexData::sysInx(char sysCode)]. *)
Definition sysInx (r : t) (sysCode : ascii) : Z :=
  sysInx_from (systems r) sysCode 0.

(** The index [ox] of the first element of [types] equal to [name], counted
    from [ox0]: the search loops of [saveObsData] and [setFilter]. *)
Fixpoint find_obsType (types : list string) (name : string) (ox0 : Z) : option Z :=
  match types with
  | [] => None
  | ty :: types' =>
      if String.eqb name ty then Some ox0 else find_obsType types' name (ox0 + 1)
  end.

(** [bool RinexData::saveObsData(char sys, int sat, string obsType,
    double value, int lol, int strg, double tTag)]. *)
Definition saveObsData (r : t) (sys : ascii) (sat : Z) (obsTy : string)
    (value : float) (lol strg : Z) (tTag : float) : bool * t :=
  let sx := sysInx r sys in
  let r1 := if empty (epochObs r) then set_epochTimeTag r tTag else r in
  let sameEpoch := PrimFloat.eqb (epochTimeTag r1) tTag in
  if sameEpoch then
    match (if 0 <=? sx then find_obsType (obsType (system_at (systems r1) sx)) obsTy 0
           else None) with
    | Some ox =>
        (true, set_epochObs r1 (epochObs r1 ++ [mkSatObsData tTag sx sat ox value lol strg]))
    | None =>
        (sameEpoch,
         log r1 Logger.WARNING
           [Chars ("Observation data not saved. Unknown system " ++ String sys EmptyString
                   ++ " or observation " ++ obsTy)])
    end
  else (sameEpoch, r1).

(** [bool RinexData::isSatSelected(int sysIx, int sat)]. *)
Definition isSatSelected (r : t) (sysIx sat : Z) : bool :=
  if empty (selSat (system_at (systems r) sysIx)) then true
  else existsb (fun s => s =? sat) (selSat (system_at (systems r) sysIx)).

(** [SatObsData::operator <]. *)
Definition SatObsData_lt (a param : SatObsData) : bool :=
  if PrimFloat.ltb (obsTimeTag param) (obsTimeTag a) then false
  else if PrimFloat.ltb (obsTimeTag a) (obsTimeTag param) then true
  else if sysIndex a >? sysIndex param then false
  else if sysIndex a <? sysIndex param then true
  else if satellite a >? satellite param then false
  else if satellite a <? satellite param then true
  else if obsTypeIndex a >? obsTypeIndex param then false
  else true.

(** [sort(epochObs.begin(), epochObs.end())].  [std::sort] yields an
    arrangement of its input that is ordered by [operator <]; the order in
    which it leaves elements that the operator does not separate is not
    specified.  The arrangement taken here is the one of an insertion sort. *)
Fixpoint sort_insert (x : SatObsData) (v : list SatObsData) : list SatObsData :=
  match v with
  | [] => [x]
  | y :: v' => if SatObsData_lt x y then x :: y :: v' else y :: sort_insert x v'
  end.

Fixpoint sort (v : list SatObsData) : list SatObsData :=
  match v with
  | [] => []
  | x :: v' => sort_insert x (sort v')
  end.

(** The test of [filterObsData] under which an entry stays in [epochObs]. *)
Definition obsSelected (r : t) (it : SatObsData) : bool :=
  negb (negb (selSystem (system_at (systems r) (sysIndex it)))
        || negb (nth (Z.to_nat (obsTypeIndex it))
                     (selObsType (system_at (systems r) (sysIndex it))) false)
        || negb (isSatSelected r (sysIndex it) (satellite it))).

(** [bool RinexData::filterObsData()]. *)
Definition filterObsData (r : t) : bool * t :=
  let r1 := if applyObsFilter r then set_epochObs r (filter (obsSelected r) (epochObs r))
            else r in
  let r2 := set_epochObs r1 (sort (epochObs r1)) in
  (negb (empty (epochObs r2)), r2).

(** [void RinexData::clearObsData()]. *)
Definition clearObsData (r : t) : t := set_epochObs r [].

(** The test of the loop of [saveNavData]: the record [it] has the key
    [(sys, sat, tTag)]. *)
Definition sameNavKey (sys : ascii) (sat : Z) (tTag : float) (it : SatNavData) : bool :=
  Ascii.eqb sys (systemId it) && (sat =? navSatellite it)
  && PrimFloat.eqb tTag (navTimeTag it).

(** The text [msgBuf] of [saveNavData], printed with
    ["Ephemeris for sat=%c%02d at=%g "]. *)
Definition navMsgBuf (sys : ascii) (sat : Z) (tTag : float) : text :=
  [Chars ("Ephemeris for sat=" ++ String sys EmptyString ++ fmt_0wd 2 sat ++ " at=");
   Double "%g" tTag; Chars " "].

(** [bool RinexData::saveNavData(char sys, int sat, double bo[8][4],
    double tTag)]. *)
Definition saveNavData (r : t) (sys : ascii) (sat : Z) (bo : orbit) (tTag : float)
    : bool * t :=
  if existsb (sameNavKey sys sat tTag) (epochNav r) then
    (false, log r Logger.FINE (navMsgBuf sys sat tTag ++ [Chars " already exist"]))
  else
    (true,
     log (set_epochNav r (epochNav r ++ [mkSatNavData tTag sys sat bo]))
         Logger.FINE (navMsgBuf sys sat tTag ++ [Chars " saved"])).

Definition set_selSystem (s : GNSSsystem) (v : bool) : GNSSsystem :=
  mkGNSSsystem (system s) v (obsType s) (selObsType s) (selSat s).

Definition set_selObsType (s : GNSSsystem) (v : list bool) : GNSSsystem :=
  mkGNSSsystem (system s) (selSystem s) (obsType s) v (selSat s).

Definition set_selSat (s : GNSSsystem) (v : list Z) : GNSSsystem :=
  mkGNSSsystem (system s) (selSystem s) (obsType s) (selObsType s) v.

(** [isspace] in the C locale. *)
Definition isspace (c : ascii) : bool :=
  let n := Z.of_nat (nat_of_ascii c) in
  (n =? 32) || ((9 <=? n) && (n <=? 13)).

(** The value of a decimal digit. *)
Definition digit (c : ascii) : option Z :=
  let n := Z.of_nat (nat_of_ascii c) in
  if (48 <=? n) && (n <=? 57) then Some (n - 48) else None.

Fixpoint skip_spaces (s : string) : string :=
  match s with
  | String c s' => if isspace c then skip_spaces s' else s
  | EmptyString => s
  end.

(** The digits at the start of [s], read after the value [acc]; [any] tells
    whether a digit was read already. *)
Fixpoint read_digits (s : string) (acc : Z) (any : bool) : option Z :=
  match s with
  | String c s' =>
      match digit c with
      | Some d => read_digits s' (10 * acc + d) true
      | None => if any then Some acc else None
      end
  | EmptyString => if any then Some acc else None
  end.

(** The conversion ["%d"] of [sscanf], and [strtol] in base 10 under [stoi]:
    white space, an optional sign, decimal digits.  The value is not reduced
    to the range of [int]. *)
Definition read_int (s : string) : option Z :=
  match skip_spaces s with
  | String "-" s' => option_map Z.opp (read_digits s' 0 false)
  | String "+" s' => read_digits s' 0 false
  | s' => read_digits s' 0 false
  end.

(** [sscanf(str, "%c%d", &s, &n)]: the value returned ([EOF] is [-1]) and
    the values assigned to [s] and [n]. *)
Definition sscanf_c_d (str : string) : Z * ascii * Z :=
  match str with
  | EmptyString => (-1, Ascii.zero, 0)
  | String s rest =>
      match read_int rest with
      | Some n => (2, s, n)
      | None => (1, s, 0)
      end
  end.

(** The start of [setFilter]: the selection data are set as the
    constructors leave them. *)
Definition resetFilter (r : t) : t :=
  let r1 := set_applyNavFilter (set_applyObsFilter r false) false in
  let r2 := set_selectedSats r1 [] in
  set_systems r2
    (map (fun s => set_selObsType (set_selSystem s true)
                     (map (fun _ => true) (selObsType s)))
         (systems r2)).

(** First loop of [setFilter]: the selected satellites in the notation
    [S] or [Snn], printed with ["%1c%02.2d"] into [char b[5]]. *)
Fixpoint normalizeSelSat (selSats : list string) (r : t) : t :=
  match selSats with
  | [] => r
  | str :: rest =>
      normalizeSelSat rest
        match sscanf_c_d str with
        | (1, s, _) =>
            set_selectedSats r (selectedSats r ++ [String s EmptyString])
        | (2, s, n) =>
            set_selectedSats r (selectedSats r ++ [(fmt_wc 1 s ++ fmt_prec_d 2 n)%string])
        | _ =>
            log r Logger.WARNING
              [Chars ("Wrong sys-sat format (" ++ str ++ "). Ignored for filtering")]
        end
  end.

(** The local vectors and flag of [setFilter]. *)
Record locals : Type := mkLocals {
  inxSelSys : list Z;
  inxSysObs : list Z;
  inxObsSys : list Z;
  areCoherent : bool
}.

(** Second loop of [setFilter], over [selectedSats]. *)
Fixpoint verifySelSat (sats : list string) (r : t) (lc : locals) : result locals * t :=
  match sats with
  | [] => (Val lc, r)
  | str :: rest =>
      match str with
      | EmptyString => (Throw OutOfRange, r)
      | String c tail =>
          let sysIdx := sysInx r c in
          if sysIdx <? 0 then
            verifySelSat rest
              (log r Logger.WARNING [Chars ("Sel system in sat " ++ str ++ msgNotHd)])
              (mkLocals (inxSelSys lc) (inxSysObs lc) (inxObsSys lc) false)
          else
            let lc1 := mkLocals (inxSelSys lc ++ [sysIdx]) (inxSysObs lc) (inxObsSys lc)
                                (areCoherent lc) in
            if (1 <? String.length str)%nat then
              match read_int tail with
              | Some n =>
                  verifySelSat rest
                    (set_systems r
                       (alter (fun s => set_selSat s (selSat s ++ [n]))
                              (Z.to_nat sysIdx) (systems r)))
                    lc1
              | None => (Throw InvalidArgument, r)
              end
            else verifySelSat rest r lc1
      end
  end.

(** Third loop of [setFilter], over [selObs]. *)
Fixpoint verifySelObs (obs : list string) (r : t) (lc : locals) : result locals * t :=
  match obs with
  | [] => (Val lc, r)
  | str :: rest =>
      match str with
      | EmptyString => (Throw OutOfRange, r)
      | String c tail =>
          let sysIdx := sysInx r c in
          if sysIdx <? 0 then
            verifySelObs rest
              (log r Logger.WARNING [Chars ("Sel system in obs " ++ str ++ msgNotHd)])
              (mkLocals (inxSelSys lc) (inxSysObs lc) (inxObsSys lc) false)
          else
            match find_obsType (obsType (system_at (systems r) sysIdx)) tail 0 with
            | Some n =>
                verifySelObs rest r
                  (mkLocals (inxSelSys lc ++ [sysIdx]) (inxSysObs lc ++ [sysIdx])
                            (inxObsSys lc ++ [n]) (areCoherent lc))
            | None =>
                verifySelObs rest
                  (log r Logger.WARNING
                     [Chars ("Sel observation in sys " ++ str ++ msgNotHd)])
                  (mkLocals (inxSelSys lc) (inxSysObs lc) (inxObsSys lc) false)
            end
      end
  end.

(** "set flags for selected systems". *)
Definition flagSelSystems (lc : locals) (v : list GNSSsystem) : list GNSSsystem :=
  if negb (empty (inxSelSys lc)) then
    fold_left (fun v' i => alter (fun s => set_selSystem s true) (Z.to_nat i) v')
              (inxSelSys lc)
              (map (fun s => set_selSystem s false) v)
  else v.

(** "set flags for selected observables". *)
Definition flagSelObs (lc : locals) (v : list GNSSsystem) : list GNSSsystem :=
  if negb (empty (inxObsSys lc)) then
    fold_left
      (fun v' io =>
         alter (fun s => set_selObsType s
                           (alter (fun _ => true) (Z.to_nat (snd io)) (selObsType s)))
               (Z.to_nat (fst io)) v')
      (combine (inxSysObs lc) (inxObsSys lc))
      (fold_left
         (fun v' i =>
            alter (fun s => set_selObsType s (map (fun _ => false) (selObsType s)))
                  (Z.to_nat i) v')
         (inxSysObs lc) v)
  else v.

(** The text [aStr] logged for a selected system. *)
Definition selectedSysMsg (s : GNSSsystem) : string :=
  ("Selected sys=" ++ String (system s) EmptyString ++ "; sats="
   ++ String.concat EmptyString (map (fun sat => fmt_d sat ++ msgSpace) (selSat s))
   ++ "; obs="
   ++ String.concat EmptyString
        (map (fun p : string * bool => if snd p then fst p ++ msgSpace else EmptyString)
             (combine (obsType s) (selObsType s))))%string.

(** Last loop of [setFilter]: "log observation filtering data". *)
Fixpoint logObsFilter (v : list GNSSsystem) (r : t) : t :=
  match v with
  | [] => r
  | s :: v' =>
      logObsFilter v'
        (if selSystem s then
           log (set_applyObsFilter r true) Logger.INFO [Chars (selectedSysMsg s)]
         else
           log r Logger.INFO [Chars ("Excluded sys=" ++ String (system s) EmptyString)])
  end.

(** [bool RinexData::setFilter(vector<string> &selSat, vector<string>
    &selObs)].  The result is [Throw] where [string::at] or [stoi] throws;
    the object is returned as the exception leaves it. *)
Definition setFilter (r : t) (selSats selObs : list string) : result bool * t :=
  let r0 := resetFilter r in
  if empty selSats && empty selObs then
    (Val true, log r0 Logger.INFO [Chars "Filtering data cleared"])
  else
    let r1 := log r0 Logger.INFO [Chars "Filtering data stated:"] in
    let r2 := normalizeSelSat selSats r1 in
    let r3 := set_applyNavFilter r2 (negb (empty (selectedSats r2))) in
    let r4 := if applyNavFilter r3 then
                log r3 Logger.INFO
                  [Chars ("Sel sys-sats for nav:"
                          ++ String.concat EmptyString
                               (map (fun s => (" " ++ s)%string) (selectedSats r3)))]
              else r3 in
    match verifySelSat (selectedSats r4) r4 (mkLocals [] [] [] true) with
    | (Throw e, r5) => (@Throw bool e, r5)
    | (Val lc1, r5) =>
        match verifySelObs selObs r5 lc1 with
        | (Throw e, r6) => (@Throw bool e, r6)
        | (Val lc, r6) =>
            let r7 := set_systems r6 (flagSelObs lc (flagSelSystems lc (systems r6))) in
            (Val (areCoherent lc), logObsFilter (systems r7) r7)
        end
    end.

(** The macro [DIFFERENT_SAT(POSITION)] of [printObsEpoch]: [it] is the
    entry at [POSITION], [before] the one at [POSITION-1]. *)
Definition DIFFERENT_SAT (before it : SatObsData) : bool :=
  negb (sysIndex before =? sysIndex it) || negb (satellite before =? satellite it).

(** "count the number of different satellites with data in this epoch". *)
Fixpoint countSats (before : SatObsData) (v : list SatObsData) (n : Z) : Z :=
  match v with
  | [] => n
  | it :: v' => countSats it v' (if DIFFERENT_SAT before it then n + 1 else n)
  end.

(** A satellite printed with ["%1c%02d"]. *)
Definition satText (r : t) (it : SatObsData) : piece :=
  Chars (fmt_wc 1 (system (system_at (systems r) (sysIndex it)))
         ++ fmt_0wd 2 (satellite it)).

(** The text printed so far and the locals [anInt] and [clkPrinted] of
    [printObsEpoch].  A line feed is always a piece of its own. *)
Record printer : Type := mkPrinter {
  out : text;
  anInt : Z;
  clkPrinted : bool
}.

(** What the loop over the satellites after the first one prints for the
    satellite of the entry [it], when it differs from the one before. *)
Definition printSat (r : t) (p : printer) (it : SatObsData) : printer :=
  let out1 := if Z.rem (anInt p) 12 =? 0
              then out p ++ [Chars newline; Chars (fmt_wc 32 " ")]
              else out p in
  let out2 := out1 ++ [satText r it] in
  if anInt p + 1 =? 12
  then mkPrinter (out2 ++ [Double "%12.9f" (epochClkOffset r)]) (anInt p + 1) true
  else mkPrinter out2 (anInt p + 1) (clkPrinted p).

(** The loop that appends the satellites after the first one. *)
Fixpoint printSats (r : t) (before : SatObsData) (v : list SatObsData) (p : printer)
    : printer :=
  match v with
  | [] => p
  | it :: v' => printSats r it v' (if DIFFERENT_SAT before it then printSat r p it else p)
  end.

(** [while ((anInt % 12) != 0)]: "fill the line".  The loop ends within 11
    rounds; [fuel] bounds their number. *)
Fixpoint fillLine (fuel : nat) (p : printer) : printer :=
  match fuel with
  | O => p
  | S fuel' =>
      if Z.rem (anInt p) 12 =? 0 then p
      else fillLine fuel'
             (mkPrinter (out p ++ [Chars (fmt_wc 3 " ")]) (anInt p + 1) (clkPrinted p))
  end.

(** The epoch header of the [V210] branch of [printObsEpoch]: from the count
    of the satellites of the epoch to the end of its first line and of its
    continuation lines.  [epochObs] holds the observations as they are at
    that point (filtered, translated to V2.10 types, sorted); the branch is
    entered with [epochObs] not empty. *)
Definition printObsEpochHeaderV210 (r : t) (file : text) : text * t :=
  match epochObs r with
  | [] => (file, r)
  | first :: rest =>
      let r1 := set_nSatsEpoch r (countSats first rest 1) in
      let file1 := file ++ [GPStime " %y %m %d %H %M" "%11.7f" (epochWeek r1) (epochTOW r1);
                            Chars ("  " ++ fmt_wd 1 (epochFlag r1) ++ fmt_wd 3 (nSatsEpoch r1))] in
      let file2 := file1 ++ [satText r1 first] in
      let p := fillLine 12 (printSats r1 first rest (mkPrinter file2 1 false)) in
      if clkPrinted p then (out p ++ [Chars newline], r1)
      else (out p ++ [Double "%12.9f" (epochClkOffset r1); Chars newline], r1)
  end.

(** [bool RinexData::getObsData(char &sys, int &sat, string &obsType, double
    &value, int &lol, int &strg, double &tTag, unsigned int index)]: the
    values given to the seven references when the method returns [true],
    [None] when it returns [false]. *)
Definition getObsData (r : t) (index : Z)
    : option (ascii * Z * string * float * Z * Z * float) :=
  if Z.of_nat (List.length (epochObs r)) <=? index then None
  else
    let it := nth (Z.to_nat index) (epochObs r) (mkSatObsData 0 0 0 0 0 0 0) in
    Some (system (system_at (systems r) (sysIndex it)),
          satellite it,
          nth (Z.to_nat (obsTypeIndex it)) (obsType (system_at (systems r) (sysIndex it)))
              EmptyString,
          obsValue it, lossOfLock it, strength it, obsTimeTag it).

(** [bool RinexData::getNavData(char& sys, int &sat, double (&bo)[8][4],
    double &tTag, unsigned int index)]: the values given to the four
    references when the method returns [true]. *)
Definition getNavData (r : t) (index : Z) : option (ascii * Z * orbit * float) :=
  if Z.of_nat (List.length (epochNav r)) <=? index then None
  else
    let it := nth (Z.to_nat index) (epochNav r)
                  (mkSatNavData 0 Ascii.zero 0 (fun _ _ => 0%float)) in
    Some (systemId it, navSatellite it, broadcastOrbit it, navTimeTag it).

(** The value of a [char], which is a signed type for the compilers of the
    project. *)
Definition char_value (c : ascii) : Z :=
  let n := Z.of_nat (nat_of_ascii c) in
  if n <? 128 then n else n - 256.

(** [SatNavData::operator <]. *)
Definition SatNavData_lt (a param : SatNavData) : bool :=
  if PrimFloat.ltb (navTimeTag param) (navTimeTag a) then false
  else if PrimFloat.ltb (navTimeTag a) (navTimeTag param) then true
  else if char_value (systemId a) >? char_value (systemId param) then false
  else if char_value (systemId a) <? char_value (systemId param) then true
  else if navSatellite a >? navSatellite param then false
  else true.

(** [sort(epochNav.begin(), epochNav.end())], in the arrangement of an
    insertion sort, as [sort] for the observations. *)
Fixpoint sortNav_insert (x : SatNavData) (v : list SatNavData) : list SatNavData :=
  match v with
  | [] => [x]
  | y :: v' => if SatNavData_lt x y then x :: y :: v' else y :: sortNav_insert x v'
  end.

Fixpoint sortNav (v : list SatNavData) : list SatNavData :=
  match v with
  | [] => []
  | x :: v' => sortNav_insert x (sortNav v')
  end.

(** The text [buffer] that [filterNavData] prints for a record with
    ["%1c%02.2d"]. *)
Definition navBuffer (it : SatNavData) : string :=
  (fmt_wc 1 (systemId it) ++ fmt_prec_d 2 (navSatellite it))%string.

(** The test of [filterNavData] under which a record stays in [epochNav]:
    [string(buffer).compare(0, sel.size(), sel) == 0] for one of the
    selected system-satellites. *)
Definition navSelected (r : t) (it : SatNavData) : bool :=
  existsb (fun sel => String.eqb (substring 0 (String.length sel) (navBuffer it)) sel)
          (selectedSats r).

(** [bool RinexData::filterNavData()]. *)
Definition filterNavData (r : t) : bool * t :=
  let r1 := if applyNavFilter r then set_epochNav r (filter (navSelected r) (epochNav r))
            else r in
  let r2 := set_epochNav r1 (sortNav (epochNav r1)) in
  (negb (empty (epochNav r2)), r2).

(** The vector [obsNamEq] of pairs [(v2name, v3name)], as [setDefValues]
    fills it; no method changes it. *)
Definition obsNamEq : list (string * string) :=
  [("L1", "L1C"); ("L2", "L2P"); ("C1", "C1C"); ("P1", "C1P"); ("P2", "C2P");
   ("D1", "D1C"); ("D2", "D2P"); ("S1", "S1C"); ("S2", "S2P")]%string.

(** [string RinexData::obsV2toV3(const string &obsTypeName)]. *)
Definition obsV2toV3 (obsTypeName : string) : string :=
  match find (fun it : string * string => String.eqb (fst it) obsTypeName) obsNamEq with
  | Some it => snd it
  | None => EmptyString
  end.

(** [strchr("GRS", sys) != NULL]: the search takes in the terminating null
    character of the text. *)
Definition strchr_GRS (sys : ascii) : bool :=
  Ascii.eqb sys "G" || Ascii.eqb sys "R" || Ascii.eqb sys "S" || Ascii.eqb sys Ascii.zero.

(** [string RinexData::obsV3toV2(int si, int oi)]. *)
Definition obsV3toV2 (r : t) (si oi : Z) : string :=
  if applyObsFilter r && negb (selSystem (system_at (systems r) si)) then EmptyString
  else if applyObsFilter r
          && negb (nth (Z.to_nat oi) (selObsType (system_at (systems r) si)) false)
  then EmptyString
  else
    let sys := system (system_at (systems r) si) in
    let obsTypeName := nth (Z.to_nat oi) (obsType (system_at (systems r) si)) EmptyString in
    if strchr_GRS sys then
      match find (fun it : string * string => String.eqb (snd it) obsTypeName) obsNamEq with
      | Some it => fst it
      | None => EmptyString
      end
    else EmptyString.

(** The search loop of [v2ObsInx], from index [i] on. *)
Fixpoint v2ObsInx_from (v2ObsLst : list string) (obsId : string) (i : Z) : Z :=
  match v2ObsLst with
  | [] => -1
  | name :: rest => if String.eqb obsId name then i else v2ObsInx_from rest obsId (i + 1)
  end.

(** [int RinexData::v2ObsInx(const string &obsId)]; [v2ObsLst] is the
    member vector of that name. *)
Definition v2ObsInx (v2ObsLst : list string) (obsId : string) : Z :=
  if String.eqb obsId EmptyString then -2 else v2ObsInx_from v2ObsLst obsId 0.

(** The part of [printObsHeader] that fills [v2ObsLst] for version 2.10:
    the vector is cleared, then for every system [i] and every observable
    type [j], [obsV3toV2(i, j)] is appended if [v2ObsInx] gives -1 for it. *)
Definition printObsHeader_v2ObsLst (r : t) : list string :=
  fold_left
    (fun v2ObsLst ij =>
       let aStr := obsV3toV2 r (fst ij) (snd ij) in
       if v2ObsInx v2ObsLst aStr =? -1 then v2ObsLst ++ [aStr] else v2ObsLst)
    (flat_map
       (fun i => map (fun j => (Z.of_nat i, Z.of_nat j))
                     (seq 0 (List.length (obsType (system_at (systems r) (Z.of_nat i))))))
       (seq 0 (List.length (systems r))))
    [].

Definition set_obsTypeIndex (it : SatObsData) (v : Z) : SatObsData :=
  mkSatObsData (obsTimeTag it) (sysIndex it) (satellite it) v (obsValue it)
               (lossOfLock it) (strength it).

(** The first loop of the [V210] branch of [printObsEpoch]: "change the
    observable type index as per V210 and remove observations not allowed in
    V210". *)
Fixpoint toV210 (r : t) (v2ObsLst : list string) (v : list SatObsData) : list SatObsData :=
  match v with
  | [] => []
  | it :: v' =>
      let anInt := v2ObsInx v2ObsLst (obsV3toV2 r (sysIndex it) (obsTypeIndex it)) in
      if anInt >=? 0 then set_obsTypeIndex it anInt :: toV210 r v2ObsLst v'
      else toV210 r v2ObsLst v'
  end.

(** [const double MAXOBSVAL], [MINOBSVAL] (RinexData.h). *)
Definition MAXOBSVAL : float := 9999999999.999.
Definition MINOBSVAL : float := (-999999999.999)%float.

(** The locals of [printSatObsValues] and the text printed. *)
Record satPrinter : Type := mkSatPrinter {
  outObs : text;
  obsToPrint : Z
}.

(** What [printSatObsValues] prints for the observation [it]: the value
    with ["%14.3lf"], then the loss of lock indicator and the signal
    strength, each a blank when it is 0. *)
Definition obsText (it : SatObsData) : text :=
  let valueToPrint := obsValue it in
  let valueToPrint :=
    if PrimFloat.ltb MAXOBSVAL valueToPrint || PrimFloat.ltb valueToPrint MINOBSVAL
    then 0.0%float else valueToPrint in
  [Double "%14.3lf" valueToPrint;
   Chars (if lossOfLock it =? 0 then " " else fmt_wd 1 (lossOfLock it));
   Chars (if strength it =? 0 then " " else fmt_wd 1 (strength it))].

(** What it prints for an observable without data. *)
Definition noObsText : text := [Double "%14.3lf" 0.0%float; Chars "  "].

(** The [while] loop of [printSatObsValues]; [fuel] bounds the number of
    its rounds.  [maxPerLine] is not 0. *)
Fixpoint printSatObsValues_loop (fuel : nat) (sysToPrint satToPrint maxPerLine : Z)
    (r : t) (p : satPrinter) : t * satPrinter :=
  match fuel with
  | O => (r, p)
  | S fuel' =>
      match epochObs r with
      | [] => (r, p)
      | it :: rest =>
          if (sysIndex it =? sysToPrint) && (satellite it =? satToPrint) then
            let '(r1, p1) :=
              if obsTypeIndex it <? obsToPrint p then
                (set_epochObs
                   (log r Logger.WARNING
                      [Chars "Epoch "; Double "%Lf" (obsTimeTag it);
                       Chars (" sat=" ++ String (system (system_at (systems r) sysToPrint))
                                                EmptyString
                              ++ fmt_d satToPrint ++ " obs="
                              ++ nth (Z.to_nat (obsTypeIndex it))
                                     (obsType (system_at (systems r) sysToPrint))
                                     EmptyString
                              ++ " Ignored observable already printed")])
                   rest,
                 p)
              else if obsTypeIndex it =? obsToPrint p then
                (set_epochObs r rest, mkSatPrinter (outObs p ++ obsText it) (obsToPrint p + 1))
              else
                (r, mkSatPrinter (outObs p ++ noObsText) (obsToPrint p + 1)) in
            let p2 := if Z.rem (obsToPrint p1) maxPerLine =? 0
                      then mkSatPrinter (outObs p1 ++ [Chars newline]) (obsToPrint p1)
                      else p1 in
            printSatObsValues_loop fuel' sysToPrint satToPrint maxPerLine r1 p2
          else (r, p)
      end
  end.

(** The largest [obsTypeIndex] of the store, 0 at least. *)
Definition maxObsTypeIndex (v : list SatObsData) : Z :=
  fold_left (fun n it => Z.max n (obsTypeIndex it)) v 0.

(** [bool RinexData::printSatObsValues(FILE* out, int maxPerLine)].  A round
    of the loop removes an observation or moves [obsToPrint] one step
    towards the index of the first one; the bound on the rounds is taken
    from that. *)
Definition printSatObsValues (r : t) (out : text) (maxPerLine : Z) : bool * t * text :=
  match epochObs r with
  | [] => (false, r, out)
  | first :: _ =>
      let '(r1, p) :=
        printSatObsValues_loop
          (List.length (epochObs r) + Z.to_nat (maxObsTypeIndex (epochObs r) + 1))
          (sysIndex first) (satellite first) maxPerLine r (mkSatPrinter out 0) in
      let out1 := if negb (Z.rem (obsToPrint p) maxPerLine =? 0)
                  then outObs p ++ [Chars newline] else outObs p in
      (negb (empty (epochObs r1)), r1, out1)
  end.

End RinexData.

(* ================================================================== *)
(** * GNSSdataFromOSP: acquisition of RINEX data from OSP messages *)

Module GNSSdataFromOSP.

(** Receiver and GPS specific data (GNSSdataFromOSP.h). *)
Definition MAXCHANNELS : Z := 32.
Definition MAXSUBFR : Z := 5.
Definition FIRSTGPSSAT : Z := 1.
Definition LASTGPSSAT : Z := 32.

Definition C1CADJ : float := 299792458.0.
Definition L1CADJ : float := 1575420000.0.
Definition L1WLINV : float := (1575420000.0 / 299792458.0)%float.
Definition ThisPI : float := 3.1415926535898.

(** [const unsigned int parityBitMask[]]. *)
Definition parityBitMask : list Z :=
  [0xBB1F3480; 0x5D8F9A40; 0xAEC7CD00; 0x5763E680; 0x6BB1F340; 0x8B7A89C0].

(** [struct SubframeData]: [words] holds the ten words. *)
Record SubframeData : Type := mkSubframeData {
  sv : Z;
  words : list Z
}.

(** [struct ChannelObs]. *)
Record ChannelObs : Type := mkChannelObs {
  system : ascii;
  satPrn : Z;
  psedrng : float;
  carrPh : float;
  carrFq : float;
  signalStrg : float;
  limitOl : Z;
  strgIdx : Z;
  timeT : float
}.

(** The members of [class GNSSdataFromOSP] used by the methods below;
    [subfrmCh] is the array [SubframeData subfrmCh[MAXCHANNELS][MAXSUBFR]].
    The calls made on the logger of this class are not part of the model. *)
Record t : Type := mk {
  minSVSfix : Z;
  applyBias : bool;
  epochGPSweek : Z;
  epochGPStow : float;
  epochClkBias : float;
  epochClkDrift : float;
  message : OSPMessage.t;
  subfrmCh : Z -> Z -> SubframeData;
  chSatObs : list ChannelObs
}.

Definition set_message (g : t) (v : OSPMessage.t) : t :=
  mk (minSVSfix g) (applyBias g) (epochGPSweek g) (epochGPStow g) (epochClkBias g)
     (epochClkDrift g) v (subfrmCh g) (chSatObs g).

Definition set_subfrmCh (g : t) (v : Z -> Z -> SubframeData) : t :=
  mk (minSVSfix g) (applyBias g) (epochGPSweek g) (epochGPStow g) (epochClkBias g)
     (epochClkDrift g) (message g) v (chSatObs g).

Definition set_chSatObs (g : t) (v : list ChannelObs) : t :=
  mk (minSVSfix g) (applyBias g) (epochGPSweek g) (epochGPStow g) (epochClkBias g)
     (epochClkDrift g) (message g) (subfrmCh g) v.

Definition set_epoch (g : t) (week : Z) (tow bias drift : float) : t :=
  mk (minSVSfix g) (applyBias g) week tow bias drift (message g) (subfrmCh g)
     (chSatObs g).

(** The operators of C++ on [unsigned int]. *)
#[local] Infix ">>" := Z.shiftr (at level 35, no associativity).
#[local] Infix "<<" := shl32 (at level 35, no associativity).
#[local] Infix ".&" := Z.land (at level 40, left associativity).
#[local] Infix ".|" := Z.lor (at level 50, left associativity).

(** [pow(2.0, e)] for an integral exponent; exact for [|e| <= 62]. *)
Definition pow2 (e : Z) : float :=
  if e <? 0 then (1 / double_of_Z (2 ^ (- e)))%float else double_of_Z (2 ^ e).

(** The table [GPS_SCALEFACTOR] as [setTblValues] fills it. *)
Definition GPS_SCALEFACTOR (i j : Z) : float :=
  match i, j with
  | 0, 0 => pow2 4
  | 0, 1 => pow2 (-31)
  | 0, 2 => pow2 (-43)
  | 0, 3 => pow2 (-55)
  | 1, 0 => 1.0
  | 1, 1 => pow2 (-5)
  | 1, 2 => pow2 (-43) * ThisPI
  | 1, 3 => pow2 (-31) * ThisPI
  | 2, 0 => pow2 (-29)
  | 2, 1 => pow2 (-33)
  | 2, 2 => pow2 (-29)
  | 2, 3 => pow2 (-19)
  | 3, 0 => pow2 4
  | 3, 1 => pow2 (-29)
  | 3, 2 => pow2 (-31) * ThisPI
  | 3, 3 => pow2 (-29)
  | 4, 0 => pow2 (-31) * ThisPI
  | 4, 1 => pow2 (-5)
  | 4, 2 => pow2 (-31) * ThisPI
  | 4, 3 => pow2 (-43) * ThisPI
  | 5, 0 => pow2 (-43) * ThisPI
  | 5, 1 => 1.0
  | 5, 2 => 1.0
  | 5, 3 => 1.0
  | 6, 0 => 1.0
  | 6, 1 => 1.0
  | 6, 2 => pow2 (-31)
  | 6, 3 => 1.0
  | 7, 0 => 0.01
  | 7, 1 => 1.0
  | _, _ => 0.0
  end%float.

(** The table [GPS_URA] as [setTblValues] fills it. *)
Definition GPS_URA (i : Z) : float :=
  match i with
  | 0 => 2.0
  | 1 => 2.8
  | 2 => 4.0
  | 3 => 5.7
  | 4 => 8.0
  | 5 => 11.3
  | 6 => pow2 4
  | 7 => pow2 5
  | 8 => pow2 6
  | 9 => pow2 7
  | 10 => pow2 8
  | 11 => pow2 9
  | 12 => pow2 10
  | 13 => pow2 11
  | 14 => pow2 12
  | _ => 6144.00
  end%float.

(** [unsigned int GNSSdataFromOSP::bitsSet(unsigned int lw)]. *)
Definition bitsSet (lw : Z) : Z :=
  fold_left (fun count i => count + ((lw >> i) .& 0x01)) (map Z.of_nat (seq 0 32)) 0.

(** [bool GNSSdataFromOSP::checkGPSparity(unsigned int d)]. *)
Definition checkGPSparity (d : Z) : bool :=
  let toCheck := if negb ((d .& 0x40000000) =? 0)
                 then (d .& 0xC0000000) .| (not32 d .& 0x3FFFFFFF)
                 else d in
  let parity :=
    fold_left
      (fun parity i =>
         parity .| (Z.rem (bitsSet (nth (Z.to_nat i) parityBitMask 0 .& toCheck)) 2 << (5 - i)))
      (map Z.of_nat (seq 0 6)) 0 in
  parity =? (d .& 0x3F).

(** The word [subfrmCh[ch][i].words[k]]. *)
Definition word (g : t) (ch i k : Z) : Z :=
  nth (Z.to_nat k) (words (subfrmCh g ch i)) 0.

(** [bool GNSSdataFromOSP::allGPSEphemReceived(int ch)]. *)
Definition allGPSEphemReceived (g : t) (ch : Z) : bool :=
  let allReceived := (sv (subfrmCh g ch 0) =? sv (subfrmCh g ch 1))
                     && (sv (subfrmCh g ch 0) =? sv (subfrmCh g ch 2)) in
  let iodcLSB := (word g ch 0 7 >> 16) .& 0xFF in
  let allReceived := allReceived && (iodcLSB =? ((word g ch 1 2 >> 16) .& 0xFF)) in
  let allReceived := allReceived && (iodcLSB =? ((word g ch 2 9 >> 16) .& 0xFF)) in
  allReceived.

(** The three words of [navW] that [getMID8GPSNavData] packs from the pair
    of words [2j], [2j+1] of subframe index [i]. *)
Definition packGroup (g : t) (ch i j : Z) : list Z :=
  [ (word g ch i (j * 2) >> 8) .& 0xFFFF;
    ((word g ch i (j * 2) .& 0xFF) << 8) .| ((word g ch i (j * 2 + 1) >> 16) .& 0xFF);
    word g ch i (j * 2 + 1) .& 0xFFFF ].

(** The fifteen words [navW[i*15 .. i*15+14]]: the five groups, then
    [navW[i*15] = sv] and [navW[i*15+1] &= 0xFF]. *)
Definition packSubframe (g : t) (ch sv i : Z) : list Z :=
  match flat_map (packGroup g ch i) [0; 1; 2; 3; 4] with
  | _ :: w1 :: rest => sv :: (w1 .& 0xFF) :: rest
  | l => l
  end.

(** The array [navW[45]] packed "as per MID 15" from the subframe indexes
    0, 1 and 2 of channel [ch]. *)
Definition packNavW (g : t) (ch sv : Z) : list Z :=
  flat_map (packSubframe g ch sv) [0; 1; 2].

(** The mantissas [bom[8][4]] that [extractGPSEphemeris] takes from
    [navW]; [iodcLSB], [iode1], [iode2] are its local variables. *)
Definition GPSmantissa (navW : list Z) (iodcLSB iode1 iode2 : Z) (i j : Z) : Z :=
  let W k := nth k navW 0 in
  match i, j with
  | 0, 0 => to_int32 (W 11%nat)
  | 0, 1 => getTwosComplement (((W 13%nat .& 0x00FF) << 14) .| ((W 14%nat >> 2) .& 0x3FFF)) 22
  | 0, 2 => getTwosComplement (((W 12%nat .& 0x00FF) << 8) .| ((W 13%nat >> 8) .& 0x00FF)) 16
  | 0, 3 => getTwosComplement ((W 12%nat >> 8) .& 0x00FF) 8
  | 1, 0 => to_int32 iode1
  | 1, 1 => getTwosComplement (((W 18%nat .& 0x00FF) << 8) .| ((W 19%nat >> 8) .& 0x00FF)) 16
  | 1, 2 => getTwosComplement (((W 19%nat .& 0x00FF) << 8) .| ((W 20%nat >> 8) .& 0x00FF)) 16
  | 1, 3 => getTwosComplement (((W 20%nat .& 0x00FF) << 24) .| ((W 21%nat .& 0xFFFF) << 8)
                               .| ((W 22%nat >> 8) .& 0x00FF)) 32
  | 2, 0 => getTwosComplement (((W 22%nat .& 0x00FF) << 8) .| ((W 23%nat >> 8) .& 0x00FF)) 16
  | 2, 1 => to_int32 (((W 23%nat .& 0x00FF) << 24) .| ((W 24%nat .& 0xFFFF) << 8)
                      .| ((W 25%nat >> 8) .& 0x00FF))
  | 2, 2 => getTwosComplement (((W 25%nat .& 0x00FF) << 8) .| ((W 26%nat >> 8) .& 0x00FF)) 16
  | 2, 3 => to_int32 (((W 26%nat .& 0x00FF) << 24) .| ((W 27%nat .& 0xFFFF) << 8)
                      .| ((W 28%nat >> 8) .& 0x00FF))
  | 3, 0 => to_int32 (((W 28%nat .& 0x00FF) << 8) .| ((W 29%nat >> 8) .& 0x00FF))
  | 3, 1 => getTwosComplement (W 33%nat) 16
  | 3, 2 => getTwosComplement (((W 34%nat .& 0xFFFF) << 16) .| (W 35%nat .& 0xFFFF)) 32
  | 3, 3 => getTwosComplement (W 36%nat) 16
  | 4, 0 => getTwosComplement (((W 37%nat .& 0xFFFF) << 16) .| (W 38%nat .& 0xFFFF)) 32
  | 4, 1 => getTwosComplement (W 39%nat) 16
  | 4, 2 => getTwosComplement (((W 40%nat .& 0xFFFF) << 16) .| (W 41%nat .& 0xFFFF)) 32
  | 4, 3 => getTwosComplement (((W 42%nat .& 0xFFFF) << 8) .| ((W 43%nat >> 8) .& 0x00FF)) 24
  | 5, 0 => getTwosComplement ((W 44%nat >> 2) .& 0x03FFF) 14
  | 5, 1 => to_int32 ((W 3%nat >> 4) .& 0x0003)
  | 5, 2 => to_int32 (((W 3%nat >> 6) .& 0x03FF) + 1024)
  | 5, 3 => to_int32 ((W 4%nat >> 7) .& 0x0001)
  | 6, 0 => to_int32 (W 3%nat .& 0x000F)
  | 6, 1 => to_int32 ((W 4%nat >> 10) .& 0x003F)
  | 6, 2 => getTwosComplement ((W 10%nat >> 8) .& 0x00FF) 8
  | 6, 3 => to_int32 (iodcLSB .| (W 4%nat .& 0x0300))
  | 7, 0 => to_int32 (to_uint32 ((((W 1%nat .& 0x00FF) << 9) .| ((W 2%nat >> 7) .& 0x01FF)) * 600))
  | 7, 1 => to_int32 ((W 29%nat >> 7) .& 0x0001)
  | 7, 2 => 0
  | 7, 3 => to_int32 iode2
  | _, _ => 0
  end.

(** [bool GNSSdataFromOSP::extractGPSEphemeris(const unsigned int
    (&navW)[45], unsigned int &sv, int (&bom)[8][4])]: the value given to
    [sv], and the mantissas given to [bom] when the method returns [true]
    ([None] when it returns [false]). *)
Definition extractGPSEphemeris (navW : list Z) : Z * option (Z -> Z -> Z) :=
  let sv := nth 0 navW 0 .& 0xFF in
  if negb ((sv =? (nth 15 navW 0 .& 0xFF)) && (sv =? (nth 30 navW 0 .& 0xFF)))
  then (sv, None)
  else
    let iodcLSB := nth 10 navW 0 .& 0xFF in
    let iode1 := (nth (15 + 3) navW 0 >> 8) .& 0xFF in
    let iode2 := nth (30 + 13) navW 0 .& 0xFF in
    if negb ((iode1 =? iode2) && (iode1 =? iodcLSB)) then (sv, None)
    else (sv, Some (GPSmantissa navW iodcLSB iode1 iode2)).

(** The fit interval that [scaleGPSEphemeris] computes for [bo[7][1]] from
    the fit flag [bom[7][1]] and [iodc = bom[6][3]]. *)
Definition fitInterval (fitFlag iodc : Z) : float :=
  if fitFlag =? 0 then 4.0
  else if (240 <=? iodc) && (iodc <=? 247) then 8.0
  else if (248 <=? iodc) && (iodc <=? 255) then 14.0
  else if iodc =? 496 then 14.0
  else if (497 <=? iodc) && (iodc <=? 503) then 26.0
  else if (1021 <=? iodc) && (iodc <=? 1023) then 26.0
  else 6.0.

(** [void GNSSdataFromOSP::scaleGPSEphemeris(int (&bom)[8][4], double &tTag,
    double (&bo)[8][4])]: the values given to [tTag] and to [bo]. *)
Definition scaleGPSEphemeris (bom : Z -> Z -> Z) : float * RinexData.orbit :=
  let tTag := getSecsGPSEphe (bom 5 2)
                (PrimFloat.mul (double_of_Z (bom 0 0)) (GPS_SCALEFACTOR 0 0)) in
  let iodc := bom 6 3 in
  (tTag,
   fun i j =>
     if (i =? 7) && (j =? 1) then fitInterval (bom 7 1) iodc
     else if (i =? 6) && (j =? 0) then
       (if bom 6 0 <? 16 then GPS_URA (bom 6 0) else GPS_URA 15)
     else if (i =? 2) && ((j =? 1) || (j =? 3)) then
       PrimFloat.mul (double_of_Z (to_uint32 (bom 2 j))) (GPS_SCALEFACTOR 2 j)
     else PrimFloat.mul (double_of_Z (bom i j)) (GPS_SCALEFACTOR i j)).

(** [for (int i=0; i<n; i++) wd[i] = message.getUInt();] *)
Fixpoint getUInts (n : nat) (m : OSPMessage.t) : result (list Z) * OSPMessage.t :=
  match n with
  | O => (Val [], m)
  | S n' =>
      match OSPMessage.getUInt m with
      | (Throw e, m1) => (Throw e, m1)
      | (Val w, m1) =>
          match getUInts n' m1 with
          | (Throw e, m2) => (Throw e, m2)
          | (Val ws, m2) => (Val (w :: ws), m2)
          end
      end
  end.

(** "remove parity from each GPS word getting the useful 24 bits". *)
Definition removeParity (w : Z) : Z :=
  if (w .& 0x40000000) =? 0 then (w >> 6) .& 0xFFFFFF
  else not32 (w >> 6) .& 0xFFFFFF.

(** [subfrmCh[ch][i] = s]. *)
Definition set_subframe (tbl : Z -> Z -> SubframeData) (ch i : Z) (s : SubframeData)
    : Z -> Z -> SubframeData :=
  fun c k => if (c =? ch) && (k =? i) then s else tbl c k.

(** "clear storage": [for (int i=0; i<MAXSUBFR; i++) subfrmCh[ch][i].sv = 0;] *)
Definition clearSubframes (tbl : Z -> Z -> SubframeData) (ch : Z) : Z -> Z -> SubframeData :=
  fold_left (fun tb i => set_subframe tb ch i (mkSubframeData 0 (words (tb ch i))))
            (map Z.of_nat (seq 0 (Z.to_nat MAXSUBFR))) tbl.

(** [bool GNSSdataFromOSP::getMID8GPSNavData(int ch, int sv, RinexData
    &rinex)], called with [0 <= ch < MAXCHANNELS]. *)
Definition getMID8GPSNavData (g : t) (ch sv : Z) (rinex : RinexData.t)
    : bool * t * RinexData.t :=
  match getUInts 10 (message g) with
  | (Throw _, m1) => (false, set_message g m1, rinex)
  | (Val wd, m1) =>
      let g1 := set_message g m1 in
      if negb (forallb checkGPSparity wd) then (false, g1, rinex)
      else
        let wd := map removeParity wd in
        let subfrmID := (nth 1 wd 0 >> 2) .& 0x07 in
        let pgID := (nth 2 wd 0 >> 16) .& 0x3F in
        if ((0 <? subfrmID) && (subfrmID <? 4)) || ((subfrmID =? 4) && (pgID =? 56)) then
          let subfrmID := subfrmID - 1 in
          let g2 := set_subfrmCh g1
                      (set_subframe (subfrmCh g1) ch subfrmID (mkSubframeData sv wd)) in
          if allGPSEphemReceived g2 ch then
            let navW := packNavW g2 ch sv in
            let rinex1 :=
              match extractGPSEphemeris navW with
              | (sat, Some bom) =>
                  let '(tTag, bo) := scaleGPSEphemeris bom in
                  snd (RinexData.saveNavData rinex "G" sat bo tTag)
              | (_, None) => rinex
              end in
            (true, set_subfrmCh g2 (clearSubframes (subfrmCh g2) ch), rinex1)
          else (true, g2, rinex)
        else (true, g1, rinex)
  end.

(** [bool GNSSdataFromOSP::getMID7TimeData(RinexData &rinex)]. *)
Definition getMID7TimeData (g : t) (rinex : RinexData.t) : bool * t * RinexData.t :=
  match OSPMessage.getUShort (message g) with
  | (Throw _, m1) => (false, set_message g m1, rinex)
  | (Val week, m1) =>
  let g1 := set_epoch (set_message g m1) week (epochGPStow g) (epochClkBias g)
                      (epochClkDrift g) in
  match OSPMessage.getUInt m1 with
  | (Throw _, m2) => (false, set_message g1 m2, rinex)
  | (Val tow, m2) =>
  let g2 := set_epoch (set_message g1 m2) week (double_of_Z tow / 100.0)%float
                      (epochClkBias g1) (epochClkDrift g1) in
  match OSPMessage.get m2 with
  | (Throw _, m3) => (false, set_message g2 m3, rinex)
  | (Val sats, m3) =>
  let g3 := set_message g2 m3 in
  if sats <? minSVSfix g3 then (false, g3, rinex)
  else
  match OSPMessage.getUInt m3 with
  | (Throw _, m4) => (false, set_message g3 m4, rinex)
  | (Val drift, m4) =>
  let g4 := set_epoch (set_message g3 m4) week (epochGPStow g3) (epochClkBias g3)
                      (double_of_Z drift) in
  match OSPMessage.getUInt m4 with
  | (Throw _, m5) => (false, set_message g4 m5, rinex)
  | (Val bias, m5) =>
  let g5 := set_epoch (set_message g4 m5) week (epochGPStow g4)
                      (double_of_Z bias * 1.0e-9)%float (epochClkDrift g4) in
  let g6 := if negb (applyBias g5)
            then set_epoch g5 week (epochGPStow g5 + epochClkBias g5)%float 0.0%float
                           (epochClkDrift g5)
            else g5 in
  (true, g6,
   RinexData.setEpochTime rinex (epochGPSweek g6) (epochGPStow g6) (epochClkBias g6) 0)
  end end end end end.

(** The values that [acqEpochData] gives to [anObservable] before it saves
    the observables C1C, L1C and D1C of the channel data [it]. *)
Definition observableC1C (g : t) (it : ChannelObs) : float :=
  let anObservable := psedrng it in
  if applyBias g && negb (PrimFloat.eqb anObservable 0.0)
  then (anObservable - epochClkBias g * C1CADJ)%float
  else anObservable.

Definition observableL1C (g : t) (it : ChannelObs) : float :=
  let anObservable := (carrPh it * L1WLINV)%float in
  if applyBias g && negb (PrimFloat.eqb anObservable 0.0)
  then (anObservable - epochClkBias g * L1CADJ)%float
  else anObservable.

Definition observableD1C (g : t) (it : ChannelObs) : float :=
  let anObservable := (carrFq it * L1WLINV)%float in
  if applyBias g && negb (PrimFloat.eqb anObservable 0.0)
  then (anObservable - epochClkDrift g)%float
  else anObservable.

(** The body of the loop over [chSatObs] in [case 7] of [acqEpochData]: the
    four calls of [saveObsData] for one channel. *)
Definition saveChannelObs (g : t) (it : ChannelObs) (rinex : RinexData.t) : RinexData.t :=
  let r1 := snd (RinexData.saveObsData rinex (system it) (satPrn it) "C1C"
                   (observableC1C g it) (limitOl it) (strgIdx it) (timeT it)) in
  let r2 := snd (RinexData.saveObsData r1 (system it) (satPrn it) "L1C"
                   (observableL1C g it) (limitOl it) (strgIdx it) (timeT it)) in
  let r3 := snd (RinexData.saveObsData r2 (system it) (satPrn it) "D1C"
                   (observableD1C g it) (limitOl it) (strgIdx it) (timeT it)) in
  snd (RinexData.saveObsData r3 (system it) (satPrn it) "S1C"
         (signalStrg it) (limitOl it) (strgIdx it) (timeT it)).

(** [case 7] of the [switch] of [acqEpochData], entered after the MID byte
    was read.  The boolean tells whether [acqEpochData] returns [true]
    there; otherwise its loop goes on with the next message. *)
Definition acqEpochData_MID7 (g : t) (rinex : RinexData.t) : bool * t * RinexData.t :=
  match getMID7TimeData g rinex with
  | (true, g1, rinex1) =>
      if negb (empty (chSatObs g1)) then
        (true, set_chSatObs g1 [],
         fold_left (fun r it => saveChannelObs g1 it r) (chSatObs g1) rinex1)
      else (false, g1, rinex1)
  | (false, g1, rinex1) => (false, g1, rinex1)
  end.

(** Subranges of the satellite numbers given by the receiver, and sizes of
    the GLONASS tables (GNSSdataFromOSP.h). *)
Definition FIRSTGLOSAT : Z := 70.
Definition LASTGLOSAT : Z := 83.
Definition MAXGLOSATS : Z := 14.
Definition FIRSTSBASSAT : Z := 101.
Definition LASTSBASSAT : Z := 200.

(** [struct GLONASSslot]. *)
Record GLONASSslot : Type := mkGLONASSslot {
  rcvCh : Z;
  rcvSat : Z;
  slot : Z
}.

(** A sequence of reads from the message of the object. *)
#[local] Notation "x <- r ;; k" := (OSPMessage.bind r (fun x => k))
  (at level 61, r at next level, right associativity).

(** [int GNSSdataFromOSP::getGLOslot(int ch, int sat)]; [satGLOslt] is the
    member array [GLONASSslot satGLOslt[MAXGLOSATS]]. *)
Definition getGLOslot (satGLOslt : Z -> GLONASSslot) (ch sat : Z) : Z :=
  if (FIRSTGLOSAT <=? sat) && (sat <=? LASTGLOSAT)
     && (slot (satGLOslt (sat - FIRSTGLOSAT)) >? 0)
  then slot (satGLOslt (sat - FIRSTGLOSAT))
  else sat.

(** The three words [stringW] that [getGLOstring] packs from the words
    [ospW] of the message. *)
Definition packGLOstring (ospW : list Z) : list Z :=
  let W k := nth k ospW 0 in
  [ ((W 2%nat .& 0x003FFFFF) << 10) .| ((W 3%nat .& 0x01FF8000) >> 15);
    ((W 0%nat .& 0x0000000F) << 28) .| ((W 1%nat .& 0x01FFFFFF) << 3)
      .| ((W 2%nat .& 0x01C00000) >> 22);
    (W 0%nat .& 0x00FFFFF0) >> 4 ].

(** [int GNSSdataFromOSP::getGLOstring(unsigned int (&stringW)[3])]: the
    value returned, the array [stringW], which is left as it was when the
    message ends before the ten words, and the message. *)
Definition getGLOstring (stringW : list Z) (m : OSPMessage.t)
    : Z * list Z * OSPMessage.t :=
  match getUInts 10 m with
  | (Throw _, m1) => (0, stringW, m1)
  | (Val ospW, m1) =>
      let stringW := packGLOstring ospW in
      (getBits stringW 80 4, stringW, m1)
  end.

(** The loop of [getMID28ObsData] that reads the C/N0 values 2 to 10 and
    keeps the worst one. *)
Fixpoint worstStrength (n : nat) (strength : Z) : OSPMessage.reader Z :=
  match n with
  | O => OSPMessage.ret strength
  | S n' =>
      carrier2noise <- OSPMessage.get ;;
      worstStrength n' (if carrier2noise <? strength then carrier2noise else strength)
  end.

(** What the [try] block of [getMID28ObsData] reads. *)
Record MID28 : Type := mkMID28 {
  sys : ascii;
  satID : Z;
  gpsSWtime : float;
  pseudorange : float;
  carrierFrequency : float;
  carrierPhase : float;
  syncFlags : Z;
  strength : Z
}.

(** The [try] block of [getMID28ObsData]: [None] when the satellite number
    is in none of the GPS, GLONASS and SBAS ranges, where the method returns
    [false] at once. *)
Definition readMID28 (satGLOslt : Z -> GLONASSslot) : OSPMessage.reader (option MID28) :=
  channel <- OSPMessage.get ;;
  timeTag <- OSPMessage.getInt ;;
  sv <- OSPMessage.get ;;
  match (if (FIRSTGPSSAT <=? sv) && (sv <=? LASTGPSSAT) then Some ("G"%char, sv)
         else if (FIRSTGLOSAT <=? sv) && (sv <=? LASTGLOSAT)
              then Some ("R"%char, getGLOslot satGLOslt channel sv)
         else if (FIRSTSBASSAT <=? sv) && (sv <=? LASTSBASSAT)
              then Some ("S"%char, sv - 100)
         else None) with
  | None => OSPMessage.ret None
  | Some (sys, satID) =>
      gpsSWtime <- OSPMessage.getDouble ;;
      pseudorange <- OSPMessage.getDouble ;;
      carrierFrequency <- OSPMessage.getFloat ;;
      carrierPhase <- OSPMessage.getDouble ;;
      timeInTrack <- OSPMessage.getUShort ;;
      syncFlags <- OSPMessage.get ;;
      strength <- OSPMessage.get ;;
      strength <- worstStrength 9 strength ;;
      deltaRangeInterval <- OSPMessage.getUShort ;;
      OSPMessage.ret
        (Some (mkMID28 sys satID gpsSWtime pseudorange carrierFrequency carrierPhase
                       syncFlags strength))
  end.

(** "compute strengthIndex as per RINEX spec (5.7): min(max(strength / 6,
    1), 9)". *)
Definition strengthIndex (strength : Z) : Z :=
  let strengthIndex := Z.quot strength 6 in
  let strengthIndex := if strengthIndex <? 1 then 1 else strengthIndex in
  if strengthIndex >? 9 then 9 else strengthIndex.

(** [bool GNSSdataFromOSP::getMID28ObsData(RinexData &rinex, bool
    &sameEpoch)]: the value returned, the value given to [sameEpoch], and
    the object.  The method does not use [rinex]. *)
Definition getMID28ObsData (g : t) (satGLOslt : Z -> GLONASSslot) : bool * bool * t :=
  match readMID28 satGLOslt (message g) with
  | (Throw _, m1) => (false, false, set_message g m1)
  | (Val None, m1) => (false, false, set_message g m1)
  | (Val (Some d), m1) =>
      let g1 := set_message g m1 in
      if negb ((syncFlags d .& 0x01) =? 0) then
        let carrierPhase := if (syncFlags d .& 0x02) =? 0 then 0.0%float
                            else carrierPhase d in
        let carrierFrequency := if (syncFlags d .& 0x10) =? 0 then 0.0%float
                                else carrierFrequency d in
        let obs := mkChannelObs (sys d) (satID d) (pseudorange d) carrierPhase
                     carrierFrequency (double_of_Z (strength d)) 0
                     (strengthIndex (strength d)) (gpsSWtime d) in
        let g2 := set_chSatObs g1 (chSatObs g1 ++ [obs]) in
        (true, PrimFloat.eqb (gpsSWtime d) (timeT (nth 0 (chSatObs g2) obs)), g2)
      else (false, false, g1)
  end.

(** [case 28] of the [switch] of [acqEpochData], entered after the MID byte
    was read: [chSatObs.erase(chSatObs.begin(), chSatObs.end() - 1)] leaves
    the last element. *)
Definition acqEpochData_MID28 (g : t) (satGLOslt : Z -> GLONASSslot) : t :=
  match getMID28ObsData g satGLOslt with
  | (true, sameEpoch, g1) =>
      if negb sameEpoch
      then set_chSatObs g1 (skipn (List.length (chSatObs g1) - 1) (chSatObs g1))
      else g1
  | (false, _, g1) => g1
  end.

End GNSSdataFromOSP.

(* ================================================================== *)
(** * PacketToOSP: from receiver packets to the stripped OSP file *)

Module PacketToOSP.

(** [#define START1 160], [START2 162], [END1 176], [END2 179],
    [MAXPAYLOADSIZE 2048]. *)
Definition START1 : Z := 160.
Definition START2 : Z := 162.
Definition END1 : Z := 176.
Definition END2 : Z := 179.
Definition MAXPAYLOADSIZE : Z := 2048.

(** The globals [payloadBuf], [payloadLnBuf] and [payloadLength]. *)
Record globals : Type := mkGlobals {
  payloadBuf : list Z;
  payloadLnBuf : list Z;
  payloadLength : Z
}.

(** The globals when the program starts: the buffers hold zeros. *)
Definition initial : globals :=
  mkGlobals (repeat 0 (Z.to_nat MAXPAYLOADSIZE)) [0; 0] 0.

(** The inner [switch (inData)] of [case 1] of [synchOSPmsg]. *)
Definition case1 (state inData : Z) : Z :=
  if inData =? START1 then 2
  else if inData =? START2 then state
  else state.

(** The inner [switch (inData)] of [case 2]. *)
Definition case2 (state inData : Z) : Z :=
  if inData =? START1 then state
  else if inData =? START2 then 3
  else 1.

(** [switch (state)] of [synchOSPmsg]: no [break] ends [case 1], so that
    the statements of [case 2] are executed after those of [case 1]. *)
Definition synchSwitch (state inData : Z) : Z :=
  if state =? 1 then case2 (case1 state inData) inData
  else if state =? 2 then case2 state inData
  else state.

(** The loop [while (state!=3)] of [synchOSPmsg]: a byte is read into
    [inData], whose other bytes are 0 ([inData] is the value of the byte on
    the processors the program is built for); at the end of the file the
    function returns [false]. *)
Fixpoint synchOSPmsg_loop (inFile : OSPMessage.FILE) (state : Z) : bool * OSPMessage.FILE :=
  match inFile with
  | [] => (state =? 3, [])
  | inData :: inFile' =>
      if state =? 3 then (true, inFile)
      else synchOSPmsg_loop inFile' (synchSwitch state inData)
  end.

(** [bool synchOSPmsg(FILE* inFile)]. *)
Definition synchOSPmsg (inFile : OSPMessage.FILE) : bool * OSPMessage.FILE :=
  synchOSPmsg_loop inFile 1.

(** The loop that adds [payloadBuf[i]] for [i] from 1 to
    [payloadLength - 1], in [unsigned int]. *)
Definition computeCheck (payloadBuf : list Z) (payloadLength : Z) : Z :=
  fold_left (fun computedCheck i =>
               Z.land (to_uint32 (computedCheck + nth i payloadBuf 0)) 0x7FFF)
            (seq 1 (Z.to_nat payloadLength - 1))
            (nth 0 payloadBuf 0).

(** [int readOSPmsg(FILE* inFile)]. *)
Definition readOSPmsg (gl : globals) (inFile : OSPMessage.FILE)
    : Z * globals * OSPMessage.FILE :=
  let '(buffer, inFile1) := OSPMessage.fread 2 inFile in
  let lnBuf := OSPMessage.store buffer (payloadLnBuf gl) in
  if negb (Z.of_nat (List.length buffer) =? 2)
  then (4, mkGlobals (payloadBuf gl) lnBuf 0, inFile1)
  else
    let len := Z.lor (Z.shiftl (nth 0 lnBuf 0) 8) (nth 1 lnBuf 0) in
    if negb ((0 <? len) && (len <? MAXPAYLOADSIZE - 2))
    then (3, mkGlobals (payloadBuf gl) lnBuf len, inFile1)
    else
      let '(block, inFile2) := OSPMessage.fread (len + 2) inFile1 in
      let buf := OSPMessage.store block (payloadBuf gl) in
      let gl2 := mkGlobals buf lnBuf len in
      if negb (Z.of_nat (List.length block) =? len + 2) then (2, gl2, inFile2)
      else
        let computedCheck := computeCheck buf len in
        let messageCheck :=
          Z.lor (Z.shiftl (nth (Z.to_nat len) buf 0) 8) (nth (Z.to_nat (len + 1)) buf 0) in
        if negb (computedCheck =? messageCheck) then (1, gl2, inFile2)
        else (0, gl2, inFile2).

(** The files, globals, counters and logger trace of [filterPkts]. *)
Record run : Type := mkRun {
  inFile : OSPMessage.FILE;
  outFile : list Z;
  gl : globals;
  nPkt : Z;
  nMsgWrite : Z;
  plog : list Logger.entry
}.

(** The text [logMsg] of [filterPkts]. *)
Definition logMsg (gl : globals) (nPkt : Z) : string :=
  ("Packet " ++ fmt_d nPkt ++ " OSP <" ++ fmt_d (nth 0 (payloadBuf gl) 0) ++ ","
   ++ fmt_d (payloadLength gl) ++ "> ")%string.

(** The loop "Reads packets from the input stream until end of file
    happen" of [filterPkts], and what follows it.  The files are open; the
    two [fwrite] write all the bytes given.  Every round reads a byte at
    least; [fuel] bounds the number of rounds. *)
Fixpoint filterPkts_loop (fuel : nat) (st : run) : Z * run :=
  match fuel with
  | O => (0, st)
  | S fuel' =>
      match synchOSPmsg (inFile st) with
      | (false, inFile1) =>
          (0, mkRun inFile1 (outFile st) (gl st) (nPkt st) (nMsgWrite st)
                (plog st ++ [(Logger.INFO,
                              [Chars ("Packets read:" ++ fmt_d (nPkt st)
                                      ++ " Messages written:" ++ fmt_d (nMsgWrite st))])]))
      | (true, inFile1) =>
          let nPkt1 := nPkt st + 1 in
          let '(anInt, gl1, inFile2) := readOSPmsg (gl st) inFile1 in
          let msg := logMsg gl1 nPkt1 in
          let st1 :=
            if anInt =? 0 then
              let nMsgWrite1 := nMsgWrite st + 1 in
              mkRun inFile2
                (outFile st ++ firstn 2 (payloadLnBuf gl1)
                 ++ firstn (Z.to_nat (payloadLength gl1)) (payloadBuf gl1))
                gl1 nPkt1 nMsgWrite1
                (plog st ++ [(Logger.FINEST,
                              [Chars (msg ++ "to msg " ++ fmt_d nMsgWrite1)])])
            else
              mkRun inFile2 (outFile st) gl1 nPkt1 (nMsgWrite st)
                (plog st
                 ++ [(Logger.WARNING,
                      [Chars (msg ++ (if anInt =? 1 then "Error in checksum"
                                      else if anInt =? 2 then "Error reading payload"
                                      else if anInt =? 3 then "Error length too big"
                                      else "Error reading payload length"))])]) in
          filterPkts_loop fuel' st1
      end
  end.

(** [int filterPkts(Logger* plog)], from the point where the two files are
    open: [packets] is the content of the input file. *)
Definition filterPkts (packets : OSPMessage.FILE) : Z * run :=
  filterPkts_loop (S (List.length packets)) (mkRun packets [] initial 0 0 []).

End PacketToOSP.

(* ================================================================== *)
(** * Vocabulary of the properties *)

(** The length that [fill] decodes from the two bytes [hi], [lo]. *)
Definition decodedLength (hi lo : Z) : Z := Z.lor (Z.shiftl hi 8) lo.

(** The arguments of one call of [saveObsData]. *)
Record obsCall : Type := mkObsCall {
  call_sys : ascii;
  call_sat : Z;
  call_obsType : string;
  call_value : float;
  call_lol : Z;
  call_strg : Z;
  call_tTag : float
}.

(** The call [c] made on the object [r]. *)
Definition saveObs (r : RinexData.t) (c : obsCall) : bool * RinexData.t :=
  RinexData.saveObsData r (call_sys c) (call_sat c) (call_obsType c) (call_value c)
    (call_lol c) (call_strg c) (call_tTag c).

(** A sequence of calls of [saveObsData], made one after the other. *)
Definition saveObsSeq (r : RinexData.t) (calls : list obsCall) : RinexData.t :=
  fold_left (fun r' c => snd (saveObs r' c)) calls r.

(** Every observation held in the epoch store has the time tag of the
    epoch, as [==] compares them. *)
Definition oneEpoch (r : RinexData.t) : Prop :=
  Forall (fun it => PrimFloat.eqb (RinexData.epochTimeTag r) (RinexData.obsTimeTag it) = true)
         (RinexData.epochObs r).

(** The time tag [tTag] is the one of the current epoch of [r]: the tag of
    the observations stored or, when the store is empty, a tag that [==]
    finds equal to itself. *)
Definition inCurrentEpoch (r : RinexData.t) (tTag : float) : Prop :=
  PrimFloat.eqb (if empty (RinexData.epochObs r) then tTag else RinexData.epochTimeTag r) tTag
  = true.

(** The header of [r] declares the observable [obsTy] for the system
    [sys]. *)
Definition declared (r : RinexData.t) (sys : ascii) (obsTy : string) : Prop :=
  0 <= RinexData.sysInx r sys
  /\ RinexData.find_obsType
       (RinexData.obsType (RinexData.system_at (RinexData.systems r) (RinexData.sysInx r sys)))
       obsTy 0 <> None.

(** The navigation store of [r] holds a record with the key
    [(tTag, sys, sat)]. *)
Definition navKeyPresent (r : RinexData.t) (sys : ascii) (sat : Z) (tTag : float) : Prop :=
  Exists (fun it => RinexData.systemId it = sys /\ RinexData.navSatellite it = sat
                    /\ PrimFloat.eqb tTag (RinexData.navTimeTag it) = true)
         (RinexData.epochNav r).

(** Two values of the specification of binary64 that [==] finds equal. *)
Definition SFsame (x y : spec_float) : Prop :=
  match x, y with
  | S754_zero _, S754_zero _ => True
  | S754_infinity s1, S754_infinity s2 => s1 = s2
  | S754_finite s1 m1 e1, S754_finite s2 m2 e2 => s1 = s2 /\ m1 = m2 /\ e1 = e2
  | _, _ => False
  end.

(** ** Sample data *)

(** A model whose header declares the systems G and R, with empty stores. *)
Definition sampleRinex : RinexData.t :=
  RinexData.mk
    [RinexData.newGNSSsystem "G" ["C1C"; "L1C"; "D1C"; "S1C"]%string;
     RinexData.newGNSSsystem "R" ["C1C"; "L1C"]%string]
    0 0%float 0%float 0%float 0 0 [] [] false false [] [].

(** Three calls of [saveObsData]: two with the time tag 100, then one with
    the time tag 101. *)
Definition sampleCalls : list obsCall :=
  [mkObsCall "G" 7 "C1C" 21000000.5%float 0 5 100%float;
   mkObsCall "G" 7 "L1C" 110000000.25%float 0 5 100%float;
   mkObsCall "R" 3 "C1C" 19000000.75%float 0 4 101%float].

(** A mantissa matrix [bom] with the fit flag [bom[7][1]] and [bom[6][3]]
    (the IODC) as given, and zero elsewhere. *)
Definition sampleMantissa (fitFlag iodc : Z) : Z -> Z -> Z :=
  fun i j =>
    if (i =? 7) && (j =? 1) then fitFlag
    else if (i =? 6) && (j =? 3) then iodc
    else 0.

(** An acquisition object that applies the clock bias, with a clock bias of
    one millisecond and a drift of 90 Hz. *)
Definition sampleAcq : GNSSdataFromOSP.t :=
  GNSSdataFromOSP.mk 4 true 1800 43200%float 0.001%float 90%float
    (OSPMessage.init []) (fun _ _ => GNSSdataFromOSP.mkSubframeData 0 []) [].

(** The data of a channel whose pseudorange, carrier phase and carrier
    frequency are 0.0. *)
Definition sampleZeroObs : GNSSdataFromOSP.ChannelObs :=
  GNSSdataFromOSP.mkChannelObs "G" 7 0%float 0%float 0%float 42%float 0 7 100%float.

(** The systems G and R, each with the observables C1C and L1C, as the
    constructor of [GNSSsystem] makes them. *)
Definition systemsGR : list RinexData.GNSSsystem :=
  [RinexData.newGNSSsystem "G" ["C1C"; "L1C"]%string;
   RinexData.newGNSSsystem "R" ["C1C"; "L1C"]%string].

(** The observation store after [setFilter(selSat, selObs)] and then
    [filterObsData]. *)
Definition filteredObs (r : RinexData.t) (selSat selObs : list string)
    : list RinexData.SatObsData :=
  RinexData.epochObs
    (snd (RinexData.filterObsData (snd (RinexData.setFilter r selSat selObs)))).

(** An observation of the system at index [sx] of the satellite [sat], for
    the observable at index [ox]. *)
Definition sampleObs (sx sat ox : Z) : RinexData.SatObsData :=
  RinexData.mkSatObsData 100%float sx sat ox 21000000.5%float 0 5.

(** The model with the systems [systemsGR] that holds one observation of
    R03 (C1C), and two of G07 (L1C and C1C). *)
Definition sampleGR : RinexData.t :=
  RinexData.mk systemsGR 0 0%float 100%float 0%float 0 0
    [sampleObs 1 3 0; sampleObs 0 7 1; sampleObs 0 7 0] [] false false [] [].

(** The entries of [v] whose satellite differs from the one of the entry
    before them; [before] is the entry before the first one. *)
Fixpoint laterSats (before : RinexData.SatObsData) (v : list RinexData.SatObsData)
    : list RinexData.SatObsData :=
  match v with
  | [] => []
  | it :: v' =>
      if RinexData.DIFFERENT_SAT before it then it :: laterSats it v' else laterSats it v'
  end.

(** The satellites of an epoch, in the order of the store: one entry for
    each run of entries of the same satellite. *)
Definition epochSats (v : list RinexData.SatObsData) : list RinexData.SatObsData :=
  match v with
  | [] => []
  | first :: rest => first :: laterSats first rest
  end.

(** [n] blank fields of three columns. *)
Definition padding (n : nat) : text := repeat (Chars (fmt_wc 3 " ")) n.

(** The continuation lines for the satellites [triples] that follow the
    twelfth: each line is opened by a line feed and 32 blank columns and
    takes up to twelve satellites, blank fields filling it up to twelve.
    [fuel] bounds the number of lines. *)
Fixpoint continuationLines (fuel : nat) (triples : text) : text :=
  match fuel with
  | O => []
  | S fuel' =>
      match triples with
      | [] => []
      | _ :: _ =>
          [Chars newline; Chars (fmt_wc 32 " ")]
          ++ firstn 12 triples
          ++ padding (12 - List.length (firstn 12 triples))
          ++ continuationLines fuel' (skipn 12 triples)
      end
  end.

(** The epoch header of RINEX 2.10 for more than twelve satellites: the
    time, the flag and the number of satellites, the first twelve
    satellites, the receiver clock offset; then the continuation lines; then
    the line feed that ends the last line. *)
Definition headerLayoutV210 (r : RinexData.t) (sats : list RinexData.SatObsData) : text :=
  [GPStime " %y %m %d %H %M" "%11.7f" (RinexData.epochWeek r) (RinexData.epochTOW r);
   Chars ("  " ++ fmt_wd 1 (RinexData.epochFlag r)
          ++ fmt_wd 3 (Z.of_nat (List.length sats)))]
  ++ firstn 12 (map (RinexData.satText r) sats)
  ++ [Double "%12.9f" (RinexData.epochClkOffset r)]
  ++ continuationLines (List.length sats) (skipn 12 (map (RinexData.satText r) sats))
  ++ [Chars newline].

(** The piece is a line feed. *)
Definition isNewline (p : piece) : bool :=
  match p with
  | Chars s => String.eqb s newline
  | _ => false
  end.

(** The lines of a text, each without the line feed that ends it. *)
Fixpoint lines (t : text) : list text :=
  match t with
  | [] => []
  | p :: t' =>
      if isNewline p then [] :: lines t'
      else match lines t' with
           | [] => [[p]]
           | l :: ls => (p :: l) :: ls
           end
  end.

(** A model with the systems [systemsGR] whose epoch holds the observable
    C1C of the thirteen satellites G01 to G13, with a receiver clock offset
    of half a second. *)
Definition sample13 : RinexData.t :=
  RinexData.mk systemsGR 1800 43200%float 100%float 0.5%float 0 0
    (map (fun k => sampleObs 0 (Z.of_nat k) 0) (seq 1 13)) [] false false [] [].

(** The channel [ch] holds no subframe: the satellite number of each of
    its slots is zero. *)
Definition channelCleared (g : GNSSdataFromOSP.t) (ch : Z) : Prop :=
  forall i : Z, 0 <= i < GNSSdataFromOSP.MAXSUBFR ->
    GNSSdataFromOSP.sv (GNSSdataFromOSP.subfrmCh g ch i) = 0.

(** The subframe number in the second word (HOW) of the data words [wd] of
    a subframe. *)
Definition subframeID (wd : list Z) : Z :=
  Z.land (Z.shiftr (nth 1 wd 0) 2) 0x07.

(** The eight low bits of the IODC in the data words of subframe 1, and the
    IODE in the data words of subframe 2 and of subframe 3. *)
Definition iodcLSB (wd : list Z) : Z := Z.land (Z.shiftr (nth 7 wd 0) 16) 0xFF.
Definition iodeSubframe2 (wd : list Z) : Z := Z.land (Z.shiftr (nth 2 wd 0) 16) 0xFF.
Definition iodeSubframe3 (wd : list Z) : Z := Z.land (Z.shiftr (nth 9 wd 0) 16) 0xFF.

(** The message [m], read up to the satellite number, delivers the ten
    words [raw]; their parity is correct and they are the subframe number
    [id]. *)
Definition carriesSubframe (m : OSPMessage.t) (raw : list Z) (id : Z) : Prop :=
  fst (GNSSdataFromOSP.getUInts 10 m) = Val raw
  /\ forallb GNSSdataFromOSP.checkGPSparity raw = true
  /\ subframeID (map GNSSdataFromOSP.removeParity raw) = id.

(** The MID 8 message [m] of the satellite [sv] tracked on the channel [ch]
    is handed to [getMID8GPSNavData]. *)
Definition feedSubframe (ch sv : Z) (st : GNSSdataFromOSP.t * RinexData.t)
    (m : OSPMessage.t) : GNSSdataFromOSP.t * RinexData.t :=
  let '(_, g, rinex) :=
    GNSSdataFromOSP.getMID8GPSNavData (GNSSdataFromOSP.set_message (fst st) m) ch sv (snd st)
  in (g, rinex).

(** A sequence of MID 8 messages handed over one after the other. *)
Definition feedSubframes (ch sv : Z) (ms : list OSPMessage.t)
    (st : GNSSdataFromOSP.t * RinexData.t) : GNSSdataFromOSP.t * RinexData.t :=
  fold_left (feedSubframe ch sv) ms st.

(** The acquisition object after [getMID8GPSNavData] read its message,
    left as [m'], and stored the subframe [s] in [subfrmCh[ch][i]]. *)
Definition withSubframe (g : GNSSdataFromOSP.t) (m' : OSPMessage.t) (ch i : Z)
    (s : GNSSdataFromOSP.SubframeData) : GNSSdataFromOSP.t :=
  GNSSdataFromOSP.set_subfrmCh (GNSSdataFromOSP.set_message g m')
    (GNSSdataFromOSP.set_subframe (GNSSdataFromOSP.subfrmCh g) ch i s).

(** The IODC of subframe 1 and the IODE of subframes 2 and 3 agree. *)
Definition sameIssue (wd1 wd2 wd3 : list Z) : Prop :=
  iodcLSB wd1 = iodeSubframe2 wd2 /\ iodcLSB wd1 = iodeSubframe3 wd3.

(** The four bytes of a 32-bit word, the most significant first. *)
Definition bytesOfWord (w : Z) : list Z :=
  [Z.land (Z.shiftr w 24) 0xFF; Z.land (Z.shiftr w 16) 0xFF;
   Z.land (Z.shiftr w 8) 0xFF; Z.land w 0xFF].

(** A MID 8 message of 43 bytes for the channel [ch] and the satellite [sv]
    with the ten words [raw], read up to the satellite number. *)
Definition sampleMID8 (ch sv : Z) (raw : list Z) : OSPMessage.t :=
  OSPMessage.mk ([8; ch; sv] ++ flat_map bytesOfWord raw) 43 3.

(** The words, parity included, of a subframe 1 whose IODC ends in 0x5A,
    and of a subframe 2 and a subframe 3 whose IODE is 0x5A. *)
Definition sampleSubframe1 : list Z :=
  [0; 267; 165; 246; 267; 344; 430; 377487389; 534; 581].
Definition sampleSubframe2 : list Z :=
  [0; 534; 377487389; 246; 267; 344; 430; 509; 534; 581].
Definition sampleSubframe3 : list Z :=
  [0; 797; 165; 246; 267; 344; 430; 509; 534; 377487389].

(* ================================================================== *)
(** * Vocabulary of the properties of the decoding routines *)

(** The bit at position [p] of a bit stream: position 0 is bit 0 of word 0,
    position 32 is bit 0 of word 1, and so on. *)
Definition streamBit (stream : list Z) (p : Z) : bool :=
  Z.testbit (stream_word stream (p / 32)) (p mod 32).

(** The characters of [s] other than [separator]. *)
Fixpoint withoutSeparator (separator : ascii) (s : string) : string :=
  match s with
  | EmptyString => EmptyString
  | String c s' =>
      if Ascii.eqb c separator then withoutSeparator separator s'
      else String c (withoutSeparator separator s')
  end.

(** [separator] occurs in [s]. *)
Fixpoint hasSeparator (separator : ascii) (s : string) : bool :=
  match s with
  | EmptyString => false
  | String c s' => Ascii.eqb c separator || hasSeparator separator s'
  end.

(** What [getTokens] can return for the separator: a text that is not empty
    and does not hold the separator. *)
Definition isToken (separator : ascii) (s : string) : Prop :=
  s <> EmptyString /\ hasSeparator separator s = false.

(** The tokens written one after the other with [separator] between them. *)
Definition joinTokens (separator : ascii) (tokens : list string) : string :=
  String.concat (String separator EmptyString) tokens.

(** A lower-case letter of the C locale. *)
Definition islower (c : ascii) : bool :=
  ((97 <=? nat_of_ascii c) && (nat_of_ascii c <=? 122))%nat.

(** Some character of [s] is a lower-case letter. *)
Fixpoint hasLower (s : string) : bool :=
  match s with
  | EmptyString => false
  | String c s' => islower c || hasLower s'
  end.

(** [n] calls of [get], one after the other. *)
Fixpoint gets (n : nat) : OSPMessage.reader (list Z) :=
  match n with
  | O => OSPMessage.ret []
  | S n' =>
      OSPMessage.bind OSPMessage.get
        (fun b => OSPMessage.bind (gets n') (fun bs => OSPMessage.ret (b :: bs)))
  end.

(** The message with its cursor moved [k] bytes on. *)
Definition advance (m : OSPMessage.t) (k : Z) : OSPMessage.t :=
  OSPMessage.mk (OSPMessage.payload m) (OSPMessage.payloadLength m) (OSPMessage.cursor m + k).

(** The [k] bytes of the buffer from the cursor on. *)
Definition atCursor (m : OSPMessage.t) (k : nat) : list Z :=
  firstn k (skipn (Z.to_nat (OSPMessage.cursor m)) (OSPMessage.payload m)).

(** A byte value. *)
Definition isByte (b : Z) : Prop := 0 <= b < 256.

(** One call of a method of [OSPMessage] on a filled message. *)
Inductive call : Type :=
| Get | GetInt | GetUInt | GetShort | GetUShort | GetFloat | GetDouble | GetInt3
| SkipBytes (n : Z).

(** What a call returns. *)
Inductive returned : Type :=
| Int (z : Z)
| Floating (f : float)
| Boolean (b : bool).

Definition doCall (c : call) : OSPMessage.reader returned :=
  match c with
  | Get => OSPMessage.bind OSPMessage.get (fun z => OSPMessage.ret (Int z))
  | GetInt => OSPMessage.bind OSPMessage.getInt (fun z => OSPMessage.ret (Int z))
  | GetUInt => OSPMessage.bind OSPMessage.getUInt (fun z => OSPMessage.ret (Int z))
  | GetShort => OSPMessage.bind OSPMessage.getShort (fun z => OSPMessage.ret (Int z))
  | GetUShort => OSPMessage.bind OSPMessage.getUShort (fun z => OSPMessage.ret (Int z))
  | GetFloat => OSPMessage.bind OSPMessage.getFloat (fun f => OSPMessage.ret (Floating f))
  | GetDouble => OSPMessage.bind OSPMessage.getDouble (fun f => OSPMessage.ret (Floating f))
  | GetInt3 => OSPMessage.bind OSPMessage.getInt3 (fun z => OSPMessage.ret (Int z))
  | SkipBytes n => fun m => let '(b, m1) := OSPMessage.skipBytes m n in (Val (Boolean b), m1)
  end.

(** The calls of a list made in turn, up to the first one that throws. *)
Fixpoint doCalls (cs : list call) : OSPMessage.reader (list returned) :=
  match cs with
  | [] => OSPMessage.ret []
  | c :: cs' =>
      OSPMessage.bind (doCall c)
        (fun v => OSPMessage.bind (doCalls cs') (fun vs => OSPMessage.ret (v :: vs)))
  end.

(** Two messages of the same length, read up to the same place, whose
    buffers agree on the bytes of the message; the buffers may differ in
    what earlier, longer messages left after them. *)
Definition sameMessage (m m' : OSPMessage.t) : Prop :=
  OSPMessage.payloadLength m = OSPMessage.payloadLength m'
  /\ OSPMessage.cursor m = OSPMessage.cursor m'
  /\ firstn (Z.to_nat (OSPMessage.payloadLength m)) (OSPMessage.payload m)
     = firstn (Z.to_nat (OSPMessage.payloadLength m')) (OSPMessage.payload m').

(** The word whose parity [checkGPSparity] computes for [d]: [d] itself,
    or [d] with its 30 low bits complemented when D30 (bit 30) is set. *)
Definition toCheck (d : Z) : Z :=
  if negb (Z.land d 0x40000000 =? 0)
  then Z.lor (Z.land d 0xC0000000) (Z.land (not32 d) 0x3FFFFFFF)
  else d.

(** The parity bit number [i] (0 to 5) that [checkGPSparity] computes. *)
Definition parityBit (i : nat) (d : Z) : Z :=
  Z.rem (GNSSdataFromOSP.bitsSet (Z.land (nth i GNSSdataFromOSP.parityBitMask 0) (toCheck d))) 2.

(** The number of bits set among the 32 low bits, as a sum. *)
Fixpoint bitCount (n : nat) (x : Z) : Z :=
  match n with
  | O => 0
  | S n' => bitCount n' x + Z.b2z (Z.testbit x (Z.of_nat n'))
  end.

(** The word [d] with its bit [k] inverted. *)
Definition flipBit (d k : Z) : Z := Z.lxor d (2 ^ k).

(** The six parity bits put together as [checkGPSparity] does. *)
Definition parityWord (d : Z) : Z :=
  Z.lor (Z.lor (Z.lor (Z.lor (Z.lor (Z.lor 0
    (shl32 (parityBit 0 d) 5)) (shl32 (parityBit 1 d) 4)) (shl32 (parityBit 2 d) 3))
    (shl32 (parityBit 3 d) 2)) (shl32 (parityBit 4 d) 1)) (shl32 (parityBit 5 d) 0).

(** The bit number [b] (1 to 84) of the GLONASS string carried by the ten
    words [ospW] of a MID 8 message, as the description of [getGLOstring]
    places it: word 0, bits 23 to 0, holds the string bits 84 to 61; word 1,
    bits 24 to 0, the string bits 60 to 36; word 2, bits 24 to 0, the string
    bits 35 to 11; word 3, bits 24 to 15, the string bits 10 to 1. *)
Definition gloStringBit (ospW : list Z) (b : Z) : bool :=
  if b <=? 10 then Z.testbit (nth 3 ospW 0) (b + 14)
  else if b <=? 35 then Z.testbit (nth 2 ospW 0) (b - 11)
  else if b <=? 60 then Z.testbit (nth 1 ospW 0) (b - 36)
  else Z.testbit (nth 0 ospW 0) (b - 61).

(** A value of [unsigned int]. *)
Definition isUInt32 (w : Z) : Prop := 0 <= w < 2 ^ 32.

(** The ten words [raw] with the bit [k] of the word number [j] inverted. *)
Definition corrupted (raw : list Z) (j : nat) (k : Z) : list Z :=
  alter (fun w => flipBit w k) j raw.

(** The 45 words of a navigation message "as per MID 15" for the satellite
    7, with the issue of data 0x5A in its three subframes and the other
    fields zero. *)
Definition sampleNavW : list Z :=
  [7; 0; 0; 0; 0; 0; 0; 0; 0; 0; 0x5A; 0; 0; 0; 0;
   7; 0; 0; 0x5A00; 0; 0; 0; 0; 0; 0; 0; 0; 0; 0; 0;
   7; 0; 0; 0; 0; 0; 0; 0; 0; 0; 0; 0; 0; 0x5A; 0].

(** The [n] bytes of the buffer of [m] that start [k] bytes after the
    cursor. *)
Definition bytesFrom (m : OSPMessage.t) (k : Z) (n : nat) : list Z :=
  map (fun i => OSPMessage.byte_at m (k + Z.of_nat i)) (seq 0 n).

(** The least of [x] and the elements of [l]. *)
Definition least (x : Z) (l : list Z) : Z := fold_left Z.min l x.

(** In the channel data, every element after the first one has the time
    tag of the first one. *)
Definition sameTimeTag (v : list GNSSdataFromOSP.ChannelObs) : Prop :=
  match v with
  | [] => True
  | first :: rest =>
      Forall (fun it => PrimFloat.eqb (GNSSdataFromOSP.timeT it)
                                      (GNSSdataFromOSP.timeT first) = true) rest
  end.

(** A MID 28 message after its MID byte was read: channel 3, satellite 7,
    time 100.0, pseudorange 19922944.0, carrier frequency 1.0, carrier phase
    1.0, synchronisation flags 0x13 and ten C/N0 values of which 37 is the
    worst. *)
Definition sampleMID28 : OSPMessage.t :=
  OSPMessage.mk
    ([28; 3; 0; 0; 0; 1; 7]
     ++ [0; 0; 0; 0; 0x40; 0x59; 0; 0]
     ++ [0; 0; 0; 0; 0x41; 0x73; 0; 0]
     ++ [0x3F; 0x80; 0; 0]
     ++ [0; 0; 0; 0; 0x3F; 0xF0; 0; 0]
     ++ [0; 10; 0x13]
     ++ [40; 41; 38; 42; 39; 40; 41; 40; 37; 43]
     ++ [0; 0; 0; 0; 0; 0; 0; 0])
    56 1.

(** No GLONASS slot is known. *)
Definition sampleGLOslots (i : Z) : GNSSdataFromOSP.GLONASSslot :=
  GNSSdataFromOSP.mkGLONASSslot 0 0 0.

(** An acquisition object that holds a measurement of time 50.0 and the
    message [sampleMID28]. *)
Definition sampleAcq28 : GNSSdataFromOSP.t :=
  GNSSdataFromOSP.set_chSatObs
    (GNSSdataFromOSP.set_message sampleAcq sampleMID28)
    [GNSSdataFromOSP.mkChannelObs "G" 5 2.0e7%float 0%float 0%float 40%float 0 6 50%float].

(** The index of the observable [obsTy] in the list that the header of [r]
    declares for the system [sys]; -1 when it is not declared. *)
Definition obsIndex (r : RinexData.t) (sys : ascii) (obsTy : string) : Z :=
  match RinexData.find_obsType
          (RinexData.obsType
             (RinexData.system_at (RinexData.systems r) (RinexData.sysInx r sys)))
          obsTy 0 with
  | Some ox => ox
  | None => -1
  end.

(** The four observation records of the channel data [it]: pseudorange,
    carrier phase, Doppler and signal strength, with the values that
    [acqEpochData] computes from the clock data of [g]. *)
Definition recordsOf (g : GNSSdataFromOSP.t) (r : RinexData.t)
    (it : GNSSdataFromOSP.ChannelObs) : list RinexData.SatObsData :=
  let record obsTy value :=
    RinexData.mkSatObsData (GNSSdataFromOSP.timeT it)
      (RinexData.sysInx r (GNSSdataFromOSP.system it)) (GNSSdataFromOSP.satPrn it)
      (obsIndex r (GNSSdataFromOSP.system it) obsTy) value
      (GNSSdataFromOSP.limitOl it) (GNSSdataFromOSP.strgIdx it) in
  [record "C1C"%string (GNSSdataFromOSP.observableC1C g it);
   record "L1C"%string (GNSSdataFromOSP.observableL1C g it);
   record "D1C"%string (GNSSdataFromOSP.observableD1C g it);
   record "S1C"%string (GNSSdataFromOSP.signalStrg it)].

(** The header of [r] declares the four observables of the receiver for
    the system of [it]. *)
Definition declaredFor (r : RinexData.t) (it : GNSSdataFromOSP.ChannelObs) : Prop :=
  declared r (GNSSdataFromOSP.system it) "C1C"
  /\ declared r (GNSSdataFromOSP.system it) "L1C"
  /\ declared r (GNSSdataFromOSP.system it) "D1C"
  /\ declared r (GNSSdataFromOSP.system it) "S1C".

(** The time of [it] is a number. *)
Definition timeIsNumber (it : GNSSdataFromOSP.ChannelObs) : Prop :=
  PrimFloat.eqb (GNSSdataFromOSP.timeT it) (GNSSdataFromOSP.timeT it) = true.

(** A MID 7 message after its MID byte was read: week 1800, time of week
    432000.00 s, 5 satellites in the solution, clock drift 90 Hz and clock
    bias 1000000 ns. *)
Definition sampleMID7 : OSPMessage.t :=
  OSPMessage.mk
    ([7; 0x07; 0x08] ++ bytesOfWord 43200000 ++ [5] ++ bytesOfWord 90
     ++ bytesOfWord 1000000 ++ [0; 0; 0; 0; 0])
    20 1.

(** An acquisition object that holds two measurements of time 100.0 and the
    message [sampleMID7]. *)
Definition sampleAcq7 : GNSSdataFromOSP.t :=
  GNSSdataFromOSP.set_chSatObs
    (GNSSdataFromOSP.set_message sampleAcq sampleMID7)
    [sampleZeroObs;
     GNSSdataFromOSP.mkChannelObs "G" 9 2.1e7%float 5.0%float 3.0%float 35%float 0 5
       100%float].

(** A call of [saveNavData]. *)
Record navCall : Type := mkNavCall {
  navSys : ascii;
  navSat : Z;
  navOrbit : RinexData.orbit;
  navTag : float
}.

(** The object after the calls [calls] of [saveNavData], in that order. *)
Definition saveNavSeq (r : RinexData.t) (calls : list navCall) : RinexData.t :=
  fold_left
    (fun r c => snd (RinexData.saveNavData r (navSys c) (navSat c) (navOrbit c) (navTag c)))
    calls r.

(** The records [a] and [b] have the same system, satellite and ([==])
    time tag. *)
Definition sameNavRecord (a b : RinexData.SatNavData) : bool :=
  RinexData.sameNavKey (RinexData.systemId a) (RinexData.navSatellite a)
                       (RinexData.navTimeTag a) b.

(** No two records of [v] have the same system, satellite and time tag. *)
Definition distinctNavKeys (v : list RinexData.SatNavData) : Prop :=
  ForallOrdPairs (fun a b => sameNavRecord a b = false) v.

(** Every system of [r] has one selection flag for each of its
    observables, as the constructor of [GNSSsystem] makes it. *)
Definition flagsPerObservable (r : RinexData.t) : Prop :=
  Forall (fun s => List.length (RinexData.selObsType s) = List.length (RinexData.obsType s))
         (RinexData.systems r).

(** A model whose header declares the systems G, E and R, where the
    satellites 11 and 12 of E were selected before, and that holds
    observations of G07, E11, E19 and R03. *)
Definition sampleGER : RinexData.t :=
  RinexData.mk
    [RinexData.newGNSSsystem "G" ["C1C"; "L1C"]%string;
     RinexData.mkGNSSsystem "E" true ["C1X"; "L1X"; "D1X"]%string [true; true; true] [11; 12];
     RinexData.newGNSSsystem "R" ["C1C"; "L1C"]%string]
    0 0%float 100%float 0%float 0 0
    [sampleObs 2 3 1; sampleObs 1 19 1; sampleObs 1 11 2; sampleObs 1 11 1;
     sampleObs 0 7 1]
    [] false false [] [].

(** The text that selects the system [s] in the list of selected satellites
    of [setFilter]: its letter alone. *)
Definition systemToken (s : ascii) : string := String s EmptyString.

(** The text that [filterNavData] prints for every navigation record of [r]
    fits its buffer [char buffer[5]]: the satellite number has at most three
    digits and no sign. *)
Definition navBufferFits (r : RinexData.t) : Prop :=
  Forall (fun it => 0 <= RinexData.navSatellite it < 1000) (RinexData.epochNav r).

(** A navigation record of the satellite [sat] of the system [sys] at the
    time 100.0. *)
Definition sampleNav (sys : ascii) (sat : Z) : RinexData.SatNavData :=
  RinexData.mkSatNavData 100%float sys sat (fun _ _ => 0%float).

(** The model [sampleRinex] with navigation records of G07, R03 and E11. *)
Definition sampleNavRinex : RinexData.t :=
  RinexData.set_epochNav sampleRinex [sampleNav "G" 7; sampleNav "R" 3; sampleNav "E" 11].

(** The RINEX 2.10 name of the observable of the observation [it]; empty
    when it has none or is not selected. *)
Definition v2Name (r : RinexData.t) (it : RinexData.SatObsData) : string :=
  RinexData.obsV3toV2 r (RinexData.sysIndex it) (RinexData.obsTypeIndex it).

(** The RINEX 3 name of the observable of the observation [it]. *)
Definition v3Name (r : RinexData.t) (it : RinexData.SatObsData) : string :=
  nth (Z.to_nat (RinexData.obsTypeIndex it))
      (RinexData.obsType (RinexData.system_at (RinexData.systems r) (RinexData.sysIndex it)))
      EmptyString.

(** The observation [it] is for a system of the header of [r] and one of
    its observables. *)
Definition inHeader (r : RinexData.t) (it : RinexData.SatObsData) : Prop :=
  0 <= RinexData.sysIndex it < Z.of_nat (List.length (RinexData.systems r))
  /\ 0 <= RinexData.obsTypeIndex it
       < Z.of_nat (List.length
                     (RinexData.obsType
                        (RinexData.system_at (RinexData.systems r) (RinexData.sysIndex it)))).

(** The cell that a line of observations shows in the column [j] for a
    satellite with the observations [block]: the observation whose index is
    [j], or the filler of a column without data. *)
Definition cellOf (block : list RinexData.SatObsData) (j : Z) : text :=
  match find (fun it => RinexData.obsTypeIndex it =? j) block with
  | Some it => RinexData.obsText it
  | None => RinexData.noObsText
  end.

(** The columns [k], [k+1], ..., [last]. *)
Definition columns (k last : Z) : list Z :=
  map (fun i => k + Z.of_nat i) (seq 0 (Z.to_nat (last + 1 - k))).

(** The cells [cells], of which the first one is in column [k], with a new
    line after every column whose number plus one is a multiple of
    [maxPerLine]. *)
Fixpoint wrapCells (maxPerLine k : Z) (cells : list text) : text :=
  match cells with
  | [] => []
  | c :: cells' =>
      c ++ (if Z.rem (k + 1) maxPerLine =? 0 then [Chars newline] else [])
        ++ wrapCells maxPerLine (k + 1) cells'
  end.

(** The index of the last observation of [block]. *)
Definition lastIndex (block : list RinexData.SatObsData) : Z :=
  RinexData.obsTypeIndex (last block (RinexData.mkSatObsData 0 0 0 0 0 0 0)).

(** The indexes of the observations of [block] increase, from [k] at
    least. *)
Fixpoint ascending (k : Z) (block : list RinexData.SatObsData) : Prop :=
  match block with
  | [] => True
  | it :: block' =>
      k <= RinexData.obsTypeIndex it /\ ascending (RinexData.obsTypeIndex it + 1) block'
  end.

(** The observation [it] is of the satellite [sat] of the system at index
    [sx]. *)
Definition ofSatellite (sx sat : Z) (it : RinexData.SatObsData) : Prop :=
  RinexData.sysIndex it = sx /\ RinexData.satellite it = sat.

(** The lines of observations of a satellite with the observations
    [block]: one cell for every column up to the last index, [maxPerLine]
    cells to a line, the last line ended. *)
Definition satelliteLines (maxPerLine : Z) (block : list RinexData.SatObsData) : text :=
  wrapCells maxPerLine 0 (map (cellOf block) (columns 0 (lastIndex block)))
  ++ (if Z.rem (lastIndex block + 1) maxPerLine =? 0 then [] else [Chars newline]).

(** A model that holds the observations with the indexes 0, 2 and 6 of the
    satellite 7 of the system at index 0, and then one of its satellite 9. *)
Definition sampleLines : RinexData.t :=
  RinexData.set_epochObs sampleRinex
    [sampleObs 0 7 0; sampleObs 0 7 2; sampleObs 0 7 6; sampleObs 0 9 0].

(** The sum of the bytes of [payload], kept to 15 bits. *)
Definition checksum15 (payload : list Z) : Z := fold_right Z.add 0 payload mod 2 ^ 15.

(** The two bytes that hold [n], the most significant first. *)
Definition twoBytes (n : Z) : list Z := [n / 256; n mod 256].

(** The packet of the receiver for the message [payload]: the start
    sequence, the length, the payload, its checksum and the end sequence. *)
Definition packet (payload : list Z) : list Z :=
  [PacketToOSP.START1; PacketToOSP.START2]
  ++ twoBytes (Z.of_nat (List.length payload)) ++ payload
  ++ twoBytes (checksum15 payload) ++ [PacketToOSP.END1; PacketToOSP.END2].

(** The message [payload] as the stripped OSP file holds it: the length,
    then the payload. *)
Definition stripped (payload : list Z) : list Z :=
  twoBytes (Z.of_nat (List.length payload)) ++ payload.

(** A payload that a packet can carry: bytes, one at least and fewer than
    [MAXPAYLOADSIZE - 2]. *)
Definition carried (payload : list Z) : Prop :=
  Forall isByte payload
  /\ 0 < Z.of_nat (List.length payload) < PacketToOSP.MAXPAYLOADSIZE - 2.

(** The payloads of the messages that [OSPMessage::fill] reads one after
    the other from [file], until it returns [false]; [fuel] bounds their
    number. *)
Fixpoint filledPayloads (fuel : nat) (m : OSPMessage.t) (file : OSPMessage.FILE)
    : list (list Z) :=
  match fuel with
  | O => []
  | S fuel' =>
      match OSPMessage.fill m file with
      | (true, m1, file1) =>
          firstn (Z.to_nat (OSPMessage.payloadLength m1)) (OSPMessage.payload m1)
          :: filledPayloads fuel' m1 file1
      | (false, _, _) => []
      end
  end.

(** The payload [payload] with the byte [b] in the place of its byte
    number [j]. *)
Definition changed (payload : list Z) (j : nat) (b : Z) : list Z :=
  alter (fun _ => b) j payload.

(** The packet that carries [sent] with the length and the checksum of
    [payload]. *)
Definition packetOf (payload sent : list Z) : list Z :=
  [PacketToOSP.START1; PacketToOSP.START2]
  ++ twoBytes (Z.of_nat (List.length payload)) ++ sent
  ++ twoBytes (checksum15 payload) ++ [PacketToOSP.END1; PacketToOSP.END2].

(* ================================================================== *)
(** * Properties *)

(** ** Machine integers *)

Lemma to_int32_small (z : Z) : - 2 ^ 31 <= z < 2 ^ 31 -> to_int32 z = z.
Proof.
  intros H. unfold to_int32.
  change (2 ^ 31) with 2147483648 in *. change (2 ^ 32) with 4294967296.
  rewrite Z.mod_small; lia.
Qed.

Lemma to_uint32_small (z : Z) : 0 <= z < 2 ^ 32 -> to_uint32 z = z.
Proof. intros H. unfold to_uint32. apply Z.mod_small. exact H. Qed.

Lemma to_uint32_range (z : Z) : 0 <= to_uint32 z < 2 ^ 32.
Proof. unfold to_uint32. apply Z.mod_pos_bound. reflexivity. Qed.

Lemma mod_add_small (z k m : Z) : 0 <= z + k * m < m -> z mod m = z + k * m.
Proof.
  intros H. rewrite <- (Z.mod_add z k m) by lia. apply Z.mod_small. exact H.
Qed.

Lemma pow2_pos (n : Z) : 0 <= n -> 0 < 2 ^ n.
Proof. intros H. apply Z.pow_pos_nonneg; lia. Qed.

Lemma pow2_le_32 (n : Z) : 0 <= n <= 32 -> 2 ^ n <= 2 ^ 32.
Proof. intros H. apply Z.pow_le_mono_r; lia. Qed.

Lemma lor_lt_pow2 (a b m : Z) :
  0 <= m -> 0 <= a < 2 ^ m -> 0 <= b < 2 ^ m -> 0 <= Z.lor a b < 2 ^ m.
Proof.
  intros Hm Ha Hb. split.
  - apply Z.lor_nonneg. lia.
  - destruct (Z.eq_dec (Z.lor a b) 0) as [E | NE].
    + rewrite E. apply pow2_pos. exact Hm.
    + assert (Hm0 : 0 < m).
      { destruct (Z.eq_dec m 0) as [-> | ]; [| lia].
        change (2 ^ 0) with 1 in *.
        assert (a = 0) by lia. assert (b = 0) by lia. subst. contradiction. }
      apply Z.log2_lt_pow2.
      * assert (0 <= Z.lor a b) by (apply Z.lor_nonneg; lia). lia.
      * rewrite Z.log2_lor by lia.
        apply Z.max_lub_lt.
        -- destruct (Z.eq_dec a 0) as [-> | Na]; [simpl; lia |].
           apply Z.log2_lt_pow2; lia.
        -- destruct (Z.eq_dec b 0) as [-> | Nb]; [simpl; lia |].
           apply Z.log2_lt_pow2; lia.
Qed.

Lemma land_1_range (x : Z) : 0 <= Z.land x 1 < 2.
Proof.
  change 1 with (Z.ones 1). rewrite Z.land_ones by lia.
  apply Z.mod_pos_bound. reflexivity.
Qed.

(** ** Utilities.cpp: [getBits] and [getTwosComplement] *)

Lemma getBits_loop_bound (stream : list Z) (n : nat) :
  forall (i bits k : Z),
    0 <= k -> k + Z.of_nat n <= 32 -> 0 <= bits < 2 ^ k ->
    0 <= getBits_loop stream i n bits < 2 ^ (k + Z.of_nat n).
Proof.
  induction n as [| n IH]; intros i bits k Hk Hkn Hb.
  - simpl. rewrite Z.add_0_r. exact Hb.
  - cbn [getBits_loop].
    replace (k + Z.of_nat (S n)) with ((k + 1) + Z.of_nat n) by lia.
    apply IH; [lia | lia |].
    assert (Hp : 2 ^ (k + 1) = 2 * 2 ^ k) by (rewrite Z.pow_add_r by lia; lia).
    assert (H32 : 2 ^ (k + 1) <= 2 ^ 32) by (apply pow2_le_32; lia).
    apply lor_lt_pow2; [lia | |].
    + unfold shl32. rewrite Z.shiftl_mul_pow2 by lia. change (2 ^ 1) with 2.
      rewrite to_uint32_small by lia. lia.
    + pose proof (land_1_range
                    (Z.shiftr (stream_word stream (Z.quot i 32)) (Z.rem i 32))) as H1.
      pose proof (pow2_pos k Hk). lia.
Qed.

Lemma getBits_range (stream : list Z) (bitpos len : Z) :
  0 <= len <= 32 -> 0 <= getBits stream bitpos len < 2 ^ len.
Proof.
  intros H. unfold getBits.
  pose proof (getBits_loop_bound stream (Z.to_nat len) (bitpos + len - 1) 0 0) as B.
  rewrite Z2Nat.id in B by lia. rewrite Z.add_0_l in B.
  apply B; simpl; lia.
Qed.

Lemma getTwosComplement_positive (x n : Z) :
  1 <= n <= 32 -> 0 <= x < 2 ^ (n - 1) -> getTwosComplement x n = x.
Proof.
  intros Hn Hx.
  assert (H31 : 2 ^ (n - 1) <= 2 ^ 31) by (apply Z.pow_le_mono_r; lia).
  unfold getTwosComplement. cbv zeta.
  destruct (32 <=? n) eqn:E32.
  - apply to_int32_small. change (2 ^ 31) with 2147483648 in *. lia.
  - unfold shl32. rewrite Z.shiftl_mul_pow2 by lia. rewrite Z.mul_1_l.
    rewrite to_uint32_small
      by (change (2 ^ 31) with 2147483648 in *; change (2 ^ 32) with 4294967296;
          pose proof (pow2_pos (n - 1)); lia).
    destruct (x <? 2 ^ (n - 1)) eqn:E; [| apply Z.ltb_ge in E; lia].
    apply to_int32_small. change (2 ^ 31) with 2147483648 in *. lia.
Qed.

Lemma getTwosComplement_negative (x n : Z) :
  1 <= n < 32 -> 2 ^ (n - 1) <= x < 2 ^ n -> getTwosComplement x n = x - 2 ^ n.
Proof.
  intros Hn Hx.
  assert (H31 : 2 ^ n <= 2 ^ 31) by (apply Z.pow_le_mono_r; lia).
  assert (Hpos : 0 < 2 ^ (n - 1)) by (apply pow2_pos; lia).
  assert (Hdbl : 2 ^ n = 2 * 2 ^ (n - 1)).
  { replace n with ((n - 1) + 1) at 1 by lia. rewrite Z.pow_add_r by lia. lia. }
  change (2 ^ 31) with 2147483648 in *.
  unfold getTwosComplement. cbv zeta.
  destruct (32 <=? n) eqn:E32; [apply Z.leb_le in E32; lia |].
  unfold shl32. rewrite !Z.shiftl_mul_pow2 by lia. rewrite !Z.mul_1_l.
  rewrite to_uint32_small by (change (2 ^ 32) with 4294967296; lia).
  destruct (x <? 2 ^ (n - 1)) eqn:E; [apply Z.ltb_lt in E; lia |].
  rewrite (to_int32_small x) by (change (2 ^ 31) with 2147483648; lia).
  destruct (Z.eq_dec n 31) as [-> | N31].
  - change (to_int32 (2 ^ 31)) with (-2147483648).
    unfold to_int32. change (2 ^ 31) with 2147483648 in *.
    change (2 ^ 32) with 4294967296.
    replace (x - -2147483648 + 2147483648) with (x + 1 * 4294967296) by lia.
    rewrite Z.mod_add by lia. rewrite Z.mod_small by lia. lia.
  - assert (H30 : 2 ^ n <= 2 ^ 30) by (apply Z.pow_le_mono_r; lia).
    change (2 ^ 30) with 1073741824 in H30.
    rewrite (to_int32_small (2 ^ n)) by (change (2 ^ 31) with 2147483648; lia).
    apply to_int32_small. change (2 ^ 31) with 2147483648. lia.
Qed.

(** C6, as far as the code goes: for every bit stream, position and length
    [0 <= len <= 32], [getBits] returns a value in [[0, 2^len)]; and for a
    width [1 <= nbits <= 32], [getTwosComplement] maps every [x < 2^(nbits-1)]
    to itself, so that applying it twice to such an [x] is the same as
    applying it once. *)
Theorem getBits_range_getTwosComplement_fixes_positive
    (stream : list Z) (bitpos len x nbits : Z) :
  0 <= len <= 32 ->
  1 <= nbits <= 32 ->
  0 <= x < 2 ^ (nbits - 1) ->
  0 <= getBits stream bitpos len < 2 ^ len
  /\ getTwosComplement x nbits = x
  /\ getTwosComplement (to_uint32 (getTwosComplement x nbits)) nbits
     = getTwosComplement x nbits.
Proof.
  intros Hlen Hn Hx.
  assert (E : getTwosComplement x nbits = x) by (apply getTwosComplement_positive; assumption).
  split; [apply getBits_range; exact Hlen |].
  split; [exact E |].
  rewrite E.
  assert (H32 : 2 ^ (nbits - 1) <= 2 ^ 32) by (apply Z.pow_le_mono_r; lia).
  rewrite to_uint32_small by lia. exact E.
Qed.

Lemma getBits_range_getTwosComplement_fixes_positive_witness :
  0 <= getBits [0x00000001; 0xFFFFFFFF] 32 4 < 2 ^ 4
  /\ getTwosComplement 5 4 = 5
  /\ getTwosComplement (to_uint32 (getTwosComplement 5 4)) 4 = getTwosComplement 5 4.
Proof.
  apply (getBits_range_getTwosComplement_fixes_positive [0x00000001; 0xFFFFFFFF] 32 4 5 4).
  - lia.
  - lia.
  - simpl. lia.
Defined.

(** C6 as the specification words it fails: the pattern [3] of width [2]
    has its top bit set, [getTwosComplement] gives [-1] for it, and [-5]
    when it is applied to that result again. *)
Lemma getTwosComplement_not_idempotent :
  getTwosComplement 3 2 = -1
  /\ getTwosComplement (to_uint32 (getTwosComplement 3 2)) 2 = -5.
Proof. split; reflexivity. Qed.

(** Applying [getTwosComplement] again to the value it gives for a pattern
    with the top bit set never returns that value. *)
Lemma getTwosComplement_twice_negative (x n : Z) :
  1 <= n < 32 -> 2 ^ (n - 1) <= x < 2 ^ n ->
  getTwosComplement (to_uint32 (getTwosComplement x n)) n <> getTwosComplement x n.
Proof.
  intros Hn Hx.
  rewrite (getTwosComplement_negative x n Hn Hx).
  assert (H31 : 2 ^ n <= 2 ^ 31) by (apply Z.pow_le_mono_r; lia).
  assert (Hpos : 0 < 2 ^ (n - 1)) by (apply pow2_pos; lia).
  assert (Hdbl : 2 ^ n = 2 * 2 ^ (n - 1)).
  { replace n with ((n - 1) + 1) at 1 by lia. rewrite Z.pow_add_r by lia. lia. }
  change (2 ^ 31) with 2147483648 in *.
  assert (U : to_uint32 (x - 2 ^ n) = x - 2 ^ n + 4294967296).
  { unfold to_uint32. change (2 ^ 32) with 4294967296.
    rewrite (mod_add_small _ 1) by lia. lia. }
  rewrite U.
  unfold getTwosComplement. cbv zeta.
  destruct (32 <=? n) eqn:E32; [apply Z.leb_le in E32; lia |].
  unfold shl32. rewrite !Z.shiftl_mul_pow2 by lia. rewrite !Z.mul_1_l.
  rewrite to_uint32_small by (change (2 ^ 32) with 4294967296; lia).
  destruct (x - 2 ^ n + 4294967296 <? 2 ^ (n - 1)) eqn:E; [apply Z.ltb_lt in E; lia |].
  assert (V : to_int32 (x - 2 ^ n + 4294967296) = x - 2 ^ n).
  { unfold to_int32. change (2 ^ 31) with 2147483648. change (2 ^ 32) with 4294967296.
    rewrite (mod_add_small _ (-1)) by lia. lia. }
  rewrite V.
  unfold to_int32. change (2 ^ 31) with 2147483648. change (2 ^ 32) with 4294967296.
  intros C.
  pose proof (Z.mod_pos_bound (2 ^ n + 2147483648) 4294967296 ltac:(lia)) as B1.
  pose proof (Z.div_mod (2 ^ n + 2147483648) 4294967296 ltac:(lia)) as D1.
  pose proof (Z.mod_pos_bound
                (x - 2 ^ n - ((2 ^ n + 2147483648) mod 4294967296 - 2147483648) + 2147483648)
                4294967296 ltac:(lia)) as B2.
  pose proof (Z.div_mod
                (x - 2 ^ n - ((2 ^ n + 2147483648) mod 4294967296 - 2147483648) + 2147483648)
                4294967296 ltac:(lia)) as D2.
  lia.
Qed.

(** ** OSPMessage: [fill] *)

Lemma fill_short_length (m : OSPMessage.t) (file : OSPMessage.FILE) :
  (List.length file < 2)%nat -> fst (fst (OSPMessage.fill m file)) = false.
Proof.
  intros H. destruct file as [| b0 [| b1 file]]; simpl in H; try lia; reflexivity.
Qed.

Lemma fill_two_bytes (m : OSPMessage.t) (hi lo : Z) (rest : OSPMessage.FILE) :
  OSPMessage.fill m (hi :: lo :: rest)
  = let len := decodedLength hi lo in
    if OSPMessage.MAXPAYLOADSIZE <? len
    then (false, OSPMessage.mk (OSPMessage.payload m) len 0, rest)
    else
      let block := firstn (Z.to_nat len) rest in
      let m2 := OSPMessage.mk (OSPMessage.store block (OSPMessage.payload m)) len 0 in
      if Z.of_nat (List.length block) <? len
      then (false, m2, skipn (Z.to_nat len) rest)
      else (true, m2, skipn (Z.to_nat len) rest).
Proof. reflexivity. Qed.

Lemma fill_rejects_long (m : OSPMessage.t) (hi lo : Z) (rest : OSPMessage.FILE) :
  OSPMessage.MAXPAYLOADSIZE < decodedLength hi lo ->
  fst (fst (OSPMessage.fill m (hi :: lo :: rest))) = false.
Proof.
  intros H. rewrite fill_two_bytes. cbv zeta.
  apply Z.ltb_lt in H. rewrite H. reflexivity.
Qed.

Lemma fill_rejects_truncated (m : OSPMessage.t) (hi lo : Z) (rest : OSPMessage.FILE) :
  Z.of_nat (List.length rest) < decodedLength hi lo ->
  fst (fst (OSPMessage.fill m (hi :: lo :: rest))) = false.
Proof.
  intros H. rewrite fill_two_bytes. cbv zeta.
  destruct (OSPMessage.MAXPAYLOADSIZE <? decodedLength hi lo); [reflexivity |].
  rewrite length_firstn.
  assert (L : (Z.of_nat (Nat.min (Z.to_nat (decodedLength hi lo)) (List.length rest))
               <? decodedLength hi lo) = true).
  { apply Z.ltb_lt. lia. }
  rewrite L. reflexivity.
Qed.

Lemma fill_accepts (m : OSPMessage.t) (hi lo : Z) (rest : OSPMessage.FILE) :
  0 <= decodedLength hi lo <= OSPMessage.MAXPAYLOADSIZE ->
  decodedLength hi lo <= Z.of_nat (List.length rest) ->
  OSPMessage.fill m (hi :: lo :: rest)
  = (true,
     OSPMessage.mk
       (OSPMessage.store (firstn (Z.to_nat (decodedLength hi lo)) rest) (OSPMessage.payload m))
       (decodedLength hi lo) 0,
     skipn (Z.to_nat (decodedLength hi lo)) rest).
Proof.
  intros H1 H2. rewrite fill_two_bytes. cbv zeta.
  assert (L1 : (OSPMessage.MAXPAYLOADSIZE <? decodedLength hi lo) = false)
    by (apply Z.ltb_ge; lia).
  rewrite L1.
  rewrite length_firstn.
  assert (L : (Z.of_nat (Nat.min (Z.to_nat (decodedLength hi lo)) (List.length rest))
               <? decodedLength hi lo) = false).
  { apply Z.ltb_ge. lia. }
  rewrite L. reflexivity.
Qed.

(** C7 at the input where the code leaves the claim: a stripped file that
    starts with the length bytes [00 00].  [fill] reports a message read,
    of length zero, and consumes the two bytes only; the [get] that every
    caller issues next for the message identifier throws. *)
Theorem fill_accepts_zero_length (m : OSPMessage.t) (rest : OSPMessage.FILE) :
  OSPMessage.fill m (0 :: 0 :: rest)
  = (true, OSPMessage.mk (OSPMessage.payload m) 0 0, rest)
  /\ fst (OSPMessage.get (OSPMessage.mk (OSPMessage.payload m) 0 0)) = Throw (ThrowInt 1).
Proof.
  split; [| reflexivity].
  unfold OSPMessage.fill. simpl. destruct (OSPMessage.payload m); reflexivity.
Qed.

(** ** The comparison [==] of [double] *)

Lemma SFeqb_same (x y : spec_float) : SFeqb x y = true <-> SFsame x y.
Proof.
  unfold SFeqb, SFsame.
  destruct x as [sx | sx | | sx mx ex], y as [sy | sy | | sy my ey]; simpl;
    try (destruct sx); try (destruct sy);
    (split; intros H); try discriminate; try contradiction; try reflexivity; try exact I.
  all: change (Pos.compare_cont Eq mx my) with (Pos.compare mx my) in *.
  all: try (destruct H as (? & ? & ?); discriminate).
  all: try (destruct H as (_ & -> & ->); rewrite Z.compare_refl, Pos.compare_refl; reflexivity).
  all: destruct (Z.compare ex ey) eqn:Ee; try discriminate;
      destruct (Pos.compare mx my) eqn:Em; try discriminate;
      apply Z.compare_eq in Ee; apply Pos.compare_eq in Em; subst; auto.
Qed.

Lemma SFsame_sym (x y : spec_float) : SFsame x y -> SFsame y x.
Proof.
  destruct x, y; simpl; try contradiction; try tauto; try congruence.
  intros (-> & -> & ->). auto.
Qed.

Lemma SFsame_trans (x y z : spec_float) : SFsame x y -> SFsame y z -> SFsame x z.
Proof.
  destruct x, y, z; simpl; try contradiction; try tauto; try congruence.
  intros (-> & -> & ->) (-> & -> & ->). auto.
Qed.

Lemma double_eq_sym (a b : float) : PrimFloat.eqb a b = true -> PrimFloat.eqb b a = true.
Proof.
  rewrite !eqb_spec, !SFeqb_same. apply SFsame_sym.
Qed.

Lemma double_eq_trans (a b c : float) :
  PrimFloat.eqb a b = true -> PrimFloat.eqb b c = true -> PrimFloat.eqb a c = true.
Proof.
  rewrite !eqb_spec, !SFeqb_same. apply SFsame_trans.
Qed.

(** ** RinexData: the epoch store *)

Lemma empty_nil {A : Type} (v : list A) : empty v = true <-> v = [].
Proof. destruct v; simpl; split; intros H; try reflexivity; discriminate. Qed.

Lemma saveObs_oneEpoch (r : RinexData.t) (c : obsCall) :
  oneEpoch r -> oneEpoch (snd (saveObs r c)).
Proof.
  unfold oneEpoch, saveObs, RinexData.saveObsData. intros Inv. cbv zeta.
  destruct (RinexData.epochObs r) as [| it0 obs] eqn:Eobs; cbn [empty].
  - (* the store is empty: the tag of the call becomes the tag of the epoch *)
    destruct (PrimFloat.eqb (RinexData.epochTimeTag (RinexData.set_epochTimeTag r (call_tTag c)))
                (call_tTag c)) eqn:Esame;
      [| simpl; rewrite Eobs; constructor].
    match goal with
    | |- context [match ?x with Some _ => _ | None => _ end] => destruct x
    end; simpl; rewrite Eobs; [| constructor].
    constructor; [exact Esame | constructor].
  - destruct (PrimFloat.eqb (RinexData.epochTimeTag r) (call_tTag c)) eqn:Esame;
      [| simpl; rewrite Eobs; exact Inv].
    match goal with
    | |- context [match ?x with Some _ => _ | None => _ end] => destruct x
    end; simpl; rewrite Eobs; [| exact Inv].
    apply Forall_app. split; [exact Inv |].
    constructor; [exact Esame | constructor].
Qed.

Lemma saveObsSeq_oneEpoch (calls : list obsCall) :
  forall r : RinexData.t, oneEpoch r -> oneEpoch (saveObsSeq r calls).
Proof.
  induction calls as [| c calls IH]; intros r Inv; [exact Inv |].
  apply IH. apply saveObs_oneEpoch. exact Inv.
Qed.

Lemma oneEpoch_pairwise (r : RinexData.t) (a b : RinexData.SatObsData) :
  oneEpoch r -> In a (RinexData.epochObs r) -> In b (RinexData.epochObs r) ->
  PrimFloat.eqb (RinexData.obsTimeTag a) (RinexData.obsTimeTag b) = true.
Proof.
  unfold oneEpoch. intros Inv Ha Hb.
  rewrite Forall_forall in Inv.
  apply double_eq_trans with (RinexData.epochTimeTag r).
  - apply double_eq_sym. apply Inv. exact Ha.
  - apply Inv. exact Hb.
Qed.

(** C2: after every sequence of [saveObsData] calls made on a store whose
    observations have the tag of the epoch (an empty store is one), all the
    observations held have that tag and any two of them have equal tags; a
    call made on an empty store sets the tag of the epoch to its own tag;
    and a call made on a store that is not empty with a tag different from
    the one of the epoch returns [false] and leaves the object as it was. *)
Theorem saveObsData_one_time_tag (r : RinexData.t) (calls : list obsCall) (c : obsCall) :
  oneEpoch r ->
  (oneEpoch (saveObsSeq r calls)
   /\ forall a b : RinexData.SatObsData,
        In a (RinexData.epochObs (saveObsSeq r calls)) ->
        In b (RinexData.epochObs (saveObsSeq r calls)) ->
        PrimFloat.eqb (RinexData.obsTimeTag a) (RinexData.obsTimeTag b) = true)
  /\ (RinexData.epochObs r = [] ->
      RinexData.epochTimeTag (snd (saveObs r c)) = call_tTag c)
  /\ (RinexData.epochObs r <> [] ->
      PrimFloat.eqb (RinexData.epochTimeTag r) (call_tTag c) = false ->
      saveObs r c = (false, r)).
Proof.
  intros Inv. split; [| split].
  - pose proof (saveObsSeq_oneEpoch calls r Inv) as Inv'.
    split; [exact Inv' |].
    intros a b. apply oneEpoch_pairwise. exact Inv'.
  - intros E. unfold saveObs, RinexData.saveObsData. cbv zeta. rewrite E. cbn [empty].
    destruct (PrimFloat.eqb _ _); [| reflexivity].
    match goal with
    | |- context [match ?x with Some _ => _ | None => _ end] => destruct x
    end; reflexivity.
  - intros NE Hdiff. unfold saveObs, RinexData.saveObsData. cbv zeta.
    destruct (RinexData.epochObs r) as [| it0 obs]; [contradiction |]. cbn [empty].
    rewrite Hdiff. reflexivity.
Qed.

Lemma saveObsData_one_time_tag_witness :
  oneEpoch sampleRinex
  /\ oneEpoch (saveObsSeq sampleRinex sampleCalls)
  /\ List.length (RinexData.epochObs (saveObsSeq sampleRinex sampleCalls)) = 2%nat.
Proof.
  assert (H : oneEpoch sampleRinex) by (unfold oneEpoch; simpl; constructor).
  split; [exact H |].
  split; [| reflexivity].
  exact (proj1 (proj1 (saveObsData_one_time_tag sampleRinex sampleCalls
                         (mkObsCall "G" 7 "C1C" 1%float 0 5 100%float) H))).
Defined.

(** C9: a call of [saveObsData] whose time tag is the one of the current
    epoch, for a system or an observable type that the header does not
    declare, returns [true] and leaves the epoch store as it was. *)
Theorem saveObsData_true_without_storing
    (r : RinexData.t) (sys : ascii) (sat : Z) (obsTy : string)
    (value : float) (lol strg : Z) (tTag : float) :
  inCurrentEpoch r tTag ->
  ~ declared r sys obsTy ->
  fst (RinexData.saveObsData r sys sat obsTy value lol strg tTag) = true
  /\ RinexData.epochObs (snd (RinexData.saveObsData r sys sat obsTy value lol strg tTag))
     = RinexData.epochObs r.
Proof.
  unfold inCurrentEpoch, declared, RinexData.saveObsData. intros Hepoch Hnot. cbv zeta.
  assert (Esame : PrimFloat.eqb
                    (RinexData.epochTimeTag
                       (if empty (RinexData.epochObs r)
                        then RinexData.set_epochTimeTag r tTag else r)) tTag = true).
  { destruct (empty (RinexData.epochObs r)); exact Hepoch. }
  rewrite Esame.
  assert (Esys : RinexData.sysInx
                   (if empty (RinexData.epochObs r)
                    then RinexData.set_epochTimeTag r tTag else r) sys
                 = RinexData.sysInx r sys)
    by (destruct (empty (RinexData.epochObs r)); reflexivity).
  assert (Esystems : RinexData.systems
                       (if empty (RinexData.epochObs r)
                        then RinexData.set_epochTimeTag r tTag else r)
                     = RinexData.systems r)
    by (destruct (empty (RinexData.epochObs r)); reflexivity).
  assert (Eobs : RinexData.epochObs
                   (if empty (RinexData.epochObs r)
                    then RinexData.set_epochTimeTag r tTag else r)
                 = RinexData.epochObs r)
    by (destruct (empty (RinexData.epochObs r)); reflexivity).
  rewrite Esystems.
  destruct (0 <=? RinexData.sysInx r sys) eqn:Esx.
  - destruct (RinexData.find_obsType _ obsTy 0) eqn:Efind.
    + exfalso. apply Hnot. split; [apply Z.leb_le; exact Esx | discriminate].
    + split; [reflexivity |]. simpl. exact Eobs.
  - split; [reflexivity |]. simpl. exact Eobs.
Qed.

Lemma saveObsData_true_without_storing_witness :
  inCurrentEpoch sampleRinex 100%float
  /\ ~ declared sampleRinex "R" "D1C"
  /\ fst (RinexData.saveObsData sampleRinex "R" 3 "D1C" 1.5%float 0 5 100%float) = true
  /\ RinexData.epochObs
       (snd (RinexData.saveObsData sampleRinex "R" 3 "D1C" 1.5%float 0 5 100%float)) = [].
Proof.
  assert (H1 : inCurrentEpoch sampleRinex 100%float) by reflexivity.
  assert (H2 : ~ declared sampleRinex "R" "D1C").
  { intros [_ H]. apply H. reflexivity. }
  split; [exact H1 |]. split; [exact H2 |].
  exact (saveObsData_true_without_storing sampleRinex "R" 3 "D1C" 1.5%float 0 5 100%float H1 H2).
Defined.

(** ** RinexData: the navigation store *)

Lemma existsb_sameNavKey (r : RinexData.t) (sys : ascii) (sat : Z) (tTag : float) :
  existsb (RinexData.sameNavKey sys sat tTag) (RinexData.epochNav r) = true
  <-> navKeyPresent r sys sat tTag.
Proof.
  unfold navKeyPresent. rewrite existsb_exists, Exists_exists.
  split; intros (it & Hin & H); exists it; (split; [exact Hin |]).
  - unfold RinexData.sameNavKey in H.
    apply andb_true_iff in H. destruct H as [H Ht].
    apply andb_true_iff in H. destruct H as [Hs Hn].
    apply Ascii.eqb_eq in Hs. apply Z.eqb_eq in Hn. auto.
  - destruct H as (Hs & Hn & Ht). unfold RinexData.sameNavKey.
    rewrite <- Hs, <- Hn, Ascii.eqb_refl, Z.eqb_refl, Ht. reflexivity.
Qed.

(** C3: for every state of the navigation store and every call of
    [saveNavData]: when a record with the same (time tag, system, satellite)
    is present, the call returns [false] and the store is as it was; and
    when the call returns [true], no such record was present and the store
    is the former one followed by the new record. *)
Theorem saveNavData_inserts_only_new_key
    (r : RinexData.t) (sys : ascii) (sat : Z) (bo : RinexData.orbit) (tTag : float) :
  (navKeyPresent r sys sat tTag ->
   fst (RinexData.saveNavData r sys sat bo tTag) = false
   /\ RinexData.epochNav (snd (RinexData.saveNavData r sys sat bo tTag))
      = RinexData.epochNav r)
  /\ (fst (RinexData.saveNavData r sys sat bo tTag) = true ->
      ~ navKeyPresent r sys sat tTag
      /\ RinexData.epochNav (snd (RinexData.saveNavData r sys sat bo tTag))
         = RinexData.epochNav r ++ [RinexData.mkSatNavData tTag sys sat bo]).
Proof.
  unfold RinexData.saveNavData.
  destruct (existsb (RinexData.sameNavKey sys sat tTag) (RinexData.epochNav r)) eqn:E.
  - split.
    + intros _. split; reflexivity.
    + simpl. discriminate.
  - split.
    + intros H. apply existsb_sameNavKey in H. congruence.
    + intros _. split; [| reflexivity].
      intros H. apply existsb_sameNavKey in H. congruence.
Qed.

Lemma saveNavData_inserts_only_new_key_witness :
  let r := snd (RinexData.saveNavData sampleRinex "G" 7 (fun _ _ => 0%float) 100%float) in
  navKeyPresent r "G" 7 100%float
  /\ fst (RinexData.saveNavData r "G" 7 (fun _ _ => 1%float) 100%float) = false
  /\ fst (RinexData.saveNavData sampleRinex "G" 7 (fun _ _ => 0%float) 100%float) = true.
Proof.
  cbv zeta.
  assert (H : navKeyPresent
                (snd (RinexData.saveNavData sampleRinex "G" 7 (fun _ _ => 0%float) 100%float))
                "G" 7 100%float).
  { apply existsb_sameNavKey. reflexivity. }
  split; [exact H |].
  split; [| reflexivity].
  exact (proj1 (proj1 (saveNavData_inserts_only_new_key
                         (snd (RinexData.saveNavData sampleRinex "G" 7
                                 (fun _ _ => 0%float) 100%float))
                         "G" 7 (fun _ _ => 1%float) 100%float) H)).
Defined.

(** ** GNSSdataFromOSP: the fit interval *)

Lemma scaleGPSEphemeris_fit (bom : Z -> Z -> Z) :
  snd (GNSSdataFromOSP.scaleGPSEphemeris bom) 7 1
  = GNSSdataFromOSP.fitInterval (bom 7 1) (bom 6 3).
Proof. reflexivity. Qed.

Lemma double_neq (a b : float) : PrimFloat.eqb a b = false -> PrimFloat.eqb a a = true -> a <> b.
Proof. intros H1 H2 E. rewrite <- E in H1. congruence. Qed.

(** C4 as the specification words it fails on the code: with the fit flag
    0 and IODC 200 the fit interval computed is 4 hours, not 6. *)
Lemma fit_interval_flag0_iodc200 :
  snd (GNSSdataFromOSP.scaleGPSEphemeris (sampleMantissa 0 200)) 7 1 = 4.0%float
  /\ snd (GNSSdataFromOSP.scaleGPSEphemeris (sampleMantissa 0 200)) 7 1 <> 6.0%float.
Proof.
  split; [reflexivity |].
  apply double_neq; reflexivity.
Qed.

(** C4, as far as the code goes: the fit interval that [scaleGPSEphemeris]
    stores in [bo[7][1]] is 4 hours for the fit flag 0 with IODC 200,
    8 hours for the fit flag 1 with IODC 240, and 26 hours for the fit flag 1
    with IODC 1022. *)
Theorem scaleGPSEphemeris_fit_interval (bom0 bom1 bom2 : Z -> Z -> Z) :
  bom0 7 1 = 0 -> bom0 6 3 = 200 ->
  bom1 7 1 = 1 -> bom1 6 3 = 240 ->
  bom2 7 1 = 1 -> bom2 6 3 = 1022 ->
  snd (GNSSdataFromOSP.scaleGPSEphemeris bom0) 7 1 = 4.0%float
  /\ snd (GNSSdataFromOSP.scaleGPSEphemeris bom1) 7 1 = 8.0%float
  /\ snd (GNSSdataFromOSP.scaleGPSEphemeris bom2) 7 1 = 26.0%float.
Proof.
  intros F0 I0 F1 I1 F2 I2.
  rewrite !scaleGPSEphemeris_fit, F0, I0, F1, I1, F2, I2.
  repeat split; reflexivity.
Qed.

Lemma scaleGPSEphemeris_fit_interval_witness :
  snd (GNSSdataFromOSP.scaleGPSEphemeris (sampleMantissa 0 200)) 7 1 = 4.0%float
  /\ snd (GNSSdataFromOSP.scaleGPSEphemeris (sampleMantissa 1 240)) 7 1 = 8.0%float
  /\ snd (GNSSdataFromOSP.scaleGPSEphemeris (sampleMantissa 1 1022)) 7 1 = 26.0%float.
Proof.
  apply (scaleGPSEphemeris_fit_interval
           (sampleMantissa 0 200) (sampleMantissa 1 240) (sampleMantissa 1 1022));
    reflexivity.
Defined.

(** The fit interval for every fit flag and IODC: 4 hours when the flag is
    0, whatever the IODC. *)
Lemma fitInterval_flag0 (iodc : Z) : GNSSdataFromOSP.fitInterval 0 iodc = 4.0%float.
Proof. reflexivity. Qed.

(** ** GNSSdataFromOSP: the clock bias and the observables *)

Lemma double_zero_cases (x : float) :
  PrimFloat.eqb x 0 = true -> x = 0%float \/ x = (-0)%float.
Proof.
  rewrite eqb_spec, SFeqb_same. intros H.
  assert (Z0 : Prim2SF 0 = S754_zero false) by reflexivity.
  rewrite Z0 in H.
  destruct (Prim2SF x) as [s | s | | s m e] eqn:E; simpl in H; try contradiction.
  destruct s.
  - right. apply Prim2SF_inj. rewrite E. reflexivity.
  - left. apply Prim2SF_inj. rewrite E. reflexivity.
Qed.

Lemma zero_times_L1WLINV (x : float) :
  PrimFloat.eqb x 0 = true ->
  (x * GNSSdataFromOSP.L1WLINV)%float = x
  /\ PrimFloat.eqb (x * GNSSdataFromOSP.L1WLINV) 0 = true.
Proof.
  intros H. destruct (double_zero_cases x H) as [-> | ->]; split; reflexivity.
Qed.



(** ** RinexData: the observation filter *)

Lemma sort_insert_perm (x : RinexData.SatObsData) (v : list RinexData.SatObsData) :
  Permutation (RinexData.sort_insert x v) (x :: v).
Proof.
  induction v as [| y v IH]; simpl.
  - apply Permutation_refl.
  - destruct (RinexData.SatObsData_lt x y).
    + apply Permutation_refl.
    + apply perm_trans with (y :: x :: v).
      * apply perm_skip. exact IH.
      * apply perm_swap.
Qed.

Lemma sort_perm (v : list RinexData.SatObsData) : Permutation (RinexData.sort v) v.
Proof.
  induction v as [| x v IH]; simpl.
  - apply perm_nil.
  - apply perm_trans with (x :: RinexData.sort v).
    + apply sort_insert_perm.
    + apply perm_skip. exact IH.
Qed.

Lemma In_sort (it : RinexData.SatObsData) (v : list RinexData.SatObsData) :
  In it (RinexData.sort v) <-> In it v.
Proof.
  split; apply Permutation_in.
  - apply sort_perm.
  - apply Permutation_sym. apply sort_perm.
Qed.

(** What [setFilter([], ["GC1C"])] leaves in a model of the systems
    [systemsGR]: G selected with C1C only, R not selected, the observation
    filter on; the stores are not touched. *)
Lemma setFilter_GC1C (r : RinexData.t) :
  RinexData.systems r = systemsGR ->
  exists r1 : RinexData.t,
    RinexData.setFilter r [] ["GC1C"%string] = (Val true, r1)
    /\ RinexData.systems r1
       = [RinexData.mkGNSSsystem "G" true ["C1C"; "L1C"]%string [true; false] [];
          RinexData.mkGNSSsystem "R" false ["C1C"; "L1C"]%string [true; true] []]
    /\ RinexData.applyObsFilter r1 = true
    /\ RinexData.epochObs r1 = RinexData.epochObs r.
Proof.
  intros Hs. destruct r as [sys wk tow tag clk fl ns obs nav fo fn sel lg].
  simpl in Hs. subst sys.
  eexists. split; [reflexivity |]. repeat split.
Qed.

Lemma filteredObs_GC1C (r : RinexData.t) (it : RinexData.SatObsData) :
  RinexData.systems r = systemsGR ->
  (In it (filteredObs r [] ["GC1C"%string])
   <-> In it (RinexData.epochObs r)
       /\ RinexData.obsSelected
            (RinexData.set_systems r
               [RinexData.mkGNSSsystem "G" true ["C1C"; "L1C"]%string [true; false] [];
                RinexData.mkGNSSsystem "R" false ["C1C"; "L1C"]%string [true; true] []])
            it = true).
Proof.
  intros Hs. unfold filteredObs.
  destruct (setFilter_GC1C r Hs) as (r1 & E & Esys & Eflag & Eobs).
  rewrite E. cbn [snd]. unfold RinexData.filterObsData. cbv zeta.
  rewrite Eflag. cbn [snd RinexData.epochObs RinexData.set_epochObs].
  rewrite In_sort, filter_In, Eobs.
  unfold RinexData.obsSelected, RinexData.isSatSelected.
  cbn [RinexData.systems RinexData.set_systems]. rewrite Esys. reflexivity.
Qed.

(** C5 as the specification words it fails on the code: in the model
    [sampleGR], after [setFilter([], ["GC1C"])] the filter leaves the
    observation C1C of G07 only; the observation of R03 is removed. *)
Lemma filter_GC1C_removes_R :
  In (sampleObs 1 3 0) (RinexData.epochObs sampleGR)
  /\ filteredObs sampleGR [] ["GC1C"%string] = [sampleObs 0 7 0].
Proof. split; [left; reflexivity | reflexivity]. Qed.

(** C5, as far as the code goes: in a model that holds the systems G and R
    with the observables C1C and L1C, after [setFilter] with an empty list
    of satellites and the observables ["GC1C"], filtering the observation
    store removes every record of the system R, keeps the records of the
    system G for the observable C1C, removes the records of the system G
    for the observable L1C, and keeps nothing that was not stored. *)
Theorem filter_GC1C_keeps_G_C1C_only (r : RinexData.t) (it : RinexData.SatObsData) :
  RinexData.systems r = systemsGR ->
  In it (RinexData.epochObs r) ->
  (RinexData.sysIndex it = 1 -> ~ In it (filteredObs r [] ["GC1C"%string]))
  /\ (RinexData.sysIndex it = 0 -> RinexData.obsTypeIndex it = 0 ->
      In it (filteredObs r [] ["GC1C"%string]))
  /\ (RinexData.sysIndex it = 0 -> RinexData.obsTypeIndex it = 1 ->
      ~ In it (filteredObs r [] ["GC1C"%string]))
  /\ (forall it' : RinexData.SatObsData,
        In it' (filteredObs r [] ["GC1C"%string]) -> In it' (RinexData.epochObs r)).
Proof.
  intros Hs Hin.
  split; [| split; [| split]].
  - intros Hx H. apply (filteredObs_GC1C r it Hs) in H. destruct H as [_ H].
    unfold RinexData.obsSelected in H. rewrite Hx in H. discriminate.
  - intros Hx Ho. apply (filteredObs_GC1C r it Hs). split; [exact Hin |].
    unfold RinexData.obsSelected, RinexData.isSatSelected. rewrite Hx, Ho. reflexivity.
  - intros Hx Ho H. apply (filteredObs_GC1C r it Hs) in H. destruct H as [_ H].
    unfold RinexData.obsSelected in H. rewrite Hx, Ho in H. discriminate.
  - intros it' H. apply (filteredObs_GC1C r it' Hs) in H. tauto.
Qed.

Lemma filter_GC1C_keeps_G_C1C_only_witness :
  In (sampleObs 0 7 0) (filteredObs sampleGR [] ["GC1C"%string])
  /\ ~ In (sampleObs 1 3 0) (filteredObs sampleGR [] ["GC1C"%string])
  /\ ~ In (sampleObs 0 7 1) (filteredObs sampleGR [] ["GC1C"%string]).
Proof.
  assert (Hs : RinexData.systems sampleGR = systemsGR) by reflexivity.
  split; [| split].
  - destruct (filter_GC1C_keeps_G_C1C_only sampleGR (sampleObs 0 7 0) Hs
                (or_intror (or_intror (or_introl eq_refl)))) as (_ & H & _).
    exact (H eq_refl eq_refl).
  - destruct (filter_GC1C_keeps_G_C1C_only sampleGR (sampleObs 1 3 0) Hs
                (or_introl eq_refl)) as (H & _).
    exact (H eq_refl).
  - destruct (filter_GC1C_keeps_G_C1C_only sampleGR (sampleObs 0 7 1) Hs
                (or_intror (or_introl eq_refl))) as (_ & _ & H & _).
    exact (H eq_refl eq_refl).
Defined.

(** ** RinexData: the epoch header of RINEX 2.10 *)

Section EpochHeader.

Variable r : RinexData.t.

Lemma printSats_fold (v : list RinexData.SatObsData) :
  forall (before : RinexData.SatObsData) (p : RinexData.printer),
    RinexData.printSats r before v p
    = fold_left (RinexData.printSat r) (laterSats before v) p.
Proof.
  induction v as [| it v IH]; intros before p; simpl; [reflexivity |].
  rewrite IH. destruct (RinexData.DIFFERENT_SAT before it); reflexivity.
Qed.

Lemma countSats_length (v : list RinexData.SatObsData) :
  forall (before : RinexData.SatObsData) (n : Z),
    RinexData.countSats before v n = n + Z.of_nat (List.length (laterSats before v)).
Proof.
  induction v as [| it v IH]; intros before n; simpl; [lia |].
  rewrite IH. destruct (RinexData.DIFFERENT_SAT before it); simpl List.length; lia.
Qed.

(** Satellites that fit on the line being printed, the twelfth of the first
    line apart. *)
Lemma fold_within_line (l : list RinexData.SatObsData) :
  forall p : RinexData.printer,
    0 <= RinexData.anInt p ->
    0 < Z.rem (RinexData.anInt p) 12 ->
    Z.rem (RinexData.anInt p) 12 + Z.of_nat (List.length l) <= 12 ->
    RinexData.anInt p + Z.of_nat (List.length l) < 12 \/ 12 <= RinexData.anInt p ->
    fold_left (RinexData.printSat r) l p
    = RinexData.mkPrinter (RinexData.out p ++ map (RinexData.satText r) l)
        (RinexData.anInt p + Z.of_nat (List.length l)) (RinexData.clkPrinted p).
Proof.
  induction l as [| x l IH]; intros p Ha Hrem Hfit Hclk.
  - destruct p as [o a c]. simpl. rewrite app_nil_r, Z.add_0_r. reflexivity.
  - cbn [fold_left]. cbn [List.length] in Hfit, Hclk.
    assert (E : RinexData.printSat r p x
                = RinexData.mkPrinter (RinexData.out p ++ [RinexData.satText r x])
                    (RinexData.anInt p + 1) (RinexData.clkPrinted p)).
    { unfold RinexData.printSat. cbv zeta.
      destruct (Z.rem (RinexData.anInt p) 12 =? 0) eqn:E0; [apply Z.eqb_eq in E0; lia |].
      destruct (RinexData.anInt p + 1 =? 12) eqn:E12; [apply Z.eqb_eq in E12; lia |].
      reflexivity. }
    rewrite E. destruct l as [| y l'].
    + simpl. reflexivity.
    + rewrite IH; cbn [RinexData.anInt RinexData.out RinexData.clkPrinted List.length] in *.
      * rewrite <- app_assoc. simpl. f_equal. lia.
      * lia.
      * Z.to_euclidean_division_equations. lia.
      * Z.to_euclidean_division_equations. lia.
      * lia.
Qed.

(** The number of blank fields that fill a line on which [a] satellites
    were counted. *)
Lemma fillLine_padding (fuel : nat) :
  forall p : RinexData.printer,
    0 <= RinexData.anInt p ->
    Z.rem (RinexData.anInt p) 12 = 0 \/ 12 - Z.rem (RinexData.anInt p) 12 <= Z.of_nat fuel ->
    RinexData.out (RinexData.fillLine fuel p)
    = RinexData.out p ++ padding (Z.to_nat ((12 - Z.rem (RinexData.anInt p) 12) mod 12))
    /\ RinexData.clkPrinted (RinexData.fillLine fuel p) = RinexData.clkPrinted p.
Proof.
  induction fuel as [| fuel IH]; intros p Ha Hfuel.
  - assert (E : Z.rem (RinexData.anInt p) 12 = 0)
      by (Z.to_euclidean_division_equations; lia).
    simpl. rewrite E. simpl. rewrite app_nil_r. auto.
  - cbn [RinexData.fillLine].
    destruct (Z.rem (RinexData.anInt p) 12 =? 0) eqn:E0.
    + apply Z.eqb_eq in E0. rewrite E0. simpl. rewrite app_nil_r. auto.
    + apply Z.eqb_neq in E0.
      destruct (IH (RinexData.mkPrinter (RinexData.out p ++ [Chars (fmt_wc 3 " ")])
                      (RinexData.anInt p + 1) (RinexData.clkPrinted p))) as [Eo Ec];
        cbn [RinexData.anInt RinexData.out RinexData.clkPrinted].
      * lia.
      * Z.to_euclidean_division_equations. lia.
      * cbn [RinexData.anInt RinexData.out RinexData.clkPrinted] in Eo, Ec.
        split; [| exact Ec].
        rewrite Eo, <- app_assoc. f_equal.
        replace (Z.to_nat ((12 - Z.rem (RinexData.anInt p) 12) mod 12))
          with (S (Z.to_nat ((12 - Z.rem (RinexData.anInt p + 1) 12) mod 12)))
          by (Z.to_euclidean_division_equations; lia).
        reflexivity.
Qed.

(** The satellites after the twelfth, from the start of a continuation
    line on. *)
Lemma fold_continuation (fuel : nat) :
  forall (l : list RinexData.SatObsData) (p : RinexData.printer),
    (List.length l <= fuel)%nat -> l <> [] ->
    12 <= RinexData.anInt p -> Z.rem (RinexData.anInt p) 12 = 0 ->
    RinexData.out (RinexData.fillLine 12 (fold_left (RinexData.printSat r) l p))
    = RinexData.out p ++ continuationLines fuel (map (RinexData.satText r) l)
    /\ RinexData.clkPrinted (RinexData.fillLine 12 (fold_left (RinexData.printSat r) l p))
       = RinexData.clkPrinted p.
Proof.
  induction fuel as [| fuel IH]; intros l p Hlen Hne Ha Hrem.
  - destruct l; [contradiction | simpl in Hlen; lia].
  - destruct l as [| x l']; [contradiction |]. clear Hne.
    cbn [List.length] in Hlen.
    rewrite <- (firstn_skipn 11 l') at 1 3.
    cbn [fold_left]. rewrite fold_left_app.
    assert (E1 : RinexData.printSat r p x
                 = RinexData.mkPrinter
                     (RinexData.out p ++ [Chars newline; Chars (fmt_wc 32 " ")]
                      ++ [RinexData.satText r x])
                     (RinexData.anInt p + 1) (RinexData.clkPrinted p)).
    { unfold RinexData.printSat. cbv zeta. rewrite Hrem. cbn [Z.eqb].
      destruct (RinexData.anInt p + 1 =? 12) eqn:E12; [apply Z.eqb_eq in E12; lia |].
      rewrite <- app_assoc. reflexivity. }
    rewrite E1.
    assert (HlenA : (List.length (firstn 11 l') <= 11)%nat) by apply firstn_le_length.
    rewrite (fold_within_line (firstn 11 l'));
      cbn [RinexData.anInt RinexData.out RinexData.clkPrinted];
      try (Z.to_euclidean_division_equations; lia).
    cbn [map continuationLines].
    change (firstn 12 (RinexData.satText r x :: map (RinexData.satText r) l'))
      with (RinexData.satText r x :: firstn 11 (map (RinexData.satText r) l')).
    change (skipn 12 (RinexData.satText r x :: map (RinexData.satText r) l'))
      with (skipn 11 (map (RinexData.satText r) l')).
    rewrite firstn_map, skipn_map. cbn [List.length]. rewrite length_map.
    destruct (skipn 11 l') as [| y B] eqn:EB.
    + (* the last line *)
      cbn [fold_left map].
      destruct (fillLine_padding 12
                  (RinexData.mkPrinter
                     ((RinexData.out p ++ [Chars newline; Chars (fmt_wc 32 " ")]
                       ++ [RinexData.satText r x])
                      ++ map (RinexData.satText r) (firstn 11 l'))
                     (RinexData.anInt p + 1 + Z.of_nat (List.length (firstn 11 l')))
                     (RinexData.clkPrinted p))) as [Eo Ec];
        cbn [RinexData.anInt RinexData.out RinexData.clkPrinted]; [lia | | ].
      * right. Z.to_euclidean_division_equations. lia.
      * cbn [RinexData.anInt RinexData.out RinexData.clkPrinted] in Eo, Ec.
        split; [| exact Ec]. rewrite Eo.
        replace (Z.to_nat
                   ((12 - Z.rem (RinexData.anInt p + 1
                                 + Z.of_nat (List.length (firstn 11 l'))) 12) mod 12))
          with (12 - S (List.length (firstn 11 l')))%nat
          by (Z.to_euclidean_division_equations; lia).
        destruct fuel; cbn [continuationLines]; rewrite ?app_nil_r;
          rewrite <- !app_assoc; reflexivity.
    + (* a full line, followed by others *)
      assert (HA : List.length (firstn 11 l') = 11%nat).
      { apply firstn_length_le.
        assert (Hs : List.length (skipn 11 l') = (List.length l' - 11)%nat)
          by apply length_skipn.
        rewrite EB in Hs. simpl in Hs. lia. }
      assert (HB : (List.length (y :: B) <= fuel)%nat).
      { rewrite <- EB, length_skipn. lia. }
      destruct (IH (y :: B)
                  (RinexData.mkPrinter
                     ((RinexData.out p ++ [Chars newline; Chars (fmt_wc 32 " ")]
                       ++ [RinexData.satText r x])
                      ++ map (RinexData.satText r) (firstn 11 l'))
                     (RinexData.anInt p + 1 + Z.of_nat (List.length (firstn 11 l')))
                     (RinexData.clkPrinted p)) HB) as [Eo Ec];
        cbn [RinexData.anInt RinexData.out RinexData.clkPrinted];
        [discriminate | lia | rewrite HA; Z.to_euclidean_division_equations; lia |].
      cbn [RinexData.anInt RinexData.out RinexData.clkPrinted] in Eo, Ec.
      split; [| exact Ec]. rewrite Eo, HA.
      cbn [Nat.sub padding repeat]. rewrite <- !app_assoc. reflexivity.
Qed.

(** The first line, from the second satellite to the twelfth, and the
    lines after it. *)
Lemma fold_first_line (o : text) (A B : list RinexData.SatObsData)
    (x12 : RinexData.SatObsData) (fuel : nat) :
  List.length A = 10%nat -> B <> [] -> (List.length B <= fuel)%nat ->
  RinexData.out
    (RinexData.fillLine 12
       (fold_left (RinexData.printSat r) (A ++ x12 :: B) (RinexData.mkPrinter o 1 false)))
  = ((o ++ map (RinexData.satText r) A)
     ++ [RinexData.satText r x12] ++ [Double "%12.9f" (RinexData.epochClkOffset r)])
    ++ continuationLines fuel (map (RinexData.satText r) B)
  /\ RinexData.clkPrinted
       (RinexData.fillLine 12
          (fold_left (RinexData.printSat r) (A ++ x12 :: B)
             (RinexData.mkPrinter o 1 false)))
     = true.
Proof.
  intros HA HB Hfuel.
  rewrite fold_left_app. cbn [fold_left].
  rewrite (fold_within_line A);
    cbn [RinexData.anInt RinexData.out RinexData.clkPrinted];
    try (rewrite ?HA; Z.to_euclidean_division_equations; lia).
  rewrite HA.
  assert (E12 : RinexData.printSat r
                  (RinexData.mkPrinter (o ++ map (RinexData.satText r) A)
                     (1 + Z.of_nat 10) false) x12
                = RinexData.mkPrinter
                    ((o ++ map (RinexData.satText r) A)
                     ++ [RinexData.satText r x12]
                     ++ [Double "%12.9f" (RinexData.epochClkOffset r)])
                    12 true).
  { unfold RinexData.printSat. simpl. rewrite <- !app_assoc. reflexivity. }
  rewrite E12.
  apply (fold_continuation fuel B);
    cbn [RinexData.anInt RinexData.out RinexData.clkPrinted];
    [exact Hfuel | exact HB | lia | reflexivity].
Qed.

End EpochHeader.

(** C8 as the specification words it fails on the code: for the thirteen
    satellites of [sample13] the header has two lines; the receiver clock
    offset ends the first one, after the twelfth satellite, and the last
    line holds the 32 blank columns, the thirteenth satellite and blank
    fields only. *)
Lemma header_of_13_sats_has_clock_on_first_line :
  lines (fst (RinexData.printObsEpochHeaderV210 sample13 []))
  = [ [GPStime " %y %m %d %H %M" "%11.7f" 1800 43200%float; Chars "  0 13";
       Chars "G01"; Chars "G02"; Chars "G03"; Chars "G04"; Chars "G05"; Chars "G06";
       Chars "G07"; Chars "G08"; Chars "G09"; Chars "G10"; Chars "G11"; Chars "G12";
       Double "%12.9f" 0.5%float];
      [Chars "                                "; Chars "G13";
       Chars "   "; Chars "   "; Chars "   "; Chars "   "; Chars "   "; Chars "   ";
       Chars "   "; Chars "   "; Chars "   "; Chars "   "; Chars "   "] ].
Proof. reflexivity. Qed.

(** C8, as far as the code goes: when the epoch printed in RINEX 2.10 has
    more than twelve satellites, the header is laid out as
    [headerLayoutV210] says: the first line holds the first twelve
    satellites and ends with the receiver clock offset; the satellites after
    the twelfth go, twelve to a line, onto continuation lines that begin
    with 32 blank columns; the number of satellites printed and stored in
    [nSatsEpoch] is the number of satellites of the epoch. *)
Theorem printObsEpochHeaderV210_layout (r : RinexData.t) (file : text) :
  (12 < List.length (epochSats (RinexData.epochObs r)))%nat ->
  fst (RinexData.printObsEpochHeaderV210 r file)
  = file ++ headerLayoutV210 r (epochSats (RinexData.epochObs r))
  /\ RinexData.nSatsEpoch (snd (RinexData.printObsEpochHeaderV210 r file))
     = Z.of_nat (List.length (epochSats (RinexData.epochObs r))).
Proof.
  intros Hn. unfold RinexData.printObsEpochHeaderV210.
  destruct (RinexData.epochObs r) as [| first rest] eqn:Eobs; [simpl in Hn; lia |].
  cbv zeta. cbn [epochSats List.length] in *.
  set (later := laterSats first rest) in *.
  set (r1 := RinexData.set_nSatsEpoch r (RinexData.countSats first rest 1)).
  assert (Ecount : RinexData.countSats first rest 1 = Z.of_nat (S (List.length later))).
  { rewrite countSats_length. fold later. lia. }
  assert (Etext : forall it, RinexData.satText r1 it = RinexData.satText r it) by reflexivity.
  rewrite printSats_fold. fold later.
  change (RinexData.printSat r1) with (RinexData.printSat r).
  match goal with
  | |- context [fold_left _ _ (RinexData.mkPrinter ?o 1 false)] => set (o0 := o)
  end.
  (* the satellites 2 to 11, the twelfth, and the ones after it *)
  assert (H10 : List.length (firstn 10 later) = 10%nat) by (apply firstn_length_le; lia).
  destruct (skipn 10 later) as [| x12 B] eqn:E10.
  { assert (Hs : List.length (skipn 10 later) = (List.length later - 10)%nat)
      by apply length_skipn.
    rewrite E10 in Hs. simpl in Hs. lia. }
  assert (EB : B = skipn 11 later).
  { change 11%nat with (1 + 10)%nat. rewrite <- skipn_skipn, E10. reflexivity. }
  assert (HB : B <> []).
  { intros ->. symmetry in EB. apply (f_equal (@List.length _)) in EB.
    rewrite length_skipn in EB. simpl in EB. lia. }
  assert (HlenB : (List.length B <= S (List.length later))%nat)
    by (rewrite EB, length_skipn; lia).
  pose proof (fold_first_line r o0 (firstn 10 later) B x12 (S (List.length later))
                H10 HB HlenB) as Efold.
  rewrite <- E10, firstn_skipn in Efold.
  destruct Efold as [Eo Ec].
  rewrite Ec, Eo. cbn [fst snd].
  split; [| exact Ecount].
  unfold headerLayoutV210. try subst o0.
  change (RinexData.nSatsEpoch r1) with (RinexData.countSats first rest 1).
  rewrite Ecount.
  change (RinexData.epochWeek r1) with (RinexData.epochWeek r).
  change (RinexData.epochTOW r1) with (RinexData.epochTOW r).
  change (RinexData.epochFlag r1) with (RinexData.epochFlag r).
  rewrite Etext.
  cbn [map List.length].
  change (firstn 12 (RinexData.satText r first :: map (RinexData.satText r) later))
    with (RinexData.satText r first :: firstn 11 (map (RinexData.satText r) later)).
  change (skipn 12 (RinexData.satText r first :: map (RinexData.satText r) later))
    with (skipn 11 (map (RinexData.satText r) later)).
  rewrite firstn_map, skipn_map, <- EB.
  assert (E11 : firstn 11 later = firstn 10 later ++ [x12]).
  { rewrite <- (firstn_skipn 10 later) at 1. rewrite E10.
    rewrite firstn_app, H10. change (11 - 10)%nat with 1%nat.
    rewrite firstn_all2 by lia. reflexivity. }
  rewrite E11, map_app. cbn [map].
  rewrite <- !app_assoc. cbn [app]. rewrite <- !app_assoc. reflexivity.
Qed.

Lemma printObsEpochHeaderV210_layout_witness :
  (12 < List.length (epochSats (RinexData.epochObs sample13)))%nat
  /\ fst (RinexData.printObsEpochHeaderV210 sample13 [])
     = headerLayoutV210 sample13 (epochSats (RinexData.epochObs sample13)).
Proof.
  assert (H : (12 < List.length (epochSats (RinexData.epochObs sample13)))%nat)
    by (simpl; lia).
  split; [exact H |].
  exact (proj1 (printObsEpochHeaderV210_layout sample13 [] H)).
Defined.

(** ** GNSSdataFromOSP: the GPS subframes *)

Lemma set_subframe_same (tbl : Z -> Z -> GNSSdataFromOSP.SubframeData) (ch i : Z)
    (s : GNSSdataFromOSP.SubframeData) :
  GNSSdataFromOSP.set_subframe tbl ch i s ch i = s.
Proof. unfold GNSSdataFromOSP.set_subframe. rewrite !Z.eqb_refl. reflexivity. Qed.

Lemma set_subframe_other (tbl : Z -> Z -> GNSSdataFromOSP.SubframeData) (ch i j : Z)
    (s : GNSSdataFromOSP.SubframeData) :
  j <> i -> GNSSdataFromOSP.set_subframe tbl ch i s ch j = tbl ch j.
Proof.
  intros H. unfold GNSSdataFromOSP.set_subframe.
  apply Z.eqb_neq in H. rewrite H, andb_false_r. reflexivity.
Qed.

Lemma clearSubframes_cleared (tbl : Z -> Z -> GNSSdataFromOSP.SubframeData) (ch i : Z) :
  0 <= i < GNSSdataFromOSP.MAXSUBFR ->
  GNSSdataFromOSP.sv (GNSSdataFromOSP.clearSubframes tbl ch ch i) = 0.
Proof.
  intros H. unfold GNSSdataFromOSP.MAXSUBFR in H.
  assert (C : i = 0 \/ i = 1 \/ i = 2 \/ i = 3 \/ i = 4) by lia.
  unfold GNSSdataFromOSP.clearSubframes, GNSSdataFromOSP.set_subframe. simpl.
  rewrite !Z.eqb_refl.
  destruct C as [-> | [-> | [-> | [-> | ->]]]]; reflexivity.
Qed.

(** The words of [navW] that [extractGPSEphemeris] tests. *)
Lemma packNavW_tested (g : GNSSdataFromOSP.t) (ch sv : Z) :
  nth 0 (GNSSdataFromOSP.packNavW g ch sv) 0 = sv
  /\ nth 15 (GNSSdataFromOSP.packNavW g ch sv) 0 = sv
  /\ nth 30 (GNSSdataFromOSP.packNavW g ch sv) 0 = sv
  /\ nth 10 (GNSSdataFromOSP.packNavW g ch sv) 0
     = Z.lor (shl32 (Z.land (GNSSdataFromOSP.word g ch 0 6) 0xFF) 8)
             (Z.land (Z.shiftr (GNSSdataFromOSP.word g ch 0 7) 16) 0xFF)
  /\ nth (15 + 3) (GNSSdataFromOSP.packNavW g ch sv) 0
     = Z.land (Z.shiftr (GNSSdataFromOSP.word g ch 1 2) 8) 0xFFFF
  /\ nth (30 + 13) (GNSSdataFromOSP.packNavW g ch sv) 0
     = Z.lor (shl32 (Z.land (GNSSdataFromOSP.word g ch 2 8) 0xFF) 8)
             (Z.land (Z.shiftr (GNSSdataFromOSP.word g ch 2 9) 16) 0xFF).
Proof. repeat split; reflexivity. Qed.

Lemma testbit_255 (n : Z) : 0 <= n -> Z.testbit 0xFF n = (n <? 8).
Proof.
  intros H. change 0xFF with (Z.ones 8).
  destruct (n <? 8) eqn:E.
  - apply Z.ones_spec_low. apply Z.ltb_lt in E. lia.
  - apply Z.ones_spec_high. apply Z.ltb_ge in E. lia.
Qed.

Lemma testbit_65535 (n : Z) : 0 <= n -> Z.testbit 0xFFFF n = (n <? 16).
Proof.
  intros H. change 0xFFFF with (Z.ones 16).
  destruct (n <? 16) eqn:E.
  - apply Z.ones_spec_low. apply Z.ltb_lt in E. lia.
  - apply Z.ones_spec_high. apply Z.ltb_ge in E. lia.
Qed.

(** The low byte of a word of [navW] packed from the low byte of [a] and a
    byte of [b]. *)
Lemma low_byte_of_pair (a b : Z) :
  Z.land (Z.lor (shl32 (Z.land a 0xFF) 8) (Z.land (Z.shiftr b 16) 0xFF)) 0xFF
  = Z.land (Z.shiftr b 16) 0xFF.
Proof.
  apply Z.bits_inj'. intros n Hn.
  rewrite !Z.land_spec, Z.lor_spec, !Z.land_spec, testbit_255 by exact Hn.
  destruct (n <? 8) eqn:E; [| rewrite !andb_false_r; reflexivity].
  apply Z.ltb_lt in E.
  unfold shl32, to_uint32.
  rewrite <- Z.land_ones by lia. rewrite Z.land_spec.
  rewrite Z.shiftl_spec_low by lia. cbn [andb orb]. rewrite andb_true_r. reflexivity.
Qed.

(** The high byte of the 16 bits taken from bit 8 of [c] on. *)
Lemma high_byte_of_halfword (c : Z) :
  Z.land (Z.shiftr (Z.land (Z.shiftr c 8) 0xFFFF) 8) 0xFF = Z.land (Z.shiftr c 16) 0xFF.
Proof.
  apply Z.bits_inj'. intros n Hn.
  rewrite !Z.land_spec, !Z.shiftr_spec, Z.land_spec, Z.shiftr_spec, testbit_255,
    testbit_65535 by lia.
  replace (n + 8 + 8) with (n + 16) by lia.
  destruct (n <? 8) eqn:E; [| rewrite !andb_false_r; reflexivity].
  apply Z.ltb_lt in E.
  assert (E16 : (n + 8 <? 16) = true) by (apply Z.ltb_lt; lia).
  rewrite E16, !andb_true_r. reflexivity.
Qed.

(** When [allGPSEphemReceived] holds for a channel, [extractGPSEphemeris]
    accepts the words packed from it: it returns the satellite number and
    mantissas. *)
Lemma extract_after_allReceived (g : GNSSdataFromOSP.t) (ch sv : Z) :
  GNSSdataFromOSP.allGPSEphemReceived g ch = true ->
  exists bom : Z -> Z -> Z,
    GNSSdataFromOSP.extractGPSEphemeris (GNSSdataFromOSP.packNavW g ch sv)
    = (Z.land sv 0xFF, Some bom).
Proof.
  intros H. unfold GNSSdataFromOSP.allGPSEphemReceived in H. cbv zeta in H.
  apply andb_true_iff in H. destruct H as [H H3].
  apply andb_true_iff in H. destruct H as [_ H2].
  apply Z.eqb_eq in H2. apply Z.eqb_eq in H3.
  destruct (packNavW_tested g ch sv) as (E0 & E15 & E30 & E10 & E18 & E43).
  unfold GNSSdataFromOSP.extractGPSEphemeris. cbv zeta.
  rewrite E0, E15, E30, E10, E18, E43.
  rewrite Z.eqb_refl. cbn [andb negb].
  rewrite !low_byte_of_pair, high_byte_of_halfword.
  rewrite <- H2, <- H3, Z.eqb_refl. cbn [andb negb].
  eexists. reflexivity.
Qed.

Lemma subfrmCh_withSubframe (g : GNSSdataFromOSP.t) (m' : OSPMessage.t) (ch i j : Z)
    (s : GNSSdataFromOSP.SubframeData) :
  GNSSdataFromOSP.subfrmCh (withSubframe g m' ch i s) ch j
  = if j =? i then s else GNSSdataFromOSP.subfrmCh g ch j.
Proof.
  unfold withSubframe, GNSSdataFromOSP.set_subframe. simpl.
  rewrite Z.eqb_refl. reflexivity.
Qed.

(** What [getMID8GPSNavData] does with a message that carries one of the
    subframes 1, 2, 3. *)
Lemma feedSubframe_stores (g : GNSSdataFromOSP.t) (rinex : RinexData.t) (ch sv : Z)
    (m : OSPMessage.t) (raw : list Z) (id : Z) :
  carriesSubframe m raw id -> 1 <= id <= 3 ->
  feedSubframe ch sv (g, rinex) m
  = let g2 := withSubframe g (snd (GNSSdataFromOSP.getUInts 10 m)) ch (id - 1)
                (GNSSdataFromOSP.mkSubframeData sv (map GNSSdataFromOSP.removeParity raw)) in
    if GNSSdataFromOSP.allGPSEphemReceived g2 ch then
      (GNSSdataFromOSP.set_subfrmCh g2
         (GNSSdataFromOSP.clearSubframes (GNSSdataFromOSP.subfrmCh g2) ch),
       match GNSSdataFromOSP.extractGPSEphemeris (GNSSdataFromOSP.packNavW g2 ch sv) with
       | (sat, Some bom) =>
           snd (RinexData.saveNavData rinex "G" sat
                  (snd (GNSSdataFromOSP.scaleGPSEphemeris bom))
                  (fst (GNSSdataFromOSP.scaleGPSEphemeris bom)))
       | (_, None) => rinex
       end)
    else (g2, rinex).
Proof.
  intros (Hread & Hparity & Hid) Hrange.
  unfold feedSubframe, GNSSdataFromOSP.getMID8GPSNavData.
  cbn [fst snd GNSSdataFromOSP.message GNSSdataFromOSP.set_message].
  destruct (GNSSdataFromOSP.getUInts 10 m) as [res m'].
  cbn [fst snd] in *. subst res.
  rewrite Hparity. cbn [negb]. cbv zeta.
  unfold subframeID in Hid. rewrite Hid.
  assert (Hsel : ((0 <? id) && (id <? 4)
                  || (id =? 4)
                     && (Z.land
                           (Z.shiftr (nth 2 (map GNSSdataFromOSP.removeParity raw) 0) 16)
                           0x3F =? 56)) = true).
  { apply orb_true_iff. left. apply andb_true_iff. split; apply Z.ltb_lt; lia. }
  rewrite Hsel.
  fold (withSubframe g m' ch (id - 1)
          (GNSSdataFromOSP.mkSubframeData sv (map GNSSdataFromOSP.removeParity raw))).
  destruct (GNSSdataFromOSP.allGPSEphemReceived _ ch); [| reflexivity].
  destruct (GNSSdataFromOSP.extractGPSEphemeris _) as [sat [bom |]]; [| reflexivity].
  destruct (GNSSdataFromOSP.scaleGPSEphemeris bom) as [tTag bo]. reflexivity.
Qed.

(** The set is not complete as long as two of the three slots differ in
    their satellite number. *)
Lemma allGPSEphemReceived_pending (g : GNSSdataFromOSP.t) (ch : Z) :
  GNSSdataFromOSP.sv (GNSSdataFromOSP.subfrmCh g ch 0)
  <> GNSSdataFromOSP.sv (GNSSdataFromOSP.subfrmCh g ch 1)
  \/ GNSSdataFromOSP.sv (GNSSdataFromOSP.subfrmCh g ch 0)
     <> GNSSdataFromOSP.sv (GNSSdataFromOSP.subfrmCh g ch 2) ->
  GNSSdataFromOSP.allGPSEphemReceived g ch = false.
Proof.
  intros H. unfold GNSSdataFromOSP.allGPSEphemReceived. cbv zeta.
  destruct H as [H | H]; apply Z.eqb_neq in H; rewrite H;
    rewrite ?andb_false_r; reflexivity.
Qed.

(** With the three subframes of one satellite in the slots, the set is
    complete exactly when the issues of data agree. *)
Lemma allGPSEphemReceived_complete (g : GNSSdataFromOSP.t) (ch sv : Z)
    (wd1 wd2 wd3 : list Z) :
  GNSSdataFromOSP.subfrmCh g ch 0 = GNSSdataFromOSP.mkSubframeData sv wd1 ->
  GNSSdataFromOSP.subfrmCh g ch 1 = GNSSdataFromOSP.mkSubframeData sv wd2 ->
  GNSSdataFromOSP.subfrmCh g ch 2 = GNSSdataFromOSP.mkSubframeData sv wd3 ->
  GNSSdataFromOSP.allGPSEphemReceived g ch = true <-> sameIssue wd1 wd2 wd3.
Proof.
  intros E0 E1 E2.
  unfold GNSSdataFromOSP.allGPSEphemReceived, GNSSdataFromOSP.word, sameIssue,
    iodcLSB, iodeSubframe2, iodeSubframe3. cbv zeta.
  rewrite E0, E1, E2. cbn [GNSSdataFromOSP.sv GNSSdataFromOSP.words].
  rewrite Z.eqb_refl. cbn [andb].
  change (Z.to_nat 7) with 7%nat. change (Z.to_nat 2) with 2%nat.
  change (Z.to_nat 9) with 9%nat.
  rewrite andb_true_iff, !Z.eqb_eq. reflexivity.
Qed.

Lemma saveNavData_logs_once (r : RinexData.t) (sys : ascii) (sat : Z)
    (bo : RinexData.orbit) (tTag : float) :
  exists e : Logger.entry,
    RinexData.plog (snd (RinexData.saveNavData r sys sat bo tTag)) = RinexData.plog r ++ [e].
Proof.
  unfold RinexData.saveNavData.
  destruct (existsb _ _); eexists; reflexivity.
Qed.

(** The step that stores the last of the three subframes. *)
Lemma feedSubframe_completes (g : GNSSdataFromOSP.t) (rinex : RinexData.t) (ch sv : Z)
    (m : OSPMessage.t) (raw : list Z) (id : Z) (wd1 wd2 wd3 : list Z) :
  carriesSubframe m raw id -> 1 <= id <= 3 ->
  GNSSdataFromOSP.FIRSTGPSSAT <= sv <= GNSSdataFromOSP.LASTGPSSAT ->
  (forall j : Z, 0 <= j <= 2 ->
     GNSSdataFromOSP.subfrmCh
       (withSubframe g (snd (GNSSdataFromOSP.getUInts 10 m)) ch (id - 1)
          (GNSSdataFromOSP.mkSubframeData sv (map GNSSdataFromOSP.removeParity raw)))
       ch j
     = GNSSdataFromOSP.mkSubframeData sv (nth (Z.to_nat j) [wd1; wd2; wd3] [])) ->
  (sameIssue wd1 wd2 wd3 ->
   (exists (bo : RinexData.orbit) (tTag : float),
      snd (feedSubframe ch sv (g, rinex) m)
      = snd (RinexData.saveNavData rinex "G" sv bo tTag))
   /\ channelCleared (fst (feedSubframe ch sv (g, rinex) m)) ch)
  /\ (~ sameIssue wd1 wd2 wd3 -> snd (feedSubframe ch sv (g, rinex) m) = rinex).
Proof.
  intros Hc Hid Hsv Hslots.
  rewrite (feedSubframe_stores g rinex ch sv m raw id Hc Hid). cbv zeta.
  set (g2 := withSubframe g _ ch (id - 1) _) in *.
  pose proof (allGPSEphemReceived_complete g2 ch sv wd1 wd2 wd3
                (Hslots 0 ltac:(lia)) (Hslots 1 ltac:(lia)) (Hslots 2 ltac:(lia))) as Hall.
  destruct (GNSSdataFromOSP.allGPSEphemReceived g2 ch) eqn:E.
  - split; [| intros Hno; exfalso; apply Hno; apply Hall; reflexivity].
    intros _. cbn [fst snd]. split.
    + destruct (extract_after_allReceived g2 ch sv E) as [bom Ex]. rewrite Ex.
      assert (Esv : Z.land sv 0xFF = sv).
      { change 0xFF with (Z.ones 8). rewrite Z.land_ones by lia.
        unfold GNSSdataFromOSP.FIRSTGPSSAT, GNSSdataFromOSP.LASTGPSSAT in Hsv.
        apply Z.mod_small. change (2 ^ 8) with 256. lia. }
      rewrite Esv. eexists. eexists. reflexivity.
    + intros i Hi. cbn [GNSSdataFromOSP.subfrmCh GNSSdataFromOSP.set_subfrmCh].
      apply clearSubframes_cleared. exact Hi.
  - split; [| intros _; reflexivity].
    intros Hyes. apply Hall in Hyes. discriminate.
Qed.

(** A step that stores a subframe while another of the three slots is
    still empty. *)
Lemma feedSubframe_pending (g : GNSSdataFromOSP.t) (rinex : RinexData.t) (ch sv : Z)
    (m : OSPMessage.t) (raw : list Z) (id : Z) :
  carriesSubframe m raw id -> 1 <= id <= 3 ->
  GNSSdataFromOSP.FIRSTGPSSAT <= sv <= GNSSdataFromOSP.LASTGPSSAT ->
  (exists j : Z, 0 <= j <= 2 /\ j <> id - 1
                 /\ GNSSdataFromOSP.sv (GNSSdataFromOSP.subfrmCh g ch j) = 0) ->
  feedSubframe ch sv (g, rinex) m
  = (withSubframe g (snd (GNSSdataFromOSP.getUInts 10 m)) ch (id - 1)
       (GNSSdataFromOSP.mkSubframeData sv (map GNSSdataFromOSP.removeParity raw)),
     rinex).
Proof.
  intros Hc Hid Hsv (j & Hj & Hne & Hempty).
  rewrite (feedSubframe_stores g rinex ch sv m raw id Hc Hid). cbv zeta.
  rewrite allGPSEphemReceived_pending; [reflexivity |].
  unfold GNSSdataFromOSP.FIRSTGPSSAT, GNSSdataFromOSP.LASTGPSSAT in Hsv.
  rewrite !subfrmCh_withSubframe.
  assert (Cj : j = 0 \/ j = 1 \/ j = 2) by lia.
  assert (Ci : id - 1 = 0 \/ id - 1 = 1 \/ id - 1 = 2) by lia.
  destruct Ci as [Ei | [Ei | Ei]]; rewrite Ei in *; cbn [Z.eqb Pos.eqb];
    destruct Cj as [-> | [-> | ->]]; try contradiction;
    cbn [GNSSdataFromOSP.sv]; rewrite ?Hempty; lia.
Qed.

Lemma Permutation_three {A : Type} (a b c : A) (l : list A) :
  Permutation [a; b; c] l ->
  l = [a; b; c] \/ l = [a; c; b] \/ l = [b; a; c]
  \/ l = [b; c; a] \/ l = [c; a; b] \/ l = [c; b; a].
Proof.
  intros H.
  destruct (Permutation_vs_cons_inv (Permutation_sym H)) as (l1 & l2 & ->).
  apply Permutation_cons_app_inv in H.
  apply Permutation_length_2_inv in H.
  destruct l1 as [| x [| y [| z l1]]]; simpl in H;
    destruct H as [H | H]; try discriminate; inversion H; subst; simpl; tauto.
Qed.

Section ThreeSubframes.

Variables (g : GNSSdataFromOSP.t) (rinex : RinexData.t) (ch sv : Z).
Variables (raw1 raw2 raw3 : list Z).

Hypothesis Hsv : GNSSdataFromOSP.FIRSTGPSSAT <= sv <= GNSSdataFromOSP.LASTGPSSAT.
Hypothesis Hcleared : channelCleared g ch.

(** The outcome of the three messages handed over in the order
    [ma], [mb], [mc], where they carry the subframes [ida], [idb], [idc]. *)
Lemma feed_three (ma mb mc : OSPMessage.t) (rawa rawb rawc : list Z) (ida idb idc : Z) :
  carriesSubframe ma rawa ida -> carriesSubframe mb rawb idb ->
  carriesSubframe mc rawc idc ->
  1 <= ida <= 3 -> 1 <= idb <= 3 -> 1 <= idc <= 3 ->
  ida <> idb -> ida <> idc -> idb <> idc ->
  (forall j : Z, 0 <= j <= 2 ->
     (if j =? idc - 1 then map GNSSdataFromOSP.removeParity rawc
      else if j =? idb - 1 then map GNSSdataFromOSP.removeParity rawb
      else map GNSSdataFromOSP.removeParity rawa)
     = nth (Z.to_nat j)
         [map GNSSdataFromOSP.removeParity raw1; map GNSSdataFromOSP.removeParity raw2;
          map GNSSdataFromOSP.removeParity raw3] []) ->
  let st := feedSubframes ch sv [ma; mb; mc] (g, rinex) in
  (sameIssue (map GNSSdataFromOSP.removeParity raw1) (map GNSSdataFromOSP.removeParity raw2)
             (map GNSSdataFromOSP.removeParity raw3) ->
   (exists (bo : RinexData.orbit) (tTag : float),
      snd st = snd (RinexData.saveNavData rinex "G" sv bo tTag))
   /\ channelCleared (fst st) ch)
  /\ (~ sameIssue (map GNSSdataFromOSP.removeParity raw1)
                  (map GNSSdataFromOSP.removeParity raw2)
                  (map GNSSdataFromOSP.removeParity raw3) ->
      snd st = rinex).
Proof.
  intros Ha Hb Hc Ra Rb Rc Nab Nac Nbc Hwords. cbv zeta.
  unfold feedSubframes. cbn [fold_left].
  assert (M : GNSSdataFromOSP.MAXSUBFR = 5) by reflexivity.
  (* first message: the slots of the two others are empty *)
  rewrite (feedSubframe_pending g rinex ch sv ma rawa ida Ha Ra Hsv).
  2: { exists (idb - 1). split; [lia |]. split; [lia |]. apply Hcleared. lia. }
  (* second message: the slot of the third is empty *)
  rewrite (feedSubframe_pending _ rinex ch sv mb rawb idb Hb Rb Hsv).
  2: { exists (idc - 1). split; [lia |]. split; [lia |].
       rewrite subfrmCh_withSubframe.
       assert (E : (idc - 1 =? ida - 1) = false) by (apply Z.eqb_neq; lia).
       rewrite E. apply Hcleared. lia. }
  (* third message: the set is complete *)
  apply (feedSubframe_completes _ rinex ch sv mc rawc idc _ _ _ Hc Rc Hsv).
  intros j Hj. rewrite !subfrmCh_withSubframe.
  rewrite <- (Hwords j Hj).
  destruct (j =? idc - 1) eqn:Ec; [reflexivity |].
  destruct (j =? idb - 1) eqn:Eb; [reflexivity |].
  destruct (j =? ida - 1) eqn:Ea; [reflexivity |].
  apply Z.eqb_neq in Ea, Eb, Ec. lia.
Qed.

End ThreeSubframes.



(* ================================================================== *)
(** * More of Utilities.cpp *)

(** ** [getBits]: which bits of the stream are extracted *)

Lemma shl32_1_small (b : Z) : 0 <= b < 2 ^ 31 -> shl32 b 1 = 2 * b.
Proof.
  intros H. unfold shl32, to_uint32. rewrite Z.shiftl_mul_pow2 by lia.
  change (2 ^ 1) with 2. change (2 ^ 31) with 2147483648 in H.
  change (2 ^ 32) with 4294967296. rewrite Z.mod_small; lia.
Qed.

Lemma testbit_land_1 (x k : Z) :
  0 <= k -> Z.testbit (Z.land x 1) k = (k =? 0) && Z.testbit x 0.
Proof.
  intros Hk. rewrite Z.land_spec.
  destruct (Z.eqb_spec k 0) as [-> | Hne].
  - change (Z.testbit 1 0) with true. now rewrite andb_true_r.
  - replace (Z.testbit 1 k) with false; [now rewrite andb_false_r |].
    symmetry. change 1 with (2 ^ 0). apply Z.pow2_bits_false. lia.
Qed.

(** Bit [k] of "twice [b], or the lowest bit of [x]". *)
Lemma testbit_push (b x k : Z) :
  0 <= k ->
  Z.testbit (Z.lor (2 * b) (Z.land x 1)) k
  = if k =? 0 then Z.testbit x 0 else Z.testbit b (k - 1).
Proof.
  intros Hk. rewrite Z.lor_spec, testbit_land_1 by exact Hk.
  destruct (Z.eqb_spec k 0) as [-> | Hne].
  - rewrite Z.testbit_even_0. reflexivity.
  - replace k with (Z.succ (k - 1)) at 1 by lia.
    rewrite Z.testbit_even_succ by lia. cbn. now rewrite orb_false_r.
Qed.

Lemma push_bound (b x n : Z) :
  0 <= n -> 0 <= b < 2 ^ n -> 0 <= Z.lor (2 * b) (Z.land x 1) < 2 ^ (n + 1).
Proof.
  intros Hn Hb. pose proof (land_1_range x) as Hx.
  assert (E : Z.lor (2 * b) (Z.land x 1) = 2 * b + Z.land x 1).
  { rewrite <- Z.lxor_lor, <- Z.add_nocarry_lxor; try reflexivity.
    all: apply Z.bits_inj'; intros k Hk; rewrite Z.land_spec, testbit_land_1 by exact Hk;
      rewrite Z.bits_0; destruct (Z.eqb_spec k 0) as [-> | Hne];
      [rewrite Z.testbit_even_0; reflexivity | now rewrite andb_false_r]. }
  rewrite E, Z.pow_add_r by lia. change (2 ^ 1) with 2. lia.
Qed.

Lemma getBits_loop_bits (stream : list Z) (n : nat) :
  forall (i bits k : Z),
    Z.of_nat n <= 32 -> Z.of_nat n - 1 <= i ->
    0 <= bits < 2 ^ (32 - Z.of_nat n) -> 0 <= k ->
    Z.testbit (getBits_loop stream i n bits) k
    = if k <? Z.of_nat n then streamBit stream (i - Z.of_nat n + 1 + k)
      else Z.testbit bits (k - Z.of_nat n).
Proof.
  induction n as [| n IH]; intros i bits k Hn Hi Hb Hk.
  - cbn [getBits_loop]. change (Z.of_nat 0) with 0.
    destruct (Z.ltb_spec k 0); [lia |]. now rewrite Z.sub_0_r.
  - cbn [getBits_loop]. rewrite Nat2Z.inj_succ in *.
    assert (Hb31 : 0 <= bits < 2 ^ 31).
    { split; [lia |]. apply Z.lt_le_trans with (2 ^ (32 - Z.succ (Z.of_nat n))); [lia |].
      apply Z.pow_le_mono_r; lia. }
    rewrite shl32_1_small by exact Hb31.
    rewrite IH; try lia.
    + destruct (Z.ltb_spec k (Z.of_nat n)); destruct (Z.ltb_spec k (Z.succ (Z.of_nat n)));
        try lia.
      * f_equal. lia.
      * rewrite testbit_push by lia.
        replace (k - Z.of_nat n) with 0 by lia. cbn [Z.eqb].
        unfold streamBit. replace (i - Z.succ (Z.of_nat n) + 1 + k) with i by lia.
        rewrite Z.shiftr_spec by lia. rewrite Z.add_0_l.
        rewrite Z.quot_div_nonneg, Z.rem_mod_nonneg by lia. reflexivity.
      * rewrite testbit_push by lia.
        destruct (Z.eqb_spec (k - Z.of_nat n) 0); [lia |]. f_equal. lia.
    + replace (32 - Z.of_nat n) with (32 - Z.succ (Z.of_nat n) + 1) by lia.
      apply push_bound; lia.
Qed.

Lemma getBits_testbit (stream : list Z) (bitpos len k : Z) :
  0 <= bitpos -> 0 <= k < len -> len <= 32 ->
  Z.testbit (getBits stream bitpos len) k = streamBit stream (bitpos + k).
Proof.
  intros Hp Hk Hl. unfold getBits.
  rewrite getBits_loop_bits; rewrite ?Z2Nat.id; try lia.
  destruct (Z.ltb_spec k len); [| lia]. f_equal. lia.
Qed.

(** X1: bit [k] of the word that [getBits] extracts is the bit of the
    stream at position [bitpos + k], for [0 <= k < len <= 32] and a position
    that is not negative. *)
Theorem getBits_extracts_stream_bits (stream : list Z) (bitpos len k : Z) :
  0 <= bitpos -> 0 <= k < len -> len <= 32 ->
  Z.testbit (getBits stream bitpos len) k = streamBit stream (bitpos + k).
Proof. exact (getBits_testbit stream bitpos len k). Qed.

Lemma getBits_extracts_stream_bits_witness :
  Z.testbit (getBits [0x00000001; 0xFFFFFFFF] 30 6) 3 = streamBit [0x00000001; 0xFFFFFFFF] 33.
Proof.
  apply (getBits_extracts_stream_bits [0x00000001; 0xFFFFFFFF] 30 6 3); lia.
Defined.

(** ** [getTwosComplement] and [getSigned]: the two signed notations *)

Lemma getTwosComplement_32 (x : Z) : getTwosComplement x 32 = to_int32 x.
Proof. reflexivity. Qed.

Lemma getTwosComplement_range_mod (x nbits : Z) :
  1 <= nbits <= 32 -> 0 <= x < 2 ^ nbits ->
  - 2 ^ (nbits - 1) <= getTwosComplement x nbits < 2 ^ (nbits - 1)
  /\ (getTwosComplement x nbits) mod 2 ^ nbits = x.
Proof.
  intros Hn Hx.
  assert (Hp : 0 < 2 ^ (nbits - 1)) by (apply pow2_pos; lia).
  assert (E2 : 2 ^ nbits = 2 * 2 ^ (nbits - 1)).
  { replace nbits with (nbits - 1 + 1) at 1 by lia. rewrite Z.pow_add_r by lia.
    change (2 ^ 1) with 2. lia. }
  destruct (Z.lt_ge_cases x (2 ^ (nbits - 1))) as [Hlt | Hge].
  - rewrite getTwosComplement_positive by lia.
    split; [lia |]. apply Z.mod_small. lia.
  - assert (Hn' : nbits < 32 \/ nbits = 32) by lia. destruct Hn' as [Hn' | ->].
    + rewrite getTwosComplement_negative by lia.
      split; [lia |].
      rewrite (mod_add_small (x - 2 ^ nbits) 1 (2 ^ nbits)) by lia. lia.
    + rewrite getTwosComplement_32. unfold to_int32.
      change (2 ^ (32 - 1)) with 2147483648 in *. change (2 ^ 31) with 2147483648.
      change (2 ^ 32) with 4294967296 in *.
      rewrite (mod_add_small (x + 2147483648) (-1) 4294967296) by lia.
      split; [lia |].
      rewrite (mod_add_small (x + 2147483648 + -1 * 4294967296 - 2147483648) 1 4294967296)
        by lia.
      lia.
Qed.

(** X2: for a width [1 <= nbits <= 32], [getTwosComplement] gives the one
    number of the range [-2^(nbits-1) .. 2^(nbits-1)-1] that is congruent to
    the pattern modulo [2^nbits]. *)
Theorem getTwosComplement_sign_extends (x nbits : Z) :
  1 <= nbits <= 32 -> 0 <= x < 2 ^ nbits ->
  - 2 ^ (nbits - 1) <= getTwosComplement x nbits < 2 ^ (nbits - 1)
  /\ (getTwosComplement x nbits) mod 2 ^ nbits = x.
Proof. exact (getTwosComplement_range_mod x nbits). Qed.

Lemma getTwosComplement_sign_extends_witness :
  - 2 ^ (24 - 1) <= getTwosComplement 0xFFFFFE 24 < 2 ^ (24 - 1)
  /\ (getTwosComplement 0xFFFFFE 24) mod 2 ^ 24 = 0xFFFFFE.
Proof.
  apply (getTwosComplement_sign_extends 0xFFFFFE 24); [lia | split; [lia | reflexivity]].
Defined.

Lemma testbit_top (x n : Z) :
  1 <= n -> 0 <= x < 2 ^ n -> Z.testbit x (n - 1) = (2 ^ (n - 1) <=? x).
Proof.
  intros Hn Hx.
  assert (Hp : 0 < 2 ^ (n - 1)) by (apply pow2_pos; lia).
  assert (E2 : 2 ^ n = 2 * 2 ^ (n - 1)).
  { replace n with (n - 1 + 1) at 1 by lia. rewrite Z.pow_add_r by lia.
    change (2 ^ 1) with 2. lia. }
  rewrite Z.testbit_eqb by lia.
  destruct (Z.leb_spec (2 ^ (n - 1)) x) as [Hge | Hlt].
  - replace (x / 2 ^ (n - 1)) with 1; [reflexivity |].
    apply Z.div_unique with (r := x - 2 ^ (n - 1)); lia.
  - rewrite Z.div_small by lia. reflexivity.
Qed.

Lemma land_pow2 (x k : Z) :
  0 <= k -> Z.land x (2 ^ k) = if Z.testbit x k then 2 ^ k else 0.
Proof.
  intros Hk. apply Z.bits_inj'. intros j Hj. rewrite Z.land_spec.
  destruct (Z.eq_dec k j) as [<- | Hne].
  - rewrite Z.pow2_bits_true by exact Hk. rewrite andb_true_r.
    destruct (Z.testbit x k) eqn:E; [now rewrite Z.pow2_bits_true | now rewrite Z.bits_0].
  - rewrite Z.pow2_bits_false by lia. rewrite andb_false_r.
    destruct (Z.testbit x k); [now rewrite Z.pow2_bits_false by lia | now rewrite Z.bits_0].
Qed.

(** X3: for a width [1 <= nbits <= 32], [getSigned] reads the pattern as a
    sign bit followed by a magnitude: a pattern below [2^(nbits-1)] is its
    own value, a pattern with the top bit set is minus the rest, so that the
    pattern [2^(nbits-1)] ("minus zero") gives [0]; the result lies strictly
    between [-2^(nbits-1)] and [2^(nbits-1)]. *)
Theorem getSigned_sign_and_magnitude (x nbits : Z) :
  1 <= nbits <= 32 -> 0 <= x < 2 ^ nbits ->
  getSigned x nbits = (if x <? 2 ^ (nbits - 1) then x else - (x - 2 ^ (nbits - 1)))
  /\ - 2 ^ (nbits - 1) < getSigned x nbits < 2 ^ (nbits - 1).
Proof.
  intros Hn Hx.
  assert (Hp : 0 < 2 ^ (nbits - 1)) by (apply pow2_pos; lia).
  assert (E2 : 2 ^ nbits = 2 * 2 ^ (nbits - 1)).
  { replace nbits with (nbits - 1 + 1) at 1 by lia. rewrite Z.pow_add_r by lia.
    change (2 ^ 1) with 2. lia. }
  assert (H31 : 2 ^ (nbits - 1) <= 2 ^ 31) by (apply Z.pow_le_mono_r; lia).
  assert (H32 : 2 ^ nbits <= 2 ^ 32) by (apply Z.pow_le_mono_r; lia).
  assert (Emask : to_uint32 (to_int32 (Z.shiftl 1 (nbits - 1))) = 2 ^ (nbits - 1)).
  { rewrite Z.shiftl_mul_pow2, Z.mul_1_l by lia.
    unfold to_uint32, to_int32.
    change (2 ^ 31) with 2147483648 in *. change (2 ^ 32) with 4294967296 in *.
    destruct (Z.eq_dec (2 ^ (nbits - 1)) 2147483648) as [E | NE].
    - rewrite E. reflexivity.
    - rewrite (Z.mod_small (2 ^ (nbits - 1) + 2147483648)) by lia.
      rewrite Z.mod_small; lia. }
  assert (E : getSigned x nbits
              = if x <? 2 ^ (nbits - 1) then x else - (x - 2 ^ (nbits - 1))).
  { unfold getSigned. cbv zeta. rewrite Emask.
    destruct (Z.leb_spec nbits 32); [| lia]. destruct (Z.gtb_spec nbits 0); [| lia].
    cbn [andb]. rewrite land_pow2 by lia. rewrite testbit_top by lia.
    change (2 ^ 31) with 2147483648 in *. change (2 ^ 32) with 4294967296 in *.
    destruct (Z.leb_spec (2 ^ (nbits - 1)) x) as [Hge | Hlt];
      destruct (Z.ltb_spec x (2 ^ (nbits - 1))); try lia.
    - destruct (Z.eqb_spec (2 ^ (nbits - 1)) 0); [lia |]. cbn [negb].
      rewrite to_uint32_small by (change (2 ^ 32) with 4294967296; lia).
      rewrite (to_int32_small (x - 2 ^ (nbits - 1)))
        by (change (2 ^ 31) with 2147483648; lia).
      apply to_int32_small. change (2 ^ 31) with 2147483648. lia.
    - cbn. apply to_int32_small. change (2 ^ 31) with 2147483648. lia. }
  split; [exact E |]. rewrite E.
  destruct (Z.ltb_spec x (2 ^ (nbits - 1))); lia.
Qed.

Lemma getSigned_sign_and_magnitude_witness :
  getSigned 0x10 5 = (if 0x10 <? 2 ^ (5 - 1) then 0x10 else - (0x10 - 2 ^ (5 - 1)))
  /\ - 2 ^ (5 - 1) < getSigned 0x10 5 < 2 ^ (5 - 1).
Proof.
  apply (getSigned_sign_and_magnitude 0x10 5); [lia | split; [lia | reflexivity]].
Defined.

(** ** [reverseWord] *)

Lemma reverseWord_loop_bits (shifts : nat) :
  forall (w r k : Z),
    Z.of_nat shifts <= 32 -> 0 <= r < 2 ^ (32 - Z.of_nat shifts) -> 0 <= k ->
    Z.testbit (reverseWord_loop shifts w r) k
    = if k <? Z.of_nat shifts then Z.testbit w (Z.of_nat shifts - 1 - k)
      else Z.testbit r (k - Z.of_nat shifts).
Proof.
  induction shifts as [| n IH]; intros w r k Hn Hr Hk.
  - cbn [reverseWord_loop]. change (Z.of_nat 0) with 0.
    destruct (Z.ltb_spec k 0); [lia |]. now rewrite Z.sub_0_r.
  - cbn [reverseWord_loop]. rewrite Nat2Z.inj_succ in *.
    assert (Hr31 : 0 <= r < 2 ^ 31).
    { split; [lia |]. apply Z.lt_le_trans with (2 ^ (32 - Z.succ (Z.of_nat n))); [lia |].
      apply Z.pow_le_mono_r; lia. }
    rewrite shl32_1_small by exact Hr31.
    rewrite IH; try lia.
    + destruct (Z.ltb_spec k (Z.of_nat n)); destruct (Z.ltb_spec k (Z.succ (Z.of_nat n)));
        try lia.
      * rewrite Z.shiftr_spec by lia. f_equal. lia.
      * rewrite testbit_push by lia.
        replace (k - Z.of_nat n) with 0 by lia. cbn [Z.eqb]. f_equal. lia.
      * rewrite testbit_push by lia.
        destruct (Z.eqb_spec (k - Z.of_nat n) 0); [lia |]. f_equal. lia.
    + replace (32 - Z.of_nat n) with (32 - Z.succ (Z.of_nat n) + 1) by lia.
      apply push_bound; lia.
Qed.

Lemma reverseWord_bits (w nBits k : Z) :
  0 <= nBits <= 32 -> 0 <= k ->
  Z.testbit (reverseWord w nBits) k
  = if k <? nBits then Z.testbit w (nBits - 1 - k) else false.
Proof.
  intros Hn Hk. unfold reverseWord.
  rewrite reverseWord_loop_bits; rewrite ?Z2Nat.id; try lia.
  destruct (Z.ltb_spec k nBits); [reflexivity | apply Z.bits_0].
Qed.

(** X4: [reverseWord] puts bit [nBits-1-k] of the word at bit [k], for
    [k < nBits <= 32], and clears the bits from [nBits] on; reversing twice
    gives back a word of [nBits] bits. *)
Theorem reverseWord_reverses (w nBits : Z) :
  0 <= nBits <= 32 -> 0 <= w < 2 ^ nBits ->
  (forall k, 0 <= k ->
     Z.testbit (reverseWord w nBits) k
     = if k <? nBits then Z.testbit w (nBits - 1 - k) else false)
  /\ 0 <= reverseWord w nBits < 2 ^ nBits
  /\ reverseWord (reverseWord w nBits) nBits = w.
Proof.
  intros Hn Hw.
  assert (Hbits : forall k, 0 <= k ->
            Z.testbit (reverseWord w nBits) k
            = if k <? nBits then Z.testbit w (nBits - 1 - k) else false)
    by (intros k Hk; apply reverseWord_bits; assumption).
  split; [exact Hbits |]. split.
  - assert (Hnn : 0 <= reverseWord w nBits).
    { apply Z.bits_iff_nonneg_ex. exists nBits. intros m Hm.
      rewrite Hbits by lia. destruct (Z.ltb_spec m nBits); [lia | reflexivity]. }
    split; [exact Hnn |].
    destruct (Z.eq_dec (reverseWord w nBits) 0) as [-> | Hne]; [apply pow2_pos; lia |].
    apply Z.log2_lt_pow2; [lia |].
    destruct (Z.lt_ge_cases (Z.log2 (reverseWord w nBits)) nBits) as [Hlt | Hge];
      [exact Hlt |].
    pose proof (Z.bit_log2 (reverseWord w nBits) ltac:(lia)) as Hb.
    rewrite Hbits in Hb by apply Z.log2_nonneg.
    destruct (Z.ltb_spec (Z.log2 (reverseWord w nBits)) nBits); [lia | discriminate].
  - apply Z.bits_inj'. intros k Hk. rewrite reverseWord_bits by assumption.
    destruct (Z.ltb_spec k nBits) as [Hlt | Hge].
    + rewrite Hbits by lia. destruct (Z.ltb_spec (nBits - 1 - k) nBits); [| lia].
      f_equal. lia.
    + symmetry. destruct (Z.eq_dec w 0) as [-> | Hne]; [apply Z.bits_0 |].
      apply Z.bits_above_log2; [lia |].
      apply Z.lt_le_trans with nBits; [| exact Hge].
      apply Z.log2_lt_pow2; lia.
Qed.

Lemma reverseWord_reverses_witness :
  (forall k, 0 <= k ->
     Z.testbit (reverseWord 0x16 5) k = if k <? 5 then Z.testbit 0x16 (5 - 1 - k) else false)
  /\ 0 <= reverseWord 0x16 5 < 2 ^ 5
  /\ reverseWord (reverseWord 0x16 5) 5 = 0x16.
Proof.
  apply (reverseWord_reverses 0x16 5); [lia | split; [lia | reflexivity]].
Defined.

(** ** [getTokens] *)

Section Tokens.

Variable separator : ascii.

Lemma append_nil (a : string) : (a ++ EmptyString)%string = a.
Proof. induction a as [| c a IH]; cbn; [reflexivity | now rewrite IH]. Qed.

Lemma getline_chars_spec (ss : string) :
  let '(strBuf, rest) := getline_chars ss separator in
  hasSeparator separator strBuf = false
  /\ withoutSeparator separator ss
     = (strBuf ++ withoutSeparator separator rest)%string
  /\ (String.length rest <= String.length ss)%nat.
Proof.
  induction ss as [| c ss IH]; cbn [getline_chars].
  - repeat split; reflexivity || lia.
  - destruct (getline_chars ss separator) as [strBuf rest].
    destruct IH as (Hs & Hw & Hl).
    cbn [withoutSeparator String.length]. destruct (Ascii.eqb c separator) eqn:Ec.
    + repeat split; try reflexivity. lia.
    + cbn [hasSeparator append]. rewrite Ec, Hs, Hw. repeat split; try reflexivity. lia.
Qed.

Lemma getline_shortens (ss strBuf rest : string) :
  getline ss separator = Some (strBuf, rest) ->
  (String.length rest < String.length ss)%nat.
Proof.
  destruct ss as [| c ss]; [discriminate |]. cbn [getline getline_chars].
  pose proof (getline_chars_spec ss) as H.
  destruct (Ascii.eqb c separator).
  - intros [= <- <-]. cbn. lia.
  - destruct (getline_chars ss separator) as [b r]. destruct H as (_ & _ & Hl).
    intros [= <- <-]. cbn. lia.
Qed.

Lemma isToken_nonempty (strBuf : string) :
  hasSeparator separator strBuf = false -> (0 <? String.length strBuf)%nat = true ->
  isToken separator strBuf.
Proof.
  intros Hs Hl. split; [| exact Hs]. intros ->. discriminate.
Qed.

Lemma getTokens_loop_spec (fuel : nat) :
  forall (ss : string) (tokensFound : list string),
    (String.length ss < fuel)%nat ->
    exists tokens,
      getTokens_loop fuel ss separator tokensFound = tokensFound ++ tokens
      /\ Forall (isToken separator) tokens
      /\ String.concat EmptyString tokens = withoutSeparator separator ss.
Proof.
  induction fuel as [| fuel IH]; intros ss found Hf; [lia |].
  cbn [getTokens_loop]. destruct (getline ss separator) as [[strBuf rest] |] eqn:Eg.
  - pose proof (getline_shortens _ _ _ Eg) as Hl.
    destruct ss as [| c ss]; [discriminate |].
    change (Some (getline_chars (String c ss) separator) = Some (strBuf, rest)) in Eg.
    pose proof (getline_chars_spec (String c ss)) as Hspec.
    destruct (getline_chars (String c ss) separator) as [b r].
    injection Eg as -> ->. destruct Hspec as (Hs & Hw & _).
    destruct (IH rest (if (0 <? String.length strBuf)%nat then found ++ [strBuf] else found)
                ltac:(lia)) as (tokens & E & Ht & Hc).
    destruct (0 <? String.length strBuf)%nat eqn:El.
    + exists (strBuf :: tokens). rewrite E, <- app_assoc. split; [reflexivity |]. split.
      * constructor; [apply isToken_nonempty; assumption | exact Ht].
      * rewrite Hw, <- Hc. destruct tokens; cbn; [now rewrite append_nil | reflexivity].
    + exists tokens. split; [exact E |]. split; [exact Ht |].
      rewrite Hw, Hc. destruct strBuf; [reflexivity | discriminate].
  - destruct ss; [| discriminate]. exists []. rewrite app_nil_r. repeat split. constructor.
Qed.

Lemma getline_chars_token (t rest : string) :
  hasSeparator separator t = false ->
  getline_chars (t ++ String separator rest) separator = (t, rest).
Proof.
  induction t as [| c t IH]; cbn [hasSeparator append getline_chars]; intros H.
  - now rewrite Ascii.eqb_refl.
  - apply orb_false_iff in H. destruct H as [Hc Ht]. rewrite Hc, (IH Ht). reflexivity.
Qed.

Lemma getline_chars_last (t : string) :
  hasSeparator separator t = false -> getline_chars t separator = (t, EmptyString).
Proof.
  induction t as [| c t IH]; cbn [hasSeparator getline_chars]; intros H; [reflexivity |].
  apply orb_false_iff in H. destruct H as [Hc Ht]. rewrite Hc, (IH Ht). reflexivity.
Qed.

Lemma length_append (a b : string) :
  String.length (a ++ b) = (String.length a + String.length b)%nat.
Proof. induction a as [| c a IH]; cbn; [reflexivity | now rewrite IH]. Qed.

Lemma token_length (t : string) : isToken separator t -> (0 <? String.length t)%nat = true.
Proof. intros [Hne _]. destruct t; [contradiction | reflexivity]. Qed.

Lemma getTokens_loop_join (tokens : list string) :
  forall (fuel : nat) (found : list string),
    Forall (isToken separator) tokens ->
    (String.length (joinTokens separator tokens) < fuel)%nat ->
    getTokens_loop fuel (joinTokens separator tokens) separator found = found ++ tokens.
Proof.
  induction tokens as [| t tokens IH]; intros fuel found Ht Hf.
  - destruct fuel; [lia |]. cbn. now rewrite app_nil_r.
  - inversion Ht as [| ? ? Htok Hrest]; subst.
    pose proof (token_length t Htok) as Hlen. destruct Htok as [Hne Hs].
    destruct fuel as [| fuel]; [lia |].
    destruct tokens as [| t' tokens].
    + cbn [joinTokens String.concat] in *. cbn [getTokens_loop].
      destruct t as [| c t]; [contradiction |]. cbn [getline].
      rewrite (getline_chars_last _ Hs), Hlen.
      destruct fuel; [cbn in Hf; lia |]. reflexivity.
    + assert (Ej : joinTokens separator (t :: t' :: tokens)
                   = (t ++ String separator (joinTokens separator (t' :: tokens)))%string)
        by reflexivity.
      rewrite Ej in *. cbn [getTokens_loop].
      assert (Eg : getline (t ++ String separator (joinTokens separator (t' :: tokens)))
                           separator
                   = Some (t, joinTokens separator (t' :: tokens))).
      { destruct t as [| c t]; [contradiction |].
        change (getline (String c t ++ String separator (joinTokens separator (t' :: tokens)))
                        separator)
          with (Some (getline_chars
                        (String c t ++ String separator (joinTokens separator (t' :: tokens)))
                        separator)).
        now rewrite (getline_chars_token _ _ Hs). }
      rewrite Eg, Hlen, IH; [now rewrite <- app_assoc | exact Hrest |].
      rewrite length_append in Hf. cbn [String.length] in Hf. lia.
Qed.

End Tokens.

(** X5: [getTokens] undoes the joining of tokens: a list of texts, none
    empty and none holding the separator, written with the separator between
    them, is split into the same list. *)
Theorem getTokens_of_joined_tokens (separator : ascii) (tokens : list string) :
  Forall (isToken separator) tokens ->
  getTokens (joinTokens separator tokens) separator = tokens.
Proof.
  intros Ht. unfold getTokens. now rewrite getTokens_loop_join by (assumption || lia).
Qed.

Lemma getTokens_of_joined_tokens_witness :
  getTokens (joinTokens "," ["GC1C"; "GL1C"; "R07"]%string) "," = ["GC1C"; "GL1C"; "R07"]%string.
Proof.
  apply (getTokens_of_joined_tokens "," ["GC1C"; "GL1C"; "R07"]%string).
  repeat constructor; discriminate.
Defined.

(** X6: whatever the text and the separator, no token that [getTokens]
    returns is empty or holds the separator, and the tokens written one
    after the other are the text without its separators: leading, trailing
    and repeated separators yield no token. *)
Theorem getTokens_splits_at_separators (source : string) (separator : ascii) :
  Forall (isToken separator) (getTokens source separator)
  /\ String.concat EmptyString (getTokens source separator)
     = withoutSeparator separator source.
Proof.
  unfold getTokens.
  destruct (getTokens_loop_spec separator (S (String.length source)) source []
              ltac:(lia)) as (tokens & E & Ht & Hc).
  rewrite E. cbn [app]. split; assumption.
Qed.

(** ** [strToUpper] *)

Lemma toupper_not_lower (c : ascii) : islower (toupper c) = false.
Proof.
  unfold toupper, islower.
  destruct ((97 <=? nat_of_ascii c) && (nat_of_ascii c <=? 122))%nat eqn:E; [| exact E].
  apply andb_true_iff in E. destruct E as [E1 E2].
  apply Nat.leb_le in E1, E2.
  rewrite nat_ascii_embedding by lia.
  apply andb_false_iff. left. apply Nat.leb_gt. lia.
Qed.

Lemma toupper_fixes (c : ascii) : islower c = false -> toupper c = c.
Proof. unfold toupper, islower. intros ->. reflexivity. Qed.

(** X7: [strToUpper] keeps the length of the text, leaves no lower-case
    letter in it, changes nothing in a text without lower-case letters, and
    so gives the same text when applied twice. *)
Theorem strToUpper_upper_case (s : string) :
  String.length (strToUpper s) = String.length s
  /\ hasLower (strToUpper s) = false
  /\ (hasLower s = false -> strToUpper s = s)
  /\ strToUpper (strToUpper s) = strToUpper s.
Proof.
  assert (Hfix : forall t, hasLower t = false -> strToUpper t = t).
  { induction t as [| c t IH]; cbn; [reflexivity |]. intros H.
    apply orb_false_iff in H. destruct H as [Hc Ht].
    now rewrite (toupper_fixes c Hc), (IH Ht). }
  assert (Hno : forall t, hasLower (strToUpper t) = false).
  { induction t as [| c t IH]; cbn; [reflexivity |].
    now rewrite toupper_not_lower, IH. }
  repeat split.
  - induction s as [| c s IH]; cbn; [reflexivity | now rewrite IH].
  - apply Hno.
  - apply Hfix.
  - apply Hfix, Hno.
Qed.

(* ================================================================== *)
(** * More of OSPMessage *)

(** ** Reading back what [fill] stored *)

Lemma gets_block (block : list Z) :
  forall (pre post : list Z) (len : Z),
    Z.of_nat (List.length pre) + Z.of_nat (List.length block) <= len ->
    gets (List.length block)
         (OSPMessage.mk (pre ++ block ++ post) len (Z.of_nat (List.length pre)))
    = (Val block,
       OSPMessage.mk (pre ++ block ++ post) len
         (Z.of_nat (List.length pre) + Z.of_nat (List.length block))).
Proof.
  induction block as [| b block IH]; intros pre post len Hlen.
  - cbn. now rewrite Z.add_0_r.
  - cbn [gets List.length]. unfold OSPMessage.bind at 1. unfold OSPMessage.get.
    cbn [OSPMessage.payloadLength OSPMessage.cursor OSPMessage.payload].
    cbn [List.length] in Hlen. rewrite Nat2Z.inj_succ in Hlen.
    destruct (Z.leb_spec len (Z.of_nat (List.length pre))); [lia |].
    rewrite Nat2Z.id, app_nth2, Nat.sub_diag by lia. cbn [app nth].
    unfold OSPMessage.bind at 1.
    replace (pre ++ b :: block ++ post) with ((pre ++ [b]) ++ block ++ post)
      by (now rewrite <- app_assoc).
    replace (Z.of_nat (List.length pre) + 1) with (Z.of_nat (List.length (pre ++ [b])))
      by (rewrite length_app; cbn [List.length]; lia).
    rewrite IH by (rewrite length_app; cbn [List.length]; lia).
    unfold OSPMessage.ret. f_equal. f_equal.
    rewrite length_app, Nat2Z.inj_succ. cbn [List.length]. lia.
Qed.

(** X8: a message that [fill] accepts is read back by [get]: for a length
    field that counts the bytes of [block] and does not exceed MAXPAYLOADSIZE,
    [fill] takes the two length bytes and the block from the file, and as
    many calls of [get] as the length says return the bytes of the block in
    their order; the call after them throws 1. *)
Theorem fill_then_get_reads_the_payload
    (m : OSPMessage.t) (hi lo : Z) (block rest : list Z) :
  decodedLength hi lo = Z.of_nat (List.length block) ->
  Z.of_nat (List.length block) <= OSPMessage.MAXPAYLOADSIZE ->
  exists m1 m2,
    OSPMessage.fill m (hi :: lo :: block ++ rest) = (true, m1, rest)
    /\ OSPMessage.payloadLen m1 = Z.of_nat (List.length block)
    /\ gets (List.length block) m1 = (Val block, m2)
    /\ fst (OSPMessage.get m2) = Throw (ThrowInt 1).
Proof.
  intros Hlen Hmax.
  rewrite fill_accepts by (rewrite Hlen, ?length_app; lia).
  rewrite Hlen, Nat2Z.id, firstn_app, Nat.sub_diag, firstn_all, skipn_app, Nat.sub_diag,
    skipn_all.
  cbn [firstn skipn app]. rewrite app_nil_r.
  eexists. eexists. split; [reflexivity |]. split; [reflexivity |].
  unfold OSPMessage.store.
  pose proof (gets_block block [] (skipn (List.length block) (OSPMessage.payload m))
                (Z.of_nat (List.length block)) ltac:(cbn; lia)) as Hg.
  cbn [app List.length Z.of_nat Z.add] in Hg.
  split; [exact Hg |].
  unfold OSPMessage.get. cbn [OSPMessage.payloadLength OSPMessage.cursor].
  rewrite Z.leb_refl. reflexivity.
Qed.

Lemma fill_then_get_reads_the_payload_witness :
  exists m1 m2,
    OSPMessage.fill (OSPMessage.init [9; 9; 9; 9; 9]) (0 :: 3 :: [7; 1; 2] ++ [0; 0])
    = (true, m1, [0; 0])
    /\ OSPMessage.payloadLen m1 = Z.of_nat (List.length [7; 1; 2])
    /\ gets (List.length [7; 1; 2]) m1 = (Val [7; 1; 2], m2)
    /\ fst (OSPMessage.get m2) = Throw (ThrowInt 1).
Proof.
  apply (fill_then_get_reads_the_payload (OSPMessage.init [9; 9; 9; 9; 9]) 0 3 [7; 1; 2] [0; 0]);
    [reflexivity | unfold OSPMessage.MAXPAYLOADSIZE; cbn; lia].
Defined.

(** ** The integers of a message: byte order and sign *)

Lemma byte_at_atCursor (m : OSPMessage.t) (k j : nat) :
  0 <= OSPMessage.cursor m -> (j < k)%nat ->
  OSPMessage.byte_at m (Z.of_nat j) = nth j (atCursor m k) 0.
Proof.
  intros Hc Hj. unfold OSPMessage.byte_at, atCursor.
  rewrite nth_firstn. destruct (Nat.ltb_spec j k); [| lia].
  rewrite nth_skipn. f_equal. lia.
Qed.

Lemma testbit_byte (b n : Z) : 0 <= b < 256 -> 8 <= n -> Z.testbit b n = false.
Proof.
  intros Hb Hn. destruct (Z.eq_dec b 0) as [-> | Hne]; [apply Z.bits_0 |].
  apply Z.bits_above_log2; [lia |].
  apply Z.lt_le_trans with 8; [| exact Hn]. apply Z.log2_lt_pow2; lia.
Qed.

(** The bits of four bytes written the most significant first. *)
Lemma testbit_bytes4 (b0 b1 b2 b3 n : Z) :
  0 <= b0 < 256 -> 0 <= b1 < 256 -> 0 <= b2 < 256 -> 0 <= b3 < 256 -> 0 <= n ->
  Z.testbit (Z.lor (Z.lor (Z.lor (Z.shiftl b0 24) (Z.shiftl b1 16)) (Z.shiftl b2 8)) b3) n
  = if n <? 8 then Z.testbit b3 n
    else if n <? 16 then Z.testbit b2 (n - 8)
    else if n <? 24 then Z.testbit b1 (n - 16)
    else Z.testbit b0 (n - 24).
Proof.
  intros H0 H1 H2 H3 Hn. rewrite !Z.lor_spec, !Z.shiftl_spec by exact Hn.
  destruct (Z.ltb_spec n 8); [| destruct (Z.ltb_spec n 16); [| destruct (Z.ltb_spec n 24)]].
  - rewrite !(Z.testbit_neg_r _ (n - _)) by lia. reflexivity.
  - rewrite !(Z.testbit_neg_r _ (n - 16)), !(Z.testbit_neg_r _ (n - 24)) by lia.
    rewrite (testbit_byte b3 n) by lia. cbn. now rewrite orb_false_r.
  - rewrite (Z.testbit_neg_r _ (n - 24)) by lia.
    rewrite (testbit_byte b3 n), (testbit_byte b2 (n - 8)) by lia. cbn.
    now rewrite !orb_false_r.
  - rewrite (testbit_byte b3 n), (testbit_byte b2 (n - 8)), (testbit_byte b1 (n - 16)) by lia.
    now rewrite !orb_false_r.
Qed.

Lemma byte_of_word (w s : Z) : 0 <= Z.land (Z.shiftr w s) 0xFF < 256.
Proof.
  split; [apply Z.land_nonneg; right; lia |].
  change 0xFF with (Z.ones 8). rewrite Z.land_ones by lia.
  apply Z.mod_pos_bound. reflexivity.
Qed.

Lemma bytesOfWord_value (w : Z) :
  0 <= w < 2 ^ 32 ->
  Z.lor (Z.lor (Z.lor (Z.shiftl (Z.land (Z.shiftr w 24) 0xFF) 24)
                      (Z.shiftl (Z.land (Z.shiftr w 16) 0xFF) 16))
               (Z.shiftl (Z.land (Z.shiftr w 8) 0xFF) 8))
        (Z.land w 0xFF) = w.
Proof.
  intros Hw. apply Z.bits_inj'. intros n Hn.
  pose proof (byte_of_word w 24) as B24. pose proof (byte_of_word w 16) as B16.
  pose proof (byte_of_word w 8) as B8. pose proof (byte_of_word w 0) as B0.
  rewrite Z.shiftr_0_r in B0.
  rewrite testbit_bytes4 by assumption.
  destruct (Z.ltb_spec n 8); [| destruct (Z.ltb_spec n 16); [| destruct (Z.ltb_spec n 24)]].
  - rewrite Z.land_spec, testbit_255 by lia.
    destruct (Z.ltb_spec n 8); [| lia]. now rewrite andb_true_r.
  - rewrite Z.land_spec, Z.shiftr_spec, testbit_255 by lia.
    destruct (Z.ltb_spec (n - 8) 8); [| lia]. rewrite andb_true_r. f_equal. lia.
  - rewrite Z.land_spec, Z.shiftr_spec, testbit_255 by lia.
    destruct (Z.ltb_spec (n - 16) 8); [| lia]. rewrite andb_true_r. f_equal. lia.
  - rewrite Z.land_spec, Z.shiftr_spec, testbit_255 by lia.
    replace (n - 24 + 24) with n by lia.
    destruct (Z.ltb_spec (n - 24) 8); [now rewrite andb_true_r |].
    rewrite andb_false_r. symmetry.
    destruct (Z.eq_dec w 0) as [-> | Hne]; [apply Z.bits_0 |].
    apply Z.bits_above_log2; [lia |].
    apply Z.lt_le_trans with 32; [| lia]. apply Z.log2_lt_pow2; lia.
Qed.

(** X9: [getUInt] and [getInt] read a 32-bit word stored the most
    significant byte first: when the four bytes at the cursor are those of
    the word [w] and belong to the message, [getUInt] returns [w], [getInt]
    returns [w] read as a two's complement [int], and both move the cursor
    four bytes on. *)
Theorem getUInt_getInt_read_big_endian (m : OSPMessage.t) (w : Z) :
  0 <= w < 2 ^ 32 ->
  0 <= OSPMessage.cursor m ->
  OSPMessage.cursor m + 4 <= OSPMessage.payloadLength m ->
  atCursor m 4 = bytesOfWord w ->
  OSPMessage.getUInt m = (Val w, advance m 4)
  /\ OSPMessage.getInt m = (Val (to_int32 w), advance m 4).
Proof.
  intros Hw Hc Hlen Hat.
  assert (E0 : OSPMessage.byte_at m 0 = Z.land (Z.shiftr w 24) 0xFF)
    by (change (Z.land (Z.shiftr w 24) 0xFF) with (nth 0 (bytesOfWord w) 0); rewrite <- Hat;
        apply (byte_at_atCursor m 4 0); lia).
  assert (E1 : OSPMessage.byte_at m 1 = Z.land (Z.shiftr w 16) 0xFF)
    by (change (Z.land (Z.shiftr w 16) 0xFF) with (nth 1 (bytesOfWord w) 0); rewrite <- Hat;
        apply (byte_at_atCursor m 4 1); lia).
  assert (E2 : OSPMessage.byte_at m 2 = Z.land (Z.shiftr w 8) 0xFF)
    by (change (Z.land (Z.shiftr w 8) 0xFF) with (nth 2 (bytesOfWord w) 0); rewrite <- Hat;
        apply (byte_at_atCursor m 4 2); lia).
  assert (E3 : OSPMessage.byte_at m 3 = Z.land w 0xFF)
    by (change (Z.land w 0xFF) with (nth 3 (bytesOfWord w) 0); rewrite <- Hat;
        apply (byte_at_atCursor m 4 3); lia).
  unfold OSPMessage.getUInt, OSPMessage.getInt, advance.
  destruct (Z.leb_spec (OSPMessage.payloadLength m) (OSPMessage.cursor m + 3)); [lia |].
  rewrite E0, E1, E2, E3, bytesOfWord_value by exact Hw.
  rewrite to_uint32_small by exact Hw. split; reflexivity.
Qed.

Lemma getUInt_getInt_read_big_endian_witness :
  OSPMessage.getUInt (OSPMessage.mk [28; 0xFF; 0xFF; 0xFF; 0xFE; 0] 6 1)
  = (Val 0xFFFFFFFE, advance (OSPMessage.mk [28; 0xFF; 0xFF; 0xFF; 0xFE; 0] 6 1) 4)
  /\ OSPMessage.getInt (OSPMessage.mk [28; 0xFF; 0xFF; 0xFF; 0xFE; 0] 6 1)
     = (Val (to_int32 0xFFFFFFFE), advance (OSPMessage.mk [28; 0xFF; 0xFF; 0xFF; 0xFE; 0] 6 1) 4).
Proof.
  apply (getUInt_getInt_read_big_endian (OSPMessage.mk [28; 0xFF; 0xFF; 0xFF; 0xFE; 0] 6 1)
           0xFFFFFFFE); cbn; try lia; reflexivity.
Defined.

Lemma lor_bytes2 (b0 b1 : Z) :
  0 <= b0 < 256 -> 0 <= b1 < 256 -> Z.lor (Z.shiftl b0 8) b1 = b0 * 2 ^ 8 + b1.
Proof.
  intros H0 H1. rewrite Z.shiftl_mul_pow2 by lia.
  rewrite <- Z.lxor_lor, <- Z.add_nocarry_lxor; try reflexivity.
  all: apply Z.bits_inj'; intros n Hn; rewrite Z.land_spec, Z.bits_0;
    destruct (Z.ltb_spec n 8);
    [rewrite Z.mul_pow2_bits_low by lia; reflexivity
    | rewrite (testbit_byte b1 n) by lia; now rewrite andb_false_r].
Qed.

Lemma lor_bytes3 (b0 b1 b2 : Z) :
  0 <= b0 < 256 -> 0 <= b1 < 256 -> 0 <= b2 < 256 ->
  Z.lor (Z.lor (Z.shiftl b0 16) (Z.shiftl b1 8)) b2 = b0 * 2 ^ 16 + b1 * 2 ^ 8 + b2.
Proof.
  intros H0 H1 H2.
  assert (E : Z.lor (Z.shiftl b0 16) (Z.shiftl b1 8) = Z.shiftl (b0 * 2 ^ 8 + b1) 8).
  { rewrite <- lor_bytes2 by assumption. rewrite Z.shiftl_lor, Z.shiftl_shiftl by lia.
    reflexivity. }
  rewrite E. rewrite Z.shiftl_mul_pow2 by lia.
  rewrite <- Z.lxor_lor, <- Z.add_nocarry_lxor; try reflexivity.
  - change (2 ^ 16) with (2 ^ 8 * 2 ^ 8). lia.
  - apply Z.bits_inj'; intros n Hn; rewrite Z.land_spec, Z.bits_0;
      destruct (Z.ltb_spec n 8);
      [rewrite Z.mul_pow2_bits_low by lia; reflexivity
      | rewrite (testbit_byte b2 n) by lia; now rewrite andb_false_r].
  - apply Z.bits_inj'; intros n Hn; rewrite Z.land_spec, Z.bits_0;
      destruct (Z.ltb_spec n 8);
      [rewrite Z.mul_pow2_bits_low by lia; reflexivity
      | rewrite (testbit_byte b2 n) by lia; now rewrite andb_false_r].
Qed.

Lemma to_int16_spec (z : Z) :
  0 <= z < 2 ^ 16 -> - 2 ^ 15 <= to_int16 z < 2 ^ 15 /\ (to_int16 z) mod 2 ^ 16 = z.
Proof.
  intros Hz. unfold to_int16.
  change (2 ^ 15) with 32768 in *. change (2 ^ 16) with 65536 in *.
  destruct (Z.lt_ge_cases z 32768).
  - rewrite (Z.mod_small (z + 32768)) by lia. split; [lia |].
    rewrite Z.mod_small; lia.
  - rewrite (mod_add_small (z + 32768) (-1) 65536) by lia. split; [lia |].
    rewrite (mod_add_small (z + 32768 + -1 * 65536 - 32768) 1 65536) by lia. lia.
Qed.

(** X10: [getShort] and [getInt3] read a two's complement integer of two
    and of three bytes stored the most significant byte first: the value
    returned lies in [-2^15 .. 2^15-1] (in [-2^23 .. 2^23-1]) and is
    congruent to the bytes read as a base-256 number. *)
Theorem getShort_getInt3_read_signed (m : OSPMessage.t) (b0 b1 b2 : Z) :
  isByte b0 -> isByte b1 -> isByte b2 ->
  0 <= OSPMessage.cursor m ->
  OSPMessage.cursor m + 3 <= OSPMessage.payloadLength m ->
  atCursor m 3 = [b0; b1; b2] ->
  (exists v, OSPMessage.getShort m = (Val v, advance m 2)
             /\ - 2 ^ 15 <= v < 2 ^ 15 /\ v mod 2 ^ 16 = b0 * 2 ^ 8 + b1)
  /\ (exists v, OSPMessage.getInt3 m = (Val v, advance m 3)
                /\ - 2 ^ 23 <= v < 2 ^ 23 /\ v mod 2 ^ 24 = b0 * 2 ^ 16 + b1 * 2 ^ 8 + b2).
Proof.
  unfold isByte. intros H0 H1 H2 Hc Hlen Hat.
  assert (E0 : OSPMessage.byte_at m 0 = b0)
    by (change b0 with (nth 0 [b0; b1; b2] 0); rewrite <- Hat;
        apply (byte_at_atCursor m 3 0); lia).
  assert (E1 : OSPMessage.byte_at m 1 = b1)
    by (change b1 with (nth 1 [b0; b1; b2] 0); rewrite <- Hat;
        apply (byte_at_atCursor m 3 1); lia).
  assert (E2 : OSPMessage.byte_at m 2 = b2)
    by (change b2 with (nth 2 [b0; b1; b2] 0); rewrite <- Hat;
        apply (byte_at_atCursor m 3 2); lia).
  split.
  - unfold OSPMessage.getShort, advance.
    destruct (Z.leb_spec (OSPMessage.payloadLength m) (OSPMessage.cursor m + 1)); [lia |].
    rewrite E0, E1, lor_bytes2 by assumption.
    assert (Hr : 0 <= b0 * 2 ^ 8 + b1 < 2 ^ 16)
      by (change (2 ^ 8) with 256; change (2 ^ 16) with 65536; lia).
    rewrite (Z.mod_small _ _ Hr).
    eexists. split; [reflexivity |]. apply to_int16_spec. exact Hr.
  - unfold OSPMessage.getInt3, advance.
    destruct (Z.leb_spec (OSPMessage.payloadLength m) (OSPMessage.cursor m + 2)); [lia |].
    rewrite E0, E1, E2, lor_bytes3 by assumption.
    assert (Hr : 0 <= b0 * 2 ^ 16 + b1 * 2 ^ 8 + b2 < 2 ^ 24)
      by (change (2 ^ 8) with 256; change (2 ^ 16) with 65536; change (2 ^ 24) with 16777216;
          lia).
    rewrite to_uint32_small
      by (change (2 ^ 24) with 16777216 in Hr; change (2 ^ 32) with 4294967296; lia).
    eexists. split; [reflexivity |].
    change (2 ^ 23) with (2 ^ (24 - 1)).
    apply getTwosComplement_range_mod; [lia | exact Hr].
Qed.

Lemma getShort_getInt3_read_signed_witness :
  (exists v, OSPMessage.getShort (OSPMessage.mk [70; 0xFF; 0x38; 0x01] 4 1)
             = (Val v, advance (OSPMessage.mk [70; 0xFF; 0x38; 0x01] 4 1) 2)
             /\ - 2 ^ 15 <= v < 2 ^ 15 /\ v mod 2 ^ 16 = 0xFF * 2 ^ 8 + 0x38)
  /\ (exists v, OSPMessage.getInt3 (OSPMessage.mk [70; 0xFF; 0x38; 0x01] 4 1)
                = (Val v, advance (OSPMessage.mk [70; 0xFF; 0x38; 0x01] 4 1) 3)
                /\ - 2 ^ 23 <= v < 2 ^ 23
                /\ v mod 2 ^ 24 = 0xFF * 2 ^ 16 + 0x38 * 2 ^ 8 + 0x01).
Proof.
  apply (getShort_getInt3_read_signed (OSPMessage.mk [70; 0xFF; 0x38; 0x01] 4 1)
           0xFF 0x38 0x01); unfold isByte; cbn; try lia; reflexivity.
Defined.

(** ** What is left in the buffer by earlier messages is never read *)

Lemma byte_at_sameMessage (m m' : OSPMessage.t) (k : Z) :
  sameMessage m m' -> 0 <= OSPMessage.cursor m -> 0 <= k ->
  OSPMessage.cursor m + k < OSPMessage.payloadLength m ->
  OSPMessage.byte_at m k = OSPMessage.byte_at m' k.
Proof.
  intros (Hl & Hc & Hp) H0 Hk Hin. unfold OSPMessage.byte_at. rewrite <- Hc.
  assert (Hn : (Z.to_nat (OSPMessage.cursor m + k)
                < Z.to_nat (OSPMessage.payloadLength m))%nat) by lia.
  pose proof (nth_firstn (Z.to_nat (OSPMessage.payloadLength m))
                (OSPMessage.payload m) (Z.to_nat (OSPMessage.cursor m + k)) 0) as E1.
  pose proof (nth_firstn (Z.to_nat (OSPMessage.payloadLength m'))
                (OSPMessage.payload m') (Z.to_nat (OSPMessage.cursor m + k)) 0) as E2.
  rewrite <- Hl in E2 at 2. rewrite <- Hp in E2.
  destruct (Nat.ltb_spec (Z.to_nat (OSPMessage.cursor m + k))
              (Z.to_nat (OSPMessage.payloadLength m))); [| lia].
  congruence.
Qed.

Lemma sameMessage_moved (m m' : OSPMessage.t) (c : Z) :
  sameMessage m m' ->
  sameMessage (OSPMessage.mk (OSPMessage.payload m) (OSPMessage.payloadLength m) c)
              (OSPMessage.mk (OSPMessage.payload m') (OSPMessage.payloadLength m') c).
Proof. intros (Hl & Hc & Hp). repeat split; assumption. Qed.

Lemma doCall_sameMessage (c : call) (m m' : OSPMessage.t) :
  sameMessage m m' -> 0 <= OSPMessage.cursor m ->
  fst (doCall c m) = fst (doCall c m')
  /\ sameMessage (snd (doCall c m)) (snd (doCall c m'))
  /\ 0 <= OSPMessage.cursor (snd (doCall c m)).
Proof.
  intros Hs H0.
  pose proof Hs as (Hl & Hc & Hp).
  pose proof (fun k => byte_at_sameMessage m m' k Hs H0) as Hb.
  assert (Hp' : firstn (Z.to_nat (OSPMessage.payloadLength m)) (OSPMessage.payload m)
                = firstn (Z.to_nat (OSPMessage.payloadLength m)) (OSPMessage.payload m'))
    by (rewrite Hp, Hl; reflexivity).
  destruct c; cbn [doCall]; unfold OSPMessage.bind, OSPMessage.ret;
    unfold OSPMessage.get, OSPMessage.getInt, OSPMessage.getUInt, OSPMessage.getShort,
      OSPMessage.getUShort, OSPMessage.getFloat, OSPMessage.getDouble, OSPMessage.getInt3,
      OSPMessage.skipBytes;
    rewrite <- ?Hl, <- ?Hc;
    cbn [OSPMessage.payloadLength OSPMessage.cursor];
    match goal with
    | |- context [OSPMessage.payloadLength m <=? ?x] =>
        destruct (Z.leb_spec (OSPMessage.payloadLength m) x) as [Hout | Hin]
    end;
    cbn [fst snd OSPMessage.cursor];
    (split; [| split; [first [exact Hs | repeat split; cbn; (reflexivity || exact Hp')]
                      | first [exact H0 | lia | apply to_uint32_range]]]).
  all: try reflexivity.
  all: try (rewrite <- !Hb by lia; reflexivity).
  pose proof (Hb 0 ltac:(lia) ltac:(lia)) as E. unfold OSPMessage.byte_at in E.
  rewrite <- Hc, Z.add_0_r in E. now rewrite E.
Qed.

Lemma doCalls_sameMessage (cs : list call) :
  forall (m m' : OSPMessage.t),
    sameMessage m m' -> 0 <= OSPMessage.cursor m ->
    fst (doCalls cs m) = fst (doCalls cs m')
    /\ sameMessage (snd (doCalls cs m)) (snd (doCalls cs m')).
Proof.
  induction cs as [| c cs IH]; intros m m' Hs H0; [split; [reflexivity | exact Hs] |].
  cbn [doCalls]. unfold OSPMessage.bind at 1 3 5 7.
  destruct (doCall_sameMessage c m m' Hs H0) as (E1 & E2 & E3).
  destruct (doCall c m) as [[v | e] m1]; destruct (doCall c m') as [[v' | e'] m1'];
    cbn [fst snd] in *; try discriminate.
  - injection E1 as <-.
    destruct (IH m1 m1' E2 E3) as (F1 & F2).
    unfold OSPMessage.bind, OSPMessage.ret.
    destruct (doCalls cs m1) as [[vs | e] m2]; destruct (doCalls cs m1') as [[vs' | e'] m2'];
      cbn [fst snd] in *; try discriminate.
    + injection F1 as <-. split; [reflexivity | exact F2].
    + injection F1 as <-. split; [reflexivity | exact F2].
  - injection E1 as <-. split; [reflexivity | exact E2].
Qed.

Lemma fill_sameMessage (m m' : OSPMessage.t) (file : OSPMessage.FILE) :
  fst (fst (OSPMessage.fill m file)) = true ->
  fst (fst (OSPMessage.fill m' file)) = true
  /\ snd (OSPMessage.fill m' file) = snd (OSPMessage.fill m file)
  /\ sameMessage (snd (fst (OSPMessage.fill m file))) (snd (fst (OSPMessage.fill m' file)))
  /\ OSPMessage.cursor (snd (fst (OSPMessage.fill m file))) = 0.
Proof.
  destruct file as [| hi [| lo rest]]; try discriminate.
  rewrite !fill_two_bytes. cbv zeta.
  destruct (OSPMessage.MAXPAYLOADSIZE <? decodedLength hi lo); [discriminate |].
  destruct (Z.ltb_spec (Z.of_nat (List.length (firstn (Z.to_nat (decodedLength hi lo)) rest)))
              (decodedLength hi lo)) as [Hlt | Hge]; [discriminate |].
  intros _. cbn [fst snd]. repeat split.
  cbn [OSPMessage.payloadLength OSPMessage.payload]. unfold OSPMessage.store.
  pose proof (firstn_le_length (Z.to_nat (decodedLength hi lo)) rest) as Hle.
  assert (El : List.length (firstn (Z.to_nat (decodedLength hi lo)) rest)
               = Z.to_nat (decodedLength hi lo)) by lia.
  rewrite !firstn_app, El, Nat.sub_diag. cbn [firstn]. reflexivity.
Qed.



(* ================================================================== *)
(** * More of GNSSdataFromOSP *)

(** ** [checkGPSparity]: one inverted bit is detected *)

Lemma checkGPSparity_parityWord (d : Z) :
  GNSSdataFromOSP.checkGPSparity d = (parityWord d =? Z.land d 0x3F).
Proof.
  lazy beta iota zeta delta
    [GNSSdataFromOSP.checkGPSparity parityWord parityBit toCheck map seq fold_left
     Z.of_nat Pos.of_succ_nat Pos.succ Z.to_nat Pos.to_nat Pos.iter_op Nat.add nth
     GNSSdataFromOSP.parityBitMask Z.sub Z.add Z.opp Z.pos_sub Z.succ_double Z.pred_double
     Z.double Pos.pred_double].
  reflexivity.
Qed.

Lemma bit_value (x i : Z) : 0 <= i -> Z.land (Z.shiftr x i) 1 = Z.b2z (Z.testbit x i).
Proof.
  intros Hi. apply Z.bits_inj'. intros n Hn.
  rewrite testbit_land_1 by exact Hn. rewrite Z.shiftr_spec by lia.
  destruct (Z.eqb_spec n 0) as [-> | Hne].
  - cbn [andb Z.add]. destruct (Z.testbit x i); reflexivity.
  - cbn [andb]. destruct (Z.testbit x i); cbn [Z.b2z].
    + change 1 with (2 ^ 0). rewrite Z.pow2_bits_false by lia. reflexivity.
    + now rewrite Z.bits_0.
Qed.

Lemma fold_count (x : Z) (l : list nat) :
  forall c,
    fold_left (fun count i => count + Z.land (Z.shiftr x i) 1) (map Z.of_nat l) c
    = c + fold_right (fun i s => s + Z.b2z (Z.testbit x (Z.of_nat i))) 0 (rev l).
Proof.
  induction l as [| i l IH]; intros c; cbn [map fold_left rev fold_right]; [lia |].
  rewrite IH, fold_right_app. cbn [fold_right]. rewrite bit_value by lia.
  generalize (rev l). intros l'. induction l' as [| j l' IH']; cbn [fold_right]; lia.
Qed.

Lemma bitCount_fold (x : Z) (n : nat) :
  fold_right (fun i s => s + Z.b2z (Z.testbit x (Z.of_nat i))) 0 (rev (seq 0 n))
  = bitCount n x.
Proof.
  induction n as [| n IH]; [reflexivity |].
  rewrite seq_S, rev_app_distr. cbn [rev app fold_right Nat.add bitCount].
  now rewrite IH.
Qed.

Lemma bitsSet_bitCount (x : Z) : GNSSdataFromOSP.bitsSet x = bitCount 32 x.
Proof.
  unfold GNSSdataFromOSP.bitsSet. rewrite fold_count, bitCount_fold. lia.
Qed.

Lemma bitCount_flip (n : nat) (x k : Z) :
  0 <= k ->
  bitCount n (Z.lxor x (2 ^ k))
  = bitCount n x + (if k <? Z.of_nat n then (if Z.testbit x k then -1 else 1) else 0).
Proof.
  intros Hk. induction n as [| n IH].
  - cbn [bitCount]. destruct (Z.ltb_spec k (Z.of_nat 0)); lia.
  - cbn [bitCount]. rewrite IH, Z.lxor_spec. rewrite Nat2Z.inj_succ.
    destruct (Z.eq_dec k (Z.of_nat n)) as [-> | Hne].
    + rewrite Z.pow2_bits_true by lia.
      destruct (Z.ltb_spec (Z.of_nat n) (Z.of_nat n)); [lia |].
      destruct (Z.ltb_spec (Z.of_nat n) (Z.succ (Z.of_nat n))); [| lia].
      destruct (Z.testbit x (Z.of_nat n)); cbn; lia.
    + rewrite Z.pow2_bits_false by lia. rewrite xorb_false_r.
      destruct (Z.ltb_spec k (Z.of_nat n)); destruct (Z.ltb_spec k (Z.succ (Z.of_nat n)));
        lia.
Qed.

Lemma bitCount_nonneg (n : nat) (x : Z) : 0 <= bitCount n x.
Proof.
  induction n as [| n IH]; cbn [bitCount]; [lia |].
  destruct (Z.testbit x (Z.of_nat n)); cbn; lia.
Qed.

Lemma land_flip (mask t k : Z) :
  0 <= k ->
  Z.land mask (Z.lxor t (2 ^ k))
  = if Z.testbit mask k then Z.lxor (Z.land mask t) (2 ^ k) else Z.land mask t.
Proof.
  intros Hk. apply Z.bits_inj'. intros n Hn.
  rewrite Z.land_spec, Z.lxor_spec.
  destruct (Z.eq_dec k n) as [E | Hne].
  - subst n. rewrite Z.pow2_bits_true by lia.
    destruct (Z.testbit mask k) eqn:Em.
    + rewrite Z.lxor_spec, Z.land_spec, Em, Z.pow2_bits_true by lia. reflexivity.
    + rewrite Z.land_spec, Em. reflexivity.
  - rewrite Z.pow2_bits_false by lia. rewrite xorb_false_r.
    destruct (Z.testbit mask k).
    + rewrite Z.lxor_spec, Z.land_spec, Z.pow2_bits_false by lia.
      now rewrite xorb_false_r.
    + now rewrite Z.land_spec.
Qed.

Lemma bitCount_pos (n j : nat) (x : Z) :
  (j < n)%nat -> Z.testbit x (Z.of_nat j) = true -> 0 < bitCount n x.
Proof.
  intros Hj Eb. induction n as [| n IH]; [lia |]. cbn [bitCount].
  pose proof (bitCount_nonneg n x).
  destruct (Nat.eq_dec j n) as [-> | Hne]; [rewrite Eb; cbn; lia |].
  assert (0 < bitCount n x) by (apply IH; lia).
  destruct (Z.testbit x (Z.of_nat n)); cbn; lia.
Qed.

(** Inverting the bit [k] of the word under check inverts the parity bit
    [i] when the mask of that bit takes in the position [k], and leaves it
    otherwise. *)
Lemma parity_of_flipped (mask t k : Z) :
  0 <= k < 32 ->
  Z.rem (GNSSdataFromOSP.bitsSet (Z.land mask (Z.lxor t (2 ^ k)))) 2
  = if Z.testbit mask k
    then 1 - Z.rem (GNSSdataFromOSP.bitsSet (Z.land mask t)) 2
    else Z.rem (GNSSdataFromOSP.bitsSet (Z.land mask t)) 2.
Proof.
  intros Hk. rewrite land_flip by lia. destruct (Z.testbit mask k); [| reflexivity].
  rewrite !bitsSet_bitCount, bitCount_flip by lia.
  destruct (Z.ltb_spec k (Z.of_nat 32)); [| lia].
  pose proof (bitCount_nonneg 32 (Z.land mask t)) as Hnn.
  destruct (Z.testbit (Z.land mask t) k) eqn:Eb.
  - assert (0 < bitCount 32 (Z.land mask t)).
    { apply (bitCount_pos 32 (Z.to_nat k)); [lia |]. rewrite Z2Nat.id by lia. exact Eb. }
    rewrite !Z.rem_mod_nonneg by lia. Z.to_euclidean_division_equations. lia.
  - rewrite !Z.rem_mod_nonneg by lia. Z.to_euclidean_division_equations. lia.
Qed.

Lemma testbit_not32 (d n : Z) : 0 <= n < 32 -> Z.testbit (not32 d) n = negb (Z.testbit d n).
Proof.
  intros Hn. unfold not32, to_uint32.
  rewrite Z.mod_pow2_bits_low by lia. apply Z.lnot_spec. lia.
Qed.

Lemma testbit_low30 (n : Z) : 0 <= n -> Z.testbit 0x3FFFFFFF n = (n <? 30).
Proof.
  intros Hn. change 0x3FFFFFFF with (Z.ones 30).
  destruct (Z.ltb_spec n 30); [apply Z.ones_spec_low | apply Z.ones_spec_high]; lia.
Qed.

Lemma testbit_top2 (n : Z) :
  0 <= n -> Z.testbit 0xC0000000 n = (30 <=? n) && (n <? 32).
Proof.
  intros Hn. change 0xC0000000 with (Z.shiftl (Z.ones 2) 30).
  rewrite Z.shiftl_spec by lia.
  destruct (Z.leb_spec 30 n); [| now rewrite Z.testbit_neg_r by lia].
  destruct (Z.ltb_spec n 32); [apply Z.ones_spec_low | apply Z.ones_spec_high]; lia.
Qed.

Lemma testbit_uint32_high (d n : Z) : 0 <= d < 2 ^ 32 -> 32 <= n -> Z.testbit d n = false.
Proof.
  intros Hd Hn. destruct (Z.eq_dec d 0) as [-> | Hne]; [apply Z.bits_0 |].
  apply Z.bits_above_log2; [lia |].
  apply Z.lt_le_trans with 32; [| exact Hn]. apply Z.log2_lt_pow2; lia.
Qed.

(** The bits of the word under check. *)
Lemma testbit_toCheck (d n : Z) :
  0 <= d < 2 ^ 32 -> 0 <= n ->
  Z.testbit (toCheck d) n
  = if (n <? 30) && Z.testbit d 30 then negb (Z.testbit d n) else Z.testbit d n.
Proof.
  intros Hd Hn. unfold toCheck. change 0x40000000 with (2 ^ 30).
  rewrite land_pow2 by lia. destruct (Z.testbit d 30) eqn:E30; cbn [negb Z.eqb];
    [| now rewrite andb_false_r].
  change (2 ^ 30 =? 0) with false. cbn [negb]. rewrite andb_true_r.
  rewrite Z.lor_spec, !Z.land_spec, testbit_top2, testbit_low30 by lia.
  destruct (Z.ltb_spec n 30).
  - destruct (Z.leb_spec 30 n); [lia |]. cbn [andb]. rewrite !andb_false_r, andb_true_r.
    cbn [orb]. apply testbit_not32. lia.
  - destruct (Z.leb_spec 30 n); [| lia]. cbn [andb]. rewrite andb_false_r, orb_false_r.
    destruct (Z.ltb_spec n 32); [now rewrite andb_true_r |].
    rewrite andb_false_r. symmetry. apply testbit_uint32_high; assumption.
Qed.

Lemma flipBit_range (d k : Z) : 0 <= d < 2 ^ 32 -> 0 <= k < 32 -> 0 <= flipBit d k < 2 ^ 32.
Proof.
  intros Hd Hk. unfold flipBit.
  assert (Hp : 0 <= 2 ^ k < 2 ^ 32).
  { split; [apply Z.pow_nonneg; lia | apply Z.pow_lt_mono_r; lia]. }
  assert (Hnn : 0 <= Z.lxor d (2 ^ k)) by (apply Z.lxor_nonneg; lia).
  split; [exact Hnn |].
  destruct (Z.eq_dec (Z.lxor d (2 ^ k)) 0) as [-> | Hne]; [reflexivity |].
  apply Z.log2_lt_pow2; [lia |].
  apply Z.le_lt_trans with (Z.max (Z.log2 d) (Z.log2 (2 ^ k)));
    [apply Z.log2_lxor; lia |].
  rewrite Z.log2_pow2 by lia.
  destruct (Z.eq_dec d 0) as [-> | Hd0]; [cbn; lia |].
  assert (Z.log2 d < 32) by (apply Z.log2_lt_pow2; lia). lia.
Qed.

Lemma toCheck_flipBit (d k : Z) :
  0 <= d < 2 ^ 32 -> 0 <= k < 30 -> toCheck (flipBit d k) = Z.lxor (toCheck d) (2 ^ k).
Proof.
  intros Hd Hk. apply Z.bits_inj'. intros n Hn.
  rewrite Z.lxor_spec, !testbit_toCheck by (try apply flipBit_range; lia).
  unfold flipBit. rewrite !Z.lxor_spec. rewrite (Z.pow2_bits_false k 30) by lia.
  rewrite xorb_false_r.
  destruct (Z.eq_dec k n) as [<- | Hne].
  - rewrite Z.pow2_bits_true by lia.
    destruct ((k <? 30) && Z.testbit d 30); destruct (Z.testbit d k); reflexivity.
  - rewrite Z.pow2_bits_false by lia. rewrite !xorb_false_r. reflexivity.
Qed.

Lemma parityBit_range (i : nat) (d : Z) : 0 <= parityBit i d < 2.
Proof.
  unfold parityBit. rewrite bitsSet_bitCount.
  pose proof (bitCount_nonneg 32
                (Z.land (nth i GNSSdataFromOSP.parityBitMask 0) (toCheck d))).
  rewrite Z.rem_mod_nonneg by lia. apply Z.mod_pos_bound. lia.
Qed.

Lemma parityBit_flipBit (i : nat) (d k : Z) :
  0 <= d < 2 ^ 32 -> 0 <= k < 30 ->
  parityBit i (flipBit d k)
  = if Z.testbit (nth i GNSSdataFromOSP.parityBitMask 0) k
    then 1 - parityBit i d else parityBit i d.
Proof.
  intros Hd Hk. unfold parityBit. rewrite toCheck_flipBit by assumption.
  apply parity_of_flipped. lia.
Qed.

Lemma parityWord_sum (d : Z) :
  parityWord d
  = 32 * parityBit 0 d + 16 * parityBit 1 d + 8 * parityBit 2 d + 4 * parityBit 3 d
    + 2 * parityBit 4 d + parityBit 5 d.
Proof.
  unfold parityWord.
  pose proof (parityBit_range 0 d) as H0. pose proof (parityBit_range 1 d) as H1.
  pose proof (parityBit_range 2 d) as H2. pose proof (parityBit_range 3 d) as H3.
  pose proof (parityBit_range 4 d) as H4. pose proof (parityBit_range 5 d) as H5.
  assert (E0 : parityBit 0 d = 0 \/ parityBit 0 d = 1) by lia.
  assert (E1 : parityBit 1 d = 0 \/ parityBit 1 d = 1) by lia.
  assert (E2 : parityBit 2 d = 0 \/ parityBit 2 d = 1) by lia.
  assert (E3 : parityBit 3 d = 0 \/ parityBit 3 d = 1) by lia.
  assert (E4 : parityBit 4 d = 0 \/ parityBit 4 d = 1) by lia.
  assert (E5 : parityBit 5 d = 0 \/ parityBit 5 d = 1) by lia.
  destruct E0 as [-> | ->], E1 as [-> | ->], E2 as [-> | ->], E3 as [-> | ->],
    E4 as [-> | ->], E5 as [-> | ->]; reflexivity.
Qed.

(** The positions 0 to 5, the parity bits, are in no mask; every position
    from 6 to 29, the data bits, is in one mask at least. *)
Lemma masks_cover (k : Z) :
  0 <= k < 30 ->
  if k <? 6
  then forallb (fun i => negb (Z.testbit (nth i GNSSdataFromOSP.parityBitMask 0) k))
               (seq 0 6) = true
  else existsb (fun i => Z.testbit (nth i GNSSdataFromOSP.parityBitMask 0) k)
               (seq 0 6) = true.
Proof.
  intros Hk.
  assert (Hall : forallb
                   (fun k =>
                      if k <? 6
                      then forallb
                             (fun i => negb (Z.testbit (nth i GNSSdataFromOSP.parityBitMask 0) k))
                             (seq 0 6)
                      else existsb
                             (fun i => Z.testbit (nth i GNSSdataFromOSP.parityBitMask 0) k)
                             (seq 0 6))
                   (map Z.of_nat (seq 0 30)) = true) by (vm_compute; reflexivity).
  rewrite forallb_forall in Hall.
  specialize (Hall k).
  assert (Hin : In k (map Z.of_nat (seq 0 30))).
  { apply in_map_iff. exists (Z.to_nat k). split; [lia |]. apply in_seq. lia. }
  specialize (Hall Hin). destruct (k <? 6); exact Hall.
Qed.

Lemma checkGPSparity_flipped (d k : Z) :
  0 <= d < 2 ^ 32 -> 0 <= k < 30 ->
  GNSSdataFromOSP.checkGPSparity d = true ->
  GNSSdataFromOSP.checkGPSparity (flipBit d k) = false.
Proof.
  intros Hd Hk Hok. rewrite checkGPSparity_parityWord in *.
  apply Z.eqb_eq in Hok. apply Z.eqb_neq.
  pose proof (masks_cover k Hk) as Hcov.
  pose proof (fun i => parityBit_flipBit i d k Hd Hk) as Hflip.
  pose proof (fun i => parityBit_range i d) as Hr.
  pose proof (fun i => parityBit_range i (flipBit d k)) as Hr'.
  rewrite parityWord_sum in *.
  destruct (Z.ltb_spec k 6) as [Hlow | Hhigh].
  - (* a parity bit was inverted: the computed parity is the same *)
    rewrite forallb_forall in Hcov.
    assert (Hsame : forall i, (i < 6)%nat -> parityBit i (flipBit d k) = parityBit i d).
    { intros i Hi. rewrite Hflip.
      specialize (Hcov i ltac:(apply in_seq; lia)).
      apply negb_true_iff in Hcov. now rewrite Hcov. }
    rewrite !Hsame by lia. rewrite Hok. intros E.
    apply (f_equal (fun z => Z.testbit z k)) in E.
    unfold flipBit in E. rewrite !Z.land_spec, Z.lxor_spec, Z.pow2_bits_true in E by lia.
    change 0x3F with (Z.ones 6) in E. rewrite Z.ones_spec_low in E by lia.
    destruct (Z.testbit d k); discriminate.
  - (* a data bit was inverted: the parity received is the same *)
    assert (Esame : Z.land (flipBit d k) 0x3F = Z.land d 0x3F).
    { apply Z.bits_inj'. intros n Hn. unfold flipBit.
      rewrite !Z.land_spec, Z.lxor_spec. change 0x3F with (Z.ones 6).
      destruct (Z.ltb_spec n 6).
      - rewrite Z.pow2_bits_false by lia. now rewrite xorb_false_r.
      - rewrite Z.ones_spec_high by lia. now rewrite !andb_false_r. }
    rewrite Esame, <- Hok.
    apply existsb_exists in Hcov. destruct Hcov as (i & Hi & Hbit).
    apply in_seq in Hi.
    pose proof (Hflip i) as Hfi. rewrite Hbit in Hfi.
    pose proof (Hr 0%nat); pose proof (Hr 1%nat); pose proof (Hr 2%nat);
      pose proof (Hr 3%nat); pose proof (Hr 4%nat); pose proof (Hr 5%nat).
    pose proof (Hr' 0%nat); pose proof (Hr' 1%nat); pose proof (Hr' 2%nat);
      pose proof (Hr' 3%nat); pose proof (Hr' 4%nat); pose proof (Hr' 5%nat).
    assert (Hi6 : (i = 0 \/ i = 1 \/ i = 2 \/ i = 3 \/ i = 4 \/ i = 5)%nat) by lia.
    destruct Hi6 as [-> | [-> | [-> | [-> | [-> | ->]]]]]; lia.
Qed.

(** X12: [checkGPSparity] detects one inverted bit.  If a 32-bit word (D29*,
    D30*, then the 30 bits of a GPS word) passes the check, the word that
    differs from it in one of the 30 bits of the GPS word, data or parity,
    does not pass. *)
Theorem checkGPSparity_detects_one_inverted_bit (d k : Z) :
  0 <= d < 2 ^ 32 -> 0 <= k < 30 ->
  GNSSdataFromOSP.checkGPSparity d = true ->
  GNSSdataFromOSP.checkGPSparity (flipBit d k) = false.
Proof. exact (checkGPSparity_flipped d k). Qed.

Lemma checkGPSparity_detects_one_inverted_bit_witness :
  GNSSdataFromOSP.checkGPSparity 377487389 = true
  /\ GNSSdataFromOSP.checkGPSparity (flipBit 377487389 17) = false.
Proof.
  assert (H : GNSSdataFromOSP.checkGPSparity 377487389 = true) by (vm_compute; reflexivity).
  split; [exact H |].
  apply (checkGPSparity_detects_one_inverted_bit 377487389 17); [lia | lia | exact H].
Defined.

(** ** [getGLOstring]: where the bits of the GLONASS string go *)

Lemma testbit_shl32 (a n p : Z) :
  0 <= n -> 0 <= p ->
  Z.testbit (shl32 a n) p = (p <? 32) && Z.testbit a (p - n).
Proof.
  intros Hn Hp. unfold shl32, to_uint32.
  destruct (Z.ltb_spec p 32).
  - rewrite Z.mod_pow2_bits_low by lia. rewrite Z.shiftl_spec by lia. reflexivity.
  - rewrite Z.mod_pow2_bits_high by lia. reflexivity.
Qed.

Lemma testbit_ones_shifted (w s p : Z) :
  0 <= w -> 0 <= s ->
  Z.testbit (Z.shiftl (Z.ones w) s) p = (s <=? p) && (p <? s + w).
Proof.
  intros Hw Hs.
  destruct (Z.lt_ge_cases p 0) as [Hneg | Hp].
  { rewrite Z.testbit_neg_r by lia. destruct (Z.leb_spec s p); [lia | reflexivity]. }
  rewrite Z.shiftl_spec by lia.
  destruct (Z.leb_spec s p); [| now rewrite Z.testbit_neg_r by lia].
  destruct (Z.ltb_spec p (s + w)); [apply Z.ones_spec_low | apply Z.ones_spec_high]; lia.
Qed.

Section GLOstring.

Variable ospW : list Z.

Let stringW := GNSSdataFromOSP.packGLOstring ospW.

Lemma stringW0_bit (p : Z) :
  0 <= p < 32 ->
  Z.testbit (nth 0 stringW 0) p
  = if p <? 10 then Z.testbit (nth 3 ospW 0) (p + 15) else Z.testbit (nth 2 ospW 0) (p - 10).
Proof.
  intros Hp. subst stringW. cbn [GNSSdataFromOSP.packGLOstring nth].
  change 0x003FFFFF with (Z.shiftl (Z.ones 22) 0).
  change 0x01FF8000 with (Z.shiftl (Z.ones 10) 15).
  rewrite Z.lor_spec, testbit_shl32, Z.shiftr_spec, !Z.land_spec,
    !testbit_ones_shifted by lia.
  destruct (Z.ltb_spec p 32); [| lia]. cbn [andb].
  destruct (Z.ltb_spec p 10).
  - rewrite (Z.testbit_neg_r _ (p - 10)) by lia. cbn [andb orb].
    destruct (Z.leb_spec 15 (p + 15)); [| lia].
    destruct (Z.ltb_spec (p + 15) (15 + 10)); [| lia]. now rewrite andb_true_r.
  - destruct (Z.leb_spec 0 (p - 10)); [| lia].
    destruct (Z.ltb_spec (p - 10) (0 + 22)); [| lia].
    destruct (Z.ltb_spec (p + 15) (15 + 10)); [lia |].
    now rewrite andb_true_r, !andb_false_r, orb_false_r.
Qed.

Lemma stringW1_bit (p : Z) :
  0 <= p < 32 ->
  Z.testbit (nth 1 stringW 0) p
  = if p <? 3 then Z.testbit (nth 2 ospW 0) (p + 22)
    else if p <? 28 then Z.testbit (nth 1 ospW 0) (p - 3)
    else Z.testbit (nth 0 ospW 0) (p - 28).
Proof.
  intros Hp. subst stringW. cbn [GNSSdataFromOSP.packGLOstring nth].
  change 0x0000000F with (Z.shiftl (Z.ones 4) 0).
  change 0x01FFFFFF with (Z.shiftl (Z.ones 25) 0).
  change 0x01C00000 with (Z.shiftl (Z.ones 3) 22).
  rewrite !Z.lor_spec, !testbit_shl32, Z.shiftr_spec, !Z.land_spec,
    !testbit_ones_shifted by lia.
  destruct (Z.ltb_spec p 32); [| lia]. cbn [andb].
  destruct (Z.ltb_spec p 3); [| destruct (Z.ltb_spec p 28)].
  - rewrite (Z.testbit_neg_r _ (p - 28)), (Z.testbit_neg_r _ (p - 3)) by lia.
    cbn [andb orb].
    destruct (Z.leb_spec 22 (p + 22)); [| lia].
    destruct (Z.ltb_spec (p + 22) (22 + 3)); [| lia]. now rewrite andb_true_r.
  - rewrite (Z.testbit_neg_r _ (p - 28)) by lia. cbn [andb orb].
    destruct (Z.leb_spec 0 (p - 3)); [| lia].
    destruct (Z.ltb_spec (p - 3) (0 + 25)); [| lia].
    destruct (Z.ltb_spec (p + 22) (22 + 3)); [lia |].
    now rewrite andb_true_r, !andb_false_r, orb_false_r.
  - destruct (Z.leb_spec 0 (p - 28)); [| lia].
    destruct (Z.ltb_spec (p - 28) (0 + 4)); [| lia].
    destruct (Z.ltb_spec (p - 3) (0 + 25)); [lia |].
    destruct (Z.ltb_spec (p + 22) (22 + 3)); [lia |].
    now rewrite andb_true_r, !andb_false_r, !orb_false_r.
Qed.

Lemma stringW2_bit (p : Z) :
  0 <= p < 20 -> Z.testbit (nth 2 stringW 0) p = Z.testbit (nth 0 ospW 0) (p + 4).
Proof.
  intros Hp. subst stringW. cbn [GNSSdataFromOSP.packGLOstring nth].
  change 0x00FFFFF0 with (Z.shiftl (Z.ones 20) 4).
  rewrite Z.shiftr_spec, Z.land_spec, testbit_ones_shifted by lia.
  destruct (Z.leb_spec 4 (p + 4)); [| lia].
  destruct (Z.ltb_spec (p + 4) (4 + 20)); [| lia]. now rewrite andb_true_r.
Qed.

Lemma streamBit_stringW (b : Z) :
  1 <= b <= 84 -> streamBit stringW (b - 1) = gloStringBit ospW b.
Proof.
  intros Hb. unfold streamBit, stream_word, gloStringBit.
  assert (Hcase : b - 1 < 32 \/ 32 <= b - 1 < 64 \/ 64 <= b - 1) by lia.
  destruct Hcase as [H | [H | H]].
  - rewrite (Z.div_small (b - 1) 32), (Z.mod_small (b - 1) 32) by lia.
    change (Z.to_nat 0) with 0%nat. rewrite stringW0_bit by lia.
    destruct (Z.ltb_spec (b - 1) 10); destruct (Z.leb_spec b 10); try lia.
    + f_equal. lia.
    + destruct (Z.leb_spec b 35); [| lia]. f_equal. lia.
  - replace ((b - 1) / 32) with 1 by (apply Z.div_unique with (r := b - 1 - 32); lia).
    replace ((b - 1) mod 32) with (b - 1 - 32)
      by (apply Z.mod_unique with (q := 1); lia).
    change (Z.to_nat 1) with 1%nat. rewrite stringW1_bit by lia.
    destruct (Z.leb_spec b 10); [lia |].
    destruct (Z.ltb_spec (b - 1 - 32) 3); destruct (Z.leb_spec b 35); try lia.
    + f_equal. lia.
    + destruct (Z.ltb_spec (b - 1 - 32) 28); destruct (Z.leb_spec b 60); try lia;
        f_equal; lia.
  - replace ((b - 1) / 32) with 2 by (apply Z.div_unique with (r := b - 1 - 64); lia).
    replace ((b - 1) mod 32) with (b - 1 - 64)
      by (apply Z.mod_unique with (q := 2); lia).
    change (Z.to_nat 2) with 2%nat. rewrite stringW2_bit by lia.
    destruct (Z.leb_spec b 10); [lia |]. destruct (Z.leb_spec b 35); [lia |].
    destruct (Z.leb_spec b 60); [lia |]. f_equal. lia.
Qed.

End GLOstring.

(** X13: [getGLOstring] packs the 84 bits of the GLONASS string as its
    description says.  When the message holds the ten words [ospW], bit
    [b - 1] of the three words [stringW] is the string bit [b] of the
    message, for [b] from 1 to 84, and the value returned is the string
    number, the four string bits 84 to 81.  When the message ends before the
    ten words, the method returns 0 and leaves [stringW] as it was. *)
Theorem getGLOstring_packs_the_string (stringW0 : list Z) (m : OSPMessage.t) :
  match GNSSdataFromOSP.getUInts 10 m with
  | (Val ospW, m1) =>
      exists n stringW,
        GNSSdataFromOSP.getGLOstring stringW0 m = (n, stringW, m1)
        /\ (forall b, 1 <= b <= 84 -> streamBit stringW (b - 1) = gloStringBit ospW b)
        /\ 0 <= n < 16
        /\ (forall k, 0 <= k < 4 -> Z.testbit n k = gloStringBit ospW (81 + k))
  | (Throw _, m1) => GNSSdataFromOSP.getGLOstring stringW0 m = (0, stringW0, m1)
  end.
Proof.
  unfold GNSSdataFromOSP.getGLOstring.
  destruct (GNSSdataFromOSP.getUInts 10 m) as [[ospW | e] m1]; [| reflexivity].
  eexists. eexists. split; [reflexivity |]. split; [| split].
  - intros b Hb. apply streamBit_stringW. exact Hb.
  - change 16 with (2 ^ 4). apply getBits_range. lia.
  - intros k Hk. rewrite getBits_testbit by lia.
    replace (80 + k) with (81 + k - 1) by lia. apply streamBit_stringW. lia.
Qed.

(** ** [getMID8GPSNavData]: a corrupted subframe is not stored *)

Lemma nth_alter_same {A : Type} (f : A -> A) (j : nat) (v : list A) (d : A) :
  (j < List.length v)%nat -> nth j (alter f j v) d = f (nth j v d).
Proof.
  revert j. induction v as [| x v IH]; intros j Hj; [cbn in Hj; lia |].
  destruct j as [| j]; cbn [alter nth]; [reflexivity |]. apply IH. cbn in Hj. lia.
Qed.

Lemma nth_alter_other {A : Type} (f : A -> A) (i j : nat) (v : list A) (d : A) :
  i <> j -> nth i (alter f j v) d = nth i v d.
Proof.
  revert i j. induction v as [| x v IH]; intros i j Hne; [destruct j; reflexivity |].
  destruct j as [| j]; destruct i as [| i]; cbn [alter nth]; try reflexivity; try lia.
  apply IH. lia.
Qed.

Lemma length_alter {A : Type} (f : A -> A) (j : nat) (v : list A) :
  List.length (alter f j v) = List.length v.
Proof.
  revert j. induction v as [| x v IH]; intros j; [destruct j; reflexivity |].
  destruct j; cbn [alter List.length]; [reflexivity | now rewrite IH].
Qed.

Lemma forallb_nth_false {A : Type} (p : A -> bool) (v : list A) (j : nat) (d : A) :
  (j < List.length v)%nat -> p (nth j v d) = false -> forallb p v = false.
Proof.
  revert j. induction v as [| x v IH]; intros j Hj Hp; [cbn in Hj; lia |].
  destruct j as [| j]; cbn [nth forallb] in *.
  - now rewrite Hp.
  - rewrite (IH j) by (assumption || (cbn in Hj; lia)). apply andb_false_r.
Qed.

Lemma forallb_nth_true {A : Type} (p : A -> bool) (v : list A) (j : nat) (d : A) :
  (j < List.length v)%nat -> forallb p v = true -> p (nth j v d) = true.
Proof.
  intros Hj Hall. rewrite forallb_forall in Hall. apply Hall, nth_In, Hj.
Qed.

Lemma corrupted_fails_parity (raw : list Z) (j : nat) (k : Z) :
  Forall isUInt32 raw -> (j < List.length raw)%nat -> 0 <= k < 30 ->
  forallb GNSSdataFromOSP.checkGPSparity raw = true ->
  forallb GNSSdataFromOSP.checkGPSparity (corrupted raw j k) = false.
Proof.
  intros Hr Hj Hk Hok. unfold corrupted.
  apply (forallb_nth_false _ _ j 0); [now rewrite length_alter |].
  rewrite nth_alter_same by exact Hj.
  apply checkGPSparity_flipped; [| exact Hk |].
  - rewrite Forall_forall in Hr. apply Hr, nth_In, Hj.
  - apply forallb_nth_true; assumption.
Qed.

(** X14: a subframe with one inverted bit is not stored.  When the ten
    words of a MID 8 message are those of a subframe that passes the parity
    check, but for one inverted bit in one of the 30 bits of one of its GPS
    words, [getMID8GPSNavData] returns [false]; the stored subframes of
    every channel and the RINEX data are left as they were. *)
Theorem getMID8GPSNavData_drops_corrupted_subframe
    (g : GNSSdataFromOSP.t) (ch sv : Z) (rinex : RinexData.t)
    (raw : list Z) (j : nat) (k : Z) :
  Forall isUInt32 raw -> (j < List.length raw)%nat -> 0 <= k < 30 ->
  forallb GNSSdataFromOSP.checkGPSparity raw = true ->
  fst (GNSSdataFromOSP.getUInts 10 (GNSSdataFromOSP.message g)) = Val (corrupted raw j k) ->
  exists g',
    GNSSdataFromOSP.getMID8GPSNavData g ch sv rinex = (false, g', rinex)
    /\ GNSSdataFromOSP.subfrmCh g' = GNSSdataFromOSP.subfrmCh g
    /\ GNSSdataFromOSP.chSatObs g' = GNSSdataFromOSP.chSatObs g.
Proof.
  intros Hr Hj Hk Hok Hread. unfold GNSSdataFromOSP.getMID8GPSNavData.
  destruct (GNSSdataFromOSP.getUInts 10 (GNSSdataFromOSP.message g)) as [res m1].
  cbn [fst] in Hread. subst res.
  rewrite (corrupted_fails_parity raw j k Hr Hj Hk Hok). cbn [negb].
  eexists. split; [reflexivity |]. split; reflexivity.
Qed.

Lemma getMID8GPSNavData_drops_corrupted_subframe_witness :
  exists g',
    GNSSdataFromOSP.getMID8GPSNavData
      (GNSSdataFromOSP.set_message sampleAcq
         (sampleMID8 4 17 (corrupted sampleSubframe1 7 17)))
      4 17 sampleRinex
    = (false, g', sampleRinex)
    /\ GNSSdataFromOSP.subfrmCh g'
       = GNSSdataFromOSP.subfrmCh
           (GNSSdataFromOSP.set_message sampleAcq
              (sampleMID8 4 17 (corrupted sampleSubframe1 7 17)))
    /\ GNSSdataFromOSP.chSatObs g'
       = GNSSdataFromOSP.chSatObs
           (GNSSdataFromOSP.set_message sampleAcq
              (sampleMID8 4 17 (corrupted sampleSubframe1 7 17))).
Proof.
  apply (getMID8GPSNavData_drops_corrupted_subframe
           (GNSSdataFromOSP.set_message sampleAcq
              (sampleMID8 4 17 (corrupted sampleSubframe1 7 17)))
           4 17 sampleRinex sampleSubframe1 7 17).
  - unfold sampleSubframe1.
    repeat (apply Forall_cons; [unfold isUInt32; lia |]). apply Forall_nil.
  - cbn. lia.
  - lia.
  - vm_compute. reflexivity.
  - vm_compute. reflexivity.
Defined.

(** ** [extractGPSEphemeris]: the fields of an extracted ephemeris *)

Lemma land_ones_range (x w : Z) : 0 <= w -> 0 <= Z.land x (Z.ones w) < 2 ^ w.
Proof.
  intros Hw. rewrite Z.land_ones by exact Hw. apply Z.mod_pos_bound, pow2_pos, Hw.
Qed.

Lemma to_int32_land_ones (x w : Z) :
  0 <= w <= 31 -> to_int32 (Z.land x (Z.ones w)) = Z.land x (Z.ones w).
Proof.
  intros Hw. pose proof (land_ones_range x w ltac:(lia)) as Hr.
  assert (2 ^ w <= 2 ^ 31) by (apply Z.pow_le_mono_r; lia).
  apply to_int32_small. lia.
Qed.

Lemma iodc_low_byte (a b : Z) :
  Z.land (Z.lor (Z.land a 0xFF) (Z.land b 0x0300)) 0xFF = Z.land a 0xFF.
Proof.
  apply Z.bits_inj'. intros n Hn.
  rewrite !Z.land_spec, Z.lor_spec, !Z.land_spec, !testbit_255 by exact Hn.
  change 0x0300 with (Z.shiftl (Z.ones 2) 8). rewrite testbit_ones_shifted by lia.
  destruct (Z.ltb_spec n 8); destruct (Z.leb_spec 8 n); try lia;
    destruct (Z.testbit a n), (Z.testbit b n); reflexivity.
Qed.

Lemma iodc_range (a b : Z) : 0 <= Z.lor (Z.land a 0xFF) (Z.land b 0x0300) < 1024.
Proof.
  assert (Ha : 0 <= Z.land a 0xFF < 2 ^ 8) by (apply (land_ones_range a 8); lia).
  assert (Hb : 0 <= Z.land b 0x0300 < 2 ^ 10).
  { assert (E : Z.land b 0x0300 = Z.land (Z.land b 0x0300) (Z.ones 10)).
    { rewrite <- Z.land_assoc. reflexivity. }
    rewrite E. apply land_ones_range. lia. }
  change 1024 with (2 ^ 10). apply lor_lt_pow2; try lia.
Qed.

(** X15: the fields of an ephemeris that [extractGPSEphemeris] accepts.
    Whatever the 45 words, when the method returns [true] the satellite
    number is below 256, the issue of data is the same in its three places
    (the IODE of orbit 1, the IODE of orbit 7, and the eight low bits of the
    IODC), the IODC is below 1024, the week number lies in 1024 .. 2047, the
    accuracy index in 0 .. 15, the health in 0 .. 63 and the fit flag is 0 or
    1; so the accuracy that [scaleGPSEphemeris] stores is always an element
    of [GPS_URA], taken at the accuracy index. *)
Theorem extractGPSEphemeris_fields
    (navW : list Z) (sat : Z) (bom : Z -> Z -> Z) :
  GNSSdataFromOSP.extractGPSEphemeris navW = (sat, Some bom) ->
  0 <= sat < 256
  /\ bom 1 0 = bom 7 3
  /\ Z.land (bom 6 3) 0xFF = bom 1 0
  /\ 0 <= bom 6 3 < 1024
  /\ 1024 <= bom 5 2 < 2048
  /\ 0 <= bom 6 0 < 16
  /\ 0 <= bom 6 1 < 64
  /\ 0 <= bom 7 1 < 2
  /\ snd (GNSSdataFromOSP.scaleGPSEphemeris bom) 6 0 = GNSSdataFromOSP.GPS_URA (bom 6 0).
Proof.
  unfold GNSSdataFromOSP.extractGPSEphemeris. cbv zeta.
  destruct (negb _); [discriminate |].
  destruct (negb _) eqn:Eiod; [discriminate |].
  intros [= <- <-].
  apply negb_false_iff, andb_true_iff in Eiod. destruct Eiod as [E12 E1c].
  apply Z.eqb_eq in E12, E1c.
  cbn [GNSSdataFromOSP.GPSmantissa].
  change 0xFF with (Z.ones 8) in *. change 0x03FF with (Z.ones 10).
  change 0x000F with (Z.ones 4). change 0x003F with (Z.ones 6). change 0x0001 with (Z.ones 1).
  rewrite !to_int32_land_ones by lia.
  assert (H60 : 0 <= Z.land (nth 3 navW 0) (Z.ones 4) < 16)
    by (apply (land_ones_range _ 4); lia).
  split; [apply (land_ones_range _ 8); lia |].
  split; [exact E12 |].
  pose proof (iodc_range (nth 10 navW 0) (nth 4 navW 0)) as Hiodc.
  change 0xFF with (Z.ones 8) in Hiodc.
  rewrite (to_int32_small (Z.lor _ _)) by (change (2 ^ 31) with 2147483648; lia).
  split.
  { pose proof (iodc_low_byte (nth 10 navW 0) (nth 4 navW 0)) as E.
    change 0xFF with (Z.ones 8) in E. rewrite E. symmetry. exact E1c. }
  split; [exact Hiodc |].
  pose proof (land_ones_range (Z.shiftr (nth 3 navW 0) 6) 10 ltac:(lia)) as Hwk.
  change (2 ^ 10) with 1024 in Hwk.
  rewrite (to_int32_small (_ + 1024)) by (change (2 ^ 31) with 2147483648; lia).
  split; [lia |].
  split; [exact H60 |].
  split; [apply (land_ones_range _ 6); lia |].
  split; [apply (land_ones_range _ 1); lia |].
  unfold GNSSdataFromOSP.scaleGPSEphemeris. cbn [snd GNSSdataFromOSP.GPSmantissa].
  change ((6 =? 7) && (0 =? 1)) with false. change ((6 =? 6) && (0 =? 0)) with true.
  cbv iota. change 15 with (Z.ones 4). rewrite !to_int32_land_ones by lia.
  destruct (Z.ltb_spec (Z.land (nth 3 navW 0) (Z.ones 4)) 16); [reflexivity | lia].
Qed.

Lemma extractGPSEphemeris_fields_witness :
  exists bom,
    GNSSdataFromOSP.extractGPSEphemeris sampleNavW = (7, Some bom)
    /\ 0 <= 7 < 256
    /\ bom 1 0 = bom 7 3
    /\ Z.land (bom 6 3) 0xFF = bom 1 0
    /\ 0 <= bom 6 3 < 1024
    /\ 1024 <= bom 5 2 < 2048
    /\ 0 <= bom 6 0 < 16
    /\ 0 <= bom 6 1 < 64
    /\ 0 <= bom 7 1 < 2
    /\ snd (GNSSdataFromOSP.scaleGPSEphemeris bom) 6 0 = GNSSdataFromOSP.GPS_URA (bom 6 0).
Proof.
  eexists. split; [reflexivity |].
  apply (extractGPSEphemeris_fields sampleNavW 7). reflexivity.
Defined.

(** ** [getMID28ObsData]: what is kept of a measurement message *)

Lemma get_val (m m1 : OSPMessage.t) (v : Z) :
  OSPMessage.get m = (Val v, m1) -> v = OSPMessage.byte_at m 0 /\ m1 = advance m 1.
Proof.
  unfold OSPMessage.get, OSPMessage.byte_at, advance.
  destruct (OSPMessage.payloadLength m <=? OSPMessage.cursor m); [discriminate |].
  intros [= <- <-]. rewrite Z.add_0_r. split; reflexivity.
Qed.

Lemma getInt_val (m m1 : OSPMessage.t) (v : Z) :
  OSPMessage.getInt m = (Val v, m1) -> m1 = advance m 4.
Proof.
  unfold OSPMessage.getInt, advance.
  destruct (OSPMessage.payloadLength m <=? OSPMessage.cursor m + 3); [discriminate |].
  now intros [= <- <-].
Qed.

Lemma getUShort_val (m m1 : OSPMessage.t) (v : Z) :
  OSPMessage.getUShort m = (Val v, m1) -> m1 = advance m 2.
Proof.
  unfold OSPMessage.getUShort, advance.
  destruct (OSPMessage.payloadLength m <=? OSPMessage.cursor m + 1); [discriminate |].
  now intros [= <- <-].
Qed.

Lemma getFloat_val (m m1 : OSPMessage.t) (v : float) :
  OSPMessage.getFloat m = (Val v, m1) -> m1 = advance m 4.
Proof.
  unfold OSPMessage.getFloat, advance.
  destruct (OSPMessage.payloadLength m <=? OSPMessage.cursor m + 3); [discriminate |].
  now intros [= <- <-].
Qed.

Lemma getDouble_val (m m1 : OSPMessage.t) (v : float) :
  OSPMessage.getDouble m = (Val v, m1) -> m1 = advance m 8.
Proof.
  unfold OSPMessage.getDouble, advance.
  destruct (OSPMessage.payloadLength m <=? OSPMessage.cursor m + 7); [discriminate |].
  now intros [= <- <-].
Qed.

Lemma advance_advance (m : OSPMessage.t) (j k : Z) :
  advance (advance m j) k = advance m (j + k).
Proof. unfold advance. cbn. f_equal. lia. Qed.

Lemma byte_at_advance (m : OSPMessage.t) (j k : Z) :
  OSPMessage.byte_at (advance m j) k = OSPMessage.byte_at m (j + k).
Proof. unfold OSPMessage.byte_at, advance. cbn. f_equal. f_equal. lia. Qed.

(** One step of a sequence of reads that ends with a value. *)
Lemma bind_val {A B : Type} (r : OSPMessage.reader A) (k : A -> OSPMessage.reader B)
    (m m2 : OSPMessage.t) (b : B) :
  OSPMessage.bind r k m = (Val b, m2) ->
  exists a m1, r m = (Val a, m1) /\ k a m1 = (Val b, m2).
Proof.
  unfold OSPMessage.bind. destruct (r m) as [[a | e] m1]; [| discriminate].
  intros H. exists a, m1. split; [reflexivity | exact H].
Qed.

Lemma worstStrength_val (n : nat) :
  forall (strength : Z) (m m1 : OSPMessage.t) (v : Z),
    GNSSdataFromOSP.worstStrength n strength m = (Val v, m1) ->
    v = least strength (bytesFrom m 0 n) /\ m1 = advance m (Z.of_nat n).
Proof.
  induction n as [| n IH]; intros strength m m1 v H.
  - cbn in H. injection H as <- <-. unfold advance. rewrite Z.add_0_r.
    destruct m; split; reflexivity.
  - cbn [GNSSdataFromOSP.worstStrength] in H.
    apply bind_val in H. destruct H as (c & m' & Hget & H).
    apply get_val in Hget. destruct Hget as [-> ->].
    apply IH in H. destruct H as [-> ->].
    rewrite advance_advance, Nat2Z.inj_succ. split; [| f_equal; lia].
    unfold least, bytesFrom. cbn [seq map fold_left].
    rewrite <- seq_shift, map_map. rewrite !Z.add_0_r.
    assert (Emin : (if OSPMessage.byte_at m 0 <? strength
                    then OSPMessage.byte_at m 0 else strength)
                   = Z.min strength (OSPMessage.byte_at m 0)).
    { destruct (Z.ltb_spec (OSPMessage.byte_at m 0) strength); lia. }
    rewrite Emin. f_equal. apply map_ext. intros i.
    rewrite byte_at_advance. f_equal. lia.
Qed.

Tactic Notation "read_step" hyp(H) ident(v) ident(m) ident(Hr) :=
  apply bind_val in H; destruct H as (v & m & Hr & H).

(** What [readMID28] returns when the message holds all the bytes read. *)
Lemma readMID28_val (satGLOslt : Z -> GNSSdataFromOSP.GLONASSslot)
    (m m1 : OSPMessage.t) (d : GNSSdataFromOSP.MID28) :
  GNSSdataFromOSP.readMID28 satGLOslt m = (Val (Some d), m1) ->
  let channel := OSPMessage.byte_at m 0 in
  let sv := OSPMessage.byte_at m 5 in
  m1 = advance m 49
  /\ ((1 <= sv <= 32 /\ GNSSdataFromOSP.sys d = "G"%char /\ GNSSdataFromOSP.satID d = sv)
      \/ (70 <= sv <= 83 /\ GNSSdataFromOSP.sys d = "R"%char
          /\ GNSSdataFromOSP.satID d = GNSSdataFromOSP.getGLOslot satGLOslt channel sv)
      \/ (101 <= sv <= 200 /\ GNSSdataFromOSP.sys d = "S"%char
          /\ GNSSdataFromOSP.satID d = sv - 100))
  /\ fst (OSPMessage.getDouble (advance m 6)) = Val (GNSSdataFromOSP.gpsSWtime d)
  /\ fst (OSPMessage.getDouble (advance m 14)) = Val (GNSSdataFromOSP.pseudorange d)
  /\ fst (OSPMessage.getFloat (advance m 22)) = Val (GNSSdataFromOSP.carrierFrequency d)
  /\ fst (OSPMessage.getDouble (advance m 26)) = Val (GNSSdataFromOSP.carrierPhase d)
  /\ GNSSdataFromOSP.syncFlags d = OSPMessage.byte_at m 36
  /\ GNSSdataFromOSP.strength d = least (OSPMessage.byte_at m 37) (bytesFrom m 38 9).
Proof.
  intros H channel sv. unfold GNSSdataFromOSP.readMID28 in H.
  read_step H ch m2 Hch. apply get_val in Hch. destruct Hch as [-> ->].
  read_step H tag m3 Htt. apply getInt_val in Htt. subst m3.
  read_step H sv' m4 Hsv. apply get_val in Hsv. destruct Hsv as [-> ->].
  rewrite !advance_advance, !byte_at_advance in *. cbn [Z.add Pos.add Pos.succ] in *.
  fold channel sv in H.
  assert (Hsat : exists sys satID,
             (if (GNSSdataFromOSP.FIRSTGPSSAT <=? sv) && (sv <=? GNSSdataFromOSP.LASTGPSSAT)
              then Some ("G"%char, sv)
              else if (GNSSdataFromOSP.FIRSTGLOSAT <=? sv) && (sv <=? GNSSdataFromOSP.LASTGLOSAT)
                   then Some ("R"%char, GNSSdataFromOSP.getGLOslot satGLOslt channel sv)
              else if (GNSSdataFromOSP.FIRSTSBASSAT <=? sv) && (sv <=? GNSSdataFromOSP.LASTSBASSAT)
                   then Some ("S"%char, sv - 100)
              else None) = Some (sys, satID)
             /\ ((1 <= sv <= 32 /\ sys = "G"%char /\ satID = sv)
                 \/ (70 <= sv <= 83 /\ sys = "R"%char
                     /\ satID = GNSSdataFromOSP.getGLOslot satGLOslt channel sv)
                 \/ (101 <= sv <= 200 /\ sys = "S"%char /\ satID = sv - 100))).
  { unfold GNSSdataFromOSP.FIRSTGPSSAT, GNSSdataFromOSP.LASTGPSSAT,
      GNSSdataFromOSP.FIRSTGLOSAT, GNSSdataFromOSP.LASTGLOSAT,
      GNSSdataFromOSP.FIRSTSBASSAT, GNSSdataFromOSP.LASTSBASSAT in *.
    destruct (Z.leb_spec 1 sv), (Z.leb_spec sv 32); cbn [andb] in *;
      try (eexists _, _; split; [reflexivity | left; repeat split; lia]);
      (destruct (Z.leb_spec 70 sv), (Z.leb_spec sv 83); cbn [andb] in *;
       try (eexists _, _; split; [reflexivity | right; left; repeat split; lia]);
       (destruct (Z.leb_spec 101 sv), (Z.leb_spec sv 200); cbn [andb] in *;
        try (eexists _, _; split; [reflexivity | right; right; repeat split; lia]);
        discriminate H)). }
  destruct Hsat as (sys & satID & Esat & Hsat). rewrite Esat in H.
  read_step H time m5 Htime. pose proof (getDouble_val _ _ _ Htime) as ->.
  read_step H range m6 Hrange. pose proof (getDouble_val _ _ _ Hrange) as ->.
  read_step H freq m7 Hfreq. pose proof (getFloat_val _ _ _ Hfreq) as ->.
  read_step H phase m8 Hphase. pose proof (getDouble_val _ _ _ Hphase) as ->.
  read_step H track m9 Htrack. apply getUShort_val in Htrack. subst m9.
  read_step H flags m10 Hflags. apply get_val in Hflags. destruct Hflags as [-> ->].
  read_step H first m11 Hfirst. apply get_val in Hfirst. destruct Hfirst as [-> ->].
  read_step H worst m12 Hworst. apply worstStrength_val in Hworst.
  destruct Hworst as [-> ->].
  read_step H interval m13 Hinterval. apply getUShort_val in Hinterval. subst m13.
  rewrite !advance_advance, !byte_at_advance in *.
  cbn [Z.add Z.of_nat Pos.of_succ_nat Pos.add Pos.succ Pos.add_carry] in *.
  unfold OSPMessage.ret in H. injection H as <- <-.
  cbn [GNSSdataFromOSP.sys GNSSdataFromOSP.satID GNSSdataFromOSP.gpsSWtime
       GNSSdataFromOSP.pseudorange GNSSdataFromOSP.carrierFrequency
       GNSSdataFromOSP.carrierPhase GNSSdataFromOSP.syncFlags GNSSdataFromOSP.strength].
  rewrite Htime, Hrange, Hfreq, Hphase.
  repeat split; try reflexivity; try exact Hsat.
  rewrite !byte_at_advance. reflexivity.
Qed.

(** X16: what [getMID28ObsData] stores.  When it returns [true], exactly
    one measurement was appended to the channel data and the bit 0 of the
    synchronisation flags (byte 36 of the message) is set.  The measurement
    has the system and number given by the satellite number of the receiver
    (1 to 32: G and the number; 70 to 83: R and the GLONASS slot; 101 to 200:
    S and the number less 100), the time and pseudorange that the message
    holds at bytes 6 and 14, the carrier phase and frequency of the message
    or 0.0 when bit 1 or bit 4 of the flags is not set, as signal strength
    the least of the ten C/N0 bytes, as strength index that value divided by
    6 and kept between 1 and 9, and no loss of lock.  [sameEpoch] tells
    whether its time is the one of the first element of the channel data. *)
Theorem getMID28ObsData_stores_the_measurement
    (g g' : GNSSdataFromOSP.t) (satGLOslt : Z -> GNSSdataFromOSP.GLONASSslot)
    (sameEpoch : bool) :
  GNSSdataFromOSP.getMID28ObsData g satGLOslt = (true, sameEpoch, g') ->
  let m := GNSSdataFromOSP.message g in
  let sv := OSPMessage.byte_at m 5 in
  let flags := OSPMessage.byte_at m 36 in
  let worst := least (OSPMessage.byte_at m 37) (bytesFrom m 38 9) in
  exists obs,
    GNSSdataFromOSP.chSatObs g' = GNSSdataFromOSP.chSatObs g ++ [obs]
    /\ Z.land flags 1 <> 0
    /\ ((1 <= sv <= 32 /\ GNSSdataFromOSP.system obs = "G"%char
         /\ GNSSdataFromOSP.satPrn obs = sv)
        \/ (70 <= sv <= 83 /\ GNSSdataFromOSP.system obs = "R"%char
            /\ GNSSdataFromOSP.satPrn obs
               = GNSSdataFromOSP.getGLOslot satGLOslt (OSPMessage.byte_at m 0) sv)
        \/ (101 <= sv <= 200 /\ GNSSdataFromOSP.system obs = "S"%char
            /\ GNSSdataFromOSP.satPrn obs = sv - 100))
    /\ fst (OSPMessage.getDouble (advance m 6)) = Val (GNSSdataFromOSP.timeT obs)
    /\ fst (OSPMessage.getDouble (advance m 14)) = Val (GNSSdataFromOSP.psedrng obs)
    /\ (if Z.land flags 2 =? 0 then GNSSdataFromOSP.carrPh obs = 0%float
        else fst (OSPMessage.getDouble (advance m 26)) = Val (GNSSdataFromOSP.carrPh obs))
    /\ (if Z.land flags 16 =? 0 then GNSSdataFromOSP.carrFq obs = 0%float
        else fst (OSPMessage.getFloat (advance m 22)) = Val (GNSSdataFromOSP.carrFq obs))
    /\ GNSSdataFromOSP.signalStrg obs = double_of_Z worst
    /\ GNSSdataFromOSP.strgIdx obs = Z.min (Z.max (Z.quot worst 6) 1) 9
    /\ GNSSdataFromOSP.limitOl obs = 0
    /\ sameEpoch
       = PrimFloat.eqb (GNSSdataFromOSP.timeT obs)
           (GNSSdataFromOSP.timeT (nth 0 (GNSSdataFromOSP.chSatObs g ++ [obs]) obs)).
Proof.
  intros H m sv flags worst. unfold GNSSdataFromOSP.getMID28ObsData in H.
  fold m in H.
  destruct (GNSSdataFromOSP.readMID28 satGLOslt m) as [[[d |] | e] m1] eqn:Er;
    try discriminate H.
  apply readMID28_val in Er.
  destruct Er as (-> & Hsat & Htime & Hrange & Hfreq & Hphase & Hflags & Hworst).
  fold sv in Hsat. fold flags in Hflags. fold worst in Hworst.
  rewrite Hflags, Hworst in H.
  destruct (Z.eqb_spec (Z.land flags 1) 0) as [E1 | E1]; cbn [negb] in H;
    [discriminate H |].
  injection H as <- <-.
  eexists. split; [reflexivity |].
  cbn [GNSSdataFromOSP.system GNSSdataFromOSP.satPrn GNSSdataFromOSP.timeT
       GNSSdataFromOSP.psedrng GNSSdataFromOSP.carrPh GNSSdataFromOSP.carrFq
       GNSSdataFromOSP.signalStrg GNSSdataFromOSP.strgIdx GNSSdataFromOSP.limitOl].
  repeat match goal with |- _ /\ _ => split end;
    try reflexivity; try assumption.
  - destruct (Z.land flags 2 =? 0); [reflexivity | exact Hphase].
  - destruct (Z.land flags 16 =? 0); [reflexivity | exact Hfreq].
  - unfold GNSSdataFromOSP.strengthIndex.
    repeat match goal with
           | |- context [?a <? ?b] => destruct (Z.ltb_spec a b)
           | |- context [?a >? ?b] => destruct (Z.gtb_spec a b)
           end; lia.
Qed.

Lemma getMID28ObsData_stores_the_measurement_witness :
  exists obs,
    GNSSdataFromOSP.chSatObs
      (snd (GNSSdataFromOSP.getMID28ObsData sampleAcq28 sampleGLOslots))
    = GNSSdataFromOSP.chSatObs sampleAcq28 ++ [obs]
    /\ GNSSdataFromOSP.system obs = "G"%char
    /\ GNSSdataFromOSP.satPrn obs = 7
    /\ GNSSdataFromOSP.timeT obs = 100%float
    /\ GNSSdataFromOSP.psedrng obs = 19922944%float
    /\ GNSSdataFromOSP.strgIdx obs = 6.
Proof.
  destruct (getMID28ObsData_stores_the_measurement sampleAcq28
              (snd (GNSSdataFromOSP.getMID28ObsData sampleAcq28 sampleGLOslots))
              sampleGLOslots false)
    as (obs & Hst & _ & Hsat & Htime & Hrange & _ & _ & _ & Hidx & _ & _).
  - vm_compute. reflexivity.
  - exists obs. split; [exact Hst |].
    assert (Hsv : OSPMessage.byte_at (GNSSdataFromOSP.message sampleAcq28) 5 = 7)
      by reflexivity.
    rewrite Hsv in Hsat.
    destruct Hsat as [(_ & Hs & Hp) | [(Hr & _) | (Hr & _)]]; try lia.
    split; [exact Hs |]. split; [exact Hp |].
    assert (Et : fst (OSPMessage.getDouble
                        (advance (GNSSdataFromOSP.message sampleAcq28) 6))
                 = Val 100%float) by (vm_compute; reflexivity).
    assert (Ep : fst (OSPMessage.getDouble
                        (advance (GNSSdataFromOSP.message sampleAcq28) 14))
                 = Val 19922944%float) by (vm_compute; reflexivity).
    rewrite Et in Htime. rewrite Ep in Hrange.
    injection Htime as <-. injection Hrange as <-.
    split; [reflexivity |]. split; [reflexivity |].
    rewrite Hidx. reflexivity.
Defined.

Lemma skipn_last {A : Type} (l : list A) (x : A) :
  skipn (List.length (l ++ [x]) - 1) (l ++ [x]) = [x].
Proof.
  rewrite length_app. cbn [List.length].
  replace (List.length l + 1 - 1)%nat with (List.length l + 0)%nat by lia.
  rewrite skipn_app, Nat.add_0_r, skipn_all.
  replace (List.length l - List.length l)%nat with 0%nat by lia. reflexivity.
Qed.



(** ** [case 7] of [acqEpochData]: the channel data become observation
    records *)

Lemma saveObsData_appends (r : RinexData.t) (sys : ascii) (sat : Z) (obsTy : string)
    (value : float) (lol strg : Z) (tTag t0 : float) :
  declared r sys obsTy ->
  RinexData.epochObs r = [] \/ PrimFloat.eqb (RinexData.epochTimeTag r) t0 = true ->
  PrimFloat.eqb tTag t0 = true ->
  let r' := snd (RinexData.saveObsData r sys sat obsTy value lol strg tTag) in
  RinexData.epochObs r'
  = RinexData.epochObs r
    ++ [RinexData.mkSatObsData tTag (RinexData.sysInx r sys) sat (obsIndex r sys obsTy)
          value lol strg]
  /\ RinexData.systems r' = RinexData.systems r
  /\ PrimFloat.eqb (RinexData.epochTimeTag r') t0 = true.
Proof.
  intros [Hsx Hox] Hinv Htag. unfold obsIndex. unfold RinexData.saveObsData.
  set (r1 := if empty (RinexData.epochObs r) then RinexData.set_epochTimeTag r tTag else r).
  assert (Hsys : RinexData.systems r1 = RinexData.systems r)
    by (subst r1; destruct (empty (RinexData.epochObs r)); reflexivity).
  assert (Hobs : RinexData.epochObs r1 = RinexData.epochObs r)
    by (subst r1; destruct (empty (RinexData.epochObs r)); reflexivity).
  assert (Ht0 : PrimFloat.eqb (RinexData.epochTimeTag r1) t0 = true).
  { subst r1. destruct (RinexData.epochObs r) as [| x v]; cbn [empty].
    - exact Htag.
    - destruct Hinv as [Hinv | Hinv]; [discriminate Hinv | exact Hinv]. }
  assert (Hsame : PrimFloat.eqb (RinexData.epochTimeTag r1) tTag = true)
    by (apply (double_eq_trans _ t0); [exact Ht0 | apply double_eq_sym, Htag]).
  rewrite Hsame, Hsys.
  destruct (Z.leb_spec 0 (RinexData.sysInx r sys)) as [_ | Hlt]; [| lia].
  destruct (RinexData.find_obsType _ obsTy 0) as [ox |]; [| now elim Hox].
  cbn [snd RinexData.set_epochObs RinexData.epochObs RinexData.systems
       RinexData.epochTimeTag].
  rewrite Hobs. repeat split; [exact Hsys | exact Ht0].
Qed.

Lemma declared_systems (r r' : RinexData.t) (sys : ascii) (obsTy : string) :
  RinexData.systems r' = RinexData.systems r ->
  (declared r' sys obsTy <-> declared r sys obsTy)
  /\ RinexData.sysInx r' sys = RinexData.sysInx r sys
  /\ obsIndex r' sys obsTy = obsIndex r sys obsTy.
Proof.
  intros H. unfold declared, obsIndex, RinexData.sysInx. rewrite H.
  repeat split; tauto.
Qed.

Lemma declaredFor_systems (r r' : RinexData.t) (it : GNSSdataFromOSP.ChannelObs) :
  RinexData.systems r' = RinexData.systems r -> declaredFor r it -> declaredFor r' it.
Proof.
  intros H. unfold declaredFor, declared, RinexData.sysInx. rewrite H. tauto.
Qed.

Lemma saveChannelObs_appends (g : GNSSdataFromOSP.t) (it : GNSSdataFromOSP.ChannelObs)
    (r : RinexData.t) (t0 : float) :
  declaredFor r it ->
  RinexData.epochObs r = [] \/ PrimFloat.eqb (RinexData.epochTimeTag r) t0 = true ->
  PrimFloat.eqb (GNSSdataFromOSP.timeT it) t0 = true ->
  let r' := GNSSdataFromOSP.saveChannelObs g it r in
  RinexData.epochObs r' = RinexData.epochObs r ++ recordsOf g r it
  /\ RinexData.systems r' = RinexData.systems r
  /\ PrimFloat.eqb (RinexData.epochTimeTag r') t0 = true.
Proof.
  intros (D1 & D2 & D3 & D4) Hinv Htag. unfold GNSSdataFromOSP.saveChannelObs, recordsOf.
  set (sys := GNSSdataFromOSP.system it) in *.
  destruct (saveObsData_appends r sys (GNSSdataFromOSP.satPrn it) "C1C"
              (GNSSdataFromOSP.observableC1C g it) (GNSSdataFromOSP.limitOl it)
              (GNSSdataFromOSP.strgIdx it) (GNSSdataFromOSP.timeT it) t0 D1 Hinv Htag)
    as (E1 & S1 & T1).
  set (r1 := snd (RinexData.saveObsData r sys _ "C1C" _ _ _ _)) in *.
  destruct (declared_systems r r1 sys "L1C" S1) as (DL & XL & OL).
  destruct (saveObsData_appends r1 sys (GNSSdataFromOSP.satPrn it) "L1C"
              (GNSSdataFromOSP.observableL1C g it) (GNSSdataFromOSP.limitOl it)
              (GNSSdataFromOSP.strgIdx it) (GNSSdataFromOSP.timeT it) t0
              (proj2 DL D2) (or_intror T1) Htag)
    as (E2 & S2 & T2).
  set (r2 := snd (RinexData.saveObsData r1 sys _ "L1C" _ _ _ _)) in *.
  rewrite S1 in S2.
  destruct (declared_systems r r2 sys "D1C" S2) as (DD & XD & OD).
  destruct (saveObsData_appends r2 sys (GNSSdataFromOSP.satPrn it) "D1C"
              (GNSSdataFromOSP.observableD1C g it) (GNSSdataFromOSP.limitOl it)
              (GNSSdataFromOSP.strgIdx it) (GNSSdataFromOSP.timeT it) t0
              (proj2 DD D3) (or_intror T2) Htag)
    as (E3 & S3 & T3).
  set (r3 := snd (RinexData.saveObsData r2 sys _ "D1C" _ _ _ _)) in *.
  rewrite S2 in S3.
  destruct (declared_systems r r3 sys "S1C" S3) as (DS & XS & OS).
  destruct (saveObsData_appends r3 sys (GNSSdataFromOSP.satPrn it) "S1C"
              (GNSSdataFromOSP.signalStrg it) (GNSSdataFromOSP.limitOl it)
              (GNSSdataFromOSP.strgIdx it) (GNSSdataFromOSP.timeT it) t0
              (proj2 DS D4) (or_intror T3) Htag)
    as (E4 & S4 & T4).
  rewrite S3 in S4.
  split; [| split; [exact S4 | exact T4]].
  rewrite E4, E3, E2, E1, XL, OL, XD, OD, XS, OS, <- !app_assoc. reflexivity.
Qed.

Lemma saveChannelObs_fold (g : GNSSdataFromOSP.t) (t0 : float)
    (v : list GNSSdataFromOSP.ChannelObs) :
  forall r : RinexData.t,
    Forall (declaredFor r) v ->
    Forall (fun it => PrimFloat.eqb (GNSSdataFromOSP.timeT it) t0 = true) v ->
    RinexData.epochObs r = [] \/ PrimFloat.eqb (RinexData.epochTimeTag r) t0 = true ->
    RinexData.epochObs (fold_left (fun r it => GNSSdataFromOSP.saveChannelObs g it r) v r)
    = RinexData.epochObs r ++ flat_map (recordsOf g r) v.
Proof.
  induction v as [| it v IH]; intros r Hd Ht Hinv.
  - cbn. now rewrite app_nil_r.
  - inversion Hd as [| ? ? Hd1 Hd2]; subst. inversion Ht as [| ? ? Ht1 Ht2]; subst.
    destruct (saveChannelObs_appends g it r t0 Hd1 Hinv Ht1) as (E & S & T).
    cbn [fold_left flat_map]. rewrite IH.
    + rewrite E, <- app_assoc. f_equal. f_equal.
      apply flat_map_ext. intros x. unfold recordsOf, obsIndex, RinexData.sysInx.
      rewrite S. reflexivity.
    + revert Hd2. apply Forall_impl. intros x. apply declaredFor_systems. exact S.
    + exact Ht2.
    + right. exact T.
Qed.

Lemma getMID7TimeData_true (g g1 : GNSSdataFromOSP.t) (rinex rinex1 : RinexData.t) :
  GNSSdataFromOSP.getMID7TimeData g rinex = (true, g1, rinex1) ->
  GNSSdataFromOSP.chSatObs g1 = GNSSdataFromOSP.chSatObs g
  /\ RinexData.systems rinex1 = RinexData.systems rinex
  /\ RinexData.epochObs rinex1 = RinexData.epochObs rinex.
Proof.
  unfold GNSSdataFromOSP.getMID7TimeData.
  destruct (OSPMessage.getUShort _) as [[week | e1] m1]; [| discriminate].
  destruct (OSPMessage.getUInt m1) as [[tow | e2] m2]; [| discriminate].
  destruct (OSPMessage.get m2) as [[sats | e3] m3]; [| discriminate].
  match goal with |- context [if ?c then _ else _] => destruct c end; [discriminate |].
  destruct (OSPMessage.getUInt m3) as [[drift | e4] m4]; [| discriminate].
  destruct (OSPMessage.getUInt m4) as [[bias | e5] m5]; [| discriminate].
  intros [= <- <-].
  match goal with |- context [if ?c then _ else _] => destruct c end;
    repeat split; reflexivity.
Qed.

(** X18: every measurement of the epoch becomes four observation records.
    When [case 7] of [acqEpochData] ends the epoch (it returns [true]), the
    RINEX data held no observation, the times of the channel data are
    numbers and all equal to the first one, and the header declares C1C,
    L1C, D1C and S1C for the system of every measurement, then the
    observation data are, in the order of the channel data, the records
    C1C, L1C, D1C and S1C of each measurement: no measurement is rejected as
    belonging to another epoch.  The channel data are emptied. *)
Theorem acqEpochData_MID7_stores_every_measurement
    (g g' : GNSSdataFromOSP.t) (rinex rinex' : RinexData.t) :
  GNSSdataFromOSP.acqEpochData_MID7 g rinex = (true, g', rinex') ->
  RinexData.epochObs rinex = [] ->
  sameTimeTag (GNSSdataFromOSP.chSatObs g) ->
  Forall timeIsNumber (GNSSdataFromOSP.chSatObs g) ->
  Forall (declaredFor rinex) (GNSSdataFromOSP.chSatObs g) ->
  GNSSdataFromOSP.chSatObs g <> []
  /\ GNSSdataFromOSP.chSatObs g' = []
  /\ RinexData.epochObs rinex'
     = flat_map (recordsOf g' rinex) (GNSSdataFromOSP.chSatObs g).
Proof.
  intros H Hempty Hsame Hnum Hdecl. unfold GNSSdataFromOSP.acqEpochData_MID7 in H.
  destruct (GNSSdataFromOSP.getMID7TimeData g rinex) as [[[|] g1] rinex1] eqn:E7;
    [| discriminate H].
  apply getMID7TimeData_true in E7. destruct E7 as (Ech & Esys & Eobs).
  rewrite Ech in H.
  destruct (GNSSdataFromOSP.chSatObs g) as [| first rest] eqn:Ev; cbn [empty negb] in H;
    [discriminate H |].
  injection H as <- <-.
  split; [discriminate |]. split; [reflexivity |].
  assert (F : RinexData.epochObs
                 (fold_left (fun r it => GNSSdataFromOSP.saveChannelObs g1 it r)
                            (first :: rest) rinex1)
               = RinexData.epochObs rinex1 ++ flat_map (recordsOf g1 rinex1) (first :: rest)).
  { apply (saveChannelObs_fold g1 (GNSSdataFromOSP.timeT first)).
    - revert Hdecl. apply Forall_impl. intros x. apply declaredFor_systems. exact Esys.
    - constructor; [| exact Hsame].
      inversion Hnum; assumption.
    - left. rewrite Eobs. exact Hempty. }
  etransitivity; [exact F |].
  rewrite Eobs, Hempty. cbn [app]. apply flat_map_ext. intros it.
  unfold recordsOf, obsIndex, RinexData.sysInx. rewrite Esys. reflexivity.
Qed.

Lemma acqEpochData_MID7_stores_every_measurement_witness :
  RinexData.epochObs (snd (GNSSdataFromOSP.acqEpochData_MID7 sampleAcq7 sampleRinex))
  = flat_map
      (recordsOf (snd (fst (GNSSdataFromOSP.acqEpochData_MID7 sampleAcq7 sampleRinex)))
                 sampleRinex)
      (GNSSdataFromOSP.chSatObs sampleAcq7)
  /\ List.length
       (RinexData.epochObs (snd (GNSSdataFromOSP.acqEpochData_MID7 sampleAcq7 sampleRinex)))
     = 8%nat.
Proof.
  split; [| vm_compute; reflexivity].
  apply (acqEpochData_MID7_stores_every_measurement sampleAcq7
           (snd (fst (GNSSdataFromOSP.acqEpochData_MID7 sampleAcq7 sampleRinex)))
           sampleRinex
           (snd (GNSSdataFromOSP.acqEpochData_MID7 sampleAcq7 sampleRinex))).
  - vm_compute. reflexivity.
  - reflexivity.
  - cbn. repeat constructor.
  - repeat constructor.
  - repeat (apply Forall_cons; [repeat split; vm_compute; congruence |]).
    apply Forall_nil.
Defined.

(** ** [saveObsData] and [getObsData], [saveNavData] and [getNavData] *)

Lemma sysInx_from_found (v : list RinexData.GNSSsystem) (sysCode : ascii) :
  forall i : Z,
    0 <= i -> 0 <= RinexData.sysInx_from v sysCode i ->
    i <= RinexData.sysInx_from v sysCode i < i + Z.of_nat (List.length v)
    /\ RinexData.system
         (nth (Z.to_nat (RinexData.sysInx_from v sysCode i - i)) v
              (RinexData.mkGNSSsystem "?" false [] [] []))
       = sysCode.
Proof.
  induction v as [| s v IH]; intros i Hi Hfound; cbn [RinexData.sysInx_from] in *.
  - lia.
  - destruct (Ascii.eqb_spec (RinexData.system s) sysCode) as [E | E].
    + rewrite Z.sub_diag. cbn [List.length Z.to_nat nth]. split; [lia | exact E].
    + destruct (IH (i + 1) ltac:(lia) Hfound) as [Hr Hs].
      cbn [List.length]. split; [lia |].
      replace (Z.to_nat (RinexData.sysInx_from v sysCode (i + 1) - i))
        with (S (Z.to_nat (RinexData.sysInx_from v sysCode (i + 1) - (i + 1)))) by lia.
      exact Hs.
Qed.

Lemma system_at_sysInx (r : RinexData.t) (sys : ascii) :
  0 <= RinexData.sysInx r sys ->
  RinexData.system (RinexData.system_at (RinexData.systems r) (RinexData.sysInx r sys)) = sys.
Proof.
  intros H. unfold RinexData.system_at.
  destruct (Z.ltb_spec (RinexData.sysInx r sys) 0) as [Hlt | _]; [lia |].
  destruct (sysInx_from_found (RinexData.systems r) sys 0 ltac:(lia) H) as [_ Hs].
  rewrite Z.sub_0_r in Hs. exact Hs.
Qed.

Lemma find_obsType_found (types : list string) (name : string) :
  forall ox0 ox : Z,
    0 <= ox0 -> RinexData.find_obsType types name ox0 = Some ox ->
    ox0 <= ox < ox0 + Z.of_nat (List.length types)
    /\ nth (Z.to_nat (ox - ox0)) types EmptyString = name.
Proof.
  induction types as [| ty types IH]; intros ox0 ox H0 Hfound;
    cbn [RinexData.find_obsType] in Hfound.
  - discriminate Hfound.
  - destruct (String.eqb_spec name ty) as [E | E].
    + injection Hfound as <-. rewrite Z.sub_diag. cbn [List.length Z.to_nat nth].
      split; [lia | now symmetry].
    + destruct (IH (ox0 + 1) ox ltac:(lia) Hfound) as [Hr Hs].
      cbn [List.length]. split; [lia |].
      replace (Z.to_nat (ox - ox0)) with (S (Z.to_nat (ox - (ox0 + 1)))) by lia.
      exact Hs.
Qed.

(** X19: an observation saved is read back.  When the time tag is the one
    of the current epoch and the header declares the observable for the
    system, [saveObsData] returns [true], and [getObsData] then gives, at the
    index that was the number of stored observations, the system, satellite,
    observable name, value, loss of lock, strength and time tag that were
    saved; it gives what it gave before at the lower indexes and nothing at
    the next one. *)
Theorem saveObsData_then_getObsData
    (r : RinexData.t) (sys : ascii) (sat : Z) (obsTy : string)
    (value : float) (lol strg : Z) (tTag : float) :
  inCurrentEpoch r tTag -> declared r sys obsTy ->
  let r' := snd (RinexData.saveObsData r sys sat obsTy value lol strg tTag) in
  let n := Z.of_nat (List.length (RinexData.epochObs r)) in
  fst (RinexData.saveObsData r sys sat obsTy value lol strg tTag) = true
  /\ RinexData.getObsData r' n = Some (sys, sat, obsTy, value, lol, strg, tTag)
  /\ (forall index, 0 <= index < n ->
        RinexData.getObsData r' index = RinexData.getObsData r index)
  /\ RinexData.getObsData r' (n + 1) = None.
Proof.
  intros Hep [Hsx Hox] r' n. subst r'. unfold inCurrentEpoch in Hep.
  unfold RinexData.saveObsData.
  set (r1 := if empty (RinexData.epochObs r) then RinexData.set_epochTimeTag r tTag else r).
  assert (Hsys : RinexData.systems r1 = RinexData.systems r)
    by (subst r1; destruct (empty (RinexData.epochObs r)); reflexivity).
  assert (Hobs : RinexData.epochObs r1 = RinexData.epochObs r)
    by (subst r1; destruct (empty (RinexData.epochObs r)); reflexivity).
  assert (Hsame : PrimFloat.eqb (RinexData.epochTimeTag r1) tTag = true)
    by (subst r1; destruct (empty (RinexData.epochObs r)); exact Hep).
  rewrite Hsame, Hsys.
  destruct (Z.leb_spec 0 (RinexData.sysInx r sys)) as [_ | Hlt]; [| lia].
  destruct (RinexData.find_obsType _ obsTy 0) as [ox |] eqn:Efind; [| now elim Hox].
  destruct (find_obsType_found _ _ 0 ox ltac:(lia) Efind) as [Hr Hname].
  rewrite Z.sub_0_r in Hname.
  cbn [fst snd]. split; [reflexivity |].
  unfold RinexData.getObsData.
  cbn [RinexData.set_epochObs RinexData.epochObs RinexData.systems].
  rewrite Hobs, Hsys, length_app. cbn [List.length]. fold n.
  split; [| split].
  - destruct (Z.leb_spec (Z.of_nat (List.length (RinexData.epochObs r) + 1)) n); [lia |].
    subst n. rewrite Nat2Z.id, nth_middle.
    cbn [RinexData.sysIndex RinexData.satellite RinexData.obsTypeIndex RinexData.obsValue
         RinexData.lossOfLock RinexData.strength RinexData.obsTimeTag].
    rewrite (system_at_sysInx r sys Hsx), Hname. reflexivity.
  - intros index Hi.
    destruct (Z.leb_spec (Z.of_nat (List.length (RinexData.epochObs r) + 1)) index); [lia |].
    destruct (Z.leb_spec n index); [lia |].
    rewrite app_nth1 by lia. reflexivity.
  - destruct (Z.leb_spec (Z.of_nat (List.length (RinexData.epochObs r) + 1)) (n + 1));
      [reflexivity | lia].
Qed.

Lemma saveObsData_then_getObsData_witness :
  RinexData.getObsData
    (snd (RinexData.saveObsData (saveObsSeq sampleRinex sampleCalls)
            "G" 9 "D1C" 1.5%float 0 6 100%float)) 2
  = Some ("G"%char, 9, "D1C"%string, 1.5%float, 0, 6, 100%float).
Proof.
  apply (saveObsData_then_getObsData (saveObsSeq sampleRinex sampleCalls)
           "G" 9 "D1C" 1.5%float 0 6 100%float).
  - vm_compute. reflexivity.
  - split; vm_compute; congruence.
Defined.

Lemma double_eq_false_sym (a b : float) :
  PrimFloat.eqb a b = false -> PrimFloat.eqb b a = false.
Proof.
  intros H. destruct (PrimFloat.eqb b a) eqn:E; [| reflexivity].
  apply double_eq_sym in E. congruence.
Qed.

Lemma sameNavRecord_sym (a b : RinexData.SatNavData) :
  sameNavRecord a b = false -> sameNavRecord b a = false.
Proof.
  unfold sameNavRecord, RinexData.sameNavKey. intros H.
  rewrite (Ascii.eqb_sym (RinexData.systemId b)), (Z.eqb_sym (RinexData.navSatellite b)).
  destruct (Ascii.eqb _ _); [| reflexivity].
  destruct (Z.eqb _ _); [| reflexivity].
  cbn [andb] in *. now apply double_eq_false_sym.
Qed.

Lemma ForallOrdPairs_snoc {A : Type} (R : A -> A -> Prop) (l : list A) (x : A) :
  ForallOrdPairs R l -> Forall (fun e => R e x) l -> ForallOrdPairs R (l ++ [x]).
Proof.
  induction 1 as [| a l Ha Hl IH]; intros Hx; cbn [app].
  - constructor; constructor.
  - inversion Hx as [| ? ? Hax Hlx]; subst. constructor.
    + apply Forall_app. split; [exact Ha | constructor; [exact Hax | constructor]].
    + apply IH. exact Hlx.
Qed.

Lemma saveNavData_distinct (r : RinexData.t) (sys : ascii) (sat : Z)
    (bo : RinexData.orbit) (tTag : float) :
  distinctNavKeys (RinexData.epochNav r) ->
  distinctNavKeys (RinexData.epochNav (snd (RinexData.saveNavData r sys sat bo tTag))).
Proof.
  intros H. unfold RinexData.saveNavData.
  destruct (existsb (RinexData.sameNavKey sys sat tTag) (RinexData.epochNav r)) eqn:E.
  - exact H.
  - cbn [snd RinexData.log RinexData.epochNav RinexData.set_epochNav].
    apply ForallOrdPairs_snoc; [exact H |].
    apply Forall_forall. intros e He. apply sameNavRecord_sym.
    unfold sameNavRecord.
    cbn [RinexData.systemId RinexData.navSatellite RinexData.navTimeTag].
    destruct (RinexData.sameNavKey sys sat tTag e) eqn:Ee; [| reflexivity].
    assert (existsb (RinexData.sameNavKey sys sat tTag) (RinexData.epochNav r) = true)
      by (apply existsb_exists; exists e; split; assumption).
    congruence.
Qed.

Lemma ForallOrdPairs_nth {A : Type} (R : A -> A -> Prop) (l : list A) (d : A) :
  ForallOrdPairs R l ->
  forall i j : nat, (i < j < List.length l)%nat -> R (nth i l d) (nth j l d).
Proof.
  induction 1 as [| a l Ha Hl IH]; intros i j Hij; [cbn in Hij; lia |].
  cbn [List.length] in Hij. destruct j as [| j]; [lia |]. destruct i as [| i]; cbn [nth].
  - rewrite Forall_forall in Ha. apply Ha, nth_In. lia.
  - apply IH. lia.
Qed.

(** X20: the navigation data hold one record for a satellite and time.
    Whatever calls of [saveNavData] are made, in whatever order and with
    whatever repetitions, no two records of the navigation data have the
    same system, satellite and time tag, when this was so before the calls:
    [getNavData] never gives the same system, satellite and time at two
    indexes. *)
Theorem saveNavData_keeps_keys_distinct (r : RinexData.t) (calls : list navCall) :
  distinctNavKeys (RinexData.epochNav r) ->
  distinctNavKeys (RinexData.epochNav (saveNavSeq r calls))
  /\ forall (i j : Z) (sys1 sys2 : ascii) (sat1 sat2 : Z) (bo1 bo2 : RinexData.orbit)
            (tTag1 tTag2 : float),
       0 <= i < j ->
       RinexData.getNavData (saveNavSeq r calls) i = Some (sys1, sat1, bo1, tTag1) ->
       RinexData.getNavData (saveNavSeq r calls) j = Some (sys2, sat2, bo2, tTag2) ->
       ~ (sys1 = sys2 /\ sat1 = sat2 /\ PrimFloat.eqb tTag1 tTag2 = true).
Proof.
  intros H0.
  assert (H : distinctNavKeys (RinexData.epochNav (saveNavSeq r calls))).
  { revert r H0. induction calls as [| c calls IH]; intros r H; cbn [saveNavSeq fold_left].
    - exact H.
    - apply IH. apply saveNavData_distinct. exact H. }
  split; [exact H |].
  intros i j sys1 sys2 sat1 sat2 bo1 bo2 tTag1 tTag2 Hij G1 G2 (Es & En & Et).
  unfold RinexData.getNavData in G1, G2.
  set (v := RinexData.epochNav (saveNavSeq r calls)) in *.
  destruct (Z.leb_spec (Z.of_nat (List.length v)) i); [discriminate G1 |].
  destruct (Z.leb_spec (Z.of_nat (List.length v)) j); [discriminate G2 |].
  pose proof (ForallOrdPairs_nth _ v
                (RinexData.mkSatNavData 0 Ascii.zero 0 (fun _ _ => 0%float)) H
                (Z.to_nat i) (Z.to_nat j) ltac:(lia)) as Hd.
  cbv beta in Hd. unfold sameNavRecord, RinexData.sameNavKey in Hd.
  injection G1 as <- <- _ <-. injection G2 as <- <- _ <-.
  rewrite Es, En, Ascii.eqb_refl, Z.eqb_refl, Et in Hd. discriminate Hd.
Qed.

Lemma saveNavData_keeps_keys_distinct_witness :
  distinctNavKeys
    (RinexData.epochNav
       (saveNavSeq sampleRinex
          [mkNavCall "G" 7 (fun _ _ => 0%float) 100%float;
           mkNavCall "G" 9 (fun _ _ => 0%float) 100%float;
           mkNavCall "G" 7 (fun _ _ => 1%float) 100%float]))
  /\ List.length
       (RinexData.epochNav
          (saveNavSeq sampleRinex
             [mkNavCall "G" 7 (fun _ _ => 0%float) 100%float;
              mkNavCall "G" 9 (fun _ _ => 0%float) 100%float;
              mkNavCall "G" 7 (fun _ _ => 1%float) 100%float])) = 2%nat.
Proof.
  split; [| reflexivity].
  apply (saveNavData_keeps_keys_distinct sampleRinex). constructor.
Defined.

(** ** [setFilter] and [filterObsData]: one selected observable *)

Lemma sysInx_from_map (f : RinexData.GNSSsystem -> RinexData.GNSSsystem)
    (v : list RinexData.GNSSsystem) (sysCode : ascii) :
  (forall s, RinexData.system (f s) = RinexData.system s) ->
  forall i, RinexData.sysInx_from (map f v) sysCode i = RinexData.sysInx_from v sysCode i.
Proof.
  intros Hf. induction v as [| s v IH]; intros i; cbn [map RinexData.sysInx_from].
  - reflexivity.
  - rewrite Hf, IH. reflexivity.
Qed.

Lemma system_at_in (v : list RinexData.GNSSsystem) (i : Z) :
  0 <= i < Z.of_nat (List.length v) ->
  RinexData.system_at v i = nth (Z.to_nat i) v (RinexData.mkGNSSsystem "?" false [] [] []).
Proof.
  intros H. unfold RinexData.system_at.
  destruct (Z.ltb_spec i 0); [lia | reflexivity].
Qed.

Lemma system_at_out (v : list RinexData.GNSSsystem) (i : Z) :
  i < 0 \/ Z.of_nat (List.length v) <= i ->
  RinexData.system_at v i = RinexData.mkGNSSsystem "?" false [] [] [].
Proof.
  intros H. unfold RinexData.system_at.
  destruct (Z.ltb_spec i 0); [reflexivity |].
  apply nth_overflow. lia.
Qed.

Lemma system_at_map (f : RinexData.GNSSsystem -> RinexData.GNSSsystem)
    (v : list RinexData.GNSSsystem) (i : Z) :
  0 <= i < Z.of_nat (List.length v) ->
  RinexData.system_at (map f v) i = f (RinexData.system_at v i).
Proof.
  intros H. rewrite !system_at_in by (rewrite ?length_map; exact H).
  rewrite (nth_indep (map f v) _ (f (RinexData.mkGNSSsystem "?" false [] [] [])))
    by (rewrite length_map; lia).
  apply map_nth.
Qed.

Lemma system_at_alter_same (f : RinexData.GNSSsystem -> RinexData.GNSSsystem)
    (v : list RinexData.GNSSsystem) (i : Z) :
  0 <= i < Z.of_nat (List.length v) ->
  RinexData.system_at (alter f (Z.to_nat i) v) i = f (RinexData.system_at v i).
Proof.
  intros H. rewrite !system_at_in by (rewrite ?length_alter; exact H).
  apply nth_alter_same. lia.
Qed.

Lemma system_at_alter_other (f : RinexData.GNSSsystem -> RinexData.GNSSsystem)
    (v : list RinexData.GNSSsystem) (i j : Z) :
  0 <= j -> i <> j ->
  RinexData.system_at (alter f (Z.to_nat j) v) i = RinexData.system_at v i.
Proof.
  intros Hj Hne. unfold RinexData.system_at.
  destruct (Z.ltb_spec i 0); [reflexivity |].
  apply nth_alter_other. lia.
Qed.

Lemma logObsFilter_spec (v : list RinexData.GNSSsystem) :
  forall r : RinexData.t,
    RinexData.systems (RinexData.logObsFilter v r) = RinexData.systems r
    /\ RinexData.epochObs (RinexData.logObsFilter v r) = RinexData.epochObs r
    /\ RinexData.applyObsFilter (RinexData.logObsFilter v r)
       = RinexData.applyObsFilter r || existsb RinexData.selSystem v.
Proof.
  induction v as [| s v IH]; intros r; cbn [RinexData.logObsFilter existsb].
  - rewrite orb_false_r. repeat split.
  - destruct (IH (if RinexData.selSystem s
                  then RinexData.log (RinexData.set_applyObsFilter r true) Logger.INFO
                         [Chars (RinexData.selectedSysMsg s)]
                  else RinexData.log r Logger.INFO
                         [Chars ("Excluded sys=" ++ String (RinexData.system s) EmptyString)]))
      as (E1 & E2 & E3).
    rewrite E1, E2, E3.
    destruct (RinexData.selSystem s); cbn; rewrite ?orb_true_r; repeat split.
Qed.

Lemma existsb_nth {A : Type} (p : A -> bool) (v : list A) (j : nat) (d : A) :
  (j < List.length v)%nat -> p (nth j v d) = true -> existsb p v = true.
Proof.
  intros Hj Hp. apply existsb_exists. exists (nth j v d). split; [apply nth_In, Hj | exact Hp].
Qed.

Lemma nth_map_const {A B : Type} (c : B) (l : list A) (j : nat) :
  nth j (map (fun _ => c) l) c = c.
Proof.
  revert j. induction l as [| x l IH]; intros [| j]; cbn [map nth]; try reflexivity.
  apply IH.
Qed.

(** The selection flags of a system after [setFilter] selected its one
    observable at index [ox]. *)
Lemma nth_one_selected (l : list bool) (ox j : nat) :
  (ox < List.length l)%nat ->
  nth j (alter (fun _ => true) ox (map (fun _ => false) (map (fun _ => true) l))) false
  = Nat.eqb j ox.
Proof.
  intros H. destruct (Nat.eqb_spec j ox) as [-> | Hne].
  - apply nth_alter_same. now rewrite !length_map.
  - rewrite nth_alter_other by exact Hne.
    apply nth_map_const.
Qed.

Lemma setFilter_one_observable (r : RinexData.t) (sys : ascii) (obsTy : string) (ox : Z) :
  0 <= RinexData.sysInx r sys ->
  RinexData.find_obsType
    (RinexData.obsType (RinexData.system_at (RinexData.systems r) (RinexData.sysInx r sys)))
    obsTy 0 = Some ox ->
  exists r1 : RinexData.t,
    RinexData.setFilter r [] [String sys obsTy] = (Val true, r1)
    /\ RinexData.epochObs r1 = RinexData.epochObs r
    /\ RinexData.applyObsFilter r1 = true
    /\ RinexData.systems r1
       = alter (fun s => RinexData.set_selObsType s
                           (alter (fun _ => true) (Z.to_nat ox) (RinexData.selObsType s)))
           (Z.to_nat (RinexData.sysInx r sys))
           (alter (fun s => RinexData.set_selObsType s
                              (map (fun _ => false) (RinexData.selObsType s)))
              (Z.to_nat (RinexData.sysInx r sys))
              (alter (fun s => RinexData.set_selSystem s true)
                 (Z.to_nat (RinexData.sysInx r sys))
                 (map (fun s => RinexData.set_selSystem s false)
                    (map (fun s => RinexData.set_selObsType (RinexData.set_selSystem s true)
                                     (map (fun _ => true) (RinexData.selObsType s)))
                         (RinexData.systems r))))).
Proof.
  intros Hsx Hox.
  destruct (sysInx_from_found (RinexData.systems r) sys 0 ltac:(lia) Hsx) as [Hrange _].
  unfold RinexData.setFilter. cbn [empty andb].
  cbn [RinexData.normalizeSelSat RinexData.log RinexData.resetFilter
       RinexData.set_applyNavFilter RinexData.set_applyObsFilter RinexData.set_selectedSats
       RinexData.set_systems RinexData.systems RinexData.epochWeek RinexData.epochTOW
       RinexData.epochTimeTag RinexData.epochClkOffset RinexData.epochFlag
       RinexData.nSatsEpoch RinexData.epochObs RinexData.epochNav RinexData.applyObsFilter
       RinexData.applyNavFilter RinexData.selectedSats RinexData.plog
       empty negb RinexData.verifySelSat RinexData.verifySelObs].
  set (r4 := RinexData.set_applyNavFilter
               (RinexData.log (RinexData.resetFilter r) Logger.INFO
                  [Chars "Filtering data stated:"]) false).
  assert (Esx : RinexData.sysInx r4 sys = RinexData.sysInx r sys).
  { unfold RinexData.sysInx. apply sysInx_from_map. reflexivity. }
  rewrite Esx.
  destruct (Z.ltb_spec (RinexData.sysInx r sys) 0) as [Hlt | _]; [lia |].
  rewrite system_at_map by (unfold RinexData.sysInx; lia).
  cbn [RinexData.obsType RinexData.set_selObsType RinexData.set_selSystem].
  rewrite Hox.
  cbn [RinexData.inxSelSys RinexData.inxSysObs RinexData.inxObsSys RinexData.areCoherent app].
  match goal with
  | |- context [RinexData.logObsFilter ?v ?r7] =>
      destruct (logObsFilter_spec v r7) as (E1 & E2 & E3)
  end.
  eexists. split; [reflexivity |]. rewrite E1, E2, E3.
  split; [reflexivity |]. split; [| reflexivity].
  apply orb_true_intro. right.
  unfold RinexData.flagSelObs, RinexData.flagSelSystems.
  cbn [RinexData.inxSelSys RinexData.inxSysObs RinexData.inxObsSys empty negb combine
       fold_left fst snd].
  assert (Hlen : (Z.to_nat (RinexData.sysInx r sys) < List.length (RinexData.systems r))%nat)
    by (unfold RinexData.sysInx; lia).
  apply (existsb_nth _ _ (Z.to_nat (RinexData.sysInx r sys))
           (RinexData.mkGNSSsystem "?" false [] [] [])).
  - rewrite !length_alter. subst r4. cbn [RinexData.systems RinexData.set_applyNavFilter
      RinexData.log RinexData.resetFilter RinexData.set_systems].
    rewrite !length_map. exact Hlen.
  - subst r4. cbn [RinexData.systems RinexData.set_applyNavFilter
      RinexData.log RinexData.resetFilter RinexData.set_systems].
    rewrite !nth_alter_same by (rewrite ?length_alter, !length_map; exact Hlen).
    reflexivity.
Qed.

Lemma selSystem_unselected (v : list RinexData.GNSSsystem) (i : Z) :
  RinexData.selSystem
    (RinexData.system_at
       (map (fun s => RinexData.set_selSystem s false)
          (map (fun s => RinexData.set_selObsType (RinexData.set_selSystem s true)
                           (map (fun _ => true) (RinexData.selObsType s))) v)) i)
  = false.
Proof.
  destruct (Z.ltb_spec i 0) as [Hneg | Hpos];
    [rewrite system_at_out by (left; exact Hneg); reflexivity |].
  destruct (Z.ltb_spec i (Z.of_nat (List.length v))) as [Hin | Hout].
  - rewrite system_at_map by (rewrite length_map; lia). reflexivity.
  - rewrite system_at_out by (right; rewrite !length_map; exact Hout). reflexivity.
Qed.

(** X21: the filter for one observable, in any model.  When the header of
    [r] declares the observable [obsTy] for the system [sys] and the stored
    observations are of systems and observables of the header (as
    [saveObsData] stores them), after [setFilter] with no satellite and the
    one observable [sys obsTy], [filterObsData] leaves exactly the stored
    observations of that system and that observable (whose satellite was
    selected before, if a selection of satellites was there): the
    observations of every other system and of every other observable of the
    system are removed. *)
Theorem filter_for_one_observable
    (r : RinexData.t) (sys : ascii) (obsTy : string) (it : RinexData.SatObsData) :
  declared r sys obsTy -> flagsPerObservable r ->
  Forall (inHeader r) (RinexData.epochObs r) ->
  (In it (filteredObs r [] [String sys obsTy])
   <-> In it (RinexData.epochObs r)
       /\ RinexData.sysIndex it = RinexData.sysInx r sys
       /\ RinexData.obsTypeIndex it = obsIndex r sys obsTy
       /\ RinexData.isSatSelected r (RinexData.sysInx r sys) (RinexData.satellite it) = true).
Proof.
  intros [Hsx Hox] Hflags Hstore. unfold obsIndex.
  destruct (RinexData.find_obsType _ obsTy 0) as [ox |] eqn:Efind; [| now elim Hox].
  destruct (find_obsType_found _ _ 0 ox ltac:(lia) Efind) as [Hr _].
  destruct (sysInx_from_found (RinexData.systems r) sys 0 ltac:(lia) Hsx) as [Hrange _].
  fold (RinexData.sysInx r sys) in Hrange.
  set (sx := RinexData.sysInx r sys) in *.
  assert (Hlen : List.length (RinexData.selObsType (RinexData.system_at (RinexData.systems r) sx))
                 = List.length (RinexData.obsType (RinexData.system_at (RinexData.systems r) sx))).
  { rewrite system_at_in by lia. unfold flagsPerObservable in Hflags.
    rewrite Forall_forall in Hflags. apply Hflags, nth_In. lia. }
  destruct (setFilter_one_observable r sys obsTy ox Hsx Efind) as (r1 & E & Eobs & Eflag & Esys).
  fold sx in Esys.
  unfold filteredObs. rewrite E. cbn [snd]. unfold RinexData.filterObsData. cbv zeta.
  rewrite Eflag. cbn [snd RinexData.epochObs RinexData.set_epochObs].
  rewrite In_sort, filter_In, Eobs.
  match goal with
  | |- ?A /\ ?B <-> ?A /\ ?C => cut (A -> (B <-> C)); [tauto |]
  end.
  intros Hin.
  assert (Hoi : 0 <= RinexData.obsTypeIndex it).
  { rewrite Forall_forall in Hstore. destruct (Hstore it Hin) as [_ [H _]]. exact H. }
  unfold RinexData.obsSelected, RinexData.isSatSelected. rewrite Esys.
  destruct (Z.eq_dec (RinexData.sysIndex it) sx) as [Hi | Hi].
  - rewrite Hi.
    rewrite !system_at_alter_same by (rewrite ?length_alter, !length_map; lia).
    rewrite !system_at_map by (rewrite ?length_map; lia).
    cbn [RinexData.selSystem RinexData.selObsType RinexData.selSat
         RinexData.set_selObsType RinexData.set_selSystem negb orb].
    rewrite nth_one_selected by lia.
    destruct (Nat.eqb_spec (Z.to_nat (RinexData.obsTypeIndex it)) (Z.to_nat ox)) as [Hn | Hn];
      cbn [negb orb].
    + assert (RinexData.obsTypeIndex it = ox) by lia.
      rewrite negb_involutive. tauto.
    + split; [intros H; discriminate H | intros (_ & H & _); lia].
  - rewrite !system_at_alter_other by lia.
    rewrite selSystem_unselected. cbn [negb orb].
    split; [intros H; discriminate H | intros (H & _); contradiction].
Qed.

Lemma filter_for_one_observable_witness :
  In (sampleObs 1 11 1) (filteredObs sampleGER [] ["EL1X"%string])
  /\ ~ In (sampleObs 1 11 2) (filteredObs sampleGER [] ["EL1X"%string])
  /\ ~ In (sampleObs 1 19 1) (filteredObs sampleGER [] ["EL1X"%string])
  /\ ~ In (sampleObs 0 7 1) (filteredObs sampleGER [] ["EL1X"%string]).
Proof.
  assert (Hd : declared sampleGER "E" "L1X") by (split; vm_compute; congruence).
  assert (Hf : flagsPerObservable sampleGER) by (repeat constructor).
  assert (Hs : Forall (inHeader sampleGER) (RinexData.epochObs sampleGER))
    by (repeat constructor; cbn; lia).
  split; [| split; [| split]].
  - apply (filter_for_one_observable sampleGER "E" "L1X" (sampleObs 1 11 1) Hd Hf Hs).
    repeat split. cbn. tauto.
  - intros H.
    apply (filter_for_one_observable sampleGER "E" "L1X" (sampleObs 1 11 2) Hd Hf Hs) in H.
    destruct H as (_ & _ & H & _). discriminate H.
  - intros H.
    apply (filter_for_one_observable sampleGER "E" "L1X" (sampleObs 1 19 1) Hd Hf Hs) in H.
    destruct H as (_ & _ & _ & H). discriminate H.
  - intros H.
    apply (filter_for_one_observable sampleGER "E" "L1X" (sampleObs 0 7 1) Hd Hf Hs) in H.
    destruct H as (_ & H & _). discriminate H.
Defined.

(** ** [setFilter] and [filterNavData]: selected systems *)

Lemma sortNav_insert_perm (x : RinexData.SatNavData) (v : list RinexData.SatNavData) :
  Permutation (RinexData.sortNav_insert x v) (x :: v).
Proof.
  induction v as [| y v IH]; cbn [RinexData.sortNav_insert].
  - apply Permutation_refl.
  - destruct (RinexData.SatNavData_lt x y).
    + apply Permutation_refl.
    + apply perm_trans with (y :: x :: v); [apply perm_skip, IH | apply perm_swap].
Qed.

Lemma sortNav_perm (v : list RinexData.SatNavData) : Permutation (RinexData.sortNav v) v.
Proof.
  induction v as [| x v IH]; cbn [RinexData.sortNav].
  - apply perm_nil.
  - apply perm_trans with (x :: RinexData.sortNav v);
      [apply sortNav_insert_perm | apply perm_skip, IH].
Qed.

Lemma normalizeSelSat_systems (letters : list ascii) :
  forall r : RinexData.t,
    RinexData.normalizeSelSat (map systemToken letters) r
    = RinexData.set_selectedSats r (RinexData.selectedSats r ++ map systemToken letters).
Proof.
  induction letters as [| s letters IH]; intros r; cbn [map RinexData.normalizeSelSat].
  - rewrite app_nil_r. destruct r; reflexivity.
  - rewrite IH. cbn. rewrite <- app_assoc. reflexivity.
Qed.

Lemma verifySelSat_systems (letters : list ascii) :
  forall (r : RinexData.t) (lc : RinexData.locals),
  exists (lc' : RinexData.locals) (r' : RinexData.t),
    RinexData.verifySelSat (map systemToken letters) r lc = (Val lc', r')
    /\ RinexData.areCoherent lc'
       = RinexData.areCoherent lc && forallb (fun s => 0 <=? RinexData.sysInx r s) letters
    /\ RinexData.inxObsSys lc' = RinexData.inxObsSys lc
    /\ RinexData.inxSysObs lc' = RinexData.inxSysObs lc
    /\ RinexData.systems r' = RinexData.systems r
    /\ RinexData.epochNav r' = RinexData.epochNav r
    /\ RinexData.selectedSats r' = RinexData.selectedSats r
    /\ RinexData.applyNavFilter r' = RinexData.applyNavFilter r.
Proof.
  induction letters as [| s letters IH]; intros r lc; cbn [map RinexData.verifySelSat].
  - exists lc, r. cbn [forallb]. rewrite andb_true_r. repeat split.
  - unfold systemToken at 1. cbn [String.length Nat.ltb Nat.leb].
    destruct (Z.ltb_spec (RinexData.sysInx r s) 0) as [Hlt | Hge].
    + destruct (IH (RinexData.log r Logger.WARNING
                      [Chars ("Sel system in sat " ++ String s EmptyString
                              ++ RinexData.msgNotHd)])
                   (RinexData.mkLocals (RinexData.inxSelSys lc) (RinexData.inxSysObs lc)
                      (RinexData.inxObsSys lc) false))
        as (lc' & r' & E & Hc & Ho & Hs & Hsys & Hnav & Hsel & Hflag).
      exists lc', r'. split; [exact E |]. cbn [forallb].
      destruct (Z.leb_spec 0 (RinexData.sysInx r s)); [lia |].
      rewrite Hc. cbn [RinexData.areCoherent andb]. rewrite andb_false_r.
      repeat split; assumption.
    + destruct (IH r (RinexData.mkLocals (RinexData.inxSelSys lc ++ [RinexData.sysInx r s])
                        (RinexData.inxSysObs lc) (RinexData.inxObsSys lc)
                        (RinexData.areCoherent lc)))
        as (lc' & r' & E & Hc & Ho & Hs & Hsys & Hnav & Hsel & Hflag).
      exists lc', r'. split; [exact E |]. cbn [forallb].
      destruct (Z.leb_spec 0 (RinexData.sysInx r s)); [| lia].
      rewrite Hc. cbn [RinexData.areCoherent andb].
      repeat split; assumption.
Qed.

Lemma logObsFilter_nav (v : list RinexData.GNSSsystem) :
  forall r : RinexData.t,
    RinexData.epochNav (RinexData.logObsFilter v r) = RinexData.epochNav r
    /\ RinexData.selectedSats (RinexData.logObsFilter v r) = RinexData.selectedSats r
    /\ RinexData.applyNavFilter (RinexData.logObsFilter v r) = RinexData.applyNavFilter r.
Proof.
  induction v as [| s v IH]; intros r; cbn [RinexData.logObsFilter].
  - repeat split.
  - destruct (IH (if RinexData.selSystem s
                  then RinexData.log (RinexData.set_applyObsFilter r true) Logger.INFO
                         [Chars (RinexData.selectedSysMsg s)]
                  else RinexData.log r Logger.INFO
                         [Chars ("Excluded sys=" ++ String (RinexData.system s) EmptyString)]))
      as (E1 & E2 & E3).
    rewrite E1, E2, E3. destruct (RinexData.selSystem s); repeat split.
Qed.

Lemma substring_0_0 (s : string) : substring 0 0 s = EmptyString.
Proof. destruct s; reflexivity. Qed.

Lemma navSelected_systems (r : RinexData.t) (letters : list ascii) (it : RinexData.SatNavData) :
  RinexData.selectedSats r = map systemToken letters ->
  RinexData.navSelected r it = true <-> In (RinexData.systemId it) letters.
Proof.
  intros E. unfold RinexData.navSelected. rewrite E, existsb_exists. split.
  - intros (sel & Hin & Hsel). apply in_map_iff in Hin. destruct Hin as (s & <- & Hs).
    unfold systemToken, RinexData.navBuffer in Hsel. cbn in Hsel.
    destruct (Ascii.eqb_spec (RinexData.systemId it) s) as [-> | _];
      [exact Hs | discriminate Hsel].
  - intros Hin. exists (systemToken (RinexData.systemId it)).
    split; [apply in_map, Hin |].
    unfold systemToken, RinexData.navBuffer. cbn.
    rewrite Ascii.eqb_refl, substring_0_0. reflexivity.
Qed.

Lemma forallb_same {A : Type} (p q : A -> bool) (v : list A) :
  (forall x, p x = q x) -> forallb p v = forallb q v.
Proof.
  intros H. induction v as [| x v IH]; cbn [forallb]; [reflexivity |].
  now rewrite H, IH.
Qed.

Lemma setFilter_systems (r : RinexData.t) (letters : list ascii) :
  letters <> [] ->
  exists r1 : RinexData.t,
    RinexData.setFilter r (map systemToken letters) []
    = (Val (forallb (fun s => 0 <=? RinexData.sysInx r s) letters), r1)
    /\ RinexData.epochNav r1 = RinexData.epochNav r
    /\ RinexData.selectedSats r1 = map systemToken letters
    /\ RinexData.applyNavFilter r1 = true.
Proof.
  intros Hne. destruct letters as [| s l]; [contradiction |].
  unfold RinexData.setFilter.
  change (empty (map systemToken (s :: l)) && empty []) with false. cbv iota.
  rewrite normalizeSelSat_systems. cbv zeta.
  set (r2 := RinexData.set_selectedSats _ _).
  assert (Esel : RinexData.selectedSats r2 = map systemToken (s :: l)) by reflexivity.
  set (r3 := RinexData.set_applyNavFilter r2 _).
  assert (Eflag : RinexData.applyNavFilter r3 = true) by reflexivity.
  rewrite Eflag.
  set (r4 := RinexData.log r3 _ _).
  assert (Esel4 : RinexData.selectedSats r4 = map systemToken (s :: l)) by reflexivity.
  rewrite Esel4.
  destruct (verifySelSat_systems (s :: l) r4 (RinexData.mkLocals [] [] [] true))
    as (lc & r5 & E & Hc & Ho & Hso & Hsys & Hnav & Hsel & Hfl).
  rewrite E. cbn [RinexData.verifySelObs].
  match goal with
  | |- context [RinexData.logObsFilter ?v ?r7] =>
      destruct (logObsFilter_nav v r7) as (E1 & E2 & E3)
  end.
  eexists. split; [| rewrite E1, E2, E3; cbn [RinexData.set_systems RinexData.epochNav
                        RinexData.selectedSats RinexData.applyNavFilter];
                     rewrite Hnav, Hsel, Hfl; repeat split].
  rewrite Hc. cbn [RinexData.areCoherent andb]. f_equal. f_equal.
  apply forallb_same. intros c. unfold RinexData.sysInx. f_equal.
  subst r4 r3 r2. cbn [RinexData.systems RinexData.log RinexData.set_applyNavFilter
                       RinexData.set_selectedSats RinexData.resetFilter RinexData.set_systems].
  apply sysInx_from_map. reflexivity.
Qed.

(** X22: selecting systems for the navigation data.  [setFilter] with the
    letters of one or more systems as selected satellites (no letter is the
    null character, which ends a C text), and no observable, returns [true]
    exactly when every letter is a system of the header; in either case
    [filterNavData] then leaves the navigation records of the systems named,
    and only them. *)
Theorem setFilter_systems_then_filterNavData
    (r : RinexData.t) (letters : list ascii) (it : RinexData.SatNavData) :
  letters <> [] -> ~ In Ascii.zero letters -> navBufferFits r ->
  fst (RinexData.setFilter r (map systemToken letters) [])
  = Val (forallb (fun s => 0 <=? RinexData.sysInx r s) letters)
  /\ (In it (RinexData.epochNav
               (snd (RinexData.filterNavData
                       (snd (RinexData.setFilter r (map systemToken letters) [])))))
      <-> In it (RinexData.epochNav r) /\ In (RinexData.systemId it) letters).
Proof.
  intros Hne _ _.
  destruct (setFilter_systems r letters Hne) as (r1 & E & Hnav & Hsel & Hflag).
  rewrite E. cbn [fst snd]. split; [reflexivity |].
  unfold RinexData.filterNavData. cbv zeta. rewrite Hflag.
  cbn [snd RinexData.epochNav RinexData.set_epochNav].
  rewrite <- (navSelected_systems r1 letters it Hsel), <- Hnav, <- filter_In.
  split; apply Permutation_in; [| apply Permutation_sym]; apply sortNav_perm.
Qed.

Lemma setFilter_systems_then_filterNavData_witness :
  fst (RinexData.setFilter sampleNavRinex (map systemToken ["G"; "E"]%char) []) = Val false
  /\ In (sampleNav "E" 11)
        (RinexData.epochNav
           (snd (RinexData.filterNavData
                   (snd (RinexData.setFilter sampleNavRinex
                           (map systemToken ["G"; "E"]%char) [])))))
  /\ ~ In (sampleNav "R" 3)
         (RinexData.epochNav
            (snd (RinexData.filterNavData
                    (snd (RinexData.setFilter sampleNavRinex
                            (map systemToken ["G"; "E"]%char) []))))).
Proof.
  assert (Hne : ["G"; "E"]%char <> []) by discriminate.
  assert (Hnul : ~ In Ascii.zero ["G"; "E"]%char)
    by (intros [H | [H | []]]; discriminate H).
  assert (Hfit : navBufferFits sampleNavRinex)
    by (repeat (apply Forall_cons; [cbn; lia |]); apply Forall_nil).
  destruct (setFilter_systems_then_filterNavData sampleNavRinex ["G"; "E"]%char
              (sampleNav "E" 11) Hne Hnul Hfit) as [Hres HE].
  destruct (setFilter_systems_then_filterNavData sampleNavRinex ["G"; "E"]%char
              (sampleNav "R" 3) Hne Hnul Hfit) as [_ HR].
  split; [| split].
  - rewrite Hres. reflexivity.
  - apply HE. split; [right; right; left; reflexivity | right; left; reflexivity].
  - intros H. apply HR in H. destruct H as [_ [H | [H | []]]]; discriminate H.
Defined.

(** X23: [setFilter] without lists switches the filters off.  Whatever was
    selected before, [setFilter] with an empty list of satellites and an
    empty list of observables returns [true], and afterwards
    [filterObsData] and [filterNavData] remove nothing: they leave the stored
    observations and the stored navigation records, rearranged by their
    sort. *)
Theorem setFilter_without_lists_clears_the_filters (r : RinexData.t) :
  let r' := snd (RinexData.setFilter r [] []) in
  fst (RinexData.setFilter r [] []) = Val true
  /\ Permutation (RinexData.epochObs (snd (RinexData.filterObsData r')))
                 (RinexData.epochObs r)
  /\ Permutation (RinexData.epochNav (snd (RinexData.filterNavData r')))
                 (RinexData.epochNav r).
Proof.
  cbv zeta. unfold RinexData.setFilter. cbn [empty andb fst snd].
  split; [reflexivity |]. split.
  - unfold RinexData.filterObsData. cbn. apply sort_perm.
  - unfold RinexData.filterNavData. cbn. apply sortNav_perm.
Qed.

(** ** RINEX 2.10: the list of observables of the header and the indexes of
    the observations *)

Lemma v2ObsInx_from_in (lst : list string) (name : string) :
  forall i : Z,
    In name lst ->
    i <= RinexData.v2ObsInx_from lst name i < i + Z.of_nat (List.length lst)
    /\ nth (Z.to_nat (RinexData.v2ObsInx_from lst name i - i)) lst EmptyString = name.
Proof.
  induction lst as [| x lst IH]; intros i Hin; [contradiction |].
  cbn [RinexData.v2ObsInx_from List.length].
  destruct (String.eqb_spec name x) as [-> | Hne].
  - rewrite Z.sub_diag. split; [lia | reflexivity].
  - destruct Hin as [-> | Hin]; [contradiction |].
    destruct (IH (i + 1) Hin) as [Hr Hn]. split; [lia |].
    replace (Z.to_nat (RinexData.v2ObsInx_from lst name (i + 1) - i))
      with (S (Z.to_nat (RinexData.v2ObsInx_from lst name (i + 1) - (i + 1)))) by lia.
    exact Hn.
Qed.

Lemma v2ObsInx_from_notin (lst : list string) (name : string) :
  forall i : Z, ~ In name lst -> RinexData.v2ObsInx_from lst name i = -1.
Proof.
  induction lst as [| x lst IH]; intros i Hin; [reflexivity |].
  cbn [RinexData.v2ObsInx_from].
  destruct (String.eqb_spec name x) as [-> | Hne]; [elim Hin; left; reflexivity |].
  apply IH. intros H. apply Hin. right. exact H.
Qed.

(** The loop of [printObsHeader] over the names [names], from the list
    [lst]. *)
Lemma v2ObsLst_fold (r : RinexData.t) (pairs : list (Z * Z)) :
  forall lst : list string,
    NoDup lst -> ~ In EmptyString lst ->
    let lst' :=
      fold_left
        (fun v2ObsLst ij =>
           let aStr := RinexData.obsV3toV2 r (fst ij) (snd ij) in
           if RinexData.v2ObsInx v2ObsLst aStr =? -1 then v2ObsLst ++ [aStr] else v2ObsLst)
        pairs lst in
    NoDup lst' /\ ~ In EmptyString lst'
    /\ (forall x, In x lst -> In x lst')
    /\ (forall ij, In ij pairs ->
          RinexData.obsV3toV2 r (fst ij) (snd ij) <> EmptyString ->
          In (RinexData.obsV3toV2 r (fst ij) (snd ij)) lst').
Proof.
  induction pairs as [| ij pairs IH]; intros lst Hnd Hne; cbn [fold_left].
  - repeat split; try assumption; [tauto | contradiction].
  - set (aStr := RinexData.obsV3toV2 r (fst ij) (snd ij)).
    assert (Hstep : let l1 := if RinexData.v2ObsInx lst aStr =? -1 then lst ++ [aStr] else lst in
                    NoDup l1 /\ ~ In EmptyString l1 /\ (forall x, In x lst -> In x l1)
                    /\ (aStr <> EmptyString -> In aStr l1)).
    { unfold RinexData.v2ObsInx.
      destruct (String.eqb_spec aStr EmptyString) as [E | E].
      - cbn. repeat split; try assumption; [tauto | contradiction].
      - destruct (in_dec string_dec aStr lst) as [Hin | Hin].
        + destruct (v2ObsInx_from_in lst aStr 0 Hin) as [Hr _].
          destruct (Z.eqb_spec (RinexData.v2ObsInx_from lst aStr 0) (-1)); [lia |].
          cbn. repeat split; try assumption; tauto.
        + rewrite (v2ObsInx_from_notin lst aStr 0 Hin). cbn [Z.eqb Pos.eqb].
          cbn zeta. repeat split.
          * apply NoDup_app; [exact Hnd | repeat constructor; intros [] | ].
            intros x Hx [<- | []]. contradiction.
          * intros H. apply in_app_or in H. destruct H as [H | [H | []]];
              [contradiction | now apply E].
          * intros x Hx. apply in_or_app. left. exact Hx.
          * intros _. apply in_or_app. right. left. reflexivity. }
    cbv zeta in Hstep. destruct Hstep as (S1 & S2 & S3 & S4).
    destruct (IH _ S1 S2) as (I1 & I2 & I3 & I4).
    repeat split; try assumption.
    + intros x Hx. apply I3, S3, Hx.
    + intros ij' [<- | Hin] Hname.
      * apply I3, S4, Hname.
      * apply I4; assumption.
Qed.

Lemma obsV3toV2_back (r : RinexData.t) (si oi : Z) :
  RinexData.obsV3toV2 r si oi <> EmptyString ->
  RinexData.obsV2toV3 (RinexData.obsV3toV2 r si oi)
  = nth (Z.to_nat oi) (RinexData.obsType (RinexData.system_at (RinexData.systems r) si))
        EmptyString.
Proof.
  unfold RinexData.obsV3toV2.
  destruct (RinexData.applyObsFilter r && negb _); [intros H; now elim H |].
  destruct (RinexData.applyObsFilter r && negb _); [intros H; now elim H |].
  destruct (RinexData.strchr_GRS _); [| intros H; now elim H].
  set (name := nth (Z.to_nat oi) _ EmptyString).
  unfold RinexData.obsNamEq. cbn [find fst snd].
  repeat match goal with
         | |- context [String.eqb ?a name] =>
             destruct (String.eqb_spec a name) as [<- | _]; [intros _; reflexivity |]
         end.
  intros H. now elim H.
Qed.

Lemma in_header_pairs (r : RinexData.t) (it : RinexData.SatObsData) :
  inHeader r it ->
  In (RinexData.sysIndex it, RinexData.obsTypeIndex it)
     (flat_map
        (fun i => map (fun j => (Z.of_nat i, Z.of_nat j))
                      (seq 0 (List.length
                                (RinexData.obsType
                                   (RinexData.system_at (RinexData.systems r) (Z.of_nat i))))))
        (seq 0 (List.length (RinexData.systems r)))).
Proof.
  intros [Hs Ho]. apply in_flat_map. exists (Z.to_nat (RinexData.sysIndex it)).
  split; [apply in_seq; lia |].
  rewrite Z2Nat.id by lia. apply in_map_iff.
  exists (Z.to_nat (RinexData.obsTypeIndex it)). split.
  - rewrite Z2Nat.id by lia. reflexivity.
  - apply in_seq. lia.
Qed.

(** X24: the RINEX 2.10 list of observables and the indexes of the
    observations.  The list that [printObsHeader] builds for version 2.10
    holds no name twice and no empty name.  When [printObsEpoch] gives the
    observations their 2.10 indexes with that list, an observation of a
    system and observable of the header is removed exactly when its
    observable has no 2.10 name (or is not selected); otherwise it stays, in
    its place, with the position in the list of the 2.10 name of its
    observable as index, and the version 3 name of that 2.10 name is the
    name of its observable. *)
Theorem toV210_with_the_header_list (r : RinexData.t) (v : list RinexData.SatObsData) :
  Forall (inHeader r) v ->
  let v2ObsLst := RinexData.printObsHeader_v2ObsLst r in
  NoDup v2ObsLst /\ ~ In EmptyString v2ObsLst
  /\ RinexData.toV210 r v2ObsLst v
     = map (fun it => RinexData.set_obsTypeIndex it (RinexData.v2ObsInx v2ObsLst (v2Name r it)))
           (filter (fun it => negb (String.eqb (v2Name r it) EmptyString)) v)
  /\ Forall (fun it =>
               v2Name r it <> EmptyString ->
               0 <= RinexData.v2ObsInx v2ObsLst (v2Name r it) < Z.of_nat (List.length v2ObsLst)
               /\ nth (Z.to_nat (RinexData.v2ObsInx v2ObsLst (v2Name r it))) v2ObsLst EmptyString
                  = v2Name r it
               /\ RinexData.obsV2toV3 (v2Name r it) = v3Name r it)
            v.
Proof.
  intros Hv v2ObsLst.
  destruct (v2ObsLst_fold r
              (flat_map
                 (fun i => map (fun j => (Z.of_nat i, Z.of_nat j))
                               (seq 0 (List.length
                                         (RinexData.obsType
                                            (RinexData.system_at (RinexData.systems r)
                                               (Z.of_nat i))))))
                 (seq 0 (List.length (RinexData.systems r))))
              [] (NoDup_nil _) (fun H => H))
    as (Hnd & Hne & _ & Hall).
  fold (RinexData.printObsHeader_v2ObsLst r) in Hnd, Hne, Hall. fold v2ObsLst in Hnd, Hne, Hall.
  assert (Hpos : forall it, inHeader r it -> v2Name r it <> EmptyString ->
                   0 <= RinexData.v2ObsInx v2ObsLst (v2Name r it)
                     < Z.of_nat (List.length v2ObsLst)
                   /\ nth (Z.to_nat (RinexData.v2ObsInx v2ObsLst (v2Name r it))) v2ObsLst
                          EmptyString = v2Name r it).
  { intros it Hit Hname. unfold RinexData.v2ObsInx.
    destruct (String.eqb_spec (v2Name r it) EmptyString) as [E | _]; [contradiction |].
    destruct (v2ObsInx_from_in v2ObsLst (v2Name r it) 0) as [Hr Hn].
    - apply (Hall _ (in_header_pairs r it Hit)). exact Hname.
    - rewrite Z.sub_0_r in Hn. split; [lia | exact Hn]. }
  split; [exact Hnd |]. split; [exact Hne |]. split.
  - induction Hv as [| it v Hit Hv IH]; [reflexivity |].
    cbn [RinexData.toV210 filter]. fold (v2Name r it).
    destruct (String.eqb_spec (v2Name r it) EmptyString) as [E | E]; cbn [negb].
    + rewrite E. cbn. exact IH.
    + destruct (Hpos it Hit E) as [Hr _].
      destruct (Z.geb_spec (RinexData.v2ObsInx v2ObsLst (v2Name r it)) 0); [| lia].
      cbn [map]. now rewrite IH.
  - revert Hv. apply Forall_impl. intros it Hit Hname.
    destruct (Hpos it Hit Hname) as [Hr Hn].
    split; [exact Hr |]. split; [exact Hn |].
    apply obsV3toV2_back. exact Hname.
Qed.

Lemma toV210_with_the_header_list_witness :
  RinexData.printObsHeader_v2ObsLst sampleGER = ["C1"; "L1"]%string
  /\ RinexData.toV210 sampleGER (RinexData.printObsHeader_v2ObsLst sampleGER)
       (RinexData.epochObs sampleGER)
     = [sampleObs 2 3 1; sampleObs 0 7 1].
Proof.
  split; [reflexivity |].
  assert (H : Forall (inHeader sampleGER) (RinexData.epochObs sampleGER))
    by (apply Forall_forall; intros it Hit;
        repeat (destruct Hit as [<- | Hit]; [split; vm_compute; split; congruence |]);
        destruct Hit).
  destruct (toV210_with_the_header_list sampleGER (RinexData.epochObs sampleGER) H)
    as (_ & _ & E & _).
  rewrite E. reflexivity.
Defined.

(** ** [printSatObsValues]: the lines of observations of a satellite *)

Lemma ascending_last (block : list RinexData.SatObsData) :
  forall k, block <> [] -> ascending k block -> k <= lastIndex block.
Proof.
  induction block as [| it block IH]; intros k Hne Ha; [contradiction |].
  destruct Ha as [Hk Ha]. destruct block as [| it' block].
  - exact Hk.
  - assert (H : RinexData.obsTypeIndex it + 1 <= lastIndex (it' :: block))
      by (apply IH; [discriminate | exact Ha]).
    unfold lastIndex in *. cbn [last] in *. lia.
Qed.

Lemma ascending_weaken (block : list RinexData.SatObsData) (k k' : Z) :
  k' <= k -> ascending k block -> ascending k' block.
Proof.
  destruct block as [| it block]; [trivial |]. cbn [ascending]. intros H [H1 H2].
  split; [lia | exact H2].
Qed.

Lemma cellOf_above (block : list RinexData.SatObsData) :
  forall k j, ascending k block -> j < k -> cellOf block j = RinexData.noObsText.
Proof.
  unfold cellOf. induction block as [| it block IH]; intros k j Ha Hj; [reflexivity |].
  destruct Ha as [Hk Ha]. cbn [find].
  destruct (Z.eqb_spec (RinexData.obsTypeIndex it) j); [lia |].
  apply (IH (RinexData.obsTypeIndex it + 1)); [exact Ha | lia].
Qed.

Lemma columns_step (k last : Z) :
  k <= last -> columns k last = k :: columns (k + 1) last.
Proof.
  intros H. unfold columns.
  replace (Z.to_nat (last + 1 - k)) with (S (Z.to_nat (last + 1 - (k + 1)))) by lia.
  cbn [seq map]. rewrite <- seq_shift, map_map. f_equal; [lia |].
  apply map_ext. intros i. lia.
Qed.

Lemma columns_from (k last j : Z) : In j (columns k last) -> k <= j.
Proof.
  unfold columns. intros H. apply in_map_iff in H. destruct H as (i & <- & _). lia.
Qed.

Section SatelliteLines.

Variables (sx sat maxPerLine : Z) (rest : list RinexData.SatObsData).

(** The observations [rest] are not of the satellite that is printed. *)
Hypothesis rest_differs :
  match rest with
  | [] => True
  | it :: _ => ~ ofSatellite sx sat it
  end.

Lemma printSatObsValues_loop_exit (fuel : nat) (r : RinexData.t) (p : RinexData.satPrinter) :
  RinexData.epochObs r = rest ->
  RinexData.printSatObsValues_loop fuel sx sat maxPerLine r p = (r, p).
Proof.
  intros E. destruct fuel as [| fuel]; [reflexivity |].
  cbn [RinexData.printSatObsValues_loop]. rewrite E.
  destruct rest as [| it rest']; [reflexivity |].
  unfold ofSatellite in rest_differs.
  destruct (Z.eqb_spec (RinexData.sysIndex it) sx), (Z.eqb_spec (RinexData.satellite it) sat);
    cbn [andb]; try reflexivity.
  elim rest_differs. split; assumption.
Qed.

Lemma printSatObsValues_loop_block (m : nat) :
  forall (block : list RinexData.SatObsData) (k : Z) (fuel : nat) (r : RinexData.t)
         (out0 : text),
    block <> [] -> ascending k block -> Forall (ofSatellite sx sat) block ->
    RinexData.epochObs r = block ++ rest ->
    Z.to_nat (lastIndex block + 1 - k) = m -> (m <= fuel)%nat ->
    RinexData.printSatObsValues_loop fuel sx sat maxPerLine r (RinexData.mkSatPrinter out0 k)
    = (RinexData.set_epochObs r rest,
       RinexData.mkSatPrinter
         (out0 ++ wrapCells maxPerLine k (map (cellOf block) (columns k (lastIndex block))))
         (lastIndex block + 1)).
Proof.
  induction m as [| m IH]; intros block k fuel r out0 Hne Ha Hsat Hobs Hm Hfuel.
  - pose proof (ascending_last block k Hne Ha). lia.
  - destruct fuel as [| fuel]; [lia |].
    destruct block as [| it block]; [contradiction |].
    pose proof (ascending_last _ k Hne Ha) as Hlast.
    cbn [RinexData.printSatObsValues_loop]. rewrite Hobs. cbn [app].
    pose proof (Forall_inv Hsat) as [Hs1 Hs2]. pose proof (Forall_inv_tail Hsat) as Hsat'.
    rewrite Hs1, Hs2, !Z.eqb_refl. cbn [andb RinexData.obsToPrint RinexData.outObs].
    destruct Ha as [Hk Ha].
    destruct (Z.ltb_spec (RinexData.obsTypeIndex it) k) as [Hlt | _]; [lia |].
    rewrite (columns_step k _ Hlast). cbn [map wrapCells].
    destruct (Z.eqb_spec (RinexData.obsTypeIndex it) k) as [Heq | Hneq].
    + (* the observation of the column is printed and removed *)
      cbn [RinexData.obsToPrint RinexData.outObs].
      assert (Hcell : cellOf (it :: block) k = RinexData.obsText it)
        by (unfold cellOf; cbn [find]; rewrite Heq, Z.eqb_refl; reflexivity).
      rewrite Hcell.
      assert (Hp2 : (if Z.rem (k + 1) maxPerLine =? 0
                     then RinexData.mkSatPrinter
                            ((out0 ++ RinexData.obsText it) ++ [Chars newline]) (k + 1)
                     else RinexData.mkSatPrinter (out0 ++ RinexData.obsText it) (k + 1))
                    = RinexData.mkSatPrinter
                        (out0 ++ RinexData.obsText it
                         ++ (if Z.rem (k + 1) maxPerLine =? 0 then [Chars newline] else []))
                        (k + 1)).
      { destruct (Z.rem (k + 1) maxPerLine =? 0);
          [rewrite <- app_assoc | rewrite app_nil_r]; reflexivity. }
      rewrite Hp2. clear Hp2.
      destruct block as [| it' block].
      * rewrite printSatObsValues_loop_exit by reflexivity.
        unfold lastIndex. cbn [last]. rewrite Heq.
        unfold columns. replace (Z.to_nat (k + 1 - (k + 1))) with 0%nat by lia.
        cbn [seq map wrapCells]. rewrite !app_nil_r. reflexivity.
      * rewrite (IH (it' :: block) (k + 1) fuel
                   (RinexData.set_epochObs r ((it' :: block) ++ rest)));
          [| discriminate | rewrite <- Heq; exact Ha | exact Hsat' | reflexivity
           | unfold lastIndex in *; cbn [last] in *; lia | lia].
        replace (lastIndex (it :: it' :: block)) with (lastIndex (it' :: block))
          by reflexivity.
        f_equal. f_equal. rewrite <- !app_assoc. do 4 f_equal.
        apply map_ext_in. intros j Hj. apply columns_from in Hj.
        unfold cellOf. cbn [find].
        destruct (Z.eqb_spec (RinexData.obsTypeIndex it) j); [lia | reflexivity].
    + (* a column without data *)
      cbn [RinexData.obsToPrint RinexData.outObs].
      assert (Hcell : cellOf (it :: block) k = RinexData.noObsText)
        by (apply (cellOf_above _ (k + 1));
            [split; [lia | exact Ha] | lia]).
      rewrite Hcell.
      assert (Hp2 : (if Z.rem (k + 1) maxPerLine =? 0
                     then RinexData.mkSatPrinter
                            ((out0 ++ RinexData.noObsText) ++ [Chars newline]) (k + 1)
                     else RinexData.mkSatPrinter (out0 ++ RinexData.noObsText) (k + 1))
                    = RinexData.mkSatPrinter
                        (out0 ++ RinexData.noObsText
                         ++ (if Z.rem (k + 1) maxPerLine =? 0 then [Chars newline] else []))
                        (k + 1)).
      { destruct (Z.rem (k + 1) maxPerLine =? 0);
          [rewrite <- app_assoc | rewrite app_nil_r]; reflexivity. }
      rewrite Hp2. clear Hp2.
      rewrite (IH (it :: block) (k + 1) fuel r);
        [| discriminate | split; [lia | exact Ha] | exact Hsat | exact Hobs | lia | lia].
      f_equal. f_equal. rewrite <- !app_assoc. reflexivity.
Qed.

End SatelliteLines.

Lemma maxObsTypeIndex_fold (v : list RinexData.SatObsData) :
  forall n : Z,
    n <= fold_left (fun n it => Z.max n (RinexData.obsTypeIndex it)) v n
    /\ Forall (fun it => RinexData.obsTypeIndex it
                         <= fold_left (fun n it => Z.max n (RinexData.obsTypeIndex it)) v n) v.
Proof.
  induction v as [| it v IH]; intros n; cbn [fold_left].
  - split; [lia | constructor].
  - destruct (IH (Z.max n (RinexData.obsTypeIndex it))) as [H1 H2].
    split; [lia |]. constructor; [lia | exact H2].
Qed.

(** X25: the lines of observations of a satellite.  When the stored
    observations start with those of one satellite, [block], whose indexes
    increase, and go on with those of another satellite (or end there),
    [printSatObsValues] prints one cell for every column from 0 to the last
    index of [block]: the cell of a column is the observation with that
    index, or the filler of 0.000 when the satellite has none.  The cells
    are [maxPerLine] to a line and the last line is ended.  The observations
    [block] are removed, nothing is logged, and the result tells whether
    observations remain. *)
Theorem printSatObsValues_prints_the_columns
    (r : RinexData.t) (out : text) (maxPerLine sx sat : Z)
    (block rest : list RinexData.SatObsData) :
  0 < maxPerLine ->
  RinexData.epochObs r = block ++ rest -> block <> [] ->
  ascending 0 block -> Forall (ofSatellite sx sat) block ->
  match rest with
  | [] => True
  | it :: _ => ~ ofSatellite sx sat it
  end ->
  RinexData.printSatObsValues r out maxPerLine
  = (negb (empty rest), RinexData.set_epochObs r rest,
     out ++ satelliteLines maxPerLine block).
Proof.
  intros Hmax Hobs Hne Hasc Hsat Hrest. unfold RinexData.printSatObsValues.
  destruct block as [| first block]; [contradiction |].
  assert (Hfirst : RinexData.epochObs r = first :: block ++ rest) by exact Hobs.
  rewrite Hfirst at 1.
  pose proof (Forall_inv Hsat) as [Hs1 Hs2]. rewrite Hs1, Hs2.
  pose proof (ascending_last _ 0 Hne Hasc) as Hlast.
  rewrite (printSatObsValues_loop_block sx sat maxPerLine rest Hrest
             (Z.to_nat (lastIndex (first :: block) + 1)) (first :: block) 0 _ r out
             Hne Hasc Hsat Hobs).
  - cbn [RinexData.obsToPrint RinexData.outObs RinexData.epochObs RinexData.set_epochObs].
    unfold satelliteLines.
    destruct (Z.rem (lastIndex (first :: block) + 1) maxPerLine =? 0); cbn [negb];
      rewrite ?app_nil_r, <- ?app_assoc; reflexivity.
  - f_equal. lia.
  - destruct (maxObsTypeIndex_fold (RinexData.epochObs r) 0) as [_ Hall].
    rewrite Forall_forall in Hall.
    assert (Hin : In (last (first :: block) (RinexData.mkSatObsData 0 0 0 0 0 0 0))
                     (RinexData.epochObs r)).
    { rewrite Hobs. apply in_or_app. left.
      destruct (exists_last Hne) as (l & a & E). rewrite E, last_last.
      apply in_or_app. right. left. reflexivity. }
    apply Hall in Hin. fold (lastIndex (first :: block)) in Hin.
    unfold RinexData.maxObsTypeIndex. lia.
Qed.

Lemma printSatObsValues_prints_the_columns_witness :
  RinexData.printSatObsValues sampleLines [] 5
  = (true, RinexData.set_epochObs sampleLines [sampleObs 0 9 0],
     satelliteLines 5 [sampleObs 0 7 0; sampleObs 0 7 2; sampleObs 0 7 6])
  /\ List.length
       (filter isNewline
          (satelliteLines 5 [sampleObs 0 7 0; sampleObs 0 7 2; sampleObs 0 7 6])) = 2%nat.
Proof.
  split; [| reflexivity].
  apply (printSatObsValues_prints_the_columns sampleLines [] 5 0 7
           [sampleObs 0 7 0; sampleObs 0 7 2; sampleObs 0 7 6] [sampleObs 0 9 0]).
  - lia.
  - reflexivity.
  - discriminate.
  - cbn. lia.
  - repeat constructor.
  - intros [_ H]. discriminate H.
Defined.

(** ** The epoch header of RINEX 2.10 for up to twelve satellites *)

(** X26: the epoch header of RINEX 2.10 for one to twelve satellites is one
    line: the time, the flag and the number of satellites, the satellites,
    blank fields of three columns up to twelve satellites, and the receiver
    clock offset, which so ends the line in the same columns whatever the
    number of satellites is. *)
Theorem printObsEpochHeaderV210_one_line (r : RinexData.t) (file : text) :
  (1 <= List.length (epochSats (RinexData.epochObs r)) <= 12)%nat ->
  fst (RinexData.printObsEpochHeaderV210 r file)
  = file
    ++ [GPStime " %y %m %d %H %M" "%11.7f" (RinexData.epochWeek r) (RinexData.epochTOW r);
        Chars ("  " ++ fmt_wd 1 (RinexData.epochFlag r)
               ++ fmt_wd 3 (Z.of_nat (List.length (epochSats (RinexData.epochObs r)))))]
    ++ map (RinexData.satText r) (epochSats (RinexData.epochObs r))
    ++ padding (12 - List.length (epochSats (RinexData.epochObs r)))
    ++ [Double "%12.9f" (RinexData.epochClkOffset r); Chars newline].
Proof.
  intros Hn. unfold RinexData.printObsEpochHeaderV210.
  destruct (RinexData.epochObs r) as [| first rest] eqn:Eobs; [cbn in Hn; lia |].
  cbv zeta. cbn [epochSats List.length map] in *.
  set (later := laterSats first rest) in *.
  set (r1 := RinexData.set_nSatsEpoch r (RinexData.countSats first rest 1)).
  assert (Ecount : RinexData.nSatsEpoch r1 = Z.of_nat (S (List.length later))).
  { subst r1. cbn [RinexData.nSatsEpoch RinexData.set_nSatsEpoch].
    rewrite countSats_length. fold later. lia. }
  rewrite Ecount.
  change (RinexData.epochWeek r1) with (RinexData.epochWeek r).
  change (RinexData.epochTOW r1) with (RinexData.epochTOW r).
  change (RinexData.epochFlag r1) with (RinexData.epochFlag r).
  change (RinexData.epochClkOffset r1) with (RinexData.epochClkOffset r).
  change (RinexData.satText r1 first) with (RinexData.satText r first).
  rewrite printSats_fold. fold later.
  change (RinexData.printSat r1) with (RinexData.printSat r).
  match goal with
  | |- context [fold_left _ _ (RinexData.mkPrinter ?o 1 false)] => set (o0 := o)
  end.
  destruct (Nat.eq_dec (List.length later) 11) as [H11 | H11].
  - (* twelve satellites: the clock offset follows the twelfth *)
    destruct (exists_last (l := later)) as (A & x12 & EA);
      [intros E; rewrite E in H11; discriminate H11 |].
    assert (HA : List.length A = 10%nat)
      by (rewrite EA, length_app in H11; cbn in H11; lia).
    rewrite H11, EA, fold_left_app.
    rewrite (fold_within_line r A (RinexData.mkPrinter o0 1 false))
      by (cbn [RinexData.anInt]; rewrite ?HA; change (Z.rem 1 12) with 1; lia).
    cbn [fold_left RinexData.out RinexData.anInt RinexData.clkPrinted].
    rewrite HA. unfold RinexData.printSat.
    cbn [RinexData.out RinexData.anInt RinexData.clkPrinted Z.add Z.of_nat Pos.of_succ_nat
         Pos.succ Pos.add Z.rem Z.quotrem Z.eqb Pos.eqb].
    change (Z.rem 11 12 =? 0) with false. cbv iota.
    change (Z.rem 12 12 =? 0) with true.
    cbn [RinexData.fillLine RinexData.anInt RinexData.clkPrinted RinexData.out fst].
    change (Z.rem 12 12 =? 0) with true. cbv iota.
    cbn [RinexData.out RinexData.clkPrinted fst].
    subst o0. cbn [List.length Nat.add Nat.sub padding repeat].
    rewrite map_app. cbn [map app]. rewrite <- !app_assoc. cbn [app]. rewrite ?H11. reflexivity.
  - (* less than twelve: blank fields, then the clock offset *)
    rewrite (fold_within_line r later (RinexData.mkPrinter o0 1 false))
      by (cbn [RinexData.anInt]; change (Z.rem 1 12) with 1; lia).
    destruct (fillLine_padding 12
                (RinexData.mkPrinter (o0 ++ map (RinexData.satText r) later)
                   (1 + Z.of_nat (List.length later)) false)) as [Eo Ec].
    { cbn [RinexData.anInt]. lia. }
    { right. cbn [RinexData.anInt]. Z.to_euclidean_division_equations. lia. }
    cbn [RinexData.anInt RinexData.out RinexData.clkPrinted] in *.
    rewrite Ec, Eo. cbn [fst]. subst o0.
    replace (Z.to_nat ((12 - Z.rem (1 + Z.of_nat (List.length later)) 12) mod 12))
      with (12 - S (List.length later))%nat
      by (Z.to_euclidean_division_equations; lia).
    rewrite <- !app_assoc. cbn [app]. reflexivity.
Qed.

Lemma printObsEpochHeaderV210_one_line_witness :
  lines (fst (RinexData.printObsEpochHeaderV210 sampleGR []))
  = [ [GPStime " %y %m %d %H %M" "%11.7f" 0 0%float; Chars "  0  2";
       Chars "R03"; Chars "G07";
       Chars "   "; Chars "   "; Chars "   "; Chars "   "; Chars "   ";
       Chars "   "; Chars "   "; Chars "   "; Chars "   "; Chars "   ";
       Double "%12.9f" 0%float] ].
Proof.
  rewrite (printObsEpochHeaderV210_one_line sampleGR []) by (cbn; lia).
  reflexivity.
Defined.

(** ** PacketToOSP: synchronisation, checksum and the stripped file *)

Lemma synchSwitch_START2 (state : Z) :
  state = 1 \/ state = 2 -> PacketToOSP.synchSwitch state PacketToOSP.START2 = 3.
Proof. intros [-> | ->]; reflexivity. Qed.

Lemma synchSwitch_other (state inData : Z) :
  state = 1 \/ state = 2 -> inData <> PacketToOSP.START2 ->
  PacketToOSP.synchSwitch state inData = 1 \/ PacketToOSP.synchSwitch state inData = 2.
Proof.
  intros Hs Hne. unfold PacketToOSP.synchSwitch, PacketToOSP.case1, PacketToOSP.case2.
  destruct (Z.eqb_spec inData PacketToOSP.START2) as [E | _]; [contradiction |].
  destruct Hs as [-> | ->]; cbn [Z.eqb Pos.eqb];
    destruct (inData =? PacketToOSP.START1); auto.
Qed.

Lemma synchOSPmsg_loop_stopped (inFile : OSPMessage.FILE) :
  PacketToOSP.synchOSPmsg_loop inFile 3 = (true, inFile).
Proof. destruct inFile; reflexivity. Qed.

Lemma synchOSPmsg_loop_spec (rest : OSPMessage.FILE) (pre : list Z) :
  forall state : Z,
    state = 1 \/ state = 2 -> ~ In PacketToOSP.START2 pre ->
    PacketToOSP.synchOSPmsg_loop (pre ++ PacketToOSP.START2 :: rest) state = (true, rest)
    /\ PacketToOSP.synchOSPmsg_loop pre state = (false, []).
Proof.
  induction pre as [| b pre IH]; intros state Hs Hpre; cbn [app PacketToOSP.synchOSPmsg_loop].
  - assert (E3 : (state =? 3) = false) by (destruct Hs as [-> | ->]; reflexivity).
    rewrite E3, (synchSwitch_START2 state Hs), synchOSPmsg_loop_stopped. split; reflexivity.
  - assert (E3 : (state =? 3) = false) by (destruct Hs as [-> | ->]; reflexivity).
    rewrite E3. apply IH.
    + apply synchSwitch_other; [exact Hs |]. intros E. apply Hpre. left. exact E.
    + intros H. apply Hpre. right. exact H.
Qed.

(** X27: the synchronisation looks for the byte A2 only.  [synchOSPmsg]
    returns [true] at the first byte A2 (162) of the input, whatever bytes
    come before it: the byte A0 need not precede it.  The input is then
    placed after that byte.  With no byte A2 the input is read to its end
    and the result is [false]. *)
Theorem synchOSPmsg_stops_at_the_first_A2 (pre rest : list Z) :
  ~ In PacketToOSP.START2 pre ->
  PacketToOSP.synchOSPmsg (pre ++ PacketToOSP.START2 :: rest) = (true, rest)
  /\ PacketToOSP.synchOSPmsg pre = (false, []).
Proof.
  intros H. apply synchOSPmsg_loop_spec; [left; reflexivity | exact H].
Qed.

Lemma synchOSPmsg_stops_at_the_first_A2_witness :
  PacketToOSP.synchOSPmsg ([17; 160; 34] ++ PacketToOSP.START2 :: [0; 2; 7; 1])
  = (true, [0; 2; 7; 1])
  /\ PacketToOSP.synchOSPmsg [17; 160; 34] = (false, []).
Proof.
  apply (synchOSPmsg_stops_at_the_first_A2 [17; 160; 34] [0; 2; 7; 1]).
  unfold PacketToOSP.START2. cbn. lia.
Defined.

Lemma twoBytes_value (n : Z) :
  0 <= n < 2 ^ 16 ->
  Z.lor (Z.shiftl (n / 256) 8) (n mod 256) = n.
Proof.
  intros H. rewrite lor_bytes2 by (Z.to_euclidean_division_equations; lia).
  Z.to_euclidean_division_equations; lia.
Qed.

Lemma checksum_step (c b : Z) :
  0 <= c < 2 ^ 15 -> isByte b ->
  Z.land (to_uint32 (c + b)) 0x7FFF = (c + b) mod 2 ^ 15.
Proof.
  intros Hc Hb. unfold isByte in Hb. rewrite to_uint32_small by lia.
  change 0x7FFF with (Z.ones 15). apply Z.land_ones. lia.
Qed.

Lemma checksum_fold (l : list Z) :
  forall c : Z,
    0 <= c < 2 ^ 15 -> Forall isByte l ->
    fold_left (fun c b => Z.land (to_uint32 (c + b)) 0x7FFF) l c
    = (c + fold_right Z.add 0 l) mod 2 ^ 15.
Proof.
  induction l as [| b l IH]; intros c Hc Hl; cbn [fold_left fold_right].
  - rewrite Z.add_0_r, Z.mod_small by lia. reflexivity.
  - inversion Hl as [| ? ? Hb Hl']; subst.
    rewrite checksum_step by assumption.
    rewrite IH; [| apply Z.mod_pos_bound; lia | exact Hl'].
    rewrite Zplus_mod_idemp_l. f_equal. lia.
Qed.

Lemma fold_left_nth {A : Type} (g : A -> Z -> A) (l : list Z) :
  forall (before tail : list Z) (a : A),
    fold_left (fun c i => g c (nth i (before ++ l ++ tail) 0))
              (seq (List.length before) (List.length l)) a
    = fold_left g l a.
Proof.
  induction l as [| b l IH]; intros before tail a; cbn [List.length seq fold_left app].
  - reflexivity.
  - rewrite nth_middle.
    specialize (IH (before ++ [b]) tail (g a b)).
    rewrite length_app in IH. cbn [List.length] in IH.
    rewrite Nat.add_1_r, <- app_assoc in IH. exact IH.
Qed.

Lemma computeCheck_checksum15 (payload tail : list Z) :
  payload <> [] -> Forall isByte payload ->
  PacketToOSP.computeCheck (payload ++ tail) (Z.of_nat (List.length payload))
  = checksum15 payload.
Proof.
  intros Hne Hb. destruct payload as [| b0 l]; [contradiction |].
  inversion Hb as [| ? ? Hb0 Hl]; subst. unfold isByte in Hb0.
  unfold PacketToOSP.computeCheck, checksum15.
  rewrite Nat2Z.id. cbn [List.length Nat.sub]. rewrite Nat.sub_0_r.
  change (nth 0 ((b0 :: l) ++ tail) 0) with b0.
  pose proof (fold_left_nth (fun c b => Z.land (to_uint32 (c + b)) 0x7FFF) l [b0] tail b0)
    as E.
  cbn [List.length app] in E |- *. rewrite E.
  rewrite checksum_fold by (assumption || lia). reflexivity.
Qed.

Lemma fread_exact (a rest : list Z) (n : Z) :
  n = Z.of_nat (List.length a) -> OSPMessage.fread n (a ++ rest) = (a, rest).
Proof.
  intros ->. unfold OSPMessage.fread. rewrite Nat2Z.id.
  rewrite firstn_app, firstn_all, Nat.sub_diag, skipn_app, skipn_all, Nat.sub_diag.
  cbn [firstn skipn app]. now rewrite app_nil_r.
Qed.

(** What [readOSPmsg] does with the length, the payload and the two bytes
    of a checksum. *)
Lemma readOSPmsg_packet (gl : PacketToOSP.globals) (payload rest : list Z) (check : Z) :
  carried payload -> 0 <= check < 2 ^ 16 ->
  PacketToOSP.readOSPmsg gl
    (twoBytes (Z.of_nat (List.length payload)) ++ payload ++ twoBytes check ++ rest)
  = (if checksum15 payload =? check then 0 else 1,
     PacketToOSP.mkGlobals
       (OSPMessage.store (payload ++ twoBytes check) (PacketToOSP.payloadBuf gl))
       (OSPMessage.store (twoBytes (Z.of_nat (List.length payload)))
                         (PacketToOSP.payloadLnBuf gl))
       (Z.of_nat (List.length payload)),
     rest).
Proof.
  intros [Hb Hlen] Hck. unfold PacketToOSP.MAXPAYLOADSIZE in Hlen.
  set (len := Z.of_nat (List.length payload)) in *.
  unfold PacketToOSP.readOSPmsg.
  rewrite (fread_exact (twoBytes len) _ 2) by reflexivity.
  change (Z.of_nat (List.length (twoBytes len)) =? 2) with true. cbv iota. cbn [negb].
  change (nth 0 (OSPMessage.store (twoBytes len) (PacketToOSP.payloadLnBuf gl)) 0)
    with (len / 256).
  change (nth 1 (OSPMessage.store (twoBytes len) (PacketToOSP.payloadLnBuf gl)) 0)
    with (len mod 256).
  rewrite twoBytes_value by lia.
  unfold PacketToOSP.MAXPAYLOADSIZE.
  destruct (Z.ltb_spec 0 len); [| lia]. destruct (Z.ltb_spec len (2048 - 2)); [| lia].
  cbn [andb negb].
  rewrite (app_assoc payload (twoBytes check) rest).
  rewrite (fread_exact (payload ++ twoBytes check) rest (len + 2))
    by (rewrite length_app; cbn [twoBytes List.length]; lia).
  rewrite length_app. cbn [twoBytes List.length].
  replace (Z.of_nat (List.length payload + 2)) with (len + 2) by lia.
  rewrite Z.eqb_refl. cbn [negb].
  assert (Hne : payload <> []) by (intros E; subst payload; cbn in len; lia).
  unfold OSPMessage.store at 1 2 3. rewrite <- !app_assoc.
  rewrite (computeCheck_checksum15 payload _ Hne Hb).
  replace (Z.to_nat len) with (List.length payload) by (subst len; lia).
  replace (Z.to_nat (len + 1)) with (S (List.length payload)) by (subst len; lia).
  cbn [twoBytes app]. rewrite nth_middle.
  rewrite (app_nth2 payload) by lia.
  replace (S (List.length payload) - List.length payload)%nat with 1%nat by lia.
  cbn [nth]. rewrite twoBytes_value by exact Hck.
  destruct (checksum15 payload =? check); reflexivity.
Qed.

Lemma checksum15_range (payload : list Z) : 0 <= checksum15 payload < 2 ^ 15.
Proof. unfold checksum15. apply Z.mod_pos_bound. lia. Qed.

Lemma firstn_stored (a buffer : list Z) (extra : list Z) :
  firstn (List.length a) (OSPMessage.store (a ++ extra) buffer) = a.
Proof.
  unfold OSPMessage.store. rewrite <- app_assoc, firstn_app, firstn_all, Nat.sub_diag.
  cbn [firstn]. apply app_nil_r.
Qed.

Lemma filterPkts_loop_packets (payloads : list (list Z)) :
  forall (fuel : nat) (st : PacketToOSP.run) (junk : list Z),
    Forall carried payloads -> ~ In PacketToOSP.START2 junk ->
    PacketToOSP.inFile st = junk ++ flat_map packet payloads ->
    (List.length payloads < fuel)%nat ->
    fst (PacketToOSP.filterPkts_loop fuel st) = 0
    /\ PacketToOSP.outFile (snd (PacketToOSP.filterPkts_loop fuel st))
       = PacketToOSP.outFile st ++ flat_map stripped payloads
    /\ PacketToOSP.nPkt (snd (PacketToOSP.filterPkts_loop fuel st))
       = PacketToOSP.nPkt st + Z.of_nat (List.length payloads)
    /\ PacketToOSP.nMsgWrite (snd (PacketToOSP.filterPkts_loop fuel st))
       = PacketToOSP.nMsgWrite st + Z.of_nat (List.length payloads).
Proof.
  induction payloads as [| p ps IH]; intros fuel st junk Hc Hjunk Hin Hfuel;
    (destruct fuel as [| fuel]; [cbn in Hfuel; lia |]);
    cbn [PacketToOSP.filterPkts_loop flat_map List.length] in *.
  - rewrite app_nil_r in Hin. rewrite Hin.
    unfold PacketToOSP.synchOSPmsg.
    rewrite (proj2 (synchOSPmsg_loop_spec [] junk 1 (or_introl eq_refl) Hjunk)).
    cbn [fst snd PacketToOSP.outFile PacketToOSP.nPkt PacketToOSP.nMsgWrite].
    rewrite app_nil_r, !Z.add_0_r. repeat split.
  - inversion Hc as [| ? ? Hp Hps]; subst.
    set (len := Z.of_nat (List.length p)) in *.
    assert (Efile : PacketToOSP.inFile st
                    = (junk ++ [PacketToOSP.START1])
                      ++ PacketToOSP.START2
                         :: (twoBytes len ++ p ++ twoBytes (checksum15 p)
                             ++ ([PacketToOSP.END1; PacketToOSP.END2]
                                 ++ flat_map packet ps))).
    { rewrite Hin. unfold packet. fold len. rewrite <- !app_assoc. reflexivity. }
    rewrite Efile. unfold PacketToOSP.synchOSPmsg.
    rewrite (proj1 (synchOSPmsg_loop_spec _ (junk ++ [PacketToOSP.START1]) 1
                      (or_introl eq_refl)
                      ltac:(intros H; apply in_app_or in H;
                            destruct H as [H | [H | []]];
                            [exact (Hjunk H) | discriminate H]))).
    unfold len. rewrite (readOSPmsg_packet _ p _ (checksum15 p) Hp)
      by (pose proof (checksum15_range p); lia).
    rewrite Z.eqb_refl. cbv zeta. change (0 =? 0) with true. cbv iota.
    match goal with
    | |- context [PacketToOSP.filterPkts_loop fuel ?st1] =>
        destruct (IH fuel st1 [PacketToOSP.END1; PacketToOSP.END2] Hps) as (R1 & R2 & R3 & R4);
          [intros [H | [H | []]]; discriminate H | reflexivity | lia |]
    end.
    rewrite R1, R2, R3, R4.
    cbn [PacketToOSP.outFile PacketToOSP.nPkt PacketToOSP.nMsgWrite
         PacketToOSP.payloadLnBuf PacketToOSP.payloadBuf PacketToOSP.payloadLength].
    rewrite Nat2Z.id, firstn_stored.
    change (firstn 2 (OSPMessage.store (twoBytes (Z.of_nat (List.length p)))
                        (PacketToOSP.payloadLnBuf (PacketToOSP.gl st))))
      with (twoBytes (Z.of_nat (List.length p))).
    unfold stripped at 2. rewrite <- !app_assoc.
    repeat split; lia.
Qed.

Lemma length_flat_map_ge {A B : Type} (f : A -> list B) (v : list A) (k : nat) :
  (forall x, k <= List.length (f x))%nat ->
  (k * List.length v <= List.length (flat_map f v))%nat.
Proof.
  intros H. induction v as [| x v IH]; cbn [flat_map List.length]; [lia |].
  rewrite length_app. specialize (H x). lia.
Qed.

Lemma filledPayloads_stripped (payloads : list (list Z)) :
  forall (fuel : nat) (m : OSPMessage.t),
    Forall carried payloads -> (List.length payloads < fuel)%nat ->
    filledPayloads fuel m (flat_map stripped payloads) = payloads.
Proof.
  induction payloads as [| p ps IH]; intros fuel m Hc Hfuel;
    (destruct fuel as [| fuel]; [cbn in Hfuel; lia |]);
    cbn [filledPayloads flat_map List.length] in *.
  - reflexivity.
  - inversion Hc as [| ? ? [Hb Hlen] Hps]; subst.
    unfold PacketToOSP.MAXPAYLOADSIZE in Hlen.
    unfold stripped at 1. cbn [twoBytes app].
    assert (Elen : decodedLength (Z.of_nat (List.length p) / 256)
                                 (Z.of_nat (List.length p) mod 256)
                   = Z.of_nat (List.length p))
      by (apply twoBytes_value; lia).
    rewrite fill_accepts
      by (rewrite Elen, ?length_app; unfold OSPMessage.MAXPAYLOADSIZE; lia).
    rewrite Elen, Nat2Z.id.
    cbn [OSPMessage.payloadLength OSPMessage.payload].
    assert (E1 : firstn (List.length p) (p ++ flat_map stripped ps) = p)
      by (rewrite firstn_app, firstn_all, Nat.sub_diag; cbn [firstn]; apply app_nil_r).
    assert (E2 : skipn (List.length p) (p ++ flat_map stripped ps) = flat_map stripped ps)
      by (rewrite skipn_app, skipn_all, Nat.sub_diag; reflexivity).
    rewrite E1, E2, Nat2Z.id. f_equal.
    + rewrite <- (app_nil_r p) at 2. apply firstn_stored.
    + apply IH; [exact Hps | lia].
Qed.

(** X28: from the packets of the receiver to the messages read.  For
    packets that carry payloads of 1 to 2045 bytes with their checksums,
    [filterPkts] returns 0 and writes, for each packet in turn, the two bytes
    of the length and the payload: every packet is counted and written.
    From that file [OSPMessage::fill] reads back, one message after the
    other, the payloads that the packets carried. *)
Theorem filterPkts_then_fill (payloads : list (list Z)) (m : OSPMessage.t) :
  Forall carried payloads ->
  let result := PacketToOSP.filterPkts (flat_map packet payloads) in
  let ospFile := PacketToOSP.outFile (snd result) in
  fst result = 0
  /\ ospFile = flat_map stripped payloads
  /\ PacketToOSP.nPkt (snd result) = Z.of_nat (List.length payloads)
  /\ PacketToOSP.nMsgWrite (snd result) = Z.of_nat (List.length payloads)
  /\ filledPayloads (S (List.length ospFile)) m ospFile = payloads.
Proof.
  intros Hc result ospFile. subst ospFile result. unfold PacketToOSP.filterPkts.
  destruct (filterPkts_loop_packets payloads (S (List.length (flat_map packet payloads)))
              (PacketToOSP.mkRun (flat_map packet payloads) [] PacketToOSP.initial 0 0 [])
              [] Hc (fun H => H) eq_refl) as (R1 & R2 & R3 & R4).
  { pose proof (length_flat_map_ge packet payloads 1) as H.
    apply Nat.lt_succ_r. rewrite Nat.mul_1_l in H. apply H.
    intros p. unfold packet. cbn [app List.length]. lia. }
  rewrite R1, R2, R3, R4. cbn [PacketToOSP.outFile PacketToOSP.nPkt PacketToOSP.nMsgWrite app].
  repeat split; try lia.
  apply filledPayloads_stripped; [exact Hc |].
  pose proof (length_flat_map_ge stripped payloads 1) as H.
  apply Nat.lt_succ_r. rewrite Nat.mul_1_l in H. apply H.
  intros p. unfold stripped. cbn [twoBytes app List.length]. lia.
Qed.

Lemma filterPkts_then_fill_witness :
  PacketToOSP.outFile
    (snd (PacketToOSP.filterPkts (flat_map packet [[7; 1; 2]; [28; 250; 250; 250]])))
  = [0; 3; 7; 1; 2; 0; 4; 28; 250; 250; 250]
  /\ filledPayloads 12 (OSPMessage.init [])
       (PacketToOSP.outFile
          (snd (PacketToOSP.filterPkts (flat_map packet [[7; 1; 2]; [28; 250; 250; 250]]))))
     = [[7; 1; 2]; [28; 250; 250; 250]].
Proof.
  assert (Hc : Forall carried [[7; 1; 2]; [28; 250; 250; 250]]).
  { repeat (apply Forall_cons;
            [split; [repeat (apply Forall_cons; [unfold isByte; lia |]); apply Forall_nil
                    | unfold PacketToOSP.MAXPAYLOADSIZE; cbn; lia] |]).
    apply Forall_nil. }
  destruct (filterPkts_then_fill [[7; 1; 2]; [28; 250; 250; 250]] (OSPMessage.init []) Hc)
    as (_ & E & _ & _ & F).
  split; [rewrite E; reflexivity |].
  rewrite E in F |- *. exact F.
Defined.

Lemma sum_changed (payload : list Z) (b : Z) :
  forall j : nat,
    (j < List.length payload)%nat ->
    fold_right Z.add 0 (changed payload j b)
    = fold_right Z.add 0 payload + b - nth j payload 0.
Proof.
  unfold changed. induction payload as [| x l IH]; intros j Hj; [cbn in Hj; lia |].
  destruct j as [| j]; cbn [alter fold_right nth]; [lia |].
  rewrite IH by (cbn in Hj; lia). lia.
Qed.

Lemma changed_bytes (payload : list Z) (b : Z) :
  forall j : nat, Forall isByte payload -> isByte b -> Forall isByte (changed payload j b).
Proof.
  unfold changed. induction payload as [| x l IH]; intros j Hl Hb; [destruct j; constructor |].
  inversion Hl as [| ? ? Hx Hl']; subst.
  destruct j as [| j]; cbn [alter]; constructor; auto.
Qed.

Lemma checksum15_changed (payload : list Z) (j : nat) (b : Z) :
  Forall isByte payload -> (j < List.length payload)%nat -> isByte b ->
  b <> nth j payload 0 ->
  checksum15 (changed payload j b) <> checksum15 payload.
Proof.
  intros Hl Hj Hb Hne. unfold checksum15. rewrite sum_changed by exact Hj.
  assert (Hx : isByte (nth j payload 0))
    by (rewrite Forall_forall in Hl; apply Hl, nth_In, Hj).
  unfold isByte in *. intros E.
  Z.to_euclidean_division_equations. lia.
Qed.

(** X29: the checksum detects one changed byte.  When one byte of the
    payload of a packet differs from what was sent, [readOSPmsg] finds the
    checksum wrong, and [filterPkts] counts the packet but writes nothing for
    it to the OSP file. *)
Theorem filterPkts_drops_a_packet_with_a_changed_byte
    (payload : list Z) (j : nat) (b : Z) :
  carried payload -> (j < List.length payload)%nat -> isByte b ->
  b <> nth j payload 0 ->
  let result := PacketToOSP.filterPkts (packetOf payload (changed payload j b)) in
  fst result = 0
  /\ PacketToOSP.outFile (snd result) = []
  /\ PacketToOSP.nPkt (snd result) = 1
  /\ PacketToOSP.nMsgWrite (snd result) = 0.
Proof.
  intros [Hb Hlen] Hj Hbyte Hne result. subst result.
  assert (Hc : carried (changed payload j b)).
  { split; [apply changed_bytes; assumption |].
    unfold changed. rewrite length_alter. exact Hlen. }
  assert (Hsum : (checksum15 (changed payload j b) =? checksum15 payload) = false)
    by (apply Z.eqb_neq, checksum15_changed; assumption).
  assert (El : List.length (changed payload j b) = List.length payload)
    by apply length_alter.
  unfold PacketToOSP.filterPkts, packetOf. rewrite <- El.
  set (sent := changed payload j b) in *.
  set (tail := twoBytes (Z.of_nat (List.length sent)) ++ sent
               ++ twoBytes (checksum15 payload)
               ++ [PacketToOSP.END1; PacketToOSP.END2]).
  assert (E : exists gl' log',
             PacketToOSP.filterPkts_loop
               (S (List.length ([PacketToOSP.START1; PacketToOSP.START2] ++ tail)))
               (PacketToOSP.mkRun ([PacketToOSP.START1; PacketToOSP.START2] ++ tail) []
                  PacketToOSP.initial 0 0 [])
             = (0, PacketToOSP.mkRun [] [] gl' 1 0 log')).
  { cbn [app List.length].
    cbn [PacketToOSP.filterPkts_loop PacketToOSP.inFile].
    unfold PacketToOSP.synchOSPmsg.
    pose proof (proj1 (synchOSPmsg_loop_spec tail [PacketToOSP.START1] 1 (or_introl eq_refl)
                         ltac:(intros [H | []]; discriminate H))) as Esync.
    cbn [app] in Esync. rewrite Esync. clear Esync.
    subst tail.
    rewrite (readOSPmsg_packet _ sent _ (checksum15 payload) Hc)
      by (pose proof (checksum15_range payload); lia).
    rewrite Hsum. cbv zeta. change (1 =? 0) with false. cbv iota.
    cbn [PacketToOSP.inFile].
    rewrite (proj2 (synchOSPmsg_loop_spec [] [PacketToOSP.END1; PacketToOSP.END2] 1
                      (or_introl eq_refl)
                      ltac:(intros [H | [H | []]]; discriminate H))).
    cbn [PacketToOSP.outFile PacketToOSP.nPkt PacketToOSP.nMsgWrite PacketToOSP.gl
         PacketToOSP.plog].
    eexists _, _. reflexivity. }
  destruct E as (gl' & log' & E). rewrite E. repeat split.
Qed.

Lemma filterPkts_drops_a_packet_with_a_changed_byte_witness :
  PacketToOSP.outFile
    (snd (PacketToOSP.filterPkts (packetOf [28; 250; 250; 250] (changed [28; 250; 250; 250] 2 122))))
  = []
  /\ PacketToOSP.nPkt
       (snd (PacketToOSP.filterPkts
               (packetOf [28; 250; 250; 250] (changed [28; 250; 250; 250] 2 122)))) = 1.
Proof.
  destruct (filterPkts_drops_a_packet_with_a_changed_byte [28; 250; 250; 250] 2 122)
    as (_ & E1 & E2 & _).
  - split; [repeat (apply Forall_cons; [unfold isByte; lia |]); apply Forall_nil
           | unfold PacketToOSP.MAXPAYLOADSIZE; cbn; lia].
  - cbn. lia.
  - unfold isByte. lia.
  - cbn. lia.
  - split; assumption.
Defined.

(** ** PacketToOSP: what the stripped file holds, whatever the input *)

Lemma firstn_Forall {A : Type} (P : A -> Prop) (l : list A) :
  forall n : nat, Forall P l -> Forall P (firstn n l).
Proof.
  induction l as [| x l IH]; intros [| n] H; cbn [firstn]; try constructor.
  - now inversion H.
  - apply IH. now inversion H.
Qed.

Lemma skipn_Forall {A : Type} (P : A -> Prop) (l : list A) :
  forall n : nat, Forall P l -> Forall P (skipn n l).
Proof.
  induction l as [| x l IH]; intros [| n] H; cbn [skipn]; try assumption.
  apply IH. now inversion H.
Qed.

Lemma synchOSPmsg_loop_bytes (inFile : OSPMessage.FILE) :
  forall state : Z,
    Forall isByte inFile ->
    Forall isByte (snd (PacketToOSP.synchOSPmsg_loop inFile state)).
Proof.
  induction inFile as [| b inFile IH]; intros state H; cbn [PacketToOSP.synchOSPmsg_loop].
  - constructor.
  - destruct (state =? 3); [exact H |]. apply IH. now inversion H.
Qed.

Lemma readOSPmsg_written (gl gl1 : PacketToOSP.globals) (inFile inFile2 : OSPMessage.FILE)
    (anInt : Z) :
  Forall isByte inFile ->
  PacketToOSP.readOSPmsg gl inFile = (anInt, gl1, inFile2) ->
  Forall isByte inFile2
  /\ (anInt = 0 ->
      exists payload : list Z,
        carried payload
        /\ firstn 2 (PacketToOSP.payloadLnBuf gl1)
           ++ firstn (Z.to_nat (PacketToOSP.payloadLength gl1)) (PacketToOSP.payloadBuf gl1)
           = stripped payload).
Proof.
  intros Hfile H. unfold PacketToOSP.readOSPmsg, OSPMessage.fread in H.
  change (Z.to_nat 2) with 2%nat in H.
  destruct (Z.eqb_spec (Z.of_nat (List.length (firstn 2 inFile))) 2) as [E2 | E2];
    cbn [negb] in H;
    [| injection H as <- <- <-; split;
       [exact (skipn_Forall isByte inFile 2 Hfile) | intros E; discriminate E]].
  destruct inFile as [| hi [| lo inFile1]]; try (cbn in E2; lia).
  cbn [firstn skipn] in H.
  change (nth 0 (OSPMessage.store [hi; lo] (PacketToOSP.payloadLnBuf gl)) 0) with hi in H.
  change (nth 1 (OSPMessage.store [hi; lo] (PacketToOSP.payloadLnBuf gl)) 0) with lo in H.
  inversion Hfile as [| ? ? Hhi Hfile']; subst.
  inversion Hfile' as [| ? ? Hlo Hfile1]; subst. clear Hfile Hfile'.
  unfold isByte in Hhi, Hlo.
  rewrite lor_bytes2 in H by assumption.
  set (len := hi * 2 ^ 8 + lo) in *.
  destruct ((0 <? len) && (len <? PacketToOSP.MAXPAYLOADSIZE - 2)) eqn:Erange;
    cbn [negb] in H;
    [| injection H as <- <- <-; split; [exact Hfile1 | intros E; discriminate E]].
  apply andb_prop in Erange. destruct Erange as [H0 H1].
  apply Z.ltb_lt in H0. apply Z.ltb_lt in H1. unfold PacketToOSP.MAXPAYLOADSIZE in H1.
  set (block := firstn (Z.to_nat (len + 2)) inFile1) in *.
  destruct (Z.eqb_spec (Z.of_nat (List.length block)) (len + 2)) as [Eb | Eb];
    cbn [negb] in H;
    [| injection H as <- <- <-; split;
       [exact (skipn_Forall isByte inFile1 _ Hfile1) | intros E; discriminate E]].
  assert (Hwritten :
            exists payload : list Z,
              carried payload
              /\ firstn 2 (OSPMessage.store [hi; lo] (PacketToOSP.payloadLnBuf gl))
                 ++ firstn (Z.to_nat len) (OSPMessage.store block (PacketToOSP.payloadBuf gl))
                 = stripped payload).
  { exists (firstn (Z.to_nat len) block).
    assert (Elen : List.length (firstn (Z.to_nat len) block) = Z.to_nat len)
      by (apply firstn_length_le; lia).
    split; [split |].
    - apply firstn_Forall. unfold block. apply firstn_Forall. exact Hfile1.
    - rewrite Elen. unfold PacketToOSP.MAXPAYLOADSIZE. lia.
    - unfold stripped. rewrite Elen, Z2Nat.id by lia. unfold twoBytes.
      replace (len / 256) with hi by (subst len; Z.to_euclidean_division_equations; lia).
      replace (len mod 256) with lo by (subst len; Z.to_euclidean_division_equations; lia).
      change (firstn 2 (OSPMessage.store [hi; lo] (PacketToOSP.payloadLnBuf gl)))
        with [hi; lo].
      f_equal. unfold OSPMessage.store. rewrite firstn_app.
      replace (Z.to_nat len - List.length block)%nat with 0%nat by lia.
      cbn [firstn]. apply app_nil_r. }
  match type of H with
  | context [if negb ?c then _ else _] => destruct c
  end; cbn [negb] in H; injection H as <- <- <-;
    cbn [PacketToOSP.payloadLnBuf PacketToOSP.payloadLength PacketToOSP.payloadBuf];
    (split; [exact (skipn_Forall isByte inFile1 _ Hfile1) | intros E; first [exact Hwritten | discriminate E]]).
Qed.

Lemma filterPkts_loop_written (fuel : nat) :
  forall st : PacketToOSP.run,
    Forall isByte (PacketToOSP.inFile st) ->
    exists payloads : list (list Z),
      Forall carried payloads
      /\ PacketToOSP.outFile (snd (PacketToOSP.filterPkts_loop fuel st))
         = PacketToOSP.outFile st ++ flat_map stripped payloads
      /\ PacketToOSP.nMsgWrite (snd (PacketToOSP.filterPkts_loop fuel st))
         = PacketToOSP.nMsgWrite st + Z.of_nat (List.length payloads).
Proof.
  induction fuel as [| fuel IH]; intros st Hfile; cbn [PacketToOSP.filterPkts_loop].
  - exists []. cbn. rewrite app_nil_r, Z.add_0_r. repeat split. constructor.
  - pose proof (synchOSPmsg_loop_bytes (PacketToOSP.inFile st) 1 Hfile) as Hsync.
    unfold PacketToOSP.synchOSPmsg.
    destruct (PacketToOSP.synchOSPmsg_loop (PacketToOSP.inFile st) 1) as [[|] inFile1];
      cbn [snd] in Hsync.
    + destruct (PacketToOSP.readOSPmsg (PacketToOSP.gl st) inFile1)
        as [[anInt gl1] inFile2] eqn:Eread.
      destruct (readOSPmsg_written _ _ _ _ _ Hsync Eread) as [Hbytes Hwritten].
      destruct (Z.eqb_spec anInt 0) as [E0 | E0].
      * destruct (Hwritten E0) as (payload & Hc & Ep).
        match goal with
        | |- context [PacketToOSP.filterPkts_loop fuel ?st1] =>
            destruct (IH st1 Hbytes) as (payloads & Hcs & Eout & En)
        end.
        exists (payload :: payloads). split; [constructor; assumption |].
        rewrite Eout, En.
        cbn [PacketToOSP.outFile PacketToOSP.nMsgWrite flat_map List.length].
        rewrite <- Ep, <- !app_assoc. split; [reflexivity | lia].
      * match goal with
        | |- context [PacketToOSP.filterPkts_loop fuel ?st1] =>
            destruct (IH st1 Hbytes) as (payloads & Hcs & Eout & En)
        end.
        exists payloads. split; [exact Hcs |]. rewrite Eout, En. split; reflexivity.
    + exists []. cbn. rewrite app_nil_r, Z.add_0_r. repeat split. constructor.
Qed.

(** X30: the stripped file holds whole messages only.  Whatever bytes the
    input of [filterPkts] holds, the file it writes is a sequence of
    messages, each the two bytes of a length from 1 to 2045 followed by that
    many bytes, as many as it counts in [nMsgWrite]: no message of length 0
    and no part of a message is written.  [OSPMessage::fill] reads these
    messages back one after the other. *)
Theorem filterPkts_writes_whole_messages (packets : list Z) :
  Forall isByte packets ->
  exists payloads : list (list Z),
    Forall carried payloads
    /\ PacketToOSP.outFile (snd (PacketToOSP.filterPkts packets)) = flat_map stripped payloads
    /\ PacketToOSP.nMsgWrite (snd (PacketToOSP.filterPkts packets))
       = Z.of_nat (List.length payloads)
    /\ forall m : OSPMessage.t,
         filledPayloads
           (S (List.length (PacketToOSP.outFile (snd (PacketToOSP.filterPkts packets)))))
           m (PacketToOSP.outFile (snd (PacketToOSP.filterPkts packets)))
         = payloads.
Proof.
  intros Hfile. unfold PacketToOSP.filterPkts.
  destruct (filterPkts_loop_written (S (List.length packets))
              (PacketToOSP.mkRun packets [] PacketToOSP.initial 0 0 []) Hfile)
    as (payloads & Hc & Eout & En).
  exists payloads. rewrite Eout, En. cbn [PacketToOSP.outFile PacketToOSP.nMsgWrite app].
  repeat split; try assumption; try lia.
  intros m. apply filledPayloads_stripped; [exact Hc |].
  pose proof (length_flat_map_ge stripped payloads 1) as H.
  apply Nat.lt_succ_r. rewrite Nat.mul_1_l in H. apply H.
  intros p. unfold stripped. cbn [twoBytes app List.length]. lia.
Qed.

Lemma filterPkts_writes_whole_messages_witness :
  exists payloads : list (list Z),
    Forall carried payloads
    /\ PacketToOSP.outFile (snd (PacketToOSP.filterPkts [17; 162; 0; 1; 9; 0; 9; 162; 0; 0; 5]))
       = flat_map stripped payloads
    /\ PacketToOSP.nMsgWrite (snd (PacketToOSP.filterPkts [17; 162; 0; 1; 9; 0; 9; 162; 0; 0; 5]))
       = Z.of_nat (List.length payloads)
    /\ forall m : OSPMessage.t,
         filledPayloads
           (S (List.length
                 (PacketToOSP.outFile
                    (snd (PacketToOSP.filterPkts [17; 162; 0; 1; 9; 0; 9; 162; 0; 0; 5])))))
           m (PacketToOSP.outFile
                (snd (PacketToOSP.filterPkts [17; 162; 0; 1; 9; 0; 9; 162; 0; 0; 5])))
         = payloads.
Proof.
  apply (filterPkts_writes_whole_messages [17; 162; 0; 1; 9; 0; 9; 162; 0; 0; 5]).
  repeat (apply Forall_cons; [unfold isByte; lia |]). apply Forall_nil.
Defined.
